(** * A shallow embedding of the VidarDB foreign-data-wrapper IPC layer

    The development follows the generations of the worker protocol that live
    side by side in the repository, and the wrappers they share:

    - [Posix]     : [src/ipc/kv_posix.cc], the checked wrappers around the
                    POSIX shared-memory and semaphore calls;
    - [Shm]       : [src/kv_shm.c], the single shared control block with its
                    response-slot pool, request functions and worker loop;
    - [Worker]    : [src/kv_worker.cc], the message-queue based worker whose
                    handlers always answer on the response channel;
    - [Server]    : [src/server/kv_worker.cc], the message-queue based worker
                    with fire-and-forget Open/Close/CloseCursor.

    Semaphores are natural-number counters, fixed-width integers are [Z]
    with their wrap-around written out, hash tables and [unordered_map]s are
    [gmap]s, and [ereport(ERROR, ...)] is a non-local exit. *)

From Stdlib Require Import ZArith List Bool Lia String DecimalString.
From stdpp Require Import gmap list.

Local Open Scope Z_scope.

(** ** PostgreSQL error reporting, as the wrappers use it *)

Module Posix.

(** [ereport(WARNING, ...)] logs and returns to the caller;
    [ereport(ERROR, ...)] logs and unwinds, the caller never resumes. *)
Inductive elevel := DEBUG1 | WARNING | ERROR.

Inductive diag :=
| Stderr (errno : Z)                       (* pg_fprintf(stderr, pg_strerror(errno)) *)
| Ereport (lvl : elevel) (msg : string) (hint : option string).

Inductive result (A : Type) :=
| Return (a : A) (log : list diag)
| Raise (log : list diag).
Arguments Return {A} a log.
Arguments Raise {A} log.

Definition returns {A} (r : result A) : bool :=
  match r with Return _ _ => true | Raise _ => false end.

Definition log_of {A} (r : result A) : list diag :=
  match r with Return _ l => l | Raise l => l end.

(** errno values of the Linux headers the wrappers compare against. *)
Definition EINTR  : Z := 4.
Definition EAGAIN : Z := 11.
Definition EINVAL : Z := 22.

Definition failed_msg (func this : string) : string :=
  (func ++ " " ++ this ++ " failed")%string.

(** The outcome of a system call: its return value and the errno it left. *)
Record sysret := { ret : Z; errno : Z }.

(** [ShmUnlink]: a failing [shm_unlink] is reported as a WARNING with a hint. *)
Definition ShmUnlink (r : sysret) (func : string) : result unit :=
  if ret r =? -1
  then Return tt [Ereport WARNING (failed_msg func "ShmUnlink")
                          (Some "maybe no shared memory to unlink"%string)]
  else Return tt [].

(** [Munmap]: a failing [munmap] prints the errno text and raises ERROR. *)
Definition Munmap (r : sysret) (func : string) : result unit :=
  if ret r =? -1
  then Raise [Stderr (errno r); Ereport ERROR (failed_msg func "Munmap") None]
  else Return tt [].

(** [SemDestroy]: a failing [sem_destroy] prints the errno text and raises ERROR. *)
Definition SemDestroy (r : sysret) (func : string) : result unit :=
  if ret r =? -1
  then Raise [Stderr (errno r); Ereport ERROR (failed_msg func "SemDestroy") None]
  else Return tt [].

(** The three teardown wrappers, by name. *)
Inductive teardown_op := Unlink | Unmap | Destroy.

Definition teardown (o : teardown_op) (r : sysret) (func : string) : result unit :=
  match o with
  | Unlink => ShmUnlink r func
  | Unmap => Munmap r func
  | Destroy => SemDestroy r func
  end.

(** A process-shared semaphore is its counter. *)
Abbreviation sem_t := nat.

(** [sem_trywait]: decrement when positive, otherwise fail with EAGAIN;
    EINVAL on a pointer that does not name an initialised semaphore
    ([None]). *)
Definition sem_trywait (s : option sem_t) : sysret * option sem_t :=
  match s with
  | Some (S v) => ({| ret := 0; errno := 0 |}, Some v)
  | Some O => ({| ret := -1; errno := EAGAIN |}, Some O)
  | None => ({| ret := -1; errno := EINVAL |}, None)
  end.

(** [SemTryWait]: hands back [sem_trywait]'s return value; only a failure
    other than EAGAIN is raised. *)
Definition SemTryWait (s : option sem_t) (func : string)
  : result (Z * option sem_t) :=
  let '(r, s') := sem_trywait s in
  if (ret r =? -1) && negb (errno r =? EAGAIN)
  then Raise [Stderr (errno r); Ereport ERROR (failed_msg func "SemTryWait") None]
  else Return (ret r, s') [].

(** [sem_post] on an initialised semaphore. *)
Definition sem_post (s : sem_t) : sem_t := S s.

(** [SemWait]: 0 once [sem_wait] has decremented the semaphore, -1 when a
    signal cut the wait short (EINTR); any other failure raises ERROR. *)
Definition SemWait (r : sysret) (func : string) : result Z :=
  if ret r =? -1 then
    if errno r =? EINTR then Return (-1) []
    else Raise [Stderr (errno r); Ereport ERROR (failed_msg func "SemWait") None]
  else Return 0 [].

(** [SemPost]: a failing [sem_post] raises ERROR. *)
Definition SemPost (r : sysret) (func : string) : result unit :=
  if ret r =? -1
  then Raise [Stderr (errno r); Ereport ERROR (failed_msg func "SemPost") None]
  else Return tt [].

(** ["%d"] *)
Definition show_Z (z : Z) : string := NilZero.string_of_int (Z.to_int z).

End Posix.

(** ** Little-endian scalars and wrap-around *)

Definition wrap32 (z : Z) : Z := z mod 2 ^ 32.
Definition wrap64 (z : Z) : Z := z mod 2 ^ 64.

(** The [n] bytes [memcpy] copies out of a scalar on a little-endian host. *)
Fixpoint le_bytes (n : nat) (v : Z) : list Z :=
  match n with
  | O => []
  | S n' => (v mod 256) :: le_bytes n' (v / 256)
  end.

(** [*(T* ) p] on a little-endian host, for the bytes at [p]. *)
Fixpoint le_value (bs : list Z) : Z :=
  match bs with
  | [] => 0
  | b :: bs' => b + 256 * le_value bs'
  end.

(** ** Raw memory *)

(** [memcpy(mem + off, src, |src|)]. The list [mem] is the memory from some
    base address on; a write past its end is outside what the model tracks
    and is dropped. *)
Fixpoint memcpy (mem : list Z) (off : nat) (src : list Z) : list Z :=
  match src with
  | [] => mem
  | b :: src' => memcpy (<[off:=b]> mem) (S off) src'
  end.

(** The [len] bytes at [buf + off]; bytes the model does not hold are
    missing from the result (and read as 0 by [le_value]). *)
Definition bytes_at (buf : list Z) (off len : nat) : list Z :=
  take len (drop off buf).

Definition u32_at (buf : list Z) (off : nat) : Z := le_value (bytes_at buf off 4).
Definition u64_at (buf : list Z) (off : nat) : Z := le_value (bytes_at buf off 8).

(** The C string at the start of [bs]: everything before the first NUL. *)
Fixpoint strz (bs : list Z) : list Z :=
  match bs with
  | [] => []
  | b :: bs' => if b =? 0 then [] else b :: strz bs'
  end.

(** ** [src/kv_shm.c]: the shared control block *)

Module Shm.
Import Posix.

(** *** The response-slot pool *)

(** Where a process stands with respect to [GetResponseQueueIndex]:
    not in it, inside the [for] loop about to test [i < RESPONSEQUEUELENGTH],
    holding slot [i] (the function returned [i]), or unwound by an ERROR. *)
Inductive lease_pc :=
| Idle
| Scanning (i : nat)
| Leased (i : nat)
| Faulted.

#[global] Instance lease_pc_eq_dec : EqDecision lease_pc.
Proof. solve_decision. Defined.

Record pool := {
  slots : list sem_t;          (* ptr->responseMutex[] *)
  procs : list lease_pc;       (* one entry per client process *)
}.

Section WithConstants.

(** [RESPONSEQUEUELENGTH] and [BUFSIZE] are macros of [kv_fdw.h]. *)
Variable RESPONSEQUEUELENGTH : nat.
Variable BUFSIZE : nat.

(** The body of the [for] loop at index [i]:
    [ret = SemTryWait(&ptr->responseMutex[i], __func__)]. *)
Definition try_slot (responseMutex : list sem_t) (i : nat)
  : result (Z * list sem_t) :=
  match SemTryWait (responseMutex !! i) "GetResponseQueueIndex" with
  | Raise l => Raise l
  | Return (r, s') l =>
      Return (r, match s' with
                 | Some v => <[i:=v]> responseMutex
                 | None => responseMutex
                 end) l
  end.

(** [for (i = ...; i < RESPONSEQUEUELENGTH; i++)], with [n] iterations left. *)
Fixpoint scan_from (n i : nat) (responseMutex : list sem_t)
  : result (option nat * list sem_t) :=
  match n with
  | O => Return (None, responseMutex) []
  | S n' =>
      match try_slot responseMutex i with
      | Raise l => Raise l
      | Return (r, sems') _ =>
          if r =? 0 then Return (Some i, sems') []
          else scan_from n' (S i) sems'
      end
  end.

(** [GetResponseQueueIndex] run by a process on its own; [fuel] bounds the
    passes of [while (true)], [None] is "still looping". *)
Fixpoint GetResponseQueueIndex (fuel : nat) (responseMutex : list sem_t)
  : option (result (nat * list sem_t)) :=
  match fuel with
  | O => None
  | S fuel' =>
      match scan_from RESPONSEQUEUELENGTH 0 responseMutex with
      | Raise l => Some (Raise l)
      | Return (Some i, sems') l => Some (Return (i, sems') l)
      | Return (None, sems') _ => GetResponseQueueIndex fuel' sems'
      end
  end.

(** One atomic step of a process: a loop test, one [SemTryWait], or the
    [SemPost(&ptr->responseMutex[responseId])] that gives the slot back. *)
Definition lease_step (responseMutex : list sem_t) (pc : lease_pc)
  : list sem_t * lease_pc :=
  match pc with
  | Idle => (responseMutex, Scanning 0)
  | Scanning i =>
      if (i <? RESPONSEQUEUELENGTH)%nat then
        match try_slot responseMutex i with
        | Raise _ => (responseMutex, Faulted)
        | Return (r, sems') _ =>
            if r =? 0 then (sems', Leased i) else (sems', Scanning (S i))
        end
      else (responseMutex, Scanning 0)
  | Leased i =>
      (match responseMutex !! i with
       | Some v => <[i:=sem_post v]> responseMutex
       | None => responseMutex
       end, Idle)
  | Faulted => (responseMutex, Faulted)
  end.

(** The scheduler lets process [p] take one step. *)
Definition pool_step (p : nat) (st : pool) : pool :=
  match procs st !! p with
  | None => st
  | Some pc =>
      let '(sems', pc') := lease_step (slots st) pc in
      {| slots := sems'; procs := <[p:=pc']> (procs st) |}
  end.

Definition pool_run (sched : list nat) (st : pool) : pool :=
  fold_left (fun s p => pool_step p s) sched st.

(** [SemInit(&ptr->responseMutex[i], 1, 1, __func__)] for every slot. *)
Definition pool_init (nprocs : nat) : pool :=
  {| slots := replicate RESPONSEQUEUELENGTH 1%nat;
     procs := replicate nprocs Idle |}.

(** How many processes hold slot [i]. *)
Fixpoint holders (i : nat) (ps : list lease_pc) : nat :=
  match ps with
  | [] => O
  | pc :: ps' =>
      ((if decide (pc = Leased i) then 1 else 0) + holders i ps')%nat
  end.

(** The balance the pool keeps: a slot inside the pool is either free (its
    semaphore is 1) or held by exactly one process, and nobody holds a slot
    outside the pool. *)
Definition pool_inv (st : pool) : Prop :=
  length (slots st) = RESPONSEQUEUELENGTH /\
  (forall i, (i < RESPONSEQUEUELENGTH)%nat ->
     exists v, slots st !! i = Some v /\ (v + holders i (procs st) = 1)%nat) /\
  (forall i, (RESPONSEQUEUELENGTH <= i)%nat -> holders i (procs st) = O).

(** *** Paths *)

(** [strrchr(path, '/') + 1]: what follows the last slash, if there is one. *)
Fixpoint after_last_slash (path : list Z) : option (list Z) :=
  match path with
  | [] => None
  | b :: rest =>
      match after_last_slash rest with
      | Some tl => Some tl
      | None => if b =? 47 then Some rest else None
      end
  end.

(** The digits [atoi] consumes, most significant first. *)
Fixpoint atoi_digits (acc : Z) (bs : list Z) : Z :=
  match bs with
  | [] => acc
  | b :: bs' =>
      if (48 <=? b) && (b <=? 57) then atoi_digits (10 * acc + (b - 48)) bs'
      else acc
  end.

Definition isspace (b : Z) : bool :=
  (b =? 32) || ((9 <=? b) && (b <=? 13)).

Fixpoint skip_space (bs : list Z) : list Z :=
  match bs with
  | b :: bs' => if isspace b then skip_space bs' else bs
  | [] => []
  end.

Definition atoi (bs : list Z) : Z :=
  match skip_space bs with
  | 45 :: ds => - atoi_digits 0 ds
  | 43 :: ds => atoi_digits 0 ds
  | ds => atoi_digits 0 ds
  end.

(** Sizes of the scalars the frames are made of (LP64). *)
Definition sizeof_FuncName : nat := 4.
Definition sizeof_responseId : nat := 4.
Definition sizeof_Oid : nat := 4.
Definition sizeof_pid_t : nat := 4.
Definition sizeof_size_t : nat := 8.
Definition sizeof_uint64 : nat := 8.
Definition sizeof_bool : nat := 1.
Definition sizeof_int : nat := 4.
Definition sizeof_AttrNumber : nat := 2.

(** *** Operation codes *)

(** The enumerators of [FuncName] ([kv_fdw.h]) that the file uses. *)
Inductive FuncName :=
| OPEN | CLOSE | COUNT | GETITER | DELITER | NEXT | GET | PUT | DELETE
| RANGEQUERY | TERMINATE.

#[global] Instance FuncName_eq_dec : EqDecision FuncName.
Proof. solve_decision. Defined.

Definition all_FuncName : list FuncName :=
  [OPEN; CLOSE; COUNT; GETITER; DELITER; NEXT; GET; PUT; DELETE;
   RANGEQUERY; TERMINATE].

(** The numbering of the enumerators is the header's. *)
Variable FuncName_code : FuncName -> Z.

(** The enumerator a raw [func] value read from the area compares equal to. *)
Definition FuncName_of (raw : Z) : option FuncName :=
  find (fun f => FuncName_code f =? raw) all_FuncName.

(** *** The control block *)

(** [SharedMem] ([kv_fdw.h]), by the fields the file touches. [area] holds
    the bytes from [ptr->area] on: its first [BUFSIZE] bytes are the command
    area, anything after them is whatever follows the area in memory. *)
Record SharedMem := {
  mutex : sem_t;
  full : sem_t;
  agent0 : sem_t;
  agent1 : sem_t;
  worker : sem_t;
  responseMutex : list sem_t;
  responseSync : list sem_t;
  workerProcessCreated : bool;
  area : list Z;
}.

Definition set_mutex v (m : SharedMem) : SharedMem :=
  {| mutex := v; full := full m; agent0 := agent0 m; agent1 := agent1 m;
     worker := worker m; responseMutex := responseMutex m;
     responseSync := responseSync m;
     workerProcessCreated := workerProcessCreated m; area := area m |}.
Definition set_full v (m : SharedMem) : SharedMem :=
  {| mutex := mutex m; full := v; agent0 := agent0 m; agent1 := agent1 m;
     worker := worker m; responseMutex := responseMutex m;
     responseSync := responseSync m;
     workerProcessCreated := workerProcessCreated m; area := area m |}.
Definition set_worker v (m : SharedMem) : SharedMem :=
  {| mutex := mutex m; full := full m; agent0 := agent0 m; agent1 := agent1 m;
     worker := v; responseMutex := responseMutex m;
     responseSync := responseSync m;
     workerProcessCreated := workerProcessCreated m; area := area m |}.
Definition set_responseMutex v (m : SharedMem) : SharedMem :=
  {| mutex := mutex m; full := full m; agent0 := agent0 m; agent1 := agent1 m;
     worker := worker m; responseMutex := v;
     responseSync := responseSync m;
     workerProcessCreated := workerProcessCreated m; area := area m |}.
Definition set_responseSync v (m : SharedMem) : SharedMem :=
  {| mutex := mutex m; full := full m; agent0 := agent0 m; agent1 := agent1 m;
     worker := worker m; responseMutex := responseMutex m;
     responseSync := v;
     workerProcessCreated := workerProcessCreated m; area := area m |}.
Definition set_area v (m : SharedMem) : SharedMem :=
  {| mutex := mutex m; full := full m; agent0 := agent0 m; agent1 := agent1 m;
     worker := worker m; responseMutex := responseMutex m;
     responseSync := responseSync m;
     workerProcessCreated := workerProcessCreated m; area := v |}.

Definition set_agent0 v (m : SharedMem) : SharedMem :=
  {| mutex := mutex m; full := full m; agent0 := v; agent1 := agent1 m;
     worker := worker m; responseMutex := responseMutex m;
     responseSync := responseSync m;
     workerProcessCreated := workerProcessCreated m; area := area m |}.
Definition set_agent1 v (m : SharedMem) : SharedMem :=
  {| mutex := mutex m; full := full m; agent0 := agent0 m; agent1 := v;
     worker := worker m; responseMutex := responseMutex m;
     responseSync := responseSync m;
     workerProcessCreated := workerProcessCreated m; area := area m |}.
Definition set_workerProcessCreated v (m : SharedMem) : SharedMem :=
  {| mutex := mutex m; full := full m; agent0 := agent0 m; agent1 := agent1 m;
     worker := worker m; responseMutex := responseMutex m;
     responseSync := responseSync m;
     workerProcessCreated := v; area := area m |}.

(** [SemPost(&sems[i])]. *)
Definition post_at (sems : list sem_t) (i : nat) : list sem_t :=
  match sems !! i with
  | Some v => <[i:=sem_post v]> sems
  | None => sems
  end.

(** What [KVStorageThreadFun] leaves behind once the semaphores are
    initialised: [mutex] and [full] at 1, every [responseMutex] at 1,
    everything else at 0. *)
Definition SharedMem_init (tail : nat) : SharedMem :=
  {| mutex := 1%nat; full := 1%nat; agent0 := 0%nat; agent1 := 0%nat;
     worker := 0%nat;
     responseMutex := replicate RESPONSEQUEUELENGTH 1%nat;
     responseSync := replicate RESPONSEQUEUELENGTH 0%nat;
     workerProcessCreated := false;
     area := replicate (BUFSIZE + tail) 0 |}.

(** *** [PutRequest], up to the point where it waits for the answer *)

(** The request functions ignore what [SemWait] returns. Here a [SemWait]
    is a wait that ends with the semaphore decremented: no signal is
    delivered while the process waits. *)

Inductive sent :=
| Blocked (m : SharedMem)                   (* parked in a [SemWait] *)
| Spinning                                  (* still in [GetResponseQueueIndex] *)
| Raised (m : SharedMem) (log : list diag)  (* unwound by [ereport(ERROR)] *)
| Sent (m : SharedMem) (responseId : nat).  (* at [SemWait(responseSync)] *)

Definition PutRequest (fuel : nat) (relationId : Z) (ptr : SharedMem)
    (key val : list Z) : sent :=
  let keyLen := length key in
  let valLen := length val in
  match mutex ptr with
  | O => Blocked ptr
  | S mu =>
  (* SemWait(&ptr->mutex) *)
  let ptr := set_mutex mu ptr in
  match full ptr with
  | O => Blocked ptr
  | S fu =>
      (* SemWait(&ptr->full) *)
      let ptr := set_full fu ptr in
      (* memcpy(ptr->area, &func, sizeof(FuncName)); *)
      let ptr := set_area (memcpy (area ptr) 0
                             (le_bytes sizeof_FuncName (FuncName_code PUT))) ptr in
      match GetResponseQueueIndex fuel (responseMutex ptr) with
      | None => Spinning
      | Some (Raise l) => Raised ptr l
      | Some (Return (responseId, sems) _) =>
          let ptr := set_responseMutex sems ptr in
          let ptr := set_area (memcpy (area ptr) sizeof_FuncName
                       (le_bytes sizeof_responseId (Z.of_nat responseId))) ptr in
          let ptr := set_area (memcpy (area ptr)
                       (sizeof_FuncName + sizeof_responseId)
                       (le_bytes sizeof_Oid relationId)) ptr in
          let current := (sizeof_FuncName + sizeof_responseId + sizeof_Oid)%nat in
          let ptr := set_area (memcpy (area ptr) current
                       (le_bytes sizeof_size_t (Z.of_nat keyLen))) ptr in
          let current := (current + sizeof_size_t)%nat in
          let ptr := set_area (memcpy (area ptr) current key) ptr in
          let current := (current + keyLen)%nat in
          let ptr := set_area (memcpy (area ptr) current
                       (le_bytes sizeof_size_t (Z.of_nat valLen))) ptr in
          let current := (current + sizeof_size_t)%nat in
          let ptr := set_area (memcpy (area ptr) current val) ptr in
          if (BUFSIZE <? current + valLen)%nat then
            (* SemPost(mutex); SemPost(responseMutex[responseId]); ereport *)
            let ptr := set_mutex (sem_post (mutex ptr)) ptr in
            let ptr := set_responseMutex
                         (post_at (responseMutex ptr) responseId) ptr in
            Raised ptr
              [Ereport ERROR
                 "PutRequest tuple is too long, increase BUFSIZE" None]
          else
            (* SemPost(&ptr->worker); SemPost(&ptr->mutex); *)
            let ptr := set_worker (sem_post (worker ptr)) ptr in
            let ptr := set_mutex (sem_post (mutex ptr)) ptr in
            Sent ptr responseId
      end
  end
  end.

(** The size of the frame a put occupies in the command area. *)
Definition put_frame_size (key val : list Z) : nat :=
  (sizeof_FuncName + sizeof_responseId + sizeof_Oid
   + sizeof_size_t + length key + sizeof_size_t + length val)%nat.

(** *** The storage engine, as [kv_shm.c] calls it ([kv_storage.h]) *)

(** Pointers are addresses, [0] is [NULL]. The engine keeps a state of its
    own, which every call may change. *)
Class Storage := {
  store : Type;
  Open : list Z -> bool -> Z -> store -> Z * store;
  Close : Z -> store -> store;
  Count : Z -> store -> Z * store;
  GetIter : Z -> store -> Z * store;
  DelIter : Z -> store -> store;
  Next : Z -> Z -> store -> (bool * list Z * list Z) * store;
  Get : Z -> list Z -> store -> (bool * list Z) * store;
  Put : Z -> list Z -> list Z -> store -> bool * store;
  Delete : Z -> list Z -> store -> bool * store;
  (* db, readOptions, start, limit, batchCapacity, attrs, pid
     |-> (ret, readOptions', bufLen) *)
  RangeQuery : Z -> Z -> list Z -> list Z -> Z -> list Z -> Z -> store
               -> (bool * Z * Z) * store;
}.

(** The engine calls a worker has made, oldest first. *)
Inductive call :=
| CallOpen (path : list Z)
| CallClose (db : Z)
| CallCount (db : Z)
| CallGetIter (db : Z)
| CallDelIter (iter : Z)
| CallNext (db iter : Z)
| CallGet (db : Z) (key : list Z)
| CallPut (db : Z) (key val : list Z)
| CallDelete (db : Z) (key : list Z)
| CallRangeQuery (db : Z) (pid : Z).

#[global] Instance call_eq_dec : EqDecision call.
Proof. solve_decision. Defined.

Record KVHashEntry := { relationId : Z; ref : Z; db : Z }.

(** [entry->ref = v] *)
Definition set_ref (v : Z) (entry : KVHashEntry) : KVHashEntry :=
  {| relationId := relationId entry; ref := v; db := db entry |}.

Context {engine : Storage}.

(** The worker process: its three hash tables, the response buffers it
    writes, the engine and the calls made to it so far. *)
Record worker_state := {
  kvTableHash : gmap Z KVHashEntry;
  kvIterHash : gmap (Z * Z) Z;
  kvReadOptionsHash : gmap (Z * Z) Z;
  ResponseQueue : list (list Z);
  db_store : store;
  calls : list call;
}.

Definition set_table t (w : worker_state) : worker_state :=
  {| kvTableHash := t; kvIterHash := kvIterHash w;
     kvReadOptionsHash := kvReadOptionsHash w;
     ResponseQueue := ResponseQueue w; db_store := db_store w;
     calls := calls w |}.
Definition set_iters t (w : worker_state) : worker_state :=
  {| kvTableHash := kvTableHash w; kvIterHash := t;
     kvReadOptionsHash := kvReadOptionsHash w;
     ResponseQueue := ResponseQueue w; db_store := db_store w;
     calls := calls w |}.
Definition set_options t (w : worker_state) : worker_state :=
  {| kvTableHash := kvTableHash w; kvIterHash := kvIterHash w;
     kvReadOptionsHash := t;
     ResponseQueue := ResponseQueue w; db_store := db_store w;
     calls := calls w |}.
Definition set_queue q (w : worker_state) : worker_state :=
  {| kvTableHash := kvTableHash w; kvIterHash := kvIterHash w;
     kvReadOptionsHash := kvReadOptionsHash w;
     ResponseQueue := q; db_store := db_store w; calls := calls w |}.
(** An engine call: the new engine state, and the call appended to the log. *)
Definition called (c : call) (s : store) (w : worker_state) : worker_state :=
  {| kvTableHash := kvTableHash w; kvIterHash := kvIterHash w;
     kvReadOptionsHash := kvReadOptionsHash w;
     ResponseQueue := ResponseQueue w; db_store := s;
     calls := calls w ++ [c] |}.

(** [memcpy(ResponseQueue[responseId] + off, src, |src|)]. *)
Definition respond (responseId : nat) (off : nat) (src : list Z)
    (w : worker_state) : worker_state :=
  match ResponseQueue w !! responseId with
  | Some page => set_queue (<[responseId := memcpy page off src]> (ResponseQueue w)) w
  | None => w
  end.

Definition hash_failed (func : string) : list diag :=
  [Ereport ERROR (func ++ " failed in hash search")%string None].

(** [OpenResponse] (VIDARDB build: [useColumn] and [attrCount] precede the
    path). A path without a slash makes [strrchr] return [NULL] and
    [atoi(NULL + 1)] fault. *)
Definition OpenResponse (area : list Z) (w : worker_state) : result worker_state :=
  let useColumn := negb (le_value (bytes_at area 0 sizeof_bool) =? 0) in
  let attrCount := u32_at area sizeof_bool in
  let path := strz (drop (sizeof_bool + sizeof_int) area) in
  match after_last_slash path with
  | None => Raise []
  | Some tl =>
      let relationId := wrap32 (atoi tl) in
      match kvTableHash w !! relationId with
      | None =>
          let '(db, s) := Open path useColumn attrCount (db_store w) in
          let w := called (CallOpen path) s w in
          Return (set_table (<[relationId :=
                     {| relationId := relationId; ref := 1; db := db |}]>
                     (kvTableHash w)) w) []
      | Some entry =>
          Return (set_table (<[relationId := set_ref (wrap32 (ref entry + 1)) entry]>
                               (kvTableHash w)) w) []
      end
  end.

(** [CloseResponse]: the entry's count goes down, nothing else happens. *)
Definition CloseResponse (area : list Z) (w : worker_state) : result worker_state :=
  let relationId := u32_at area 0 in
  match kvTableHash w !! relationId with
  | None => Raise (hash_failed "CloseResponse")
  | Some entry =>
      Return (set_table (<[relationId := set_ref (wrap32 (ref entry - 1)) entry]>
                           (kvTableHash w)) w) []
  end.

Definition CountResponse (area : list Z) (w : worker_state) : result worker_state :=
  let responseId := Z.to_nat (u32_at area 0) in
  let relationId := u32_at area sizeof_responseId in
  match kvTableHash w !! relationId with
  | None => Raise (hash_failed "CountResponse")
  | Some entry =>
      let '(count, s) := Count (db entry) (db_store w) in
      let w := called (CallCount (db entry)) s w in
      Return (respond responseId 0 (le_bytes sizeof_uint64 count) w) []
  end.

Definition GetIterResponse (area : list Z) (w : worker_state) : result worker_state :=
  let relationId := u32_at area 0 in
  let pid := u32_at area sizeof_Oid in
  match kvTableHash w !! relationId with
  | None => Raise (hash_failed "GetIterResponse")
  | Some entry =>
      let '(iter, s) := GetIter (db entry) (db_store w) in
      let w := called (CallGetIter (db entry)) s w in
      Return (set_iters (<[(relationId, pid) := iter]> (kvIterHash w)) w) []
  end.

(** [DelIterResponse]: an unknown key is an ERROR; a known key whose
    iterator is already [NULL] is left alone. *)
Definition DelIterResponse (area : list Z) (w : worker_state) : result worker_state :=
  let relationId := u32_at area 0 in
  let pid := u32_at area sizeof_Oid in
  match kvIterHash w !! (relationId, pid) with
  | None => Raise (hash_failed "DelIterResponse")
  | Some iter =>
      if iter =? 0 then Return w []
      else
        let s := DelIter iter (db_store w) in
        let w := called (CallDelIter iter) s w in
        Return (set_iters (<[(relationId, pid) := 0]> (kvIterHash w)) w) []
  end.

Definition NextResponse (area : list Z) (w : worker_state) : result worker_state :=
  let responseId := Z.to_nat (u32_at area 0) in
  let relationId := u32_at area sizeof_responseId in
  let pid := u32_at area (sizeof_responseId + sizeof_Oid) in
  match kvTableHash w !! relationId with
  | None => Raise (hash_failed "NextResponse")
  | Some entry =>
      match kvIterHash w !! (relationId, pid) with
      | None =>
          Raise [Ereport ERROR
                   "NextResponse failed in hash search for iterator" None]
      | Some iter =>
          let '(res, key, val, s) := Next (db entry) iter (db_store w) in
          let w := called (CallNext (db entry) iter) s w in
          if negb res then
            (* keyLen is still 0 *)
            Return (respond responseId 0 (le_bytes sizeof_size_t 0) w) []
          else
            let w := respond responseId 0
                       (le_bytes sizeof_size_t (Z.of_nat (length key))) w in
            let w := respond responseId sizeof_size_t key w in
            let w := respond responseId (sizeof_size_t + length key)
                       (le_bytes sizeof_size_t (Z.of_nat (length val))) w in
            let w := respond responseId
                       (sizeof_size_t + length key + sizeof_size_t) val w in
            Return w []
      end
  end.

Definition GetResponse (area : list Z) (w : worker_state) : result worker_state :=
  let responseId := Z.to_nat (u32_at area 0) in
  let relationId := u32_at area sizeof_responseId in
  match kvTableHash w !! relationId with
  | None => Raise (hash_failed "GetResponse")
  | Some entry =>
      let current := (sizeof_responseId + sizeof_Oid)%nat in
      let keyLen := Z.to_nat (u64_at area current) in
      let key := bytes_at area (current + sizeof_size_t) keyLen in
      let '(res, val, s) := Get (db entry) key (db_store w) in
      let w := called (CallGet (db entry) key) s w in
      let w := respond responseId 0 [if res then 1 else 0] w in
      if negb res then Return w []
      else
        let w := respond responseId sizeof_bool
                   (le_bytes sizeof_size_t (Z.of_nat (length val))) w in
        Return (respond responseId (sizeof_bool + sizeof_size_t) val w) []
  end.

Definition PutResponse (area : list Z) (w : worker_state) : result worker_state :=
  let relationId := u32_at area 0 in
  match kvTableHash w !! relationId with
  | None => Raise (hash_failed "PutResponse")
  | Some entry =>
      let current := sizeof_Oid in
      let keyLen := Z.to_nat (u64_at area current) in
      let key := bytes_at area (current + sizeof_size_t) keyLen in
      let current := (current + sizeof_size_t + keyLen)%nat in
      let valLen := Z.to_nat (u64_at area current) in
      let val := bytes_at area (current + sizeof_size_t) valLen in
      let '(ok, s) := Put (db entry) key val (db_store w) in
      let w := called (CallPut (db entry) key val) s w in
      if ok then Return w []
      else Raise [Ereport ERROR "error from PutResponse" None]
  end.

Definition DeleteResponse (area : list Z) (w : worker_state) : result worker_state :=
  let relationId := u32_at area 0 in
  match kvTableHash w !! relationId with
  | None => Raise (hash_failed "DeleteResponse")
  | Some entry =>
      let current := sizeof_Oid in
      let keyLen := Z.to_nat (u64_at area current) in
      let key := bytes_at area (current + sizeof_size_t) keyLen in
      let '(ok, s) := Delete (db entry) key (db_store w) in
      let w := called (CallDelete (db entry) key) s w in
      if ok then Return w []
      else Raise [Ereport ERROR "error from DeleteResponse" None]
  end.

Definition RangeQueryResponse (area : list Z) (w : worker_state) : result worker_state :=
  let responseId := Z.to_nat (u32_at area 0) in
  let off := sizeof_responseId in
  let relationId := u32_at area off in
  let off := (off + sizeof_Oid)%nat in
  let pid := u32_at area off in
  let off := (off + sizeof_pid_t)%nat in
  let startLen := Z.to_nat (u64_at area off) in
  let off := (off + sizeof_size_t)%nat in
  let start := bytes_at area off startLen in
  let off := (off + startLen)%nat in
  let limitLen := Z.to_nat (u64_at area off) in
  let off := (off + sizeof_size_t)%nat in
  let limit := bytes_at area off limitLen in
  let off := (off + limitLen)%nat in
  let batchCapacity := u64_at area off in
  let off := (off + sizeof_size_t)%nat in
  let attrCount := u32_at area off in
  let off := (off + sizeof_int)%nat in
  let attrs :=
    if (0 <? attrCount) && (attrCount <? 2 ^ 31)
    then bytes_at area off (Z.to_nat attrCount * sizeof_AttrNumber)
    else [] in
  match kvTableHash w !! relationId with
  | None => Raise (hash_failed "RangeQueryResponse")
  | Some entry =>
      let readOptions :=
        match kvReadOptionsHash w !! (relationId, pid) with
        | Some ro => ro
        | None => 0
        end in
      let '(ret, readOptions', bufLen, s) :=
        RangeQuery (db entry) readOptions start limit batchCapacity attrs pid
                   (db_store w) in
      let w := called (CallRangeQuery (db entry) pid) s w in
      let w := set_options (<[(relationId, pid) := readOptions']>
                              (kvReadOptionsHash w)) w in
      let w := respond responseId 0 (le_bytes sizeof_size_t bufLen) w in
      if bufLen =? 0 then Return w []
      else Return (respond responseId sizeof_size_t [if ret then 1 else 0] w) []
  end.

(** The [switch (func)] of [KVWorkerMain]; [buf] is the worker's copy of
    the area from [responseId] on. *)
Definition dispatch (func : Z) (buf : list Z) (w : worker_state)
  : result worker_state :=
  match FuncName_of func with
  | Some OPEN => OpenResponse (drop sizeof_responseId buf) w
  | Some CLOSE => CloseResponse (drop sizeof_responseId buf) w
  | Some COUNT => CountResponse buf w
  | Some GETITER => GetIterResponse (drop sizeof_responseId buf) w
  | Some DELITER => DelIterResponse (drop sizeof_responseId buf) w
  | Some NEXT => NextResponse buf w
  | Some GET => GetResponse buf w
  | Some PUT => PutResponse (drop sizeof_responseId buf) w
  | Some DELETE => DeleteResponse (drop sizeof_responseId buf) w
  | Some RANGEQUERY => RangeQueryResponse buf w
  | _ => Raise [Ereport ERROR "KVWorkerMain failed in switch" None]
  end.

(** *** Clients, the launcher thread and the worker running side by side *)

(** [RangeQueryOptions] ([kv_storage.h]), by the fields the file copies:
    two buffers with their lengths, the capacity, and [attrCount] attribute
    numbers as the bytes they occupy. *)
Record RangeQueryOptions := {
  startLen : Z; start : list Z;
  limitLen : Z; limit : list Z;
  batchCapacity : Z;
  attrCount : Z; attrs : list Z;
}.

(** What a process runs: a request function with its arguments ([pid] is
    what [getpid()] returns, [path] is [KVGetOptions(relationId)->filename]),
    [cleanup_handler], or one turn of the [do ... while (true)] of
    [KVStorageThreadFun]. *)
Inductive routine :=
| OpenRequest_of (useColumn : bool) (attrCount : Z) (path : list Z)
| CloseRequest_of (relationId : Z)
| CountRequest_of (relationId : Z)
| GetIterRequest_of (relationId pid : Z)
| DelIterRequest_of (relationId pid : Z)
| NextRequest_of (relationId pid : Z)
| GetRequest_of (relationId : Z) (key : list Z)
| PutRequest_of (relationId : Z) (key val : list Z)
| DeleteRequest_of (relationId : Z) (key : list Z)
| RangeQueryRequest_of (relationId pid : Z) (options : RangeQueryOptions)
| cleanup_handler_of
| KVStorageThreadFun_of.

(** The statements of these functions that touch the control block, the
    response pages or [kvWorkerPid]. *)
Inductive stmt :=
| SemWait_mutex                 (* SemWait(&ptr->mutex) *)
| SemWait_full                  (* SemWait(&ptr->full) *)
| Write_func (f : FuncName)     (* memcpy(ptr->area, &func, ...) *)
| Lease                         (* responseId = GetResponseQueueIndex(ptr) *)
| Write_responseId              (* memcpy(ptr->area + 4, &responseId, ...) *)
| Write_relationId              (* memcpy(ptr->area + 8, &relationId, ...) *)
| SemPost_worker                (* SemPost(&ptr->worker) *)
| SemPost_mutex                 (* SemPost(&ptr->mutex) *)
| SemWait_responseSync          (* SemWait(&ptr->responseSync[responseId]) *)
| Read_count                    (* memcpy(&count, ResponseQueue[responseId], ...) *)
| SemPost_responseMutex         (* SemPost(&ptr->responseMutex[responseId]) *)
| Write_at (off : nat) (src : list Z)   (* memcpy(ptr->area + off, src, |src|) *)
| If_not_created                (* if (!ptr->workerProcessCreated) *)
| SemPost_agent0                (* SemPost(&ptr->agent[0]) *)
| SemWait_agent1                (* SemWait(&ptr->agent[1]) *)
| Read_response                 (* the copies out of ResponseQueue[responseId] *)
| Ereport_too_long              (* ereport(ERROR, ...) in PutRequest *)
| If_worker_started             (* if (kvWorkerPid != 0) *)
| Teardown                      (* kvWorkerPid = 0; Munmap, ShmUnlink, SemDestroy *)
| SemWait_agent0                (* SemWait(&ptr->agent[0]) *)
| StartKVWorker_call            (* kvWorkerPid = StartKVWorker() *)
| Set_created                   (* ptr->workerProcessCreated = true *)
| SemPost_agent1.               (* SemPost(&ptr->agent[1]) *)

#[global] Instance stmt_eq_dec : EqDecision stmt.
Proof. solve_decision. Defined.

(** [CountRequest], statement by statement. *)
Definition CountRequest : list stmt :=
  [ SemWait_mutex; SemWait_full; Write_func COUNT; Lease; Write_responseId;
    Write_relationId; SemPost_worker; SemPost_mutex; SemWait_responseSync;
    Read_count; SemPost_responseMutex ].

(** The shape the request functions share: [handshake] is what
    [OpenRequest] does between the two waits, [args] the copies into the
    area after the response id, [reads] the copies out of the response
    page. *)
Definition request_program (handshake : list stmt) (f : FuncName)
    (args reads : list stmt) : list stmt :=
  [SemWait_mutex] ++ handshake
  ++ [SemWait_full; Write_func f; Lease; Write_responseId] ++ args
  ++ [SemPost_worker; SemPost_mutex; SemWait_responseSync] ++ reads
  ++ [SemPost_responseMutex].

(** The offset of the first argument, and of what follows a relation id. *)
Definition args_off : nat := (sizeof_FuncName + sizeof_responseId)%nat.
Definition after_relationId : nat := (args_off + sizeof_Oid)%nat.

(** [memcpy(current, &keyLen, sizeof(keyLen)); memcpy(current, key, keyLen)]
    after the relation id. *)
Definition key_args (key : list Z) : list stmt :=
  [ Write_relationId;
    Write_at after_relationId (le_bytes sizeof_size_t (Z.of_nat (length key)));
    Write_at (after_relationId + sizeof_size_t) key ].

(** The copies of [PutRequest]: the key as above, then the value. *)
Definition put_args (key val : list Z) : list stmt :=
  key_args key ++
  [ Write_at (after_relationId + sizeof_size_t + length key)
      (le_bytes sizeof_size_t (Z.of_nat (length val)));
    Write_at (after_relationId + sizeof_size_t + length key + sizeof_size_t) val ].

(** The copies of [RangeQueryRequest]; a [memcpy] that an [if] skips is a
    copy of nothing. *)
Definition range_args (pid : Z) (o : RangeQueryOptions) : list stmt :=
  let current := after_relationId in
  let pid_at := current in
  let current := (current + sizeof_pid_t)%nat in
  let startLen_at := current in
  let current := (current + sizeof_size_t)%nat in
  let start_at := current in
  let current := if 0 <? startLen o
                 then (current + Z.to_nat (startLen o))%nat else current in
  let limitLen_at := current in
  let current := (current + sizeof_size_t)%nat in
  let limit_at := current in
  let current := if 0 <? limitLen o
                 then (current + Z.to_nat (limitLen o))%nat else current in
  let batchCapacity_at := current in
  let current := (current + sizeof_uint64)%nat in
  let attrCount_at := current in
  let current := (current + sizeof_int)%nat in
  [ Write_relationId;
    Write_at pid_at (le_bytes sizeof_pid_t pid);
    Write_at startLen_at (le_bytes sizeof_size_t (startLen o));
    Write_at start_at
      (if 0 <? startLen o then take (Z.to_nat (startLen o)) (start o) else []);
    Write_at limitLen_at (le_bytes sizeof_size_t (limitLen o));
    Write_at limit_at
      (if 0 <? limitLen o then take (Z.to_nat (limitLen o)) (limit o) else []);
    Write_at batchCapacity_at (le_bytes sizeof_uint64 (batchCapacity o));
    Write_at attrCount_at (le_bytes sizeof_int (attrCount o));
    Write_at current
      (if 0 <? attrCount o
       then take (Z.to_nat (attrCount o) * sizeof_AttrNumber) (attrs o)
       else []) ].

(** The functions, statement by statement. [OpenRequest] is the VIDARDB
    build on a control block that is mapped; a [PutRequest] whose frame does
    not fit leaves through [ereport(ERROR)] after its copies. *)
Definition program (r : routine) : list stmt :=
  match r with
  | OpenRequest_of useColumn attrCount path =>
      request_program [If_not_created; SemPost_agent0; SemWait_agent1] OPEN
        [ Write_at args_off [if useColumn then 1 else 0];
          Write_at (args_off + sizeof_bool) (le_bytes sizeof_int attrCount);
          Write_at (args_off + sizeof_bool + sizeof_int) (path ++ [0]) ]
        []
  | CloseRequest_of _ => request_program [] CLOSE [Write_relationId] []
  | CountRequest_of _ => CountRequest
  | GetIterRequest_of _ pid =>
      request_program [] GETITER
        [Write_relationId; Write_at after_relationId (le_bytes sizeof_pid_t pid)] []
  | DelIterRequest_of _ pid =>
      request_program [] DELITER
        [Write_relationId; Write_at after_relationId (le_bytes sizeof_pid_t pid)] []
  | NextRequest_of _ pid =>
      request_program [] NEXT
        [Write_relationId; Write_at after_relationId (le_bytes sizeof_pid_t pid)]
        [Read_response]
  | GetRequest_of _ key => request_program [] GET (key_args key) [Read_response]
  | PutRequest_of _ key val =>
      if (BUFSIZE <? put_frame_size key val)%nat then
        [SemWait_mutex; SemWait_full; Write_func PUT; Lease; Write_responseId]
        ++ put_args key val
        ++ [SemPost_mutex; SemPost_responseMutex; Ereport_too_long]
      else request_program [] PUT (put_args key val) []
  | DeleteRequest_of _ key => request_program [] DELETE (key_args key) []
  | RangeQueryRequest_of _ pid options =>
      request_program [] RANGEQUERY (range_args pid options) [Read_response]
  | cleanup_handler_of =>
      [ If_worker_started; SemWait_mutex; SemWait_full; Write_func TERMINATE;
        Lease; Write_responseId; SemPost_worker; SemWait_responseSync;
        Teardown ]
  | KVStorageThreadFun_of =>
      [SemWait_agent0; StartKVWorker_call; Set_created; SemPost_agent1]
  end.

(** The request functions among the routines. *)
Definition is_request (r : routine) : bool :=
  match r with
  | cleanup_handler_of | KVStorageThreadFun_of => false
  | _ => true
  end.

(** A copy into the command area after the response id, and a copy out of
    the response page. *)
Definition copies_in (st : stmt) : bool :=
  match st with
  | Write_relationId | Write_at _ _ => true
  | _ => false
  end.
Definition copies_out (st : stmt) : bool :=
  match st with
  | Read_count | Read_response => true
  | _ => false
  end.

(** The relation a request function was called for. *)
Definition relationId_of (r : routine) : Z :=
  match r with
  | CloseRequest_of relationId | CountRequest_of relationId
  | GetIterRequest_of relationId _ | DelIterRequest_of relationId _
  | NextRequest_of relationId _ | GetRequest_of relationId _
  | PutRequest_of relationId _ _ | DeleteRequest_of relationId _
  | RangeQueryRequest_of relationId _ _ => relationId
  | _ => 0
  end.

(** A process: a backend that calls request functions one after the other,
    or the thread of the postmaster that runs [KVStorageThreadFun] and, once
    cancelled, [cleanup_handler]. [script k] is the function it runs after
    [k] have returned. *)
Record client := {
  pc : nat;                 (* the statement to run next *)
  scan : lease_pc;          (* progress inside GetResponseQueueIndex *)
  responseId : nat;
  script : nat -> routine;
  calls_done : nat;
  count : Z;                (* what the last CountRequest returned *)
  answer : list Z;          (* the response page as the last call read it *)
  raised : nat;             (* calls that left through ereport(ERROR) *)
}.

Definition running (c : client) : routine := script c (calls_done c).

Definition at_pc (n : nat) (c : client) : client :=
  {| pc := n; scan := scan c; responseId := responseId c;
     script := script c; calls_done := calls_done c;
     count := count c; answer := answer c; raised := raised c |}.
Definition with_scan (l : lease_pc) (c : client) : client :=
  {| pc := pc c; scan := l; responseId := responseId c;
     script := script c; calls_done := calls_done c;
     count := count c; answer := answer c; raised := raised c |}.
Definition with_responseId (i : nat) (c : client) : client :=
  {| pc := pc c; scan := scan c; responseId := i;
     script := script c; calls_done := calls_done c;
     count := count c; answer := answer c; raised := raised c |}.
Definition with_count (v : Z) (c : client) : client :=
  {| pc := pc c; scan := scan c; responseId := responseId c;
     script := script c; calls_done := calls_done c;
     count := v; answer := answer c; raised := raised c |}.
Definition with_answer (page : list Z) (c : client) : client :=
  {| pc := pc c; scan := scan c; responseId := responseId c;
     script := script c; calls_done := calls_done c;
     count := count c; answer := page; raised := raised c |}.
Definition with_raised (n : nat) (c : client) : client :=
  {| pc := pc c; scan := scan c; responseId := responseId c;
     script := script c; calls_done := calls_done c;
     count := count c; answer := answer c; raised := n |}.

(** The function returns (or is unwound): the next one starts at its top. *)
Definition returned (c : client) : client :=
  {| pc := O; scan := scan c; responseId := responseId c;
     script := script c; calls_done := S (calls_done c);
     count := count c; answer := answer c; raised := raised c |}.

(** On to the next statement; after the last one the function returns. *)
Definition advance (c : client) : client :=
  if (S (pc c) <? length (program (running c)))%nat then at_pc (S (pc c)) c
  else returned c.

Inductive worker_pc :=
| W_unborn                  (* no worker process has been forked *)
| W_SemWait                 (* SemWait(&ptr->worker) *)
| W_copy_func               (* memcpy(&func, ptr->area, ...) *)
| W_copy_responseId         (* memcpy(&responseId, ptr->area + 4, ...) *)
| W_copy_buf                (* memset(buf, 0, BUFSIZE); memcpy(buf, ...) *)
| W_SemPost_full            (* SemPost(&ptr->full) *)
| W_switch                  (* the TERMINATE test and the switch *)
| W_SemPost_responseSync    (* SemPost(&ptr->responseSync[responseId]) *)
| W_shutdown                (* after the loop: Close every db *)
| W_exited                  (* proc_exit(0) *)
| W_error.                  (* unwound by ereport(ERROR) *)

#[global] Instance worker_pc_eq_dec : EqDecision worker_pc.
Proof. solve_decision. Defined.

(** The control block, the processes, the worker process with its private
    variables, and [forked]: how many times [StartKVWorker] has forked
    ([kvWorkerPid] is nonzero from the first time on). The model runs one
    worker process; [forked] tells whether a run would have made more. *)
Record system := {
  shm : SharedMem;
  clients : list client;
  wpc : worker_pc;
  w_func : Z;
  w_responseId : nat;
  w_buf : list Z;
  wstate : worker_state;
  forked : nat;
}.

Definition with_shm (m : SharedMem) (s : system) : system :=
  {| shm := m; clients := clients s; wpc := wpc s; w_func := w_func s;
     w_responseId := w_responseId s; w_buf := w_buf s; wstate := wstate s;
     forked := forked s |}.
Definition with_wpc (p : worker_pc) (s : system) : system :=
  {| shm := shm s; clients := clients s; wpc := p; w_func := w_func s;
     w_responseId := w_responseId s; w_buf := w_buf s; wstate := wstate s;
     forked := forked s |}.
Definition with_wstate (w : worker_state) (s : system) : system :=
  {| shm := shm s; clients := clients s; wpc := wpc s; w_func := w_func s;
     w_responseId := w_responseId s; w_buf := w_buf s; wstate := w;
     forked := forked s |}.

(** The worker's private copy of the area from [responseId] on:
    [memset(buf, 0, BUFSIZE); memcpy(buf, area + 4, BUFSIZE - 4)]. *)
Definition copy_out (area : list Z) : list Z :=
  memcpy (replicate BUFSIZE 0) 0
         (bytes_at area sizeof_FuncName (BUFSIZE - sizeof_FuncName)).

(** One statement of process [c], run to its end; a [SemWait] on a zero
    semaphore and a lease scan that has not succeeded yet leave the process
    where it is. [kvWorkerPid] is nonzero when [started] is. The thread that
    reaches the teardown of [cleanup_handler] (also straight away, with no
    worker to terminate) is left there: what the other processes then do on
    destroyed semaphores is not modelled. *)
Definition exec_stmt (s : stmt) (c : client) (m : SharedMem)
    (queue : list (list Z)) (started : nat) : client * SharedMem :=
  match s with
  | SemWait_mutex =>
      match mutex m with
      | S v => (advance c, set_mutex v m)
      | O => (c, m)
      end
  | SemWait_full =>
      match full m with
      | S v => (advance c, set_full v m)
      | O => (c, m)
      end
  | Write_func f =>
      (advance c,
       set_area (memcpy (area m) 0 (le_bytes sizeof_FuncName (FuncName_code f))) m)
  | Lease =>
      let '(sems, l) := lease_step (responseMutex m) (scan c) in
      match l with
      | Leased i =>
          (advance (with_responseId i (with_scan l c)), set_responseMutex sems m)
      | _ => (with_scan l c, set_responseMutex sems m)
      end
  | Write_responseId =>
      (advance c,
       set_area (memcpy (area m) sizeof_FuncName
                   (le_bytes sizeof_responseId (Z.of_nat (responseId c)))) m)
  | Write_relationId =>
      (advance c,
       set_area (memcpy (area m) args_off
                   (le_bytes sizeof_Oid (relationId_of (running c)))) m)
  | SemPost_worker => (advance c, set_worker (sem_post (worker m)) m)
  | SemPost_mutex => (advance c, set_mutex (sem_post (mutex m)) m)
  | SemWait_responseSync =>
      match responseSync m !! responseId c with
      | Some (S v) =>
          (advance c, set_responseSync (<[responseId c := v]> (responseSync m)) m)
      | _ => (c, m)
      end
  | Read_count =>
      (advance (with_count (match queue !! responseId c with
                            | Some page => u64_at page 0
                            | None => 0
                            end) c), m)
  | SemPost_responseMutex =>
      (advance (with_scan Idle c),
       set_responseMutex (post_at (responseMutex m) (responseId c)) m)
  | Write_at off src => (advance c, set_area (memcpy (area m) off src) m)
  | If_not_created =>
      if workerProcessCreated m then (at_pc (pc c + 3) c, m) else (advance c, m)
  | SemPost_agent0 => (advance c, set_agent0 (sem_post (agent0 m)) m)
  | SemWait_agent1 =>
      match agent1 m with
      | S v => (advance c, set_agent1 v m)
      | O => (c, m)
      end
  | Read_response =>
      (advance (with_answer (default [] (queue !! responseId c)) c), m)
  | Ereport_too_long => (advance (with_raised (S (raised c)) c), m)
  | If_worker_started =>
      match started with
      | O => (c, m)
      | S _ => (advance c, m)
      end
  | Teardown => (c, m)
  | SemWait_agent0 =>
      match agent0 m with
      | S v => (advance c, set_agent0 v m)
      | O => (c, m)
      end
  | StartKVWorker_call => (advance c, m)
  | Set_created => (advance c, set_workerProcessCreated true m)
  | SemPost_agent1 => (advance c, set_agent1 (sem_post (agent1 m)) m)
  end.

(** After the receive loop: [Close(entry->db)] for every open table. *)
Definition close_all (w : worker_state) : worker_state :=
  fold_left (fun w (e : Z * KVHashEntry) =>
               called (CallClose (db (snd e))) (Close (db (snd e)) (db_store w)) w)
            (map_to_list (kvTableHash w)) w.

(** One step of [KVWorkerMain]'s loop. *)
Definition worker_step (s : system) : system :=
  let m := shm s in
  match wpc s with
  | W_unborn => s
  | W_SemWait =>
      match worker m with
      | S v => with_wpc W_copy_func (with_shm (set_worker v m) s)
      | O => s
      end
  | W_copy_func =>
      {| shm := m; clients := clients s; wpc := W_copy_responseId;
         w_func := u32_at (area m) 0;
         w_responseId := w_responseId s; w_buf := w_buf s; wstate := wstate s;
         forked := forked s |}
  | W_copy_responseId =>
      {| shm := m; clients := clients s; wpc := W_copy_buf;
         w_func := w_func s;
         w_responseId := Z.to_nat (u32_at (area m) sizeof_FuncName);
         w_buf := w_buf s; wstate := wstate s; forked := forked s |}
  | W_copy_buf =>
      {| shm := m; clients := clients s; wpc := W_SemPost_full;
         w_func := w_func s; w_responseId := w_responseId s;
         w_buf := copy_out (area m); wstate := wstate s; forked := forked s |}
  | W_SemPost_full =>
      with_wpc W_switch (with_shm (set_full (sem_post (full m)) m) s)
  | W_switch =>
      if decide (FuncName_of (w_func s) = Some TERMINATE) then
        with_wpc W_shutdown
          (with_shm (set_responseSync
                       (post_at (responseSync m) (w_responseId s)) m) s)
      else
        match dispatch (w_func s) (w_buf s) (wstate s) with
        | Return w _ => with_wpc W_SemPost_responseSync (with_wstate w s)
        | Raise _ => with_wpc W_error s
        end
  | W_SemPost_responseSync =>
      with_wpc W_SemWait
        (with_shm (set_responseSync
                     (post_at (responseSync m) (w_responseId s)) m) s)
  | W_shutdown => with_wpc W_exited (with_wstate (close_all (wstate s)) s)
  | W_exited => s
  | W_error => s
  end.

(** [StartKVWorker()], with a [fork_process()] that succeeds: the child
    goes into [KVWorkerMain] and arrives in front of its [SemWait]. *)
Definition born (p : worker_pc) : worker_pc :=
  match p with
  | W_unborn => W_SemWait
  | _ => p
  end.

Definition forks (st : stmt) : bool :=
  match st with
  | StartKVWorker_call => true
  | _ => false
  end.

(** Process [p] runs its next statement. *)
Definition client_step (p : nat) (s : system) : system :=
  match clients s !! p with
  | None => s
  | Some c =>
      match program (running c) !! pc c with
      | None => s
      | Some st =>
          let '(c', m') :=
            exec_stmt st c (shm s) (ResponseQueue (wstate s)) (forked s) in
          {| shm := m'; clients := <[p:=c']> (clients s);
             wpc := if forks st then born (wpc s) else wpc s;
             w_func := w_func s; w_responseId := w_responseId s;
             w_buf := w_buf s; wstate := wstate s;
             forked := if forks st then S (forked s) else forked s |}
      end
  end.

(** Who runs next: the worker ([None]) or process [p] ([Some p]). *)
Definition sys_step (who : option nat) (s : system) : system :=
  match who with
  | None => worker_step s
  | Some p => client_step p s
  end.

Definition sys_run (sched : list (option nat)) (s : system) : system :=
  fold_left (fun s who => sys_step who s) sched s.

(** *** Waits that a signal cuts short *)

(** The semaphore a statement waits on, when it is a [SemWait]. *)
Definition awaited (st : stmt) (c : client) (m : SharedMem) : option sem_t :=
  match st with
  | SemWait_mutex => Some (mutex m)
  | SemWait_full => Some (full m)
  | SemWait_agent0 => Some (agent0 m)
  | SemWait_agent1 => Some (agent1 m)
  | SemWait_responseSync => responseSync m !! responseId c
  | _ => None
  end.

(** [SemWait] returns -1 when [sem_wait] fails with EINTR, and none of its
    callers looks at what it returns: a process that a signal handler
    interrupts while it is blocked goes on to its next statement with the
    semaphore untouched. *)
Definition interrupt_client (p : nat) (s : system) : system :=
  match clients s !! p with
  | None => s
  | Some c =>
      match program (running c) !! pc c with
      | None => s
      | Some st =>
          match awaited st c (shm s) with
          | Some O =>
              {| shm := shm s; clients := <[p:=advance c]> (clients s);
                 wpc := wpc s; w_func := w_func s;
                 w_responseId := w_responseId s; w_buf := w_buf s;
                 wstate := wstate s; forked := forked s |}
          | _ => s
          end
      end
  end.

(** The same for the worker, blocked in [SemWait(&ptr->worker)]. *)
Definition interrupt_worker (s : system) : system :=
  match wpc s, worker (shm s) with
  | W_SemWait, O => with_wpc W_copy_func s
  | _, _ => s
  end.

(** What happens next: a process or the worker runs a step, or a signal
    interrupts the wait it is blocked in. *)
Inductive event :=
| Runs (who : option nat)
| Signalled (who : option nat).

Definition sys_event (e : event) (s : system) : system :=
  match e with
  | Runs who => sys_step who s
  | Signalled (Some p) => interrupt_client p s
  | Signalled None => interrupt_worker s
  end.

Definition sys_events (es : list event) (s : system) : system :=
  fold_left (fun s e => sys_event e s) es s.

(** *** Initial states *)

Definition worker_init (s0 : store) : worker_state :=
  {| kvTableHash := ∅; kvIterHash := ∅; kvReadOptionsHash := ∅;
     ResponseQueue := replicate RESPONSEQUEUELENGTH (replicate BUFSIZE 0);
     db_store := s0; calls := [] |}.

Definition client_init (script : nat -> routine) : client :=
  {| pc := O; scan := Idle; responseId := O; script := script;
     calls_done := O; count := 0; answer := []; raised := O |}.

(** The control block as [KVStorageThreadFun] initialises it, every process
    at the top of the first function of its script, and the worker with the
    tables [w0]: not forked yet, or ([created]) forked, announced in
    [workerProcessCreated] and in front of its [SemWait]. *)
Definition sys_boot (w0 : worker_state) (created : bool)
    (scripts : list (nat -> routine)) : system :=
  {| shm := set_workerProcessCreated created (SharedMem_init 0);
     clients := map client_init scripts;
     wpc := if created then W_SemWait else W_unborn;
     w_func := 0; w_responseId := O;
     w_buf := replicate BUFSIZE 0; wstate := w0;
     forked := if created then 1%nat else O |}.

(** The worker running, and every process a backend that calls
    [CountRequest] for its relation again and again. *)
Definition sys_init (w0 : worker_state) (relations : list Z) : system :=
  sys_boot w0 true (map (fun r _ => CountRequest_of r) relations).

(** *** Where a process is *)

Definition waits_mutex (st : stmt) : bool :=
  match st with SemWait_mutex => true | _ => false end.
Definition posts_mutex (st : stmt) : bool :=
  match st with SemPost_mutex => true | _ => false end.
Definition waits_full (st : stmt) : bool :=
  match st with SemWait_full => true | _ => false end.
Definition posts_worker (st : stmt) : bool :=
  match st with SemPost_worker => true | _ => false end.
Definition posts_agent0 (st : stmt) : bool :=
  match st with SemPost_agent0 => true | _ => false end.
Definition waits_agent1 (st : stmt) : bool :=
  match st with SemWait_agent1 => true | _ => false end.
Definition waits_agent0 (st : stmt) : bool :=
  match st with SemWait_agent0 => true | _ => false end.
Definition posts_agent1 (st : stmt) : bool :=
  match st with SemPost_agent1 => true | _ => false end.
Definition tests_created (st : stmt) : bool :=
  match st with If_not_created => true | _ => false end.

(** The statements of the running function that are behind the process. *)
Definition behind (c : client) : list stmt :=
  take (pc c) (program (running c)).

(** Past a statement [P], not past a statement [Q]. *)
Definition between (P Q : stmt -> bool) (c : client) : bool :=
  existsb P (behind c) && negb (existsb Q (behind c)).

(** The statement just passed is a [P]. *)
Definition just_past (P : stmt -> bool) (c : client) : bool :=
  match last (behind c) with
  | Some st => P st
  | None => false
  end.

(** Has the mutex: past [SemWait(mutex)], not past [SemPost(mutex)]. *)
Definition holds_mutex : client -> bool := between waits_mutex posts_mutex.

(** Owns the command slot: past [SemWait(full)], not past [SemPost(worker)]. *)
Definition producing : client -> bool := between waits_full posts_worker.

(** Has asked for a worker: past [SemPost(agent[0])], not past
    [SemWait(agent[1])]. *)
Definition awaiting_worker : client -> bool := between posts_agent0 waits_agent1.

(** The launcher in a turn: past [SemWait(agent[0])], not past
    [SemPost(agent[1])]. *)
Definition launching : client -> bool := between waits_agent0 posts_agent1.

(** Has found [workerProcessCreated] false and is about to post. *)
Definition asking : client -> bool := just_past tests_created.

(** The launcher about to fork, and about to announce the worker it forked. *)
Definition forking : client -> bool := just_past waits_agent0.
Definition announcing : client -> bool := just_past forks.

Fixpoint count_if {A} (P : A -> bool) (l : list A) : nat :=
  match l with
  | [] => O
  | x :: l' => ((if P x then 1 else 0) + count_if P l')%nat
  end.

Fixpoint total {A} (f : A -> nat) (l : list A) : nat :=
  match l with
  | [] => O
  | x :: l' => (f x + total f l')%nat
  end.

(** The worker has been signalled but has not finished copying out. *)
Definition copying (p : worker_pc) : bool :=
  match p with
  | W_copy_func | W_copy_responseId | W_copy_buf => true
  | _ => false
  end.

(** Commands handed to the worker that it has not yet copied out. *)
Definition outstanding (s : system) : nat :=
  (worker (shm s) + (if copying (wpc s) then 1 else 0))%nat.

(** The worker has left its receive loop through the TERMINATE branch. *)
Definition terminated (p : worker_pc) : bool :=
  match p with
  | W_shutdown | W_exited => true
  | _ => false
  end.

(** What a worker that took the TERMINATE branch still has in common with
    an earlier state of itself. *)
Definition same_worker (s s' : system) : Prop :=
  terminated (wpc s') = true /\
  w_func s' = w_func s /\ w_responseId s' = w_responseId s /\
  w_buf s' = w_buf s /\
  kvTableHash (wstate s') = kvTableHash (wstate s) /\
  kvIterHash (wstate s') = kvIterHash (wstate s) /\
  kvReadOptionsHash (wstate s') = kvReadOptionsHash (wstate s) /\
  ResponseQueue (wstate s') = ResponseQueue (wstate s).

Definition b2n (b : bool) : nat := if b then 1%nat else 0%nat.

(** The worker has taken a command and not yet given the slot back. *)
Definition has_slot (p : worker_pc) : bool :=
  match p with
  | W_copy_func | W_copy_responseId | W_copy_buf | W_SemPost_full => true
  | _ => false
  end.

(** The worker's private copy is the command that is in the area. *)
Definition copied_out (s : system) : Prop :=
  w_func s = u32_at (area (shm s)) 0 /\
  w_responseId s = Z.to_nat (u32_at (area (shm s)) sizeof_FuncName) /\
  w_buf s = copy_out (area (shm s)).

(** How far the copy has come, by the worker's position. *)
Definition copy_progress (s : system) : Prop :=
  match wpc s with
  | W_copy_responseId => w_func s = u32_at (area (shm s)) 0
  | W_copy_buf =>
      w_func s = u32_at (area (shm s)) 0 /\
      w_responseId s = Z.to_nat (u32_at (area (shm s)) sizeof_FuncName)
  | W_SemPost_full => copied_out s
  | _ => True
  end.

(** The balances of the protocol. The mutex is free or held by one process.
    The command slot is free ([full]), or owned by one process that is
    filling it, or handed over ([worker]), or with the worker, or lost with
    a [PutRequest] that raised. Every process that has asked for a worker
    is matched by a token in [agent] or by the launcher in a turn. At most
    one worker is asked for, being forked or announced, and the forks are
    the one that is announced or about to be. *)
Definition sys_inv (s : system) : Prop :=
  (mutex (shm s) + count_if holds_mutex (clients s) = 1)%nat /\
  (full (shm s) + count_if producing (clients s) + worker (shm s)
   + b2n (has_slot (wpc s)) + total raised (clients s) = 1)%nat /\
  copy_progress s /\
  (agent0 (shm s) + agent1 (shm s) + count_if launching (clients s)
   = count_if awaiting_worker (clients s))%nat /\
  (count_if asking (clients s) + agent0 (shm s)
   + count_if forking (clients s) + count_if announcing (clients s)
   + b2n (workerProcessCreated (shm s)) <= 1)%nat /\
  (forked s = count_if announcing (clients s)
              + b2n (workerProcessCreated (shm s)))%nat /\
  (forked s = O <-> wpc s = W_unborn).

(** *** What a process completes *)

(** The statement process [p] completed in the step from [s] to [s'], if
    its position moved. *)
Definition completed (p : nat) (s s' : system) : list stmt :=
  match clients s !! p, clients s' !! p with
  | Some c, Some c' =>
      if decide (pc c = pc c' /\ calls_done c = calls_done c') then []
      else match program (running c) !! pc c with
           | Some st => [st]
           | None => []
           end
  | _, _ => []
  end.

(** The statements process [p] completes along a run, in order. *)
Fixpoint sys_trace (p : nat) (sched : list (option nat)) (s : system)
  : list stmt :=
  match sched with
  | [] => []
  | who :: rest =>
      completed p s (sys_step who s) ++ sys_trace p rest (sys_step who s)
  end.

(** [follows script k i trace]: [trace] is what a process completes that
    goes through the functions of [script] from statement [i] of function
    [k] on, each in program order, the next one after the last statement of
    the one before; the only statements left out are the two of
    [OpenRequest] that a true [workerProcessCreated] skips. *)
Inductive follows (script : nat -> routine) : nat -> nat -> list stmt -> Prop :=
| follows_nil k i : follows script k i []
| follows_next k i st trace :
    program (script k) !! i = Some st ->
    (S i < length (program (script k)))%nat ->
    follows script k (S i) trace ->
    follows script k i (st :: trace)
| follows_return k i st trace :
    program (script k) !! i = Some st ->
    (length (program (script k)) <= S i)%nat ->
    follows script (S k) O trace ->
    follows script k i (st :: trace)
| follows_skip k i trace :
    program (script k) !! i = Some If_not_created ->
    follows script k (i + 3) trace ->
    follows script k i (If_not_created :: trace).

End WithConstants.

End Shm.

(** ** [src/ipc/kv_message.h]: messages *)

Module Msg.

(** [enum KVOperation] (VIDARDB build), by value. *)
Definition KVOpDummy : Z := 0.
Definition KVOpOpen : Z := 1.
Definition KVOpClose : Z := 2.
Definition KVOpCount : Z := 3.
Definition KVOpPut : Z := 4.
Definition KVOpGet : Z := 5.
Definition KVOpDel : Z := 6.
Definition KVOpLoad : Z := 7.
Definition KVOpReadBatch : Z := 8.
Definition KVOpDelCursor : Z := 9.
Definition KVOpRangeQuery : Z := 10.
Definition KVOpClearRangeQuery : Z := 11.
Definition KVOpLaunch : Z := 12.
Definition KVOpTerminate : Z := 13.

Inductive KVMessageStatus :=
| KVStatusDummy | KVStatusSuccess | KVStatusFailure | KVStatusException.

#[global] Instance KVMessageStatus_eq_dec : EqDecision KVMessageStatus.
Proof. solve_decision. Defined.

Record KVMessageHeader := {
  op : Z;
  dbId : Z;
  relId : Z;
  status : KVMessageStatus;
  rpsId : Z;          (* response channel id *)
  etySize : Z;        (* message entity size *)
}.

(** A message on the wire: its header and its entity bytes. *)
Record KVMessage := { hdr : KVMessageHeader; ety : list Z }.

(** Modelled from the spec: [SuccessMessage] and [FailureMessage] are only
    declared in [kv_message.h]; a response header carries the status and the
    leased channel id, and no entity. *)
Definition SuccessMessage (channel : Z) : KVMessage :=
  {| hdr := {| op := KVOpDummy; dbId := 0; relId := 0;
               status := KVStatusSuccess; rpsId := channel; etySize := 0 |};
     ety := [] |}.
Definition FailureMessage (channel : Z) : KVMessage :=
  {| hdr := {| op := KVOpDummy; dbId := 0; relId := 0;
               status := KVStatusFailure; rpsId := channel; etySize := 0 |};
     ety := [] |}.

(** A message with the header of [base], carrying [body]. *)
Definition with_entity (base : KVMessage) (body : list Z) : KVMessage :=
  {| hdr := {| op := op (hdr base); dbId := dbId (hdr base);
               relId := relId (hdr base); status := status (hdr base);
               rpsId := rpsId (hdr base);
               etySize := Z.of_nat (length body) |};
     ety := body |}.

(** The messages a handler added to what had been sent before. *)
Definition replies_since (before after : list KVMessage) : list KVMessage :=
  drop (length before) after.

(** The entity bytes a handler sees after [Recv(msg, MSGENTITY)] into a
    zeroed buffer of [etySize] bytes. *)
Definition entity_of (m : KVMessage) : list Z :=
  let n := Z.to_nat (etySize (hdr m)) in
  take n (ety m) ++ replicate (n - length (ety m)) 0.

(** [struct ReadBatchState] as [WriteReadBatchState] pushes it:
    [next] (one byte), then [size] (eight bytes). *)
Record ReadBatchState := { next : bool; size : Z }.

Definition WriteReadBatchState (st : ReadBatchState) : list Z :=
  (if next st then 1 else 0) :: le_bytes 8 (size st).

(** [struct RangeQueryOpts], as the worker fills it from the entity. *)
Record RangeQueryOpts := {
  startLen : Z; start : list Z;
  limitLen : Z; limit : list Z;
  batchCapacity : Z;
  attrCount : Z; attrs : list Z;
}.

(** The option block of a range-query entity, starting at [current]. *)
Definition read_RangeQueryOpts (current : list Z) : RangeQueryOpts :=
  let startLen := le_value (take 8 current) in
  let current := drop 8 current in
  let start := if 0 <? startLen then take (Z.to_nat startLen) current else [] in
  let current := if 0 <? startLen then drop (Z.to_nat startLen) current
                 else current in
  let limitLen := le_value (take 8 current) in
  let current := drop 8 current in
  let limit := if 0 <? limitLen then take (Z.to_nat limitLen) current else [] in
  let current := if 0 <? limitLen then drop (Z.to_nat limitLen) current
                 else current in
  let batchCapacity := le_value (take 8 current) in
  let current := drop 8 current in
  let u := le_value (take 4 current) in
  let attrCount := if u <? 2 ^ 31 then u else u - 2 ^ 32 in
  let current := drop 4 current in
  {| startLen := startLen; start := start;
     limitLen := limitLen; limit := limit;
     batchCapacity := batchCapacity;
     attrCount := attrCount;
     attrs := if 0 <? attrCount then take (Z.to_nat attrCount * 2) current
              else [] |}.

(** Options as a caller fills them in: each length is the length of its
    buffer, the capacity is a 64-bit value, and [attrs] holds [attrCount]
    attribute numbers of two bytes each. *)
Definition RangeQueryOpts_filled (o : RangeQueryOpts) : Prop :=
  startLen o = Z.of_nat (length (start o)) /\ startLen o < 2 ^ 64 /\
  limitLen o = Z.of_nat (length (limit o)) /\ limitLen o < 2 ^ 64 /\
  0 <= batchCapacity o < 2 ^ 64 /\
  0 <= attrCount o < 2 ^ 31 /\
  length (attrs o) = (Z.to_nat (attrCount o) * 2)%nat.

(** *** The storage engine behind the workers ([kv_storage.h]) *)

Class Storage := {
  store : Type;
  OpenConn : list Z -> bool -> Z -> list Z -> store -> Z * store;
  CloseConn : Z -> store -> store;
  GetCount : Z -> store -> Z * store;
  PutRecord : Z -> list Z -> list Z -> store -> bool * store;
  GetRecord : Z -> list Z -> store -> (bool * list Z) * store;
  DelRecord : Z -> list Z -> store -> bool * store;
  GetIter : Z -> store -> Z * store;
  DelIter : Z -> store -> store;
  (* conn, cursor |-> (next, size, bytes written to the segment) *)
  BatchRead : Z -> Z -> store -> (bool * Z * list Z) * store;
  (* the decoded options |-> (range, readOpts) *)
  ParseRangeQueryOptions : RangeQueryOpts -> store -> (Z * Z) * store;
  (* conn, range, readOpts |-> (next, size, result) *)
  RangeQueryRead : Z -> Z -> Z -> store -> (bool * Z * Z) * store;
  (* result |-> the bytes copied to the segment *)
  ParseRangeQueryResult : Z -> store -> list Z * store;
  ClearRangeQueryMeta : Z -> Z -> store -> store;
}.

Inductive call :=
| CallOpenConn (path : list Z)
| CallCloseConn (conn : Z)
| CallGetCount (conn : Z)
| CallPutRecord (conn : Z) (key val : list Z)
| CallGetRecord (conn : Z) (key : list Z)
| CallDelRecord (conn : Z) (key : list Z)
| CallGetIter (conn : Z)
| CallDelIter (cursor : Z)
| CallBatchRead (conn cursor : Z)
| CallParseRangeQueryOptions
| CallRangeQueryRead (range readOpts : Z)
| CallParseRangeQueryResult (result : Z)
| CallClearRangeQueryMeta (range readOpts : Z).

#[global] Instance call_eq_dec : EqDecision call.
Proof. solve_decision. Defined.

Definition is_CloseConn (c : call) : bool :=
  match c with CallCloseConn _ => true | _ => false end.

Record KVRangeQueryEntry := { range : Z; readOpts : Z }.

(** Decimal digits, for the segment names built with [snprintf]. *)
Fixpoint digits (fuel : nat) (n : Z) (acc : list Z) : list Z :=
  match fuel with
  | O => acc
  | S fuel' =>
      if n <? 10 then (48 + n) :: acc
      else digits fuel' (n / 10) ((48 + n mod 10) :: acc)
  end.

Definition decimal (n : Z) : list Z :=
  if n <? 0 then 45 :: digits 20 (- n) [] else digits 20 n [].

(** ["%s%d%d%lu"]: the prefix, then pid, relation and operation id run
    together. *)
Definition segment_name (prefix : list Z) (pid rel opid : Z) : list Z :=
  prefix ++ decimal pid ++ decimal rel ++ decimal opid.

(** ["/KVReadBatch"] and ["/KVRangeQuery"]. *)
Definition READBATCHPATH : list Z :=
  [47; 75; 86; 82; 101; 97; 100; 66; 97; 116; 99; 104].
Definition RANGEQUERYPATH : list Z :=
  [47; 75; 86; 82; 97; 110; 103; 101; 81; 117; 101; 114; 121].

(** [*(pid_t* ) ety] as a signed 32-bit value, and the operation id after it. *)
Definition key_pid (body : list Z) : Z :=
  let u := le_value (take 4 body) in
  if u <? 2 ^ 31 then u else u - 2 ^ 32.
Definition key_opid (body : list Z) : Z := le_value (take 8 (drop 4 body)).

(** The cursor key a handler reads from a message's entity. *)
Definition key_of (msg : KVMessage) : Z * Z :=
  (key_pid (entity_of msg), key_opid (entity_of msg)).

(** An Open or a Close request. *)
Definition is_open_close (msg : KVMessage) : bool :=
  (op (hdr msg) =? KVOpOpen) || (op (hdr msg) =? KVOpClose).

(** The operation codes [KVWorker::Run] has a case for. *)
Definition worker_handles (o : Z) : bool :=
  existsb (Z.eqb o)
    [KVOpDummy; KVOpOpen; KVOpClose; KVOpCount; KVOpPut; KVOpGet; KVOpDel;
     KVOpLoad; KVOpReadBatch; KVOpDelCursor; KVOpRangeQuery;
     KVOpClearRangeQuery; KVOpTerminate].

(** Modelled from the spec: [SimpleMessage] is only declared in
    [kv_message.h]. A request header carries the operation, the relation
    (which is the id of the worker it is for) and the database it comes
    from; the other fields keep their defaults. *)
Definition SimpleMessage (o rid db : Z) : KVMessage :=
  {| hdr := {| op := o; dbId := db; relId := rid; status := KVStatusDummy;
               rpsId := 0; etySize := 0 |};
     ety := [] |}.

(** [sendmsg.ety = ...; sendmsg.hdr.etySize = size; sendmsg.writeFunc = ...]:
    the message goes out with the declared size in its header and, as its
    entity, the bytes its write function produces. *)
Definition with_body (base : KVMessage) (size : Z) (body : list Z) : KVMessage :=
  {| hdr := {| op := op (hdr base); dbId := dbId (hdr base);
               relId := relId (hdr base); status := status (hdr base);
               rpsId := rpsId (hdr base); etySize := size |};
     ety := body |}.

(** [msg.hdr.rpsId = channel] *)
Definition on_channel (channel : Z) (m : KVMessage) : KVMessage :=
  {| hdr := {| op := op (hdr m); dbId := dbId (hdr m);
               relId := relId (hdr m); status := status (hdr m);
               rpsId := channel; etySize := etySize (hdr m) |};
     ety := ety m |}.

(** Modelled from the spec: [KVChannel::Push] (and [KVChannel::Write], its
    name in [kv_worker.cc]) is not part of these sources. It copies [length]
    bytes at [*offset] and advances [*offset] by [length]; a write function
    starts at the beginning of the entity, so [pushed] is what it has written
    so far. *)
Definition Push (pushed data : list Z) : list Z := pushed ++ data.

(** Modelled from the spec: [CommonWriteEntity] is only declared in
    [kv_message.h]; it pushes the entity as it is. *)
Definition CommonWriteEntity (entity : list Z) : list Z := Push [] entity.

(** How a client function hands its request to the queue: with or without
    waiting for an answer. *)
Record exchange := { request : KVMessage; awaits : bool }.

(** [queue_->Send(sendmsg)] *)
Definition Send_only (m : KVMessage) : exchange :=
  {| request := m; awaits := false |}.

(** Modelled from the spec: [KVMessageQueue::SendWithResponse] is not part
    of these sources. It leases a response channel, sends the message with
    that channel in its header and waits there for the answer; [channel] is
    the id the lease returned. *)
Definition SendWithResponse (channel : Z) (m : KVMessage) : exchange :=
  {| request := on_channel channel m; awaits := true |}.

(** [struct OpenArgs]: the comparator options (an opaque block of
    [sizeof(args->opts)] bytes), the column flags and the path, a C string
    given by the bytes before its NUL. *)
Module OpenArgs.
Record t := { opts : list Z; useColumn : bool; attrCount : Z; path : list Z }.
End OpenArgs.

(** [struct PutArgs]: [key] and [val] stand for the pointers and their
    lengths. *)
Module PutArgs.
Record t := { key : list Z; val : list Z }.
End PutArgs.

(** What a client gets back from [ReadBatch] and [RangeQuery]: the flag the
    function returns, [*(args->bufLen)], and for [*(args->buf)] the name of
    the segment that is mapped ([None] for a [NULL] buffer). *)
Module Batch.
Record t := { next : bool; bufLen : Z; buf : option (list Z) }.
End Batch.

End Msg.

(** ** [src/server/kv_worker.cc]: the worker behind a message queue *)

Module Server.
Import Posix Msg.

Section WithStorage.

Context {engine : Storage}.

(** [READBATCHSIZE] is a macro of a header that is not part of these
    sources, and so is the layout of the comparator options in [OpenArgs]. *)
Variable READBATCHSIZE : nat.
Variable sizeof_opts : nat.

(** A worker process. [queue_] is seen through what the worker does with
    it: the messages handed to [Send] and whether [Stop] was called; the
    named shared-memory objects are a map from name to contents.
    [ref_] is declared in [kv_worker.h]; it is taken to be the [uint32] that
    [KVHashEntry.ref] is in [kv_shm.c]. *)
Record KVWorker := {
  running_ : bool;
  conn_ : Z;
  ref_ : Z;
  cursors_ : gmap (Z * Z) Z;
  ranges_ : gmap (Z * Z) KVRangeQueryEntry;
  sent : list KVMessage;
  queue_stopped : bool;
  segments : gmap (list Z) (list Z);
  db_store : store;
  calls : list call;
  log : list diag;
}.

(** [KVWorker::KVWorker] *)
Definition KVWorker_new (s0 : store) : KVWorker :=
  {| running_ := false; conn_ := 0; ref_ := 0; cursors_ := ∅; ranges_ := ∅;
     sent := []; queue_stopped := false; segments := ∅;
     db_store := s0; calls := []; log := [] |}.

Definition set_running b (w : KVWorker) : KVWorker :=
  {| running_ := b; conn_ := conn_ w; ref_ := ref_ w; cursors_ := cursors_ w;
     ranges_ := ranges_ w; sent := sent w; queue_stopped := queue_stopped w;
     segments := segments w; db_store := db_store w; calls := calls w;
     log := log w |}.
Definition set_conn c (w : KVWorker) : KVWorker :=
  {| running_ := running_ w; conn_ := c; ref_ := ref_ w; cursors_ := cursors_ w;
     ranges_ := ranges_ w; sent := sent w; queue_stopped := queue_stopped w;
     segments := segments w; db_store := db_store w; calls := calls w;
     log := log w |}.
Definition set_ref r (w : KVWorker) : KVWorker :=
  {| running_ := running_ w; conn_ := conn_ w; ref_ := r; cursors_ := cursors_ w;
     ranges_ := ranges_ w; sent := sent w; queue_stopped := queue_stopped w;
     segments := segments w; db_store := db_store w; calls := calls w;
     log := log w |}.
Definition set_cursors m (w : KVWorker) : KVWorker :=
  {| running_ := running_ w; conn_ := conn_ w; ref_ := ref_ w; cursors_ := m;
     ranges_ := ranges_ w; sent := sent w; queue_stopped := queue_stopped w;
     segments := segments w; db_store := db_store w; calls := calls w;
     log := log w |}.
Definition set_ranges m (w : KVWorker) : KVWorker :=
  {| running_ := running_ w; conn_ := conn_ w; ref_ := ref_ w;
     cursors_ := cursors_ w;
     ranges_ := m; sent := sent w; queue_stopped := queue_stopped w;
     segments := segments w; db_store := db_store w; calls := calls w;
     log := log w |}.
Definition set_segments m (w : KVWorker) : KVWorker :=
  {| running_ := running_ w; conn_ := conn_ w; ref_ := ref_ w;
     cursors_ := cursors_ w;
     ranges_ := ranges_ w; sent := sent w; queue_stopped := queue_stopped w;
     segments := m; db_store := db_store w; calls := calls w;
     log := log w |}.
(** Modelled from the spec: [KVMessageQueue::Send] is not part of these
    sources. A worker's response is written to the response channel that the
    header names and that channel is signalled; here the message joins the
    responses sent so far. *)
Definition Send (msg : KVMessage) (w : KVWorker) : KVWorker :=
  {| running_ := running_ w; conn_ := conn_ w; ref_ := ref_ w;
     cursors_ := cursors_ w;
     ranges_ := ranges_ w; sent := sent w ++ [msg];
     queue_stopped := queue_stopped w;
     segments := segments w; db_store := db_store w; calls := calls w;
     log := log w |}.
Definition logged (l : list diag) (w : KVWorker) : KVWorker :=
  {| running_ := running_ w; conn_ := conn_ w; ref_ := ref_ w;
     cursors_ := cursors_ w;
     ranges_ := ranges_ w; sent := sent w; queue_stopped := queue_stopped w;
     segments := segments w; db_store := db_store w; calls := calls w;
     log := log w ++ l |}.
(** An engine call: the new engine state, and the call appended to the log. *)
Definition called (c : call) (s : store) (w : KVWorker) : KVWorker :=
  {| running_ := running_ w; conn_ := conn_ w; ref_ := ref_ w;
     cursors_ := cursors_ w;
     ranges_ := ranges_ w; sent := sent w; queue_stopped := queue_stopped w;
     segments := segments w; db_store := s; calls := calls w ++ [c];
     log := log w |}.

(** [ShmUnlink(name, __func__)]: [shm_unlink] fails when there is no such
    object, which the wrapper reports as a WARNING. *)
Definition do_ShmUnlink (name : list Z) (func : string) (w : KVWorker) : KVWorker :=
  let r := match segments w !! name with
           | Some _ => {| ret := 0; errno := 0 |}
           | None => {| ret := -1; errno := 2 |}
           end in
  logged (log_of (ShmUnlink r func)) (set_segments (delete name (segments w)) w).

(** [KVWorker::Start] *)
Definition Start (w : KVWorker) : KVWorker := set_running true w.

(** [KVWorker::Stop]. Of [queue_->Stop()], which is not part of these
    sources, the worker keeps that it was called. *)
Definition Stop (w : KVWorker) : KVWorker :=
  let w := set_running false w in
  {| running_ := running_ w; conn_ := conn_ w; ref_ := ref_ w;
     cursors_ := cursors_ w;
     ranges_ := ranges_ w; sent := sent w; queue_stopped := true;
     segments := segments w; db_store := db_store w; calls := calls w;
     log := log w |}.

(** [KVWorker::Open], with [ReadOpenArgs] for the entity. No message is
    sent back. *)
Definition Open (msg : KVMessage) (w : KVWorker) : KVWorker :=
  let body := entity_of msg in
  let opts := take sizeof_opts body in
  let useColumn := negb (le_value (bytes_at body sizeof_opts 1) =? 0) in
  let attrCount := u32_at body (sizeof_opts + 1) in
  let path := strz (drop (sizeof_opts + 1 + 4) body) in
  let w :=
    if conn_ w =? 0 then
      let '(c, s) := OpenConn path useColumn attrCount opts (db_store w) in
      set_conn c (called (CallOpenConn path) s w)
    else w in
  set_ref (wrap32 (ref_ w + 1)) w.

(** [KVWorker::Close] *)
Definition Close (msg : KVMessage) (w : KVWorker) : KVWorker :=
  if conn_ w =? 0 then w else set_ref (wrap32 (ref_ w - 1)) w.

(** [KVWorker::Count]: the reply is a default-constructed message, so its
    status stays [KVStatusDummy]. *)
Definition Count (msg : KVMessage) (w : KVWorker) : KVWorker :=
  let '(count, s) := GetCount (conn_ w) (db_store w) in
  let w := called (CallGetCount (conn_ w)) s w in
  Send {| hdr := {| op := KVOpDummy; dbId := 0; relId := 0;
                    status := KVStatusDummy; rpsId := rpsId (hdr msg);
                    etySize := 8 |};
          ety := le_bytes 8 count |} w.

(** The key and value of a put entity: [keyLen], key bytes, value bytes,
    with [valLen = etySize - keyLen - sizeof(keyLen)] in 64-bit arithmetic. *)
Definition read_PutArgs (msg : KVMessage) : list Z * list Z :=
  let body := entity_of msg in
  let keyLen := u64_at body 0 in
  let valLen := wrap64 (etySize (hdr msg) - keyLen - 8) in
  (bytes_at body 8 (Z.to_nat keyLen),
   bytes_at body (8 + Z.to_nat keyLen) (Z.to_nat valLen)).

(** [KVWorker::Put] *)
Definition Put (msg : KVMessage) (w : KVWorker) : KVWorker :=
  let '(key, val) := read_PutArgs msg in
  let '(success, s) := PutRecord (conn_ w) key val (db_store w) in
  let w := called (CallPutRecord (conn_ w) key val) s w in
  Send (if success then SuccessMessage (rpsId (hdr msg))
        else FailureMessage (rpsId (hdr msg))) w.

(** [KVWorker::Get] *)
Definition Get (msg : KVMessage) (w : KVWorker) : KVWorker :=
  let key := entity_of msg in
  let '(success, val, s) := GetRecord (conn_ w) key (db_store w) in
  let w := called (CallGetRecord (conn_ w) key) s w in
  if success then Send (with_entity (SuccessMessage (rpsId (hdr msg))) val) w
  else Send (FailureMessage (rpsId (hdr msg))) w.

(** [KVWorker::Delete] *)
Definition Delete (msg : KVMessage) (w : KVWorker) : KVWorker :=
  let key := entity_of msg in
  let '(success, s) := DelRecord (conn_ w) key (db_store w) in
  let w := called (CallDelRecord (conn_ w) key) s w in
  Send (if success then SuccessMessage (rpsId (hdr msg))
        else FailureMessage (rpsId (hdr msg))) w.

(** [KVWorker::Load]: a put without an answer. *)
Definition Load (msg : KVMessage) (w : KVWorker) : KVWorker :=
  let '(key, val) := read_PutArgs msg in
  let '(_, s) := PutRecord (conn_ w) key val (db_store w) in
  called (CallPutRecord (conn_ w) key val) s w.

(** The message that carries a [ReadBatchState]; [etySize] is
    [sizeof(state)], 16 with padding. *)
Definition state_message (channel : Z) (st : ReadBatchState) : KVMessage :=
  {| hdr := {| op := KVOpDummy; dbId := 0; relId := 0;
               status := KVStatusSuccess; rpsId := channel; etySize := 16 |};
     ety := WriteReadBatchState st |}.

(** [KVWorker::ReadBatch] *)
Definition ReadBatch (msg : KVMessage) (w : KVWorker) : KVWorker :=
  let body := entity_of msg in
  let key := (key_pid body, key_opid body) in
  let '(cursor, w) :=
    match cursors_ w !! key with
    | None =>
        let '(c, s) := GetIter (conn_ w) (db_store w) in
        let w := called (CallGetIter (conn_ w)) s w in
        (c, set_cursors (<[key := c]> (cursors_ w)) w)
    | Some c => (c, w)
    end in
  let name := segment_name READBATCHPATH (fst key) (relId (hdr msg)) (snd key) in
  let w := do_ShmUnlink name "ReadBatch" w in
  let '(nx, sz, data, s) := BatchRead (conn_ w) cursor (db_store w) in
  let w := called (CallBatchRead (conn_ w) cursor) s w in
  let w := set_segments
             (<[name := memcpy (replicate READBATCHSIZE 0) 0 data]> (segments w)) w in
  Send (state_message (rpsId (hdr msg)) {| next := nx; size := sz |}) w.

(** [KVWorker::CloseCursor] *)
Definition CloseCursor (msg : KVMessage) (w : KVWorker) : KVWorker :=
  let body := entity_of msg in
  let key := (key_pid body, key_opid body) in
  match cursors_ w !! key with
  | None => w
  | Some cursor =>
      let w := called (CallDelIter cursor) (DelIter cursor (db_store w)) w in
      set_cursors (delete key (cursors_ w)) w
  end.

(** The [do ... while (state.next && state.size == 0)] of
    [KVWorker::RangeQuery]; [None] when [fuel] reads were not enough to
    leave the loop. *)
Fixpoint read_chunks (fuel : nat) (entry : KVRangeQueryEntry) (w : KVWorker)
  : option (ReadBatchState * Z * KVWorker) :=
  match fuel with
  | O => None
  | S fuel' =>
      let '(nx, sz, result, s) :=
        RangeQueryRead (conn_ w) (range entry) (readOpts entry) (db_store w) in
      let w := called (CallRangeQueryRead (range entry) (readOpts entry)) s w in
      let sz := wrap64 sz in      (* state.size is a uint64 *)
      if nx && (sz =? 0) then read_chunks fuel' entry w
      else Some ({| next := nx; size := sz |}, result, w)
  end.

(** The reads of the loop, begun on the store [s], come to a chunk that is
    not empty or to the last one: the loop is left. *)
Inductive scan_ends (c : Z) (entry : KVRangeQueryEntry) : store -> Prop :=
| scan_ends_now s nx sz result s' :
    RangeQueryRead c (range entry) (readOpts entry) s = (nx, sz, result, s') ->
    nx && (wrap64 sz =? 0) = false ->
    scan_ends c entry s
| scan_ends_later s nx sz result s' :
    RangeQueryRead c (range entry) (readOpts entry) s = (nx, sz, result, s') ->
    nx && (wrap64 sz =? 0) = true ->
    scan_ends c entry s' ->
    scan_ends c entry s.

(** The first part of [KVWorker::RangeQuery]: the entry registered for the
    key of the request, made from the options of the request when there is
    none. *)
Definition RangeQuery_entry (msg : KVMessage) (w : KVWorker)
  : KVRangeQueryEntry * KVWorker :=
  let body := entity_of msg in
  let key := (key_pid body, key_opid body) in
  match ranges_ w !! key with
  | None =>
      let opts := read_RangeQueryOpts (drop 12 body) in
      let '(r, ro, s) := ParseRangeQueryOptions opts (db_store w) in
      let w := called CallParseRangeQueryOptions s w in
      let entry := {| range := r; readOpts := ro |} in
      (entry, set_ranges (<[key := entry]> (ranges_ w)) w)
  | Some entry => (entry, w)
  end.

(** The scan a range query for [msg] starts on [w] comes to an end. *)
Definition scan_of_ends (msg : KVMessage) (w : KVWorker) : Prop :=
  scan_ends (conn_ w) (fst (RangeQuery_entry msg w))
            (db_store (snd (RangeQuery_entry msg w))).

(** [KVWorker::RangeQuery] *)
Definition RangeQuery (fuel : nat) (msg : KVMessage) (w : KVWorker)
  : option KVWorker :=
  let body := entity_of msg in
  let key := (key_pid body, key_opid body) in
  let '(entry, w) := RangeQuery_entry msg w in
  match read_chunks fuel entry w with
  | None => None
  | Some (state, result, w) =>
      let name := segment_name RANGEQUERYPATH (fst key) (relId (hdr msg)) (snd key) in
      let w := do_ShmUnlink name "RangeQuery" w in
      let '(data, s) := ParseRangeQueryResult result (db_store w) in
      let w := called (CallParseRangeQueryResult result) s w in
      let w :=
        if 0 <? size state
        then set_segments
               (<[name := memcpy (replicate (Z.to_nat (size state)) 0) 0 data]>
                  (segments w)) w
        else w in
      Some (Send (state_message (rpsId (hdr msg)) state) w)
  end.

(** [KVWorker::ClearRangeQuery] *)
Definition ClearRangeQuery (msg : KVMessage) (w : KVWorker) : KVWorker :=
  let body := entity_of msg in
  let key := (key_pid body, key_opid body) in
  match ranges_ w !! key with
  | None => w
  | Some entry =>
      let w := called (CallClearRangeQueryMeta (range entry) (readOpts entry))
                 (ClearRangeQueryMeta (range entry) (readOpts entry) (db_store w))
                 w in
      let w := set_ranges (delete key (ranges_ w)) w in
      do_ShmUnlink
        (segment_name RANGEQUERYPATH (fst key) (relId (hdr msg)) (snd key))
        "ClearRangeQuery" w
  end.

(** [KVWorker::Terminate] *)
Definition Terminate (msg : KVMessage) (w : KVWorker) : KVWorker := Stop w.

(** ["invalid operation: %d"] *)
Definition invalid_operation (o : Z) : string :=
  ("invalid operation: " ++ show_Z o)%string.

(** The [switch (msg.hdr.op)] of [KVWorker::Run]. *)
Definition handle (fuel : nat) (msg : KVMessage) (w : KVWorker)
  : option KVWorker :=
  let o := op (hdr msg) in
  if o =? KVOpDummy then Some w
  else if o =? KVOpOpen then Some (Open msg w)
  else if o =? KVOpClose then Some (Close msg w)
  else if o =? KVOpCount then Some (Count msg w)
  else if o =? KVOpPut then Some (Put msg w)
  else if o =? KVOpGet then Some (Get msg w)
  else if o =? KVOpDel then Some (Delete msg w)
  else if o =? KVOpLoad then Some (Load msg w)
  else if o =? KVOpReadBatch then Some (ReadBatch msg w)
  else if o =? KVOpDelCursor then Some (CloseCursor msg w)
  else if o =? KVOpRangeQuery then RangeQuery fuel msg w
  else if o =? KVOpClearRangeQuery then Some (ClearRangeQuery msg w)
  else if o =? KVOpTerminate then Some (Terminate msg w)
  else Some (logged [Ereport WARNING (invalid_operation o) None] w).

Inductive run_result :=
| Exited (w : KVWorker) (unread : list KVMessage)   (* the loop was left *)
| Waiting (w : KVWorker)                            (* blocked in Recv *)
| Looping (w : KVWorker).                           (* inside a handler *)

(** [KVWorker::Run]. The queue is not part of these sources; [inbox] is
    what the successive [Recv(msg, MSGHEADER)] return, each header with the
    entity that a [Recv(msg, MSGENTITY)] after it reads. *)
Fixpoint Run (fuel : nat) (inbox : list KVMessage) (w : KVWorker) : run_result :=
  match inbox with
  | [] => if running_ w then Waiting w else Exited w []
  | msg :: rest =>
      if running_ w then
        match handle fuel msg w with
        | Some w' => Run fuel rest w'
        | None => Looping w
        end
      else Exited w inbox
  end.

(** [KVWorker::~KVWorker]: the one place that closes the connection. *)
Definition KVWorker_delete (w : KVWorker) : KVWorker :=
  if conn_ w =? 0 then w
  else called (CallCloseConn (conn_ w)) (CloseConn (conn_ w) (db_store w)) w.

(** [KVWorkerDo], between the two notifications. *)
Definition KVWorkerDo (fuel : nat) (inbox : list KVMessage) (s0 : store)
  : run_result :=
  match Run fuel inbox (Start (KVWorker_new s0)) with
  | Exited w unread => Exited (KVWorker_delete w) unread
  | r => r
  end.

(** What [w'] has in common with an earlier [w]: still running if [w] was,
    the same connection if [w] had one, and, since [w], no call to
    [CloseConn]. *)
Definition kept (w w' : KVWorker) : Prop :=
  running_ w' = running_ w /\
  (conn_ w <> 0 -> conn_ w' = conn_ w) /\
  exists new, calls w' = calls w ++ new /\
              Forall (fun c => is_CloseConn c = false) new.

(** The workers of a database server, by worker id ([KVManager::workers_]);
    each is a process of its own with a queue of its own, and a message
    for worker [id] is handled by that worker. *)
Definition deliver (fuel : nat) (id : Z) (msg : KVMessage)
    (workers : gmap Z KVWorker) : gmap Z KVWorker :=
  match workers !! id with
  | Some w =>
      match handle fuel msg w with
      | Some w' => <[id := w']> workers
      | None => workers
      end
  | None => workers
  end.

End WithStorage.
End Server.

(** ** [src/server/kv_worker.cc]: the client stub *)

Module ServerClient.
Import Posix Msg.

Section WithSizes.

(** [sizeof(args->opts)]; the layout of the options is not part of these
    sources. *)
Variable sizeof_opts : nat.

(** The calls that map, unmap and unlink a client's own view of a batch
    segment ([Munmap], [ShmOpen], [Mmap], [Fclose]) are taken to succeed;
    what is kept of them is the name of the segment that is mapped. *)

(** [KVWorkerClient::WriteOpenArgs] *)
Definition WriteOpenArgs (args : OpenArgs.t) : list Z :=
  let pushed := Push [] (OpenArgs.opts args) in
  let pushed := Push pushed [if OpenArgs.useColumn args then 1 else 0] in
  let pushed := Push pushed (le_bytes 4 (OpenArgs.attrCount args)) in
  Push pushed (OpenArgs.path args).       (* strlen(args->path) bytes *)

(** [KVWorkerClient::Open] *)
Definition Open (workerId MyDatabaseId : Z) (args : OpenArgs.t) : exchange :=
  let size := Z.of_nat sizeof_opts + Z.of_nat (length (OpenArgs.path args)) in
  let size := wrap64 (size + (1 + 4)) in
  Send_only (with_body (SimpleMessage KVOpOpen workerId MyDatabaseId) size
               (WriteOpenArgs args)).

(** [KVWorkerClient::Close] *)
Definition Close (workerId MyDatabaseId : Z) : exchange :=
  Send_only (SimpleMessage KVOpClose workerId MyDatabaseId).

(** [KVWorkerClient::Count], and the count it returns once [recvmsg] is in. *)
Definition Count (workerId MyDatabaseId channel : Z) : exchange :=
  SendWithResponse channel (SimpleMessage KVOpCount workerId MyDatabaseId).

Definition Count_result (recvmsg : KVMessage) : Z :=
  le_value (take 8 (ety recvmsg)).

(** [KVWorkerClient::WritePutArgs] *)
Definition WritePutArgs (args : PutArgs.t) : list Z :=
  let pushed := Push [] (le_bytes 8 (Z.of_nat (length (PutArgs.key args)))) in
  let pushed := Push pushed (PutArgs.key args) in
  Push pushed (PutArgs.val args).

(** [KVWorkerClient::Put] *)
Definition Put (workerId MyDatabaseId channel : Z) (args : PutArgs.t) : exchange :=
  let size := wrap64 (Z.of_nat (length (PutArgs.key args))
                      + Z.of_nat (length (PutArgs.val args)) + 8) in
  SendWithResponse channel
    (with_body (SimpleMessage KVOpPut workerId MyDatabaseId) size
       (WritePutArgs args)).

(** [recvmsg.hdr.status == KVStatusSuccess] *)
Definition succeeded (recvmsg : KVMessage) : bool :=
  bool_decide (status (hdr recvmsg) = KVStatusSuccess).

(** [KVWorkerClient::Get]: the lease is taken by hand, the header of the
    answer gives the length of the value. *)
Definition Get (workerId MyDatabaseId channel : Z) (key : list Z) : exchange :=
  let sendmsg := with_body (SimpleMessage KVOpGet workerId MyDatabaseId)
                   (Z.of_nat (length key)) (CommonWriteEntity key) in
  {| request := on_channel channel sendmsg; awaits := true |}.

Definition Get_result (recvmsg : KVMessage) : bool * list Z :=
  (succeeded recvmsg, entity_of recvmsg).

(** [KVWorkerClient::Delete] *)
Definition Delete (workerId MyDatabaseId channel : Z) (key : list Z) : exchange :=
  SendWithResponse channel
    (with_body (SimpleMessage KVOpDel workerId MyDatabaseId)
       (Z.of_nat (length key)) (CommonWriteEntity key)).

(** [KVWorkerClient::Load] *)
Definition Load (workerId MyDatabaseId : Z) (args : PutArgs.t) : exchange :=
  let size := wrap64 (Z.of_nat (length (PutArgs.key args))
                      + Z.of_nat (length (PutArgs.val args)) + 8) in
  Send_only (with_body (SimpleMessage KVOpLoad workerId MyDatabaseId) size
               (WritePutArgs args)).

(** [KVWorkerClient::WriteReadBatchArgs] and [WriteDelCursorArgs]; [pid] is
    what [getpid()] returns. *)
Definition WriteReadBatchArgs (pid opid : Z) : list Z :=
  let pushed := Push [] (le_bytes 4 pid) in
  Push pushed (le_bytes 8 opid).

Definition WriteDelCursorArgs (pid opid : Z) : list Z :=
  let pushed := Push [] (le_bytes 4 pid) in
  Push pushed (le_bytes 8 opid).

(** [KVWorkerClient::ReadBatch] *)
Definition ReadBatch (workerId MyDatabaseId channel pid opid : Z) : exchange :=
  SendWithResponse channel
    (with_body (SimpleMessage KVOpReadBatch workerId MyDatabaseId) (4 + 8)
       (WriteReadBatchArgs pid opid)).

(** What [ReadBatch] makes of the answer in [buf]; [prev] is what
    [args->bufLen] and [args->buf] held before. *)
Definition ReadBatch_result (workerId pid opid : Z) (prev : Batch.t)
    (recvmsg : KVMessage) : Batch.t :=
  if negb (succeeded recvmsg) then
    {| Batch.next := false; Batch.bufLen := Batch.bufLen prev;
       Batch.buf := Batch.buf prev |}
  else
    let buf := ety recvmsg in
    let next := negb (le_value (take 1 buf) =? 0) in
    let bufLen := le_value (take 8 (drop 1 buf)) in
    {| Batch.next := next; Batch.bufLen := bufLen;
       Batch.buf := if bufLen =? 0 then None
                    else Some (segment_name READBATCHPATH pid workerId opid) |}.

(** [KVWorkerClient::CloseCursor]: the name the client unlinks itself, and
    the request. *)
Definition CloseCursor (workerId MyDatabaseId pid opid : Z) : list Z * exchange :=
  (segment_name READBATCHPATH pid workerId opid,
   Send_only (with_body (SimpleMessage KVOpDelCursor workerId MyDatabaseId)
                (4 + 8) (WriteDelCursorArgs pid opid))).

(** [KVWorkerClient::WriteRangeQueryArgs] *)
Definition WriteRangeQueryArgs (pid opid : Z) (opts : option RangeQueryOpts)
  : list Z :=
  let pushed := Push [] (le_bytes 4 pid) in
  let pushed := Push pushed (le_bytes 8 opid) in
  match opts with
  | None => pushed
  | Some opts =>
      let pushed := Push pushed (le_bytes 8 (startLen opts)) in
      let pushed :=
        if 0 <? startLen opts
        then Push pushed (take (Z.to_nat (startLen opts)) (start opts))
        else pushed in
      let pushed := Push pushed (le_bytes 8 (limitLen opts)) in
      let pushed :=
        if 0 <? limitLen opts
        then Push pushed (take (Z.to_nat (limitLen opts)) (limit opts))
        else pushed in
      let pushed := Push pushed (le_bytes 8 (batchCapacity opts)) in
      let pushed := Push pushed (le_bytes 4 (attrCount opts)) in
      if 0 <? attrCount opts
      then Push pushed (take (Z.to_nat (attrCount opts) * 2) (attrs opts))
      else pushed
  end.

(** [sendmsg.hdr.etySize] as [RangeQuery] adds it up, in 64-bit arithmetic. *)
Definition RangeQuery_size (opts : option RangeQueryOpts) : Z :=
  match opts with
  | None => 4 + 8
  | Some opts =>
      wrap64 (4 + 8 + 8 + startLen opts + 8 + limitLen opts + 4
              + attrCount opts * 2 + 8)
  end.

(** [KVWorkerClient::RangeQuery] *)
Definition RangeQuery (workerId MyDatabaseId channel pid opid : Z)
    (opts : option RangeQueryOpts) : exchange :=
  SendWithResponse channel
    (with_body (SimpleMessage KVOpRangeQuery workerId MyDatabaseId)
       (RangeQuery_size opts) (WriteRangeQueryArgs pid opid opts)).

Definition RangeQuery_result (workerId pid opid : Z) (prev : Batch.t)
    (recvmsg : KVMessage) : Batch.t :=
  if negb (succeeded recvmsg) then
    {| Batch.next := false; Batch.bufLen := Batch.bufLen prev;
       Batch.buf := Batch.buf prev |}
  else
    let buf := ety recvmsg in
    let next := negb (le_value (take 1 buf) =? 0) in
    let bufLen := le_value (take 8 (drop 1 buf)) in
    {| Batch.next := next; Batch.bufLen := bufLen;
       Batch.buf := if bufLen =? 0 then None
                    else Some (segment_name RANGEQUERYPATH pid workerId opid) |}.

(** [KVWorkerClient::ClearRangeQuery]: [args->opts] is set to [NULL] before
    the entity is written. *)
Definition ClearRangeQuery (workerId MyDatabaseId pid opid : Z) : exchange :=
  Send_only (with_body (SimpleMessage KVOpClearRangeQuery workerId MyDatabaseId)
               (4 + 8) (WriteRangeQueryArgs pid opid None)).

(** [KVWorkerClient::Terminate] *)
Definition Terminate (workerId MyDatabaseId : Z) : exchange :=
  Send_only (SimpleMessage KVOpTerminate workerId MyDatabaseId).

End WithSizes.
End ServerClient.

(** ** [src/kv_worker.cc]: the worker that answers every request *)

Module Worker.
Import Posix Msg.

(** This generation's view of [kv_storage.h]: [OpenConn] takes the options
    before the column flags and [RangeQueryRead] takes no connection. *)
Class Storage := {
  store : Type;
  OpenConn : list Z -> list Z -> bool -> Z -> store -> Z * store;
  CloseConn : Z -> store -> store;
  GetCount : Z -> store -> Z * store;
  PutRecord : Z -> list Z -> list Z -> store -> bool * store;
  GetRecord : Z -> list Z -> store -> (bool * list Z) * store;
  DelRecord : Z -> list Z -> store -> bool * store;
  GetIter : Z -> store -> Z * store;
  DelIter : Z -> store -> store;
  BatchRead : Z -> Z -> store -> (bool * Z * list Z) * store;
  ParseRangeQueryOptions : RangeQueryOpts -> store -> (Z * Z) * store;
  RangeQueryRead : Z -> Z -> store -> (bool * Z * Z) * store;
  ParseRangeQueryResult : Z -> store -> list Z * store;
  ClearRangeQueryMeta : Z -> Z -> store -> store;
}.

Section WithStorage.

Context {engine : Storage}.

Variable READBATCHSIZE : nat.
Variable sizeof_opts : nat.
Variable MSGBUFSIZE : nat.

(** Modelled from the spec: [struct KVCursorKey] is declared outside these
    sources. It holds a [pid_t] and the eight-byte cursor id that the
    handlers read behind it and print with [%lu]; the compiler aligns the id
    as it aligns [size] in [ReadBatchState], so the structure takes sixteen
    bytes. *)
Definition sizeof_KVCursorKey : nat := 16.

(** The fields of [KVWorker] the file uses. The header of this generation
    calls the response channel [resChan] and the entity size [bdySize];
    they are [rpsId] and [etySize] of [Msg.KVMessageHeader] here. *)
Record KVWorker := {
  running : bool;
  conn : Z;
  ref : Z;
  cursors : gmap (Z * Z) Z;
  ranges : gmap (Z * Z) KVRangeQueryEntry;
  sent : list KVMessage;
  channel_terminated : bool;
  segments : gmap (list Z) (list Z);
  db_store : store;
  calls : list call;
  log : list diag;
  overrun : bool;     (* a handler has written past the end of its [buf] *)
}.

Definition KVWorker_new (s0 : store) : KVWorker :=
  {| running := false; conn := 0; ref := 0; cursors := ∅; ranges := ∅;
     sent := []; channel_terminated := false; segments := ∅;
     db_store := s0; calls := []; log := [];
     overrun := false |}.

Definition set_running b (w : KVWorker) : KVWorker :=
  {| running := b; conn := conn w; ref := ref w; cursors := cursors w;
     ranges := ranges w; sent := sent w;
     channel_terminated := channel_terminated w;
     segments := segments w; db_store := db_store w; calls := calls w;
     log := log w; overrun := overrun w |}.
Definition set_conn c (w : KVWorker) : KVWorker :=
  {| running := running w; conn := c; ref := ref w; cursors := cursors w;
     ranges := ranges w; sent := sent w;
     channel_terminated := channel_terminated w;
     segments := segments w; db_store := db_store w; calls := calls w;
     log := log w; overrun := overrun w |}.
Definition set_ref r (w : KVWorker) : KVWorker :=
  {| running := running w; conn := conn w; ref := r; cursors := cursors w;
     ranges := ranges w; sent := sent w;
     channel_terminated := channel_terminated w;
     segments := segments w; db_store := db_store w; calls := calls w;
     log := log w; overrun := overrun w |}.
Definition set_cursors m (w : KVWorker) : KVWorker :=
  {| running := running w; conn := conn w; ref := ref w; cursors := m;
     ranges := ranges w; sent := sent w;
     channel_terminated := channel_terminated w;
     segments := segments w; db_store := db_store w; calls := calls w;
     log := log w; overrun := overrun w |}.
Definition set_ranges m (w : KVWorker) : KVWorker :=
  {| running := running w; conn := conn w; ref := ref w; cursors := cursors w;
     ranges := m; sent := sent w;
     channel_terminated := channel_terminated w;
     segments := segments w; db_store := db_store w; calls := calls w;
     log := log w; overrun := overrun w |}.
Definition set_segments m (w : KVWorker) : KVWorker :=
  {| running := running w; conn := conn w; ref := ref w; cursors := cursors w;
     ranges := ranges w; sent := sent w;
     channel_terminated := channel_terminated w;
     segments := m; db_store := db_store w; calls := calls w;
     log := log w; overrun := overrun w |}.
(** Modelled from the spec: [KVMessageQueue::Send] is not part of these
    sources; the message joins the responses sent so far. *)
Definition Send (msg : KVMessage) (w : KVWorker) : KVWorker :=
  {| running := running w; conn := conn w; ref := ref w; cursors := cursors w;
     ranges := ranges w; sent := sent w ++ [msg];
     channel_terminated := channel_terminated w;
     segments := segments w; db_store := db_store w; calls := calls w;
     log := log w; overrun := overrun w |}.
Definition logged (l : list diag) (w : KVWorker) : KVWorker :=
  {| running := running w; conn := conn w; ref := ref w; cursors := cursors w;
     ranges := ranges w; sent := sent w;
     channel_terminated := channel_terminated w;
     segments := segments w; db_store := db_store w; calls := calls w;
     log := log w ++ l; overrun := overrun w |}.
Definition called (c : call) (s : store) (w : KVWorker) : KVWorker :=
  {| running := running w; conn := conn w; ref := ref w; cursors := cursors w;
     ranges := ranges w; sent := sent w;
     channel_terminated := channel_terminated w;
     segments := segments w; db_store := s; calls := calls w ++ [c];
     log := log w; overrun := overrun w |}.

Definition set_overrun b (w : KVWorker) : KVWorker :=
  {| running := running w; conn := conn w; ref := ref w; cursors := cursors w;
     ranges := ranges w; sent := sent w;
     channel_terminated := channel_terminated w;
     segments := segments w; db_store := db_store w; calls := calls w;
     log := log w; overrun := b |}.

(** What the memory holds from the start of a handler's
    [char buf[MSGBUFSIZE]] on when the handler starts on the worker [w]: the
    array, a local variable that nothing initialises, and what lies behind
    it on the stack. It is a parameter of the model, and what is proved
    holds for every choice. *)
Variable uninitialised : KVWorker -> list Z.

(** The memory from [buf] on after [Recv] has copied [received] to its
    start: the bytes behind them are still what they were. *)
Definition buf_after_Recv (received : list Z) (w : KVWorker) : list Z :=
  received ++ drop (length received) (uninitialised w).

(** Nothing compares the number of bytes [Recv] copies with [MSGBUFSIZE]:
    when there are more, the copy goes on past the end of the array. *)
Definition Recv_size (size : Z) (w : KVWorker) : KVWorker :=
  if Z.of_nat MSGBUFSIZE <? size then set_overrun true w else w.

Definition do_ShmUnlink (name : list Z) (func : string) (w : KVWorker) : KVWorker :=
  let r := match segments w !! name with
           | Some _ => {| ret := 0; errno := 0 |}
           | None => {| ret := -1; errno := 2 |}
           end in
  logged (log_of (ShmUnlink r func)) (set_segments (delete name (segments w)) w).

(** [KVWorker::Start] *)
Definition Start (w : KVWorker) : KVWorker := set_running true w.

(** [KVWorker::Stop]. Of [channel->Terminate()], which is not part of
    these sources, the worker keeps that it was called. *)
Definition Stop (w : KVWorker) : KVWorker :=
  let w := set_running false w in
  {| running := running w; conn := conn w; ref := ref w; cursors := cursors w;
     ranges := ranges w; sent := sent w; channel_terminated := true;
     segments := segments w; db_store := db_store w; calls := calls w;
     log := log w; overrun := overrun w |}.

(** [KVWorker::Open] with [ReadOpenArgs]: the options and the column flags
    are read into [args], and the [size - delta] bytes that are left into
    [buf], where [args.path] points. The client sends the path without its
    terminating NUL ([WriteOpenArgs] writes [strlen(args->path)] bytes) and
    the worker adds none, so the string [OpenConn] is given runs on into what
    [buf] held before, up to the first zero byte. Whatever [OpenConn]
    returned, the answer is [SimpleSuccessMessage]. *)
Definition Open (msg : KVMessage) (w : KVWorker) : KVWorker :=
  let body := entity_of msg in
  let delta := (sizeof_opts + 1 + 4)%nat in
  let opts := take sizeof_opts body in
  let useColumn := negb (le_value (bytes_at body sizeof_opts 1) =? 0) in
  let attrCount := u32_at body (sizeof_opts + 1) in
  let buf := buf_after_Recv (drop delta body) w in
  let w := Recv_size (wrap64 (etySize (hdr msg) - Z.of_nat delta)) w in
  let path := strz buf in
  let w :=
    if conn w =? 0 then
      let '(c, s) := OpenConn path opts useColumn attrCount (db_store w) in
      set_conn c (called (CallOpenConn path) s w)
    else set_ref (wrap32 (ref w + 1)) w in
  Send (SuccessMessage (rpsId (hdr msg))) w.

(** [args.keyLen], [args.key], [args.val] and [args.valLen] as [Put] and
    [Load] take them from [buf]. *)
Definition read_PutArgs (msg : KVMessage) (buf : list Z) : list Z * list Z :=
  let keyLen := u64_at buf 0 in
  let valLen := wrap64 (etySize (hdr msg) - keyLen - 8) in
  (bytes_at buf 8 (Z.to_nat keyLen),
   bytes_at buf (8 + Z.to_nat keyLen) (Z.to_nat valLen)).

(** [KVWorker::Put] *)
Definition Put (msg : KVMessage) (w : KVWorker) : KVWorker :=
  let buf := buf_after_Recv (entity_of msg) w in
  let w := Recv_size (etySize (hdr msg)) w in
  let '(key, val) := read_PutArgs msg buf in
  let '(success, s) := PutRecord (conn w) key val (db_store w) in
  let w := called (CallPutRecord (conn w) key val) s w in
  if success then Send (SuccessMessage (rpsId (hdr msg))) w
  else Send (FailureMessage (rpsId (hdr msg))) w.

(** [KVWorker::Delete]: the key is the first [bdySize] bytes of [buf]. *)
Definition Delete (msg : KVMessage) (w : KVWorker) : KVWorker :=
  let buf := buf_after_Recv (entity_of msg) w in
  let w := Recv_size (etySize (hdr msg)) w in
  let key := take (Z.to_nat (etySize (hdr msg))) buf in
  let '(success, s) := DelRecord (conn w) key (db_store w) in
  let w := called (CallDelRecord (conn w) key) s w in
  if success then Send (SuccessMessage (rpsId (hdr msg))) w
  else Send (FailureMessage (rpsId (hdr msg))) w.

(** [KVWorker::Load] *)
Definition Load (msg : KVMessage) (w : KVWorker) : KVWorker :=
  let buf := buf_after_Recv (entity_of msg) w in
  let w := Recv_size (etySize (hdr msg)) w in
  let '(key, val) := read_PutArgs msg buf in
  let '(_, s) := PutRecord (conn w) key val (db_store w) in
  called (CallPutRecord (conn w) key val) s w.

(** [KVWorker::Get]: the key is the first [bdySize] bytes of [key]. *)
Definition Get (msg : KVMessage) (w : KVWorker) : KVWorker :=
  let buf := buf_after_Recv (entity_of msg) w in
  let w := Recv_size (etySize (hdr msg)) w in
  let key := take (Z.to_nat (etySize (hdr msg))) buf in
  let '(success, val, s) := GetRecord (conn w) key (db_store w) in
  let w := called (CallGetRecord (conn w) key) s w in
  if success then Send (with_entity (SuccessMessage (rpsId (hdr msg))) val) w
  else Send (FailureMessage (rpsId (hdr msg))) w.

(** [KVWorker::Close] *)
Definition Close (msg : KVMessage) (w : KVWorker) : KVWorker :=
  let w := if conn w =? 0 then w else set_ref (wrap32 (ref w - 1)) w in
  Send (SuccessMessage (rpsId (hdr msg))) w.

(** [KVWorker::Count] *)
Definition Count (msg : KVMessage) (w : KVWorker) : KVWorker :=
  let '(count, s) := GetCount (conn w) (db_store w) in
  let w := called (CallGetCount (conn w)) s w in
  Send {| hdr := {| op := KVOpDummy; dbId := 0; relId := 0;
                    status := KVStatusDummy; rpsId := rpsId (hdr msg);
                    etySize := 8 |};
          ety := le_bytes 8 count |} w.

(** [KVWorker::Terminate] *)
Definition Terminate (msg : KVMessage) (w : KVWorker) : KVWorker := Stop w.

Definition state_message (channel : Z) (st : ReadBatchState) : KVMessage :=
  {| hdr := {| op := KVOpDummy; dbId := 0; relId := 0;
               status := KVStatusSuccess; rpsId := channel; etySize := 16 |};
     ety := WriteReadBatchState st |}.

(** [KVWorker::ReadBatch] *)
Definition ReadBatch (msg : KVMessage) (w : KVWorker) : KVWorker :=
  let body := entity_of msg in
  let key := (key_pid body, key_opid body) in
  let '(cursor, w) :=
    match cursors w !! key with
    | None =>
        let '(c, s) := GetIter (conn w) (db_store w) in
        let w := called (CallGetIter (conn w)) s w in
        (c, set_cursors (<[key := c]> (cursors w)) w)
    | Some c => (c, w)
    end in
  let name := segment_name READBATCHPATH (fst key) (relId (hdr msg)) (snd key) in
  let w := do_ShmUnlink name "ReadBatch" w in
  let '(nx, sz, data, s) := BatchRead (conn w) cursor (db_store w) in
  let w := called (CallBatchRead (conn w) cursor) s w in
  let w := set_segments
             (<[name := memcpy (replicate READBATCHSIZE 0) 0 data]> (segments w)) w in
  Send (state_message (rpsId (hdr msg)) {| next := nx; size := sz |}) w.

(** [KVWorker::CloseCursor]: answered with success either way. *)
Definition CloseCursor (msg : KVMessage) (w : KVWorker) : KVWorker :=
  let body := entity_of msg in
  let key := (key_pid body, key_opid body) in
  match cursors w !! key with
  | None => Send (SuccessMessage (rpsId (hdr msg))) w
  | Some cursor =>
      let w := called (CallDelIter cursor) (DelIter cursor (db_store w)) w in
      let w := set_cursors (delete key (cursors w)) w in
      Send (SuccessMessage (rpsId (hdr msg))) w
  end.

(** The [do ... while (state.next && state.size == 0)] of
    [KVWorker::RangeQuery]. *)
Fixpoint read_chunks (fuel : nat) (entry : KVRangeQueryEntry) (w : KVWorker)
  : option (ReadBatchState * Z * KVWorker) :=
  match fuel with
  | O => None
  | S fuel' =>
      let '(nx, sz, result, s) :=
        RangeQueryRead (range entry) (readOpts entry) (db_store w) in
      let w := called (CallRangeQueryRead (range entry) (readOpts entry)) s w in
      let sz := wrap64 sz in      (* state.size is a uint64 *)
      if nx && (sz =? 0) then read_chunks fuel' entry w
      else Some ({| next := nx; size := sz |}, result, w)
  end.

(** The reads of the loop, begun on the store [s], come to a chunk that is
    not empty or to the last one: the loop is left. *)
Inductive scan_ends (entry : KVRangeQueryEntry) : store -> Prop :=
| scan_ends_now s nx sz result s' :
    RangeQueryRead (range entry) (readOpts entry) s = (nx, sz, result, s') ->
    nx && (wrap64 sz =? 0) = false ->
    scan_ends entry s
| scan_ends_later s nx sz result s' :
    RangeQueryRead (range entry) (readOpts entry) s = (nx, sz, result, s') ->
    nx && (wrap64 sz =? 0) = true ->
    scan_ends entry s' ->
    scan_ends entry s.

(** The first part of [KVWorker::RangeQuery]: the entry registered for the
    key of the request, made from the options of the request when there is
    none. The options are decoded from [buf + sizeof(key)] on. *)
Definition RangeQuery_entry (msg : KVMessage) (w : KVWorker)
  : KVRangeQueryEntry * KVWorker :=
  let body := entity_of msg in
  let key := (key_pid body, key_opid body) in
  match ranges w !! key with
  | None =>
      let opts := read_RangeQueryOpts
                    (drop sizeof_KVCursorKey (buf_after_Recv body w)) in
      let '(r, ro, s) := ParseRangeQueryOptions opts (db_store w) in
      let w := called CallParseRangeQueryOptions s w in
      let entry := {| range := r; readOpts := ro |} in
      (entry, set_ranges (<[key := entry]> (ranges w)) w)
  | Some entry => (entry, w)
  end.

(** The scan a range query for [msg] starts on [w] comes to an end. *)
Definition scan_of_ends (msg : KVMessage) (w : KVWorker) : Prop :=
  scan_ends (fst (RangeQuery_entry msg w))
            (db_store (snd (RangeQuery_entry msg w))).

(** [KVWorker::RangeQuery] *)
Definition RangeQuery (fuel : nat) (msg : KVMessage) (w : KVWorker)
  : option KVWorker :=
  let body := entity_of msg in
  let key := (key_pid body, key_opid body) in
  let '(entry, w) := RangeQuery_entry msg w in
  match read_chunks fuel entry w with
  | None => None
  | Some (state, result, w) =>
      let name := segment_name RANGEQUERYPATH (fst key) (relId (hdr msg)) (snd key) in
      let w := do_ShmUnlink name "RangeQuery" w in
      let '(data, s) := ParseRangeQueryResult result (db_store w) in
      let w := called (CallParseRangeQueryResult result) s w in
      let w :=
        if 0 <? size state
        then set_segments
               (<[name := memcpy (replicate (Z.to_nat (size state)) 0) 0 data]>
                  (segments w)) w
        else w in
      Some (Send (state_message (rpsId (hdr msg)) state) w)
  end.

(** [KVWorker::ClearRangeQuery] *)
Definition ClearRangeQuery (msg : KVMessage) (w : KVWorker) : KVWorker :=
  let body := entity_of msg in
  let key := (key_pid body, key_opid body) in
  match ranges w !! key with
  | None => w
  | Some entry =>
      let w := called (CallClearRangeQueryMeta (range entry) (readOpts entry))
                 (ClearRangeQueryMeta (range entry) (readOpts entry) (db_store w))
                 w in
      let w := set_ranges (delete key (ranges w)) w in
      do_ShmUnlink
        (segment_name RANGEQUERYPATH (fst key) (relId (hdr msg)) (snd key))
        "ClearRangeQuery" w
  end.

(** The [switch (msg.hdr.op)] of [KVWorker::Run]. *)
Definition handle (fuel : nat) (msg : KVMessage) (w : KVWorker)
  : option KVWorker :=
  let o := op (hdr msg) in
  if o =? KVOpDummy then Some w
  else if o =? KVOpOpen then Some (Open msg w)
  else if o =? KVOpClose then Some (Close msg w)
  else if o =? KVOpCount then Some (Count msg w)
  else if o =? KVOpPut then Some (Put msg w)
  else if o =? KVOpGet then Some (Get msg w)
  else if o =? KVOpDel then Some (Delete msg w)
  else if o =? KVOpLoad then Some (Load msg w)
  else if o =? KVOpTerminate then Some (Terminate msg w)
  else if o =? KVOpReadBatch then Some (ReadBatch msg w)
  else if o =? KVOpDelCursor then Some (CloseCursor msg w)
  else if o =? KVOpRangeQuery then RangeQuery fuel msg w
  else if o =? KVOpClearRangeQuery then Some (ClearRangeQuery msg w)
  else Some (logged [Ereport WARNING "unsupported op in kv worker" None] w).

Inductive run_result :=
| Exited (w : KVWorker) (unread : list KVMessage)
| Waiting (w : KVWorker)
| Looping (w : KVWorker).

(** [KVWorker::Run], over the headers its [Recv(msg, MSGHEADER)] return
    and the entities that go with them. *)
Fixpoint Run (fuel : nat) (inbox : list KVMessage) (w : KVWorker) : run_result :=
  match inbox with
  | [] => if running w then Waiting w else Exited w []
  | msg :: rest =>
      if running w then
        match handle fuel msg w with
        | Some w' => Run fuel rest w'
        | None => Looping w
        end
      else Exited w inbox
  end.

(** What [w'] has in common with an earlier [w]: still running if [w] was,
    the same connection if [w] had one, and, since [w], no call to
    [CloseConn]. *)
Definition kept (w w' : KVWorker) : Prop :=
  running w' = running w /\
  (conn w <> 0 -> conn w' = conn w) /\
  exists new, calls w' = calls w ++ new /\
              Forall (fun c => is_CloseConn c = false) new.

(** [KVWorker::~KVWorker]: closes the connection, if there is one. *)
Definition KVWorker_delete (w : KVWorker) : KVWorker :=
  if conn w =? 0 then w
  else set_conn 0
         (called (CallCloseConn (conn w)) (CloseConn (conn w) (db_store w)) w).

(** [StartKVWorker], from [worker->Start()] on. *)
Definition StartKVWorker (fuel : nat) (inbox : list KVMessage) (s0 : store)
  : run_result :=
  match Run fuel inbox (Start (KVWorker_new s0)) with
  | Exited w unread => Exited (KVWorker_delete w) unread
  | r => r
  end.

End WithStorage.
End Worker.

(** ** [src/kv_worker.cc]: the client stub *)

Module WorkerClient.
Import Posix Msg.

Section WithSizes.

Variable sizeof_opts : nat.

(** [WriteOpenArgs] *)
Definition WriteOpenArgs (args : OpenArgs.t) : list Z :=
  let written := Push [] (OpenArgs.opts args) in
  let written := Push written [if OpenArgs.useColumn args then 1 else 0] in
  let written := Push written (le_bytes 4 (OpenArgs.attrCount args)) in
  Push written (OpenArgs.path args).

(** [recvmsg.hdr.status == KVStatusSuccess] *)
Definition succeeded (recvmsg : KVMessage) : bool :=
  bool_decide (status (hdr recvmsg) = KVStatusSuccess).

(** [KVWorkerClient::Open]: waits for the answer. *)
Definition Open (workerId MyDatabaseId channel : Z) (args : OpenArgs.t) : exchange :=
  let size := Z.of_nat sizeof_opts + Z.of_nat (length (OpenArgs.path args)) in
  let size := wrap64 (size + (1 + 4)) in
  SendWithResponse channel
    (with_body (SimpleMessage KVOpOpen workerId MyDatabaseId) size
       (WriteOpenArgs args)).

(** [WritePutArgs] *)
Definition WritePutArgs (args : PutArgs.t) : list Z :=
  let written := Push [] (le_bytes 8 (Z.of_nat (length (PutArgs.key args)))) in
  let written := Push written (PutArgs.key args) in
  Push written (PutArgs.val args).

(** [KVWorkerClient::Put] *)
Definition Put (workerId MyDatabaseId channel : Z) (args : PutArgs.t) : exchange :=
  let size := wrap64 (Z.of_nat (length (PutArgs.key args))
                      + Z.of_nat (length (PutArgs.val args)) + 8) in
  SendWithResponse channel
    (with_body (SimpleMessage KVOpPut workerId MyDatabaseId) size
       (WritePutArgs args)).

(** [KVWorkerClient::Delete] *)
Definition Delete (workerId MyDatabaseId channel : Z) (key : list Z) : exchange :=
  SendWithResponse channel
    (with_body (SimpleMessage KVOpDel workerId MyDatabaseId)
       (Z.of_nat (length key)) (CommonWriteEntity key)).

(** [KVWorkerClient::Load] *)
Definition Load (workerId MyDatabaseId : Z) (args : PutArgs.t) : exchange :=
  let size := wrap64 (Z.of_nat (length (PutArgs.key args))
                      + Z.of_nat (length (PutArgs.val args)) + 8) in
  Send_only (with_body (SimpleMessage KVOpLoad workerId MyDatabaseId) size
               (WritePutArgs args)).

(** [KVWorkerClient::Get] *)
Definition Get (workerId MyDatabaseId chan : Z) (key : list Z) : exchange :=
  let sendmsg := with_body (SimpleMessage KVOpGet workerId MyDatabaseId)
                   (Z.of_nat (length key)) (CommonWriteEntity key) in
  {| request := on_channel chan sendmsg; awaits := true |}.

Definition Get_result (recvmsg : KVMessage) : bool * list Z :=
  (succeeded recvmsg, entity_of recvmsg).

(** [KVWorkerClient::Close]: waits for the answer. *)
Definition Close (workerId MyDatabaseId channel : Z) : exchange :=
  SendWithResponse channel (SimpleMessage KVOpClose workerId MyDatabaseId).

(** [KVWorkerClient::Count] *)
Definition Count (workerId MyDatabaseId channel : Z) : exchange :=
  SendWithResponse channel (SimpleMessage KVOpCount workerId MyDatabaseId).

Definition Count_result (recvmsg : KVMessage) : Z :=
  le_value (take 8 (ety recvmsg)).

(** [KVWorkerClient::Terminate] *)
Definition Terminate (workerId MyDatabaseId : Z) : exchange :=
  Send_only (SimpleMessage KVOpTerminate workerId MyDatabaseId).

(** [WriteReadBatchArgs] and [WriteDelCursorArgs] *)
Definition WriteReadBatchArgs (pid cursor : Z) : list Z :=
  let written := Push [] (le_bytes 4 pid) in
  Push written (le_bytes 8 cursor).

Definition WriteDelCursorArgs (pid cursor : Z) : list Z :=
  let written := Push [] (le_bytes 4 pid) in
  Push written (le_bytes 8 cursor).

(** [KVWorkerClient::ReadBatch] *)
Definition ReadBatch (workerId MyDatabaseId channel pid cursor : Z) : exchange :=
  SendWithResponse channel
    (with_body (SimpleMessage KVOpReadBatch workerId MyDatabaseId) (4 + 8)
       (WriteReadBatchArgs pid cursor)).

Definition ReadBatch_result (workerId pid cursor : Z) (prev : Batch.t)
    (recvmsg : KVMessage) : Batch.t :=
  if negb (succeeded recvmsg) then
    {| Batch.next := false; Batch.bufLen := Batch.bufLen prev;
       Batch.buf := Batch.buf prev |}
  else
    let buf := ety recvmsg in
    let next := negb (le_value (take 1 buf) =? 0) in
    let bufLen := le_value (take 8 (drop 1 buf)) in
    {| Batch.next := next; Batch.bufLen := bufLen;
       Batch.buf := if bufLen =? 0 then None
                    else Some (segment_name READBATCHPATH pid workerId cursor) |}.

(** [KVWorkerClient::CloseCursor]: the name the client unlinks itself, and
    the request, whose answer it waits for. *)
Definition CloseCursor (workerId MyDatabaseId channel pid cursor : Z)
  : list Z * exchange :=
  (segment_name READBATCHPATH pid workerId cursor,
   SendWithResponse channel
     (with_body (SimpleMessage KVOpDelCursor workerId MyDatabaseId)
        (4 + 8) (WriteDelCursorArgs pid cursor))).

(** [WriteRangeQueryArgs] *)
Definition WriteRangeQueryArgs (pid cursor : Z) (opts : option RangeQueryOpts)
  : list Z :=
  let written := Push [] (le_bytes 4 pid) in
  let written := Push written (le_bytes 8 cursor) in
  match opts with
  | None => written
  | Some opts =>
      let written := Push written (le_bytes 8 (startLen opts)) in
      let written :=
        if 0 <? startLen opts
        then Push written (take (Z.to_nat (startLen opts)) (start opts))
        else written in
      let written := Push written (le_bytes 8 (limitLen opts)) in
      let written :=
        if 0 <? limitLen opts
        then Push written (take (Z.to_nat (limitLen opts)) (limit opts))
        else written in
      let written := Push written (le_bytes 8 (batchCapacity opts)) in
      let written := Push written (le_bytes 4 (attrCount opts)) in
      if 0 <? attrCount opts
      then Push written (take (Z.to_nat (attrCount opts) * 2) (attrs opts))
      else written
  end.

Definition RangeQuery_size (opts : option RangeQueryOpts) : Z :=
  match opts with
  | None => 4 + 8
  | Some opts =>
      wrap64 (4 + 8 + 8 + startLen opts + 8 + limitLen opts + 4
              + attrCount opts * 2 + 8)
  end.

(** [KVWorkerClient::RangeQuery] *)
Definition RangeQuery (workerId MyDatabaseId channel pid cursor : Z)
    (opts : option RangeQueryOpts) : exchange :=
  SendWithResponse channel
    (with_body (SimpleMessage KVOpRangeQuery workerId MyDatabaseId)
       (RangeQuery_size opts) (WriteRangeQueryArgs pid cursor opts)).

Definition RangeQuery_result (workerId pid cursor : Z) (prev : Batch.t)
    (recvmsg : KVMessage) : Batch.t :=
  if negb (succeeded recvmsg) then
    {| Batch.next := false; Batch.bufLen := Batch.bufLen prev;
       Batch.buf := Batch.buf prev |}
  else
    let buf := ety recvmsg in
    let next := negb (le_value (take 1 buf) =? 0) in
    let bufLen := le_value (take 8 (drop 1 buf)) in
    {| Batch.next := next; Batch.bufLen := bufLen;
       Batch.buf := if bufLen =? 0 then None
                    else Some (segment_name RANGEQUERYPATH pid workerId cursor) |}.

(** [KVWorkerClient::ClearRangeQuery] *)
Definition ClearRangeQuery (workerId MyDatabaseId pid cursor : Z) : exchange :=
  Send_only (with_body (SimpleMessage KVOpClearRangeQuery workerId MyDatabaseId)
               (4 + 8) (WriteRangeQueryArgs pid cursor None)).

End WithSizes.
End WorkerClient.

(** ** Synthetic collaborators *)

Module Synthetic.

(** A storage engine for [kv_shm.c] that hands out the address [4096]
    for every handle, counts 42 records in every table, finds none and
    accepts every write. *)
#[local] Instance shm_engine : Shm.Storage := {|
  Shm.store := unit;
  Shm.Open := fun _ _ _ s => (4096, s);
  Shm.Close := fun _ s => s;
  Shm.Count := fun _ s => (42, s);
  Shm.GetIter := fun _ s => (4096, s);
  Shm.DelIter := fun _ s => s;
  Shm.Next := fun _ _ s => (false, [], [], s);
  Shm.Get := fun _ _ s => (false, [], s);
  Shm.Put := fun _ _ _ s => (true, s);
  Shm.Delete := fun _ _ s => (true, s);
  Shm.RangeQuery := fun _ _ _ _ _ _ _ s => (false, 0, 0, s);
|}.

(** An order of the [FuncName] enumerators, for running examples. *)
Definition code (f : Shm.FuncName) : Z :=
  match f with
  | Shm.OPEN => 0 | Shm.CLOSE => 1 | Shm.COUNT => 2 | Shm.GETITER => 3
  | Shm.DELITER => 4 | Shm.NEXT => 5 | Shm.GET => 6 | Shm.PUT => 7
  | Shm.DELETE => 8 | Shm.RANGEQUERY => 9 | Shm.TERMINATE => 10
  end.

(** A scripted range scan: the chunks still to come, each with its
    "more to come" flag, and the chunk handed out last. *)
Record script := { pending : list (list Z * bool); last : list Z }.

Definition script_read (s : script) : (bool * Z * Z) * script :=
  match pending s with
  | [] => ((false, 0, 0), {| pending := []; last := [] |})
  | (data, more) :: rest =>
      ((more, Z.of_nat (length data), 1), {| pending := rest; last := data |})
  end.

(** A storage engine for the message-queue workers whose range scan plays
    a script; [open_result] is what [OpenConn] returns ([0] for a failed
    open). *)
Definition scripted (open_result : Z) : Msg.Storage := {|
  Msg.store := script;
  Msg.OpenConn := fun _ _ _ _ s => (open_result, s);
  Msg.CloseConn := fun _ s => s;
  Msg.GetCount := fun _ s => (0, s);
  Msg.PutRecord := fun _ _ _ s => (true, s);
  Msg.GetRecord := fun _ _ s => (false, [], s);
  Msg.DelRecord := fun _ _ s => (true, s);
  Msg.GetIter := fun _ s => (4096, s);
  Msg.DelIter := fun _ s => s;
  Msg.BatchRead := fun _ _ s => (false, 0, [], s);
  Msg.ParseRangeQueryOptions := fun _ s => (1, 2, s);
  Msg.RangeQueryRead := fun _ _ _ s => script_read s;
  Msg.ParseRangeQueryResult := fun _ s => (last s, s);
  Msg.ClearRangeQueryMeta := fun _ _ s => s;
|}.

Definition scripted' (open_result : Z) : Worker.Storage := {|
  Worker.store := script;
  Worker.OpenConn := fun _ _ _ _ s => (open_result, s);
  Worker.CloseConn := fun _ s => s;
  Worker.GetCount := fun _ s => (0, s);
  Worker.PutRecord := fun _ _ _ s => (true, s);
  Worker.GetRecord := fun _ _ s => (false, [], s);
  Worker.DelRecord := fun _ _ s => (true, s);
  Worker.GetIter := fun _ s => (4096, s);
  Worker.DelIter := fun _ s => s;
  Worker.BatchRead := fun _ _ s => (false, 0, [], s);
  Worker.ParseRangeQueryOptions := fun _ s => (1, 2, s);
  Worker.RangeQueryRead := fun _ _ s => script_read s;
  Worker.ParseRangeQueryResult := fun _ s => (last s, s);
  Worker.ClearRangeQueryMeta := fun _ _ s => s;
|}.

(** What the examples find in a handler's buffer before anything is
    received: sixty-four bytes, the letter x throughout. *)
Definition stack {E' : Worker.Storage} (w : Worker.KVWorker) : list Z :=
  replicate 64 120.

(** A request header for operation [o] on response channel [ch], with
    entity [body]. *)
Definition request (o ch : Z) (body : list Z) : Msg.KVMessage :=
  {| Msg.hdr := {| Msg.op := o; Msg.dbId := 1; Msg.relId := 7;
                   Msg.status := Msg.KVStatusDummy; Msg.rpsId := ch;
                   Msg.etySize := Z.of_nat (length body) |};
     Msg.ety := body |}.

(** The entity that names cursor [(pid, opid)]. *)
Definition cursor_key (pid opid : Z) : list Z :=
  le_bytes 4 pid ++ le_bytes 8 opid.

(** What a client sees of a reply that carries a [ReadBatchState]:
    the flag and the size, as [KVWorkerClient::RangeQuery] reads them. *)
Definition visible (m : Msg.KVMessage) : bool * Z :=
  (negb (le_value (take 1 (Msg.ety m)) =? 0), le_value (take 8 (drop 1 (Msg.ety m)))).

(** The control block as [cleanup_handler] leaves it for the worker: the
    slot taken, response slot 1 leased, TERMINATE and the response id in the
    area, and the worker past its [SemWait]. *)
Definition terminate_pending : Shm.system (engine := shm_engine) :=
  {| Shm.shm :=
       {| Shm.mutex := 1%nat; Shm.full := 0%nat; Shm.agent0 := 0%nat;
          Shm.agent1 := 0%nat; Shm.worker := 0%nat;
          Shm.responseMutex := [1%nat; 0%nat];
          Shm.responseSync := [0%nat; 0%nat];
          Shm.workerProcessCreated := true;
          Shm.area := le_bytes 4 (code Shm.TERMINATE) ++ le_bytes 4 1
                      ++ replicate 8 0 |};
     Shm.clients := [];
     Shm.wpc := Shm.W_copy_func; Shm.w_func := 0; Shm.w_responseId := 0%nat;
     Shm.w_buf := replicate 16 0;
     Shm.wstate := Shm.worker_init (engine := shm_engine) 2 16 tt;
     Shm.forked := 1%nat |}.

(** The worker in front of its switch with an operation code that is no
    enumerator of [FuncName]. *)
Definition unknown_pending : Shm.system (engine := shm_engine) :=
  {| Shm.shm := Shm.SharedMem_init 2 16 0;
     Shm.clients := [];
     Shm.wpc := Shm.W_switch; Shm.w_func := 99; Shm.w_responseId := 0%nat;
     Shm.w_buf := replicate 16 0;
     Shm.wstate := Shm.worker_init (engine := shm_engine) 2 16 tt;
     Shm.forked := 1%nat |}.

(** A fresh worker of each message-queue generation, started. *)
Definition server_worker (open_result : Z) : Server.KVWorker (engine := scripted open_result) :=
  Server.Start (Server.KVWorker_new (engine := scripted open_result)
                  {| pending := []; last := [] |}).
Definition queue_worker (open_result : Z) : Worker.KVWorker (engine := scripted' open_result) :=
  Worker.Start (Worker.KVWorker_new (engine := scripted' open_result)
                  {| pending := []; last := [] |}).

(** An Open request for the path ["/7"] with empty comparator options. *)
Definition open_request : Msg.KVMessage :=
  request Msg.KVOpOpen 0 [0; 0; 0; 0; 0; 47; 55].

(** The script of the specification: two empty chunks with more to come,
    a chunk of three bytes with more to come, an empty last chunk. *)
Definition four_chunks : script :=
  {| pending := [([], true); ([], true); ([10; 20; 30], true); ([], false)];
     last := [] |}.

(** A range-query request of client 1234 for operation 1 with no bounds,
    a batch capacity of 64 and no projection. *)
Definition range_request : Msg.KVMessage :=
  request Msg.KVOpRangeQuery 5
    (cursor_key 1234 1 ++ le_bytes 8 0 ++ le_bytes 8 0 ++ le_bytes 8 64
     ++ le_bytes 4 0).

(** A worker of [kv_shm.c] with relation 7 open once. *)
Definition worker_with_7 : Shm.worker_state (engine := shm_engine) :=
  Shm.set_table
    {[ 7 := {| Shm.relationId := 7; Shm.ref := 1; Shm.db := 4096 |} ]}
    (Shm.worker_init (engine := shm_engine) 2 16 tt).

(** A worker of [kv_shm.c] with no relation open. *)
Definition fresh_worker : Shm.worker_state (engine := shm_engine) :=
  Shm.worker_init (engine := shm_engine) 2 16 tt.

(** A backend that opens the table at ["/7"], puts a one-byte key with an
    eight-byte value, and from then on counts the records of relation 7. *)
Definition backend (k : nat) : Shm.routine :=
  match k with
  | O => Shm.OpenRequest_of false 0 [47; 55]
  | 1%nat => Shm.PutRequest_of 7 [1] [2; 3; 4; 5; 6; 7; 8; 9]
  | _ => Shm.CountRequest_of 7
  end.

(** The thread of the postmaster: one turn of its loop, then cancelled. *)
Definition launcher (k : nat) : Shm.routine :=
  match k with
  | O => Shm.KVStorageThreadFun_of
  | _ => Shm.cleanup_handler_of
  end.

(** The backend's [OpenRequest] with the launcher's turn in the middle of
    it, and the worker's turn that serves it. *)
Definition open_served : list (option nat) :=
  let c := Some 0%nat in
  let l := Some 1%nat in
  [c; c; c; l; l; l; l; c; c; c; c; c; c; c; c; c; c; c;
   None; None; None; None; None; None; None; c; c].

End Synthetic.
(** * Properties *)

Section PoolFacts.
Import Posix Shm.
Local Open Scope nat_scope.

Variable N : nat.

Lemma holders_insert i ps p old new :
  ps !! p = Some old ->
  holders i (<[p:=new]> ps) + (if decide (old = Leased i) then 1 else 0)
  = holders i ps + (if decide (new = Leased i) then 1 else 0).
Proof.
  revert p. induction ps as [|pc ps IH]; intros [|p] H; simpl in *; try discriminate.
  - inversion H; subst. lia.
  - specialize (IH p H). lia.
Qed.

Lemma holders_replicate_idle i n : holders i (replicate n Idle) = 0.
Proof. induction n; simpl; auto. Qed.

Lemma holders_two i ps p q :
  p <> q -> ps !! p = Some (Leased i) -> ps !! q = Some (Leased i) ->
  2 <= holders i ps.
Proof.
  revert p q. induction ps as [|pc ps IH]; intros [|p] [|q] Hne Hp Hq;
    simpl in *; try discriminate; try congruence.
  - inversion Hp; subst. rewrite decide_True by reflexivity.
    pose proof (holders_insert i ps q (Leased i) (Leased i) Hq) as E.
    assert (1 <= holders i ps).
    { clear -Hq. revert q Hq. induction ps as [|a ps IH]; intros [|q] Hq; simpl in *;
        try discriminate.
      - inversion Hq; subst. rewrite decide_True by reflexivity. lia.
      - specialize (IH q Hq). lia. }
    lia.
  - inversion Hq; subst. rewrite decide_True by reflexivity.
    assert (1 <= holders i ps).
    { clear -Hp. revert p Hp. induction ps as [|a ps IH]; intros [|p] Hp; simpl in *;
        try discriminate.
      - inversion Hp; subst. rewrite decide_True by reflexivity. lia.
      - specialize (IH p Hp). lia. }
    lia.
  - assert (p <> q) by congruence. specialize (IH p q H Hp Hq). lia.
Qed.


Lemma holders_at_least_one i ps p :
  ps !! p = Some (Leased i) -> 1 <= holders i ps.
Proof.
  intros H. pose proof (holders_insert i ps p (Leased i) Idle H) as E.
  rewrite decide_True in E by reflexivity.
  rewrite decide_False in E by discriminate. lia.
Qed.

Lemma try_slot_busy sems i :
  sems !! i = Some 0 -> try_slot sems i = Return ((-1)%Z, sems) [].
Proof.
  intros H. unfold try_slot. rewrite H. simpl.
  rewrite list_insert_id by exact H. reflexivity.
Qed.

Lemma try_slot_free sems i v :
  sems !! i = Some (S v) -> try_slot sems i = Return (0%Z, <[i:=v]> sems) [].
Proof. intros H. unfold try_slot. rewrite H. reflexivity. Qed.

Lemma scan_from_none n : forall i sems,
  (forall j, i <= j < i + n -> sems !! j = Some 0) ->
  scan_from n i sems = Return (None, sems) [].
Proof.
  induction n as [|n IH]; intros i sems H; simpl; [reflexivity|].
  rewrite try_slot_busy by (apply H; lia). simpl.
  apply IH. intros j Hj. apply H. lia.
Qed.

Lemma scan_from_first n : forall i sems k v,
  i <= k < i + n ->
  sems !! k = Some (S v) ->
  (forall j, i <= j < k -> sems !! j = Some 0) ->
  scan_from n i sems = Return (Some k, <[k:=v]> sems) [].
Proof.
  induction n as [|n IH]; intros i sems k v Hk Hfree Hbusy; simpl; [lia|].
  destruct (decide (i = k)) as [->|Hne].
  - rewrite (try_slot_free _ _ _ Hfree). reflexivity.
  - rewrite try_slot_busy by (apply Hbusy; lia). simpl.
    apply IH; [lia | exact Hfree | intros j Hj; apply Hbusy; lia].
Qed.

Lemma lease_never_returns_when_full fuel : forall sems,
  (forall i, i < N -> sems !! i = Some 0) ->
  GetResponseQueueIndex N fuel sems = None.
Proof.
  induction fuel as [|fuel IH]; intros sems H; simpl; [reflexivity|].
  rewrite scan_from_none by (intros j Hj; apply H; lia).
  apply IH, H.
Qed.

Lemma lease_returns_first_free fuel sems k v :
  k < N ->
  sems !! k = Some (S v) ->
  (forall j, j < k -> sems !! j = Some 0) ->
  GetResponseQueueIndex N (S fuel) sems = Some (Return (k, <[k:=v]> sems) []).
Proof.
  intros Hk Hfree Hbusy. simpl.
  rewrite (scan_from_first N 0 sems k v); [reflexivity|lia|exact Hfree|].
  intros j Hj. apply Hbusy. lia.
Qed.

Lemma pool_step_invariant p st :
  pool_inv N st -> pool_inv N (pool_step N p st).
Proof.
  intros (Hlen & Hin & Hout). unfold pool_step.
  destruct (procs st !! p) as [pc|] eqn:Hp; [|repeat split; assumption].
  unfold pool_inv.
  destruct pc as [|i|i|]; simpl.
  - (* Idle: enters the loop *)
    split; [exact Hlen|]. split.
    + intros i Hi. destruct (Hin i Hi) as (v & Hv & Hs). exists v.
      split; [exact Hv|]. simpl.
      pose proof (holders_insert i (procs st) p Idle (Scanning 0) Hp) as E.
      rewrite !decide_False in E by discriminate. lia.
    + intros i Hi. simpl.
      pose proof (holders_insert i (procs st) p Idle (Scanning 0) Hp) as E.
      rewrite !decide_False in E by discriminate. specialize (Hout i Hi). lia.
  - (* Scanning i *)
    destruct (i <? N) eqn:HiN.
    + apply Nat.ltb_lt in HiN. destruct (Hin i HiN) as (v & Hv & Hs).
      destruct v as [|v].
      * (* busy: on to the next index *)
        rewrite (try_slot_busy _ _ Hv). simpl.
        split; [exact Hlen|]. split.
        -- intros j Hj. destruct (Hin j Hj) as (u & Hu & Hsu). exists u.
           split; [exact Hu|]. simpl.
           pose proof (holders_insert j (procs st) p (Scanning i) (Scanning (S i)) Hp) as E.
           rewrite !decide_False in E by discriminate. lia.
        -- intros j Hj. simpl.
           pose proof (holders_insert j (procs st) p (Scanning i) (Scanning (S i)) Hp) as E.
           rewrite !decide_False in E by discriminate. specialize (Hout j Hj). lia.
      * (* free: taken *)
        rewrite (try_slot_free _ _ _ Hv). simpl.
        split; [rewrite length_insert; exact Hlen|]. split.
        -- intros j Hj. simpl.
           pose proof (holders_insert j (procs st) p (Scanning i) (Leased i) Hp) as E.
           rewrite decide_False in E by discriminate.
           destruct (decide (j = i)) as [->|Hne].
           ++ exists v. split; [apply list_lookup_insert_eq; lia|].
              rewrite decide_True in E by reflexivity. lia.
           ++ destruct (Hin j Hj) as (u & Hu & Hsu). exists u.
              split; [rewrite list_lookup_insert_ne by congruence; exact Hu|].
              rewrite decide_False in E by congruence. lia.
        -- intros j Hj. simpl.
           pose proof (holders_insert j (procs st) p (Scanning i) (Leased i) Hp) as E.
           rewrite decide_False in E by discriminate.
           rewrite decide_False in E by (intros [= ->]; lia).
           specialize (Hout j Hj). lia.
    + (* the for loop is over: start again at 0 *)
      split; [exact Hlen|]. split.
      * intros j Hj. destruct (Hin j Hj) as (u & Hu & Hsu). exists u.
        split; [exact Hu|]. simpl.
        pose proof (holders_insert j (procs st) p (Scanning i) (Scanning 0) Hp) as E.
        rewrite !decide_False in E by discriminate. lia.
      * intros j Hj. simpl.
        pose proof (holders_insert j (procs st) p (Scanning i) (Scanning 0) Hp) as E.
        rewrite !decide_False in E by discriminate. specialize (Hout j Hj). lia.
  - (* Leased i: gives the slot back *)
    pose proof (holders_at_least_one i (procs st) p Hp) as H1.
    assert (HiN : i < N).
    { destruct (Nat.lt_ge_cases i N) as [|Hge]; [assumption|].
      specialize (Hout i Hge). lia. }
    destruct (Hin i HiN) as (v & Hv & Hs). rewrite Hv. simpl.
    split; [rewrite length_insert; exact Hlen|]. split.
    + intros j Hj. simpl.
      pose proof (holders_insert j (procs st) p (Leased i) Idle Hp) as E.
      rewrite (decide_False (P := Idle = Leased j)) in E by discriminate.
      destruct (decide (j = i)) as [->|Hne].
      * exists (S v). split; [apply list_lookup_insert_eq; lia|].
        rewrite decide_True in E by reflexivity. lia.
      * destruct (Hin j Hj) as (u & Hu & Hsu). exists u.
        split; [rewrite list_lookup_insert_ne by congruence; exact Hu|].
        rewrite decide_False in E by congruence. lia.
    + intros j Hj. simpl.
      pose proof (holders_insert j (procs st) p (Leased i) Idle Hp) as E.
      rewrite (decide_False (P := Idle = Leased j)) in E by discriminate.
      rewrite decide_False in E by (intros [= ->]; lia).
      specialize (Hout j Hj). lia.
  - (* Faulted *)
    split; [exact Hlen|]. split.
    + intros j Hj. destruct (Hin j Hj) as (u & Hu & Hsu). exists u.
      split; [exact Hu|]. simpl. rewrite list_insert_id by exact Hp. exact Hsu.
    + intros j Hj. simpl. rewrite list_insert_id by exact Hp. apply Hout, Hj.
Qed.

Lemma pool_init_invariant nprocs : pool_inv N (pool_init N nprocs).
Proof.
  split; [apply length_replicate|]. split.
  - intros i Hi. exists 1. split; [apply lookup_replicate_2, Hi|].
    simpl. rewrite holders_replicate_idle. reflexivity.
  - intros i _. apply holders_replicate_idle.
Qed.

Lemma pool_run_invariant sched : forall st,
  pool_inv N st -> pool_inv N (pool_run N sched st).
Proof.
  induction sched as [|p sched IH]; intros st H; simpl; [exact H|].
  apply IH, pool_step_invariant, H.
Qed.

Lemma pool_inv_exclusive st p q i j :
  pool_inv N st -> p <> q ->
  procs st !! p = Some (Leased i) -> procs st !! q = Some (Leased j) -> i <> j.
Proof.
  intros (Hlen & Hin & Hout) Hne Hp Hq ->.
  pose proof (holders_two j (procs st) p q Hne Hp Hq) as H2.
  destruct (Nat.lt_ge_cases j N) as [Hj|Hj].
  - destruct (Hin j Hj) as (v & _ & Hs). lia.
  - specialize (Hout j Hj). lia.
Qed.

Lemma pool_step_grant st p i :
  pool_inv N st ->
  procs st !! p <> Some (Leased i) ->
  procs (pool_step N p st) !! p = Some (Leased i) ->
  procs st !! p = Some (Scanning i) /\ i < N /\
  SemTryWait (slots st !! i) "GetResponseQueueIndex" = Return (0%Z, Some 0) [] /\
  slots (pool_step N p st) !! i = Some 0.
Proof.
  intros (Hlen & Hin & Hout) Hnot. unfold pool_step.
  destruct (procs st !! p) as [pc|] eqn:Hp; [|rewrite Hp; discriminate].
  assert (Hlt : p < length (procs st)) by (eapply lookup_lt_Some; eauto).
  destruct pc as [|k|k|]; simpl.
  - rewrite list_lookup_insert_eq by exact Hlt. discriminate.
  - destruct (k <? N) eqn:HkN.
    + apply Nat.ltb_lt in HkN. destruct (Hin k HkN) as (v & Hv & Hs).
      destruct v as [|v].
      * rewrite (try_slot_busy _ _ Hv). simpl.
        rewrite list_lookup_insert_eq by exact Hlt. discriminate.
      * rewrite (try_slot_free _ _ _ Hv). simpl.
        rewrite list_lookup_insert_eq by exact Hlt. intros [= ->].
        assert (v = 0) by lia. subst v.
        split; [reflexivity|]. split; [exact HkN|].
        rewrite Hv. split; [reflexivity|].
        apply list_lookup_insert_eq. lia.
    + simpl. rewrite list_lookup_insert_eq by exact Hlt. discriminate.
  - destruct (slots st !! k); simpl;
      rewrite list_lookup_insert_eq by exact Hlt; discriminate.
  - rewrite list_lookup_insert_eq by exact Hlt. discriminate.
Qed.

Lemma pool_step_scan st p i :
  pool_inv N st ->
  procs st !! p = Some (Scanning i) ->
  (i < N -> slots st !! i = Some 0 ->
   pool_step N p st = {| slots := slots st; procs := <[p:=Scanning (S i)]> (procs st) |}) /\
  (N <= i ->
   pool_step N p st = {| slots := slots st; procs := <[p:=Scanning 0]> (procs st) |}).
Proof.
  intros _ Hp. unfold pool_step. rewrite Hp. simpl. split.
  - intros Hi Hv. apply Nat.ltb_lt in Hi. rewrite Hi.
    rewrite (try_slot_busy _ _ Hv). reflexivity.
  - intros Hi. apply Nat.ltb_ge in Hi. rewrite Hi. reflexivity.
Qed.

(** C1: start with every response slot free and let any number of client
    processes call [GetResponseQueueIndex] and give their slot back, one
    [SemTryWait] or [SemPost] at a time, in any interleaving. Then no two
    processes hold the same slot at once; a process comes to hold slot [i]
    only by a step in which it was at index [i] of the scan and its
    [SemTryWait] on that slot returned 0; the scan starts at index 0, moves
    from a busy slot to the next index and from the last one back to 0; and a
    process left alone gets the first free slot, and never gets out of the
    loop while no slot is free. *)
Theorem lease_is_exclusive (nprocs : nat) (sched : list nat) :
  let st := pool_run N sched (pool_init N nprocs) in
  (forall p q i j, p <> q ->
     procs st !! p = Some (Leased i) -> procs st !! q = Some (Leased j) ->
     i <> j) /\
  (forall p i,
     procs st !! p <> Some (Leased i) ->
     procs (pool_step N p st) !! p = Some (Leased i) ->
     procs st !! p = Some (Scanning i) /\ i < N /\
     SemTryWait (slots st !! i) "GetResponseQueueIndex" = Return (0%Z, Some 0) [] /\
     slots (pool_step N p st) !! i = Some 0) /\
  (forall p, procs st !! p = Some Idle ->
     pool_step N p st
     = {| slots := slots st; procs := <[p:=Scanning 0]> (procs st) |}) /\
  (forall p i, procs st !! p = Some (Scanning i) ->
     (i < N -> slots st !! i = Some 0 ->
      pool_step N p st
      = {| slots := slots st; procs := <[p:=Scanning (S i)]> (procs st) |}) /\
     (N <= i ->
      pool_step N p st
      = {| slots := slots st; procs := <[p:=Scanning 0]> (procs st) |})) /\
  (forall fuel sems k v,
     k < N -> sems !! k = Some (S v) ->
     (forall j, j < k -> sems !! j = Some 0) ->
     GetResponseQueueIndex N (S fuel) sems
     = Some (Return (k, <[k:=v]> sems) [])) /\
  (forall fuel sems,
     (forall i, i < N -> sems !! i = Some 0) ->
     GetResponseQueueIndex N fuel sems = None).
Proof.
  intros st.
  assert (Hinv : pool_inv N st)
    by (apply pool_run_invariant, pool_init_invariant).
  split; [intros p q i j; apply pool_inv_exclusive, Hinv|].
  split; [intros p i; apply pool_step_grant, Hinv|].
  split.
  { intros p Hp. unfold pool_step. rewrite Hp. reflexivity. }
  split; [intros p i; apply pool_step_scan, Hinv|].
  split; [intros fuel sems k v; apply lease_returns_first_free|].
  intros fuel sems. apply lease_never_returns_when_full.
Qed.

End PoolFacts.

(** Three clients and two slots: under this schedule clients 0 and 1 hold
    slots 0 and 1 while client 2 is still going round the loop. *)
Example lease_two_of_three :
  Shm.pool_run 2 [0; 1; 2; 0; 1; 2; 1; 2; 2; 2]%nat (Shm.pool_init 2 3)
  = {| Shm.slots := [0; 0]%nat;
       Shm.procs := [Shm.Leased 0; Shm.Leased 1; Shm.Scanning 1] |}.
Proof. vm_compute. reflexivity. Qed.

(** ** The receive buffer of the [kv_worker.cc] handlers *)

Section WorkerBuffer.
Import Posix Msg.

Context {E' : Worker.Storage}.
Variable MSGBUFSIZE : nat.
Variable uninitialised : Worker.KVWorker -> list Z.

(** Receiving touches nothing of the worker but the record of an overrun. *)
Lemma Recv_size_conn size w :
  Worker.conn (Worker.Recv_size MSGBUFSIZE size w) = Worker.conn w.
Proof. unfold Worker.Recv_size. destruct (_ <? _); reflexivity. Qed.

Lemma Recv_size_ref size w :
  Worker.ref (Worker.Recv_size MSGBUFSIZE size w) = Worker.ref w.
Proof. unfold Worker.Recv_size. destruct (_ <? _); reflexivity. Qed.

Lemma Recv_size_running size w :
  Worker.running (Worker.Recv_size MSGBUFSIZE size w) = Worker.running w.
Proof. unfold Worker.Recv_size. destruct (_ <? _); reflexivity. Qed.

Lemma Recv_size_sent size w :
  Worker.sent (Worker.Recv_size MSGBUFSIZE size w) = Worker.sent w.
Proof. unfold Worker.Recv_size. destruct (_ <? _); reflexivity. Qed.

Lemma Recv_size_calls size w :
  Worker.calls (Worker.Recv_size MSGBUFSIZE size w) = Worker.calls w.
Proof. unfold Worker.Recv_size. destruct (_ <? _); reflexivity. Qed.

Lemma Recv_size_db_store size w :
  Worker.db_store (Worker.Recv_size MSGBUFSIZE size w) = Worker.db_store w.
Proof. unfold Worker.Recv_size. destruct (_ <? _); reflexivity. Qed.

Lemma Recv_size_cursors size w :
  Worker.cursors (Worker.Recv_size MSGBUFSIZE size w) = Worker.cursors w.
Proof. unfold Worker.Recv_size. destruct (_ <? _); reflexivity. Qed.

Lemma Recv_size_ranges size w :
  Worker.ranges (Worker.Recv_size MSGBUFSIZE size w) = Worker.ranges w.
Proof. unfold Worker.Recv_size. destruct (_ <? _); reflexivity. Qed.

Lemma Recv_size_segments size w :
  Worker.segments (Worker.Recv_size MSGBUFSIZE size w) = Worker.segments w.
Proof. unfold Worker.Recv_size. destruct (_ <? _); reflexivity. Qed.

Lemma Recv_size_log size w :
  Worker.log (Worker.Recv_size MSGBUFSIZE size w) = Worker.log w.
Proof. unfold Worker.Recv_size. destruct (_ <? _); reflexivity. Qed.

(** An entity that fits leaves the worker as it is; a longer one is
    recorded. *)
Lemma Recv_size_fits size w :
  size <= Z.of_nat MSGBUFSIZE -> Worker.Recv_size MSGBUFSIZE size w = w.
Proof.
  intros H. unfold Worker.Recv_size.
  destruct (Z.ltb_spec (Z.of_nat MSGBUFSIZE) size); [lia|reflexivity].
Qed.

Lemma Recv_size_overrun size w :
  Z.of_nat MSGBUFSIZE < size ->
  Worker.overrun (Worker.Recv_size MSGBUFSIZE size w) = true.
Proof.
  intros H. unfold Worker.Recv_size.
  destruct (Z.ltb_spec (Z.of_nat MSGBUFSIZE) size); [reflexivity|lia].
Qed.

(** The bytes received are at the start of the buffer. *)
Lemma buf_after_Recv_take received w :
  take (length received) (Worker.buf_after_Recv uninitialised received w)
  = received.
Proof. unfold Worker.buf_after_Recv. apply take_app_length. Qed.

Lemma buf_after_Recv_bytes_at received w off n :
  (off + n <= length received)%nat ->
  bytes_at (Worker.buf_after_Recv uninitialised received w) off n
  = bytes_at received off n.
Proof.
  intros H. unfold Worker.buf_after_Recv, bytes_at.
  rewrite drop_app_le by lia. rewrite take_app_le; [reflexivity|].
  rewrite length_drop. lia.
Qed.

End WorkerBuffer.

Create Rewrite HintDb recv.

#[export] Hint Rewrite @Recv_size_conn @Recv_size_ref @Recv_size_running
  @Recv_size_sent @Recv_size_calls @Recv_size_db_store @Recv_size_cursors
  @Recv_size_ranges @Recv_size_segments @Recv_size_log : recv.

(** ** The teardown wrappers *)

Section TeardownFacts.
Import Posix.

(** C8, as stated, fails: a failing [munmap] inside [Munmap] does not
    return to the caller, and neither does a failing [sem_destroy] inside
    [SemDestroy]. *)
Lemma teardown_Munmap_failure_raises :
  ret {| ret := -1; errno := EINVAL |} = -1 /\
  returns (teardown Unmap {| ret := -1; errno := EINVAL |} "cleanup_handler") = false /\
  returns (teardown Destroy {| ret := -1; errno := EINVAL |} "cleanup_handler") = false.
Proof. repeat split. Qed.

(** C8 (amended): of the three teardown wrappers only [ShmUnlink] is safe on
    a best-effort path: it always returns, with a WARNING in the log exactly
    when [shm_unlink] failed. [Munmap] and [SemDestroy] return exactly when
    the system call succeeded; on failure they print the errno text and raise
    ERROR, so the caller does not continue. *)
Theorem teardown_only_unlink_continues (r : sysret) (func : string) :
  returns (teardown Unlink r func) = true /\
  log_of (teardown Unlink r func)
  = (if ret r =? -1
     then [Ereport WARNING (failed_msg func "ShmUnlink")
                   (Some "maybe no shared memory to unlink"%string)]
     else []) /\
  returns (teardown Unmap r func) = negb (ret r =? -1) /\
  returns (teardown Destroy r func) = negb (ret r =? -1) /\
  log_of (teardown Unmap r func)
  = (if ret r =? -1
     then [Stderr (errno r); Ereport ERROR (failed_msg func "Munmap") None]
     else []) /\
  log_of (teardown Destroy r func)
  = (if ret r =? -1
     then [Stderr (errno r); Ereport ERROR (failed_msg func "SemDestroy") None]
     else []).
Proof.
  unfold teardown, ShmUnlink, Munmap, SemDestroy.
  destruct (ret r =? -1); repeat split.
Qed.

End TeardownFacts.

(** ** What an Open request is answered with *)

Section OpenReply.
Import Posix Msg.

Context {E : Msg.Storage} {E' : Worker.Storage}.
Variable sizeof_opts : nat.
Variable MSGBUFSIZE : nat.
Variable uninitialised : Worker.KVWorker -> list Z.

(** C10: whatever the storage engine returns from [OpenConn] (a handle or
    [NULL]), [KVWorker::Open] of [kv_worker.cc] answers with exactly one
    message, a success on the request's response channel, and
    [KVWorker::Open] of [server/kv_worker.cc] answers with nothing; so every
    reply to an Open carries [KVStatusSuccess]. *)
Theorem Open_replies_only_success
    (msg : KVMessage) (w' : Worker.KVWorker) (w : Server.KVWorker) :
  replies_since (Worker.sent w') (Worker.sent (Worker.Open sizeof_opts MSGBUFSIZE uninitialised msg w'))
  = [SuccessMessage (rpsId (hdr msg))] /\
  replies_since (Server.sent w) (Server.sent (Server.Open sizeof_opts msg w)) = [] /\
  Forall (fun m => status (hdr m) = KVStatusSuccess)
         (replies_since (Worker.sent w')
                        (Worker.sent (Worker.Open sizeof_opts MSGBUFSIZE uninitialised msg w'))) /\
  Forall (fun m => status (hdr m) = KVStatusSuccess)
         (replies_since (Server.sent w)
                        (Server.sent (Server.Open sizeof_opts msg w))).
Proof.
  assert (HW : Worker.sent (Worker.Open sizeof_opts MSGBUFSIZE uninitialised msg w')
               = Worker.sent w' ++ [SuccessMessage (rpsId (hdr msg))]).
  { unfold Worker.Open. cbv zeta. rewrite Recv_size_conn.
    destruct (Worker.conn w' =? 0).
    - destruct (Worker.OpenConn _ _ _ _ _) as [c s].
      cbn [Worker.sent Worker.Send Worker.set_conn Worker.called].
      rewrite Recv_size_sent. reflexivity.
    - cbn [Worker.sent Worker.Send Worker.set_ref].
      rewrite Recv_size_sent. reflexivity. }
  assert (HS : Server.sent (Server.Open sizeof_opts msg w) = Server.sent w).
  { unfold Server.Open. destruct (Server.conn_ w =? 0).
    - destruct (OpenConn _ _ _ _ _) as [c s]. reflexivity.
    - reflexivity. }
  unfold replies_since. rewrite HW, HS.
  rewrite drop_app_length, drop_all.
  repeat split; repeat constructor.
Qed.

End OpenReply.

(** A failed open, on a worker with no connection: the connection stays
    [NULL] and the client is still told "success". *)
Example Open_failure_reported_as_success :
  let w := Worker.Open (engine := Synthetic.scripted' 0) 0 64 Synthetic.stack
             (Synthetic.request Msg.KVOpOpen 3 [0; 0; 0; 0; 0; 47; 55])
             (Worker.KVWorker_new (engine := Synthetic.scripted' 0)
                {| Synthetic.pending := []; Synthetic.last := [] |}) in
  Worker.conn w = 0 /\
  map (fun m => (Msg.status (Msg.hdr m), Msg.rpsId (Msg.hdr m))) (Worker.sent w)
  = [(Msg.KVStatusSuccess, 3)].
Proof. split; reflexivity. Qed.

(** ** Closing cursors and range queries that are not there *)

Section RegistryFacts.
Import Posix Msg.

Context {E : Msg.Storage} {E' : Worker.Storage} {Sh : Shm.Storage}.

Lemma Server_CloseCursor_absent msg (w : Server.KVWorker) :
  Server.cursors_ w !! key_of msg = None -> Server.CloseCursor msg w = w.
Proof. unfold Server.CloseCursor, key_of. intros ->. reflexivity. Qed.

Lemma Server_ClearRangeQuery_absent msg (w : Server.KVWorker) :
  Server.ranges_ w !! key_of msg = None -> Server.ClearRangeQuery msg w = w.
Proof. unfold Server.ClearRangeQuery, key_of. intros ->. reflexivity. Qed.

Lemma Server_CloseCursor_removes msg (w : Server.KVWorker) :
  Server.cursors_ (Server.CloseCursor msg w) !! key_of msg = None.
Proof.
  unfold Server.CloseCursor. fold (key_of msg).
  destruct (Server.cursors_ w !! key_of msg) eqn:H; [|exact H].
  simpl. apply lookup_delete_eq.
Qed.

Lemma Server_ClearRangeQuery_removes msg (w : Server.KVWorker) :
  Server.ranges_ (Server.ClearRangeQuery msg w) !! key_of msg = None.
Proof.
  unfold Server.ClearRangeQuery. fold (key_of msg).
  destruct (Server.ranges_ w !! key_of msg) eqn:H; [|exact H].
  simpl. apply lookup_delete_eq.
Qed.

Lemma Shm_DelIterResponse_again area (w w1 : Shm.worker_state) l :
  Shm.DelIterResponse area w = Return w1 l ->
  Shm.DelIterResponse area w1 = Return w1 [].
Proof.
  unfold Shm.DelIterResponse.
  destruct (Shm.kvIterHash w !! _) as [iter|] eqn:H; [|discriminate].
  destruct (iter =? 0) eqn:Hz.
  - intros [= <- <-]. rewrite H, Hz. reflexivity.
  - intros [= <- <-]. simpl. rewrite lookup_insert_eq. reflexivity.
Qed.

(** C6 (amended): in the message-queue workers, [CloseCursor] and
    [ClearRangeQuery] on a key that is not in the registry leave the whole
    worker as it was ([server/kv_worker.cc]) or change nothing but the reply
    sent ([kv_worker.cc], which answers success), and closing twice is the
    same as closing once. In [kv_shm.c], [DelIterResponse] raises an ERROR
    for a key that is not in [kvIterHash]; only a second delete of a cursor
    that was registered is a no-op. *)
Theorem close_unknown_key
    (msg : KVMessage) (w : Server.KVWorker) (w' : Worker.KVWorker)
    (area : list Z) (ws : Shm.worker_state) :
  (Server.cursors_ w !! key_of msg = None -> Server.CloseCursor msg w = w) /\
  (Server.ranges_ w !! key_of msg = None -> Server.ClearRangeQuery msg w = w) /\
  Server.CloseCursor msg (Server.CloseCursor msg w) = Server.CloseCursor msg w /\
  Server.ClearRangeQuery msg (Server.ClearRangeQuery msg w)
  = Server.ClearRangeQuery msg w /\
  (Worker.cursors w' !! key_of msg = None ->
   Worker.CloseCursor msg w' = Worker.Send (SuccessMessage (rpsId (hdr msg))) w') /\
  (Worker.ranges w' !! key_of msg = None -> Worker.ClearRangeQuery msg w' = w') /\
  (Shm.kvIterHash ws !! (u32_at area 0, u32_at area Shm.sizeof_Oid) = None ->
   Shm.DelIterResponse area ws = Raise (Shm.hash_failed "DelIterResponse")) /\
  (forall ws1 l, Shm.DelIterResponse area ws = Return ws1 l ->
                 Shm.DelIterResponse area ws1 = Return ws1 []).
Proof.
  split; [apply Server_CloseCursor_absent|].
  split; [apply Server_ClearRangeQuery_absent|].
  split; [apply Server_CloseCursor_absent, Server_CloseCursor_removes|].
  split; [apply Server_ClearRangeQuery_absent, Server_ClearRangeQuery_removes|].
  split. { unfold Worker.CloseCursor, key_of. intros ->. reflexivity. }
  split. { unfold Worker.ClearRangeQuery, key_of. intros ->. reflexivity. }
  split. { unfold Shm.DelIterResponse. intros ->. reflexivity. }
  intros ws1 l. apply Shm_DelIterResponse_again.
Qed.

End RegistryFacts.

(** C6, as stated, fails in [kv_shm.c]: a delete-iterator command for a key
    that was never registered does not complete, it raises an ERROR. *)
Lemma DelIterResponse_unknown_key_raises :
  let ws := Shm.worker_init (engine := Synthetic.shm_engine) 2 16 tt in
  let area := le_bytes 4 7 ++ le_bytes 4 1234 in
  Shm.kvIterHash ws !! (u32_at area 0, u32_at area Shm.sizeof_Oid) = None /\
  Shm.DelIterResponse area ws
  = Posix.Raise [Posix.Ereport Posix.ERROR
                   "DelIterResponse failed in hash search" None].
Proof. split; reflexivity. Qed.

(** A fresh worker of [server/kv_worker.cc] asked to close a cursor and to
    clear a range query it has never seen. *)
Lemma close_unknown_key_witness :
  let w := Server.KVWorker_new (engine := Synthetic.scripted 4096)
             {| Synthetic.pending := []; Synthetic.last := [] |} in
  let msg := Synthetic.request Msg.KVOpDelCursor 0 (Synthetic.cursor_key 1234 1) in
  Server.CloseCursor msg w = w /\ Server.ClearRangeQuery msg w = w.
Proof.
  intros w msg.
  pose proof (close_unknown_key (E := Synthetic.scripted 4096)
                (E' := Synthetic.scripted' 4096) (Sh := Synthetic.shm_engine)
                msg w
                (Worker.KVWorker_new (engine := Synthetic.scripted' 4096)
                   {| Synthetic.pending := []; Synthetic.last := [] |})
                [] (Shm.worker_init (engine := Synthetic.shm_engine) 2 16 tt))
    as (H1 & H2 & _).
  split; [apply H1 | apply H2]; reflexivity.
Defined.

(** ** Reference counting on Open and Close *)

Section RefCountFacts.
Import Posix Msg.

Context {E : Msg.Storage} {Sh : Shm.Storage}.
Variables READBATCHSIZE sizeof_opts : nat.

Lemma kept_refl w : Server.kept w w.
Proof.
  repeat split; auto. exists []. rewrite app_nil_r. split; auto.
Qed.

Lemma kept_trans w1 w2 w3 : Server.kept w1 w2 -> Server.kept w2 w3 -> Server.kept w1 w3.
Proof.
  intros (R1 & C1 & n1 & E1 & F1) (R2 & C2 & n2 & E2 & F2).
  split; [congruence|]. split.
  - intros H. rewrite C2; [auto|]. rewrite C1; auto.
  - exists (n1 ++ n2). rewrite E2, E1, app_assoc. split; auto.
    apply Forall_app; auto.
Qed.

Lemma kept_set_ref r w : Server.kept w (Server.set_ref r w).
Proof.
  repeat split; auto. exists []. simpl. rewrite app_nil_r. split; auto.
Qed.

Lemma Server_Open_effect msg (w : Server.KVWorker) :
  Server.ref_ (Server.Open sizeof_opts msg w) = wrap32 (Server.ref_ w + 1) /\
  (Server.conn_ w <> 0 ->
   Server.Open sizeof_opts msg w = Server.set_ref (wrap32 (Server.ref_ w + 1)) w) /\
  Server.kept w (Server.Open sizeof_opts msg w).
Proof.
  unfold Server.Open.
  destruct (Server.conn_ w =? 0) eqn:Hc.
  - destruct (OpenConn _ _ _ _ _) as [c s]. simpl.
    split; [reflexivity|]. split; [intros H; apply Z.eqb_eq in Hc; contradiction|].
    split; [reflexivity|]. split; [intros H; apply Z.eqb_eq in Hc; contradiction|].
    eexists. split; [reflexivity|]. repeat constructor.
  - split; [reflexivity|]. split; [reflexivity|]. apply kept_set_ref.
Qed.

Lemma Server_Close_effect msg (w : Server.KVWorker) :
  Server.Close msg w
  = (if Server.conn_ w =? 0 then w
     else Server.set_ref (wrap32 (Server.ref_ w - 1)) w) /\
  Server.kept w (Server.Close msg w).
Proof.
  unfold Server.Close. split; [reflexivity|].
  destruct (Server.conn_ w =? 0); [apply kept_refl | apply kept_set_ref].
Qed.

Lemma Server_handle_open_close fuel msg (w : Server.KVWorker) :
  is_open_close msg = true ->
  exists w', Server.handle READBATCHSIZE sizeof_opts fuel msg w = Some w' /\ Server.kept w w'.
Proof.
  unfold is_open_close. intros H. apply orb_true_iff in H as [H|H];
    apply Z.eqb_eq in H; unfold Server.handle; rewrite H.
  - eexists. split; [reflexivity|]. apply Server_Open_effect.
  - eexists. split; [reflexivity|]. apply Server_Close_effect.
Qed.

Lemma Server_Run_open_close fuel inbox : forall (w : Server.KVWorker),
  forallb is_open_close inbox = true ->
  Server.running_ w = true ->
  exists w', Server.Run READBATCHSIZE sizeof_opts fuel inbox w = Server.Waiting w'
             /\ Server.kept w w'.
Proof.
  induction inbox as [|msg rest IH]; intros w Hall Hrun; simpl.
  - rewrite Hrun. exists w. split; [reflexivity|apply kept_refl].
  - simpl in Hall. apply andb_true_iff in Hall as [Hm Hrest].
    rewrite Hrun.
    destruct (Server_handle_open_close fuel msg w Hm) as (w1 & -> & K1).
    destruct (IH w1 Hrest) as (w2 & -> & K2).
    { destruct K1 as (R & _). congruence. }
    exists w2. split; [reflexivity|]. eapply kept_trans; eauto.
Qed.

(** C4: a worker that is running and is fed any sequence of Open and Close
    requests goes through all of them and is then waiting for the next
    request; each Open raises the count by one and calls [OpenConn] only when
    there is no connection; each Close does nothing but lower the count of a
    worker that has a connection; none of them calls [CloseConn], and a
    connection that was there stays the same handle, whatever the count went
    through on the way. In [kv_shm.c], [CloseResponse] likewise only lowers
    the entry's count and [OpenResponse] for a relation that is open only
    raises it: the entry keeps its [db], and the engine is not called. *)
Theorem Close_never_closes_connection
    (fuel : nat) (inbox : list KVMessage) (w : Server.KVWorker) :
  forallb is_open_close inbox = true ->
  Server.running_ w = true ->
  (exists w',
     Server.Run READBATCHSIZE sizeof_opts fuel inbox w = Server.Waiting w' /\
     Server.running_ w' = true /\
     (Server.conn_ w <> 0 -> Server.conn_ w' = Server.conn_ w) /\
     exists new, Server.calls w' = Server.calls w ++ new /\
                 Forall (fun c => is_CloseConn c = false) new) /\
  (forall msg v,
     Server.ref_ (Server.Open sizeof_opts msg v) = wrap32 (Server.ref_ v + 1) /\
     (Server.conn_ v <> 0 ->
      Server.Open sizeof_opts msg v
      = Server.set_ref (wrap32 (Server.ref_ v + 1)) v) /\
     Server.Close msg v
     = (if Server.conn_ v =? 0 then v
        else Server.set_ref (wrap32 (Server.ref_ v - 1)) v)) /\
  (forall area ws entry,
     Shm.kvTableHash ws !! u32_at area 0 = Some entry ->
     Shm.CloseResponse area ws
     = Return (Shm.set_table
                 (<[u32_at area 0 := Shm.set_ref (wrap32 (Shm.ref entry - 1)) entry]>
                    (Shm.kvTableHash ws)) ws) []) /\
  (forall area ws tl entry,
     Shm.after_last_slash (strz (drop (Shm.sizeof_bool + Shm.sizeof_int) area))
     = Some tl ->
     Shm.kvTableHash ws !! wrap32 (Shm.atoi tl) = Some entry ->
     Shm.OpenResponse area ws
     = Return (Shm.set_table
                 (<[wrap32 (Shm.atoi tl)
                    := Shm.set_ref (wrap32 (Shm.ref entry + 1)) entry]>
                    (Shm.kvTableHash ws)) ws) []).
Proof.
  intros Hall Hrun. split; [|split; [|split]].
  - destruct (Server_Run_open_close fuel inbox w Hall Hrun)
      as (w' & HR & R & C & N).
    exists w'. split; [exact HR|]. split; [congruence|]. split; assumption.
  - intros msg v. destruct (Server_Open_effect msg v) as (H1 & H2 & _).
    split; [exact H1|]. split; [exact H2|]. apply Server_Close_effect.
  - intros area ws entry H. unfold Shm.CloseResponse. rewrite H. reflexivity.
  - intros area ws tl entry Hp H. unfold Shm.OpenResponse.
    rewrite Hp, H. reflexivity.
Qed.

End RefCountFacts.

(** The end-to-end scenario on a synthetic engine: two opens, two closes.
    The count is back at zero, the connection is the one the first Open
    made, [CloseConn] was never called, and a Count request that follows is
    served on that connection. *)
Lemma Close_never_closes_connection_witness :
  let E := Synthetic.scripted 4096 in
  let open := Synthetic.request Msg.KVOpOpen 0 [0; 0; 0; 0; 0; 47; 55] in
  let close := Synthetic.request Msg.KVOpClose 0 [] in
  let w := Server.Start (Server.KVWorker_new (engine := E)
                           {| Synthetic.pending := []; Synthetic.last := [] |}) in
  exists w',
    Server.Run (engine := E) 64 0 1 [open; open; close; close] w = Server.Waiting w' /\
    Server.running_ w' = true /\
    Server.ref_ w' = 0 /\ Server.conn_ w' = 4096 /\
    Server.calls w' = [Msg.CallOpenConn [47; 55]] /\
    Server.calls (Server.Count (Synthetic.request Msg.KVOpCount 1 []) w')
    = [Msg.CallOpenConn [47; 55]; Msg.CallGetCount 4096].
Proof.
  intros E open close w.
  destruct (Close_never_closes_connection (E := E) (Sh := Synthetic.shm_engine)
              64 0 1 [open; open; close; close] w eq_refl eq_refl)
    as ((w' & HR & Hrun & _) & _).
  exists w'. split; [exact HR|]. split; [exact Hrun|].
  vm_compute in HR. injection HR as <-. repeat split.
Defined.

(** ** The worker loop of [kv_shm.c] *)

Section ShmWorkerFacts.
Import Posix Shm.
Local Open Scope nat_scope.

Context {Sh : Shm.Storage}.
Variables N BUFSIZE : nat.
Variable code : FuncName -> Z.

#[local] Abbreviation run := (sys_run N BUFSIZE code).

(** A step of a process touches nothing that is private to the worker; the
    one that forks makes a worker that did not exist. *)
Lemma client_step_worker_private p (s : system) :
  let s' := client_step N BUFSIZE code p s in
  (wpc s' = wpc s \/ (wpc s = W_unborn /\ wpc s' = W_SemWait)) /\
  w_func s' = w_func s /\ w_responseId s' = w_responseId s /\
  w_buf s' = w_buf s /\ wstate s' = wstate s.
Proof.
  unfold client_step.
  destruct (clients s !! p) as [c|]; [|repeat split; auto].
  destruct (program BUFSIZE (running c) !! pc c) as [st|]; [|repeat split; auto].
  destruct (exec_stmt N BUFSIZE code st c (shm s) _ _) as [c' m']. simpl.
  repeat split.
  destruct (forks st); [|auto]. destruct (wpc s); simpl; auto.
Qed.

Lemma close_all_tables (w : worker_state) :
  kvTableHash (close_all w) = kvTableHash w /\
  kvIterHash (close_all w) = kvIterHash w /\
  kvReadOptionsHash (close_all w) = kvReadOptionsHash w /\
  ResponseQueue (close_all w) = ResponseQueue w.
Proof.
  unfold close_all.
  generalize (map_to_list (kvTableHash w)) as l.
  intros l. revert w. induction l as [|e l IH]; intros w; simpl.
  - repeat split.
  - destruct (IH (called (CallClose (db e.2)) (Close (db e.2) (db_store w)) w))
      as (H1 & H2 & H3 & H4).
    rewrite H1, H2, H3, H4. repeat split.
Qed.

Lemma terminated_step who (s : system) :
  terminated (wpc s) = true ->
  same_worker s (sys_step N BUFSIZE code who s) /\
  (who = None -> shm (sys_step N BUFSIZE code who s) = shm s).
Proof.
  intros Ht. destruct who as [p|]; simpl.
  - destruct (client_step_worker_private p s) as (H1 & H2 & H3 & H4 & H5).
    split; [|discriminate].
    assert (H1' : wpc (client_step N BUFSIZE code p s) = wpc s).
    { destruct H1 as [H1|[H1 _]]; [exact H1|]. rewrite H1 in Ht. discriminate. }
    unfold same_worker. rewrite H1', H2, H3, H4, H5. repeat split; assumption.
  - unfold worker_step. destruct (wpc s) eqn:Hpc; try discriminate; simpl.
    + destruct (close_all_tables (wstate s)) as (H1 & H2 & H3 & H4).
      split; [|reflexivity]. unfold same_worker; simpl. repeat split; assumption.
    + split; [|reflexivity]. unfold same_worker. rewrite Hpc. repeat split.
Qed.

Lemma terminated_run sched : forall (s : system),
  terminated (wpc s) = true -> same_worker s (run sched s).
Proof.
  induction sched as [|who sched IH]; intros s Ht; simpl.
  - unfold same_worker. repeat split. assumption.
  - destruct (terminated_step who s Ht) as [(T & F & R & B & H1 & H2 & H3 & H4) _].
    destruct (IH _ T) as (T' & F' & R' & B' & H1' & H2' & H3' & H4').
    unfold same_worker. repeat split; congruence.
Qed.

Lemma error_run sched : forall (s : system),
  wpc s = W_error ->
  wpc (run sched s) = W_error /\ wstate (run sched s) = wstate s.
Proof.
  induction sched as [|who sched IH]; intros s He; simpl; [auto|].
  destruct who as [p|]; simpl.
  - destruct (client_step_worker_private p s) as (H1 & _ & _ & _ & H5).
    assert (H1' : wpc (client_step N BUFSIZE code p s) = wpc s).
    { destruct H1 as [H1|[H1 _]]; [exact H1|]. congruence. }
    destruct (IH (client_step N BUFSIZE code p s)) as [A B]; [congruence|].
    split; congruence.
  - assert (Hs : worker_step BUFSIZE code s = s).
    { unfold worker_step. rewrite He. reflexivity. }
    rewrite Hs. apply IH. exact He.
Qed.

End ShmWorkerFacts.

(** ** Unknown operation codes and Terminate *)

Section DispatchFacts.
Import Posix Msg.

Context {E : Msg.Storage} {E' : Worker.Storage} {Sh : Shm.Storage}.
Variables N BUFSIZE READBATCHSIZE sizeof_opts : nat.
Variable code : Shm.FuncName -> Z.
Variable MSGBUFSIZE : nat.
Variable uninitialised : Worker.KVWorker -> list Z.

#[local] Abbreviation srun := (Shm.sys_run N BUFSIZE code).

Lemma Server_handle_unknown fuel msg (w : Server.KVWorker) :
  worker_handles (op (hdr msg)) = false ->
  Server.handle READBATCHSIZE sizeof_opts fuel msg w
  = Some (Server.logged [Ereport WARNING (Server.invalid_operation (op (hdr msg))) None] w).
Proof.
  unfold worker_handles. simpl. intros H.
  repeat (apply orb_false_iff in H as [? H]).
  unfold Server.handle.
  repeat match goal with
         | Hq : (?a =? ?b) = false |- _ => rewrite Hq; clear Hq
         end.
  reflexivity.
Qed.

Lemma Worker_handle_unknown fuel msg (w : Worker.KVWorker) :
  worker_handles (op (hdr msg)) = false ->
  Worker.handle READBATCHSIZE sizeof_opts MSGBUFSIZE uninitialised fuel msg w
  = Some (Worker.logged [Ereport WARNING "unsupported op in kv worker" None] w).
Proof.
  unfold worker_handles. simpl. intros H.
  repeat (apply orb_false_iff in H as [? H]).
  unfold Worker.handle.
  repeat match goal with
         | Hq : (?a =? ?b) = false |- _ => rewrite Hq; clear Hq
         end.
  reflexivity.
Qed.

Lemma Server_deliver_other fuel id j msg (workers : gmap Z Server.KVWorker) :
  j <> id ->
  Server.deliver READBATCHSIZE sizeof_opts fuel id msg workers !! j = workers !! j.
Proof.
  intros Hne. unfold Server.deliver.
  destruct (workers !! id) as [w|]; [|reflexivity].
  destruct (Server.handle _ _ _ _ _); [|reflexivity].
  apply lookup_insert_ne. congruence.
Qed.

(** C7 (amended): an operation code that the worker has no case for is fatal
    only in [kv_shm.c], where the switch raises an ERROR: the worker is
    unwound with its tables as they were, and no schedule brings it back into
    its loop. The message-queue workers of [server/kv_worker.cc] and
    [kv_worker.cc] log a WARNING and go on with the next message. In either
    case nothing but the worker that got the command is touched: the shared
    block and the clients in [kv_shm.c], every other worker of the fleet in
    the message-queue design. *)
Theorem unknown_opcode_fatal_only_in_shm
    (s : Shm.system) (fuel : nat) (msg : KVMessage) (rest : list KVMessage)
    (w : Server.KVWorker) (w' : Worker.KVWorker) :
  Shm.wpc s = Shm.W_switch ->
  Shm.FuncName_of code (Shm.w_func s) = None ->
  worker_handles (op (hdr msg)) = false ->
  Server.running_ w = true ->
  Worker.running w' = true ->
  (Shm.worker_step BUFSIZE code s = Shm.with_wpc Shm.W_error s /\
   forall sched,
     Shm.wpc (srun sched (Shm.worker_step BUFSIZE code s)) = Shm.W_error /\
     Shm.wstate (srun sched (Shm.worker_step BUFSIZE code s)) = Shm.wstate s) /\
  Server.Run READBATCHSIZE sizeof_opts fuel (msg :: rest) w
  = Server.Run READBATCHSIZE sizeof_opts fuel rest
      (Server.logged [Ereport WARNING (Server.invalid_operation (op (hdr msg))) None] w) /\
  Worker.Run READBATCHSIZE sizeof_opts MSGBUFSIZE uninitialised fuel (msg :: rest) w'
  = Worker.Run READBATCHSIZE sizeof_opts MSGBUFSIZE uninitialised fuel rest
      (Worker.logged [Ereport WARNING "unsupported op in kv worker" None] w') /\
  (forall workers id j, j <> id ->
     Server.deliver READBATCHSIZE sizeof_opts fuel id msg workers !! j
     = workers !! j).
Proof.
  intros Hpc Hf Hop Hr Hr'.
  assert (Hstep : Shm.worker_step BUFSIZE code s = Shm.with_wpc Shm.W_error s).
  { unfold Shm.worker_step. rewrite Hpc.
    destruct (decide _) as [e|_]; [congruence|].
    unfold Shm.dispatch. rewrite Hf. reflexivity. }
  split; [split; [exact Hstep|]|].
  - intros sched. rewrite Hstep.
    apply (error_run N BUFSIZE code sched (Shm.with_wpc Shm.W_error s)).
    reflexivity.
  - split; [|split].
    + simpl. rewrite Hr, Server_handle_unknown by exact Hop. reflexivity.
    + simpl. rewrite Hr', Worker_handle_unknown by exact Hop. reflexivity.
    + intros workers id j Hne. apply Server_deliver_other. exact Hne.
Qed.

(** C9 (amended): the worker of [kv_shm.c] that is signalled while the
    command area holds TERMINATE and a response id copies the command out,
    gives the slot back, posts [responseSync] of exactly that response id and
    leaves its loop; whatever runs afterwards, it stays out of the loop, with
    its copy of the command, its tables and the response buffers as they
    were. The message-queue workers leave [Run] on a Terminate message with
    every later message unread, and the handler of [server/kv_worker.cc]
    sends no response. *)
Theorem Terminate_ends_the_loop
    (s : Shm.system) (fuel : nat) (msg : KVMessage) (rest : list KVMessage)
    (w : Server.KVWorker) (w' : Worker.KVWorker) :
  Shm.wpc s = Shm.W_copy_func ->
  Shm.FuncName_of code (u32_at (Shm.area (Shm.shm s)) 0) = Some Shm.TERMINATE ->
  op (hdr msg) = KVOpTerminate ->
  Server.running_ w = true ->
  Worker.running w' = true ->
  let r := Z.to_nat (u32_at (Shm.area (Shm.shm s)) Shm.sizeof_FuncName) in
  let s5 := srun [None; None; None; None; None] s in
  (Shm.responseSync (Shm.shm s5) = Shm.post_at (Shm.responseSync (Shm.shm s)) r /\
   Shm.full (Shm.shm s5) = S (Shm.full (Shm.shm s)) /\
   Shm.wpc s5 = Shm.W_shutdown /\
   Shm.wstate s5 = Shm.wstate s /\
   forall sched, Shm.same_worker s5 (srun sched s5)) /\
  Server.Run READBATCHSIZE sizeof_opts fuel (msg :: rest) w
  = Server.Exited (Server.Terminate msg w) rest /\
  Server.running_ (Server.Terminate msg w) = false /\
  Server.sent (Server.Terminate msg w) = Server.sent w /\
  Worker.Run READBATCHSIZE sizeof_opts MSGBUFSIZE uninitialised fuel (msg :: rest) w'
  = Worker.Exited (Worker.Terminate msg w') rest.
Proof.
  intros Hpc Hf Hop Hr Hr' r s5.
  assert (H5 : s5 =
    Shm.with_wpc Shm.W_shutdown
      {| Shm.shm := Shm.set_responseSync
                      (Shm.post_at (Shm.responseSync (Shm.shm s)) r)
                      (Shm.set_full (sem_post (Shm.full (Shm.shm s))) (Shm.shm s));
         Shm.clients := Shm.clients s; Shm.wpc := Shm.W_switch;
         Shm.w_func := u32_at (Shm.area (Shm.shm s)) 0;
         Shm.w_responseId := r;
         Shm.w_buf := Shm.copy_out BUFSIZE (Shm.area (Shm.shm s));
         Shm.wstate := Shm.wstate s; Shm.forked := Shm.forked s |}).
  { subst s5. unfold Shm.sys_run. simpl.
    unfold Shm.worker_step at 5. rewrite Hpc. simpl.
    unfold Shm.worker_step at 1. simpl. rewrite Hf.
    destruct (decide _) as [_|n]; [|congruence]. reflexivity. }
  split.
  - rewrite H5. simpl. do 4 (split; [reflexivity|]).
    intros sched. apply (terminated_run N BUFSIZE code). reflexivity.
  - split; [|split; [reflexivity|split; [reflexivity|]]].
    + simpl. rewrite Hr. unfold Server.handle. rewrite Hop. simpl.
      destruct rest; reflexivity.
    + simpl. rewrite Hr'. unfold Worker.handle. rewrite Hop. simpl.
      destruct rest; reflexivity.
Qed.

End DispatchFacts.

(** C7, as stated, fails for the message-queue worker: after a message with
    operation code 99 the worker is still in its receive loop, has logged a
    warning, and serves the Open request that comes next. *)
Lemma unknown_opcode_worker_continues :
  Msg.worker_handles 99 = false /\
  exists w,
    Server.Run (engine := Synthetic.scripted 4096) 64 0 1
      [Synthetic.request 99 0 []; Synthetic.open_request]
      (Synthetic.server_worker 4096)
    = Server.Waiting w /\
    Server.running_ w = true /\
    Server.ref_ w = 1 /\ Server.conn_ w = 4096 /\
    Server.log w = [Posix.Ereport Posix.WARNING "invalid operation: 99" None].
Proof. split; [reflexivity|]. eexists. repeat split. Qed.

Lemma unknown_opcode_fatal_only_in_shm_witness :
  Shm.wpc (Shm.sys_run 2 16 Synthetic.code [None; Some 0%nat; None]
             (Shm.worker_step 16 Synthetic.code Synthetic.unknown_pending))
  = Shm.W_error /\
  Server.Run (engine := Synthetic.scripted 4096) 64 0 1
    [Synthetic.request 99 0 []] (Synthetic.server_worker 4096)
  = Server.Waiting
      (Server.logged [Posix.Ereport Posix.WARNING "invalid operation: 99" None]
         (Synthetic.server_worker 4096)).
Proof.
  destruct (unknown_opcode_fatal_only_in_shm
              (E := Synthetic.scripted 4096) (E' := Synthetic.scripted' 4096)
              (Sh := Synthetic.shm_engine) 2 16 64 0 Synthetic.code 64 Synthetic.stack
              Synthetic.unknown_pending 1 (Synthetic.request 99 0 []) []
              (Synthetic.server_worker 4096) (Synthetic.queue_worker 4096)
              eq_refl eq_refl eq_refl eq_refl eq_refl)
    as ((_ & Hs) & HS & _).
  split; [apply Hs | exact HS].
Defined.

(** C9, as stated, fails for the message-queue worker: a Terminate message
    that names response channel 3 ends the loop, and nothing has been sent
    on any channel. *)
Lemma Terminate_sends_no_reply :
  exists w,
    Server.Run (engine := Synthetic.scripted 4096) 64 0 1
      [Synthetic.request Msg.KVOpTerminate 3 []] (Synthetic.server_worker 4096)
    = Server.Exited w [] /\
    Server.running_ w = false /\
    Server.queue_stopped w = true /\
    Server.sent w = [].
Proof. eexists. repeat split. Qed.

Lemma Terminate_ends_the_loop_witness :
  let s5 := Shm.sys_run 2 16 Synthetic.code [None; None; None; None; None]
              Synthetic.terminate_pending in
  Shm.responseSync (Shm.shm s5) = [0%nat; 1%nat] /\
  Shm.wpc s5 = Shm.W_shutdown /\
  Server.Run (engine := Synthetic.scripted 4096) 64 0 1
    [Synthetic.request Msg.KVOpTerminate 0 []; Synthetic.open_request]
    (Synthetic.server_worker 4096)
  = Server.Exited (Server.Stop (Synthetic.server_worker 4096))
      [Synthetic.open_request].
Proof.
  destruct (Terminate_ends_the_loop
              (E := Synthetic.scripted 4096) (E' := Synthetic.scripted' 4096)
              (Sh := Synthetic.shm_engine) 2 16 64 0 Synthetic.code 64 Synthetic.stack
              Synthetic.terminate_pending 1
              (Synthetic.request Msg.KVOpTerminate 0 [])
              [Synthetic.open_request]
              (Synthetic.server_worker 4096) (Synthetic.queue_worker 4096)
              eq_refl eq_refl eq_refl eq_refl eq_refl)
    as ((H1 & _ & H2 & _) & HS & _).
  split; [exact H1|]. split; [exact H2 | exact HS].
Defined.

(** ** Range queries skip empty chunks *)

Section RangeFacts.
Import Posix Msg.

Lemma loop_exit (nx : bool) (sz : Z) :
  nx && (wrap64 sz =? 0) = false -> 0 < wrap64 sz \/ nx = false.
Proof.
  intros H. apply andb_false_iff in H as [H|H]; [right; exact H|left].
  apply Z.eqb_neq in H.
  assert (0 <= wrap64 sz < 2 ^ 64) by (apply Z.mod_pos_bound; lia). lia.
Qed.

Context {E : Msg.Storage} {E' : Worker.Storage}.
Variable MSGBUFSIZE : nat.
Variable uninitialised : Worker.KVWorker -> list Z.

Lemma Server_read_chunks_exit fuel entry : forall (w w1 : Server.KVWorker) st result,
  Server.read_chunks fuel entry w = Some (st, result, w1) ->
  (0 < size st \/ next st = false) /\ Server.sent w1 = Server.sent w.
Proof.
  induction fuel as [|fuel IH]; intros w w1 st result; simpl; [discriminate|].
  destruct (RangeQueryRead _ _ _ _) as [[[nx sz] res] s].
  destruct (nx && (wrap64 sz =? 0)) eqn:Hc.
  - intros H. apply IH in H as [H1 H2]. split; [exact H1|exact H2].
  - intros [= <- <- <-]. split; [apply loop_exit, Hc | reflexivity].
Qed.

Lemma Worker_read_chunks_exit fuel entry : forall (w w1 : Worker.KVWorker) st result,
  Worker.read_chunks fuel entry w = Some (st, result, w1) ->
  (0 < size st \/ next st = false) /\ Worker.sent w1 = Worker.sent w.
Proof.
  induction fuel as [|fuel IH]; intros w w1 st result; simpl; [discriminate|].
  destruct (Worker.RangeQueryRead _ _ _) as [[[nx sz] res] s].
  destruct (nx && (wrap64 sz =? 0)) eqn:Hc.
  - intros H. apply IH in H as [H1 H2]. split; [exact H1|exact H2].
  - intros [= <- <- <-]. split; [apply loop_exit, Hc | reflexivity].
Qed.

Lemma Server_RangeQuery_reply fuel msg (w w1 : Server.KVWorker) :
  Server.RangeQuery fuel msg w = Some w1 ->
  exists st,
    Server.sent w1 = Server.sent w ++ [Server.state_message (rpsId (hdr msg)) st] /\
    (0 < size st \/ next st = false).
Proof.
  unfold Server.RangeQuery, Server.RangeQuery_entry.
  destruct (Server.ranges_ w !! _) as [entry|].
  - destruct (Server.read_chunks fuel entry w) as [[[st result] w2]|] eqn:Hr;
      [|discriminate].
    apply Server_read_chunks_exit in Hr as [Hst Hs].
    destruct (ParseRangeQueryResult _ _) as [data s].
    intros [= <-]. exists st. split; [|exact Hst].
    destruct (0 <? size st); simpl; rewrite Hs; reflexivity.
  - destruct (ParseRangeQueryOptions _ _) as [[r ro] s0].
    destruct (Server.read_chunks fuel _ _) as [[[st result] w2]|] eqn:Hr;
      [|discriminate].
    apply Server_read_chunks_exit in Hr as [Hst Hs].
    destruct (ParseRangeQueryResult _ _) as [data s].
    intros [= <-]. exists st. split; [|exact Hst].
    destruct (0 <? size st); simpl; rewrite Hs; reflexivity.
Qed.

Lemma Worker_RangeQuery_reply fuel msg (w w1 : Worker.KVWorker) :
  Worker.RangeQuery uninitialised fuel msg w = Some w1 ->
  exists st,
    Worker.sent w1 = Worker.sent w ++ [Worker.state_message (rpsId (hdr msg)) st] /\
    (0 < size st \/ next st = false).
Proof.
  unfold Worker.RangeQuery, Worker.RangeQuery_entry.
  destruct (Worker.ranges w !! _) as [entry|].
  - destruct (Worker.read_chunks fuel entry w) as [[[st result] w2]|] eqn:Hr;
      [|discriminate].
    apply Worker_read_chunks_exit in Hr as [Hst Hs].
    destruct (Worker.ParseRangeQueryResult _ _) as [data s].
    intros [= <-]. exists st. split; [|exact Hst].
    destruct (0 <? size st); simpl; rewrite Hs; reflexivity.
  - destruct (Worker.ParseRangeQueryOptions _ _) as [[r ro] s0].
    destruct (Worker.read_chunks fuel _ _) as [[[st result] w2]|] eqn:Hr;
      [|discriminate].
    apply Worker_read_chunks_exit in Hr as [Hst Hs].
    destruct (Worker.ParseRangeQueryResult _ _) as [data s].
    intros [= <-]. exists st. split; [|exact Hst].
    destruct (0 <? size st); simpl; rewrite Hs; reflexivity.
Qed.

Lemma Server_read_chunks_total c entry s :
  Server.scan_ends c entry s ->
  forall w : Server.KVWorker,
    Server.db_store w = s -> Server.conn_ w = c ->
    exists n r, forall fuel, (n <= fuel)%nat -> Server.read_chunks fuel entry w = Some r.
Proof.
  induction 1 as [s nx sz result s' Hread Hexit
                 |s nx sz result s' Hread Hgo _ IH]; intros w Hs Hc.
  - exists 1%nat. eexists. intros [|fuel] Hf; [lia|].
    cbn [Server.read_chunks]. rewrite Hs, Hc, Hread, Hexit. reflexivity.
  - destruct (IH (Server.called (CallRangeQueryRead (range entry) (readOpts entry)) s' w)
                eq_refl Hc) as (n & r & Hn).
    exists (S n), r. intros [|fuel] Hf; [lia|].
    cbn [Server.read_chunks]. rewrite Hs, Hc, Hread, Hgo. apply Hn. lia.
Qed.

Lemma Server_RangeQuery_entry_conn msg (w : Server.KVWorker) :
  Server.conn_ (snd (Server.RangeQuery_entry msg w)) = Server.conn_ w.
Proof.
  unfold Server.RangeQuery_entry. destruct (Server.ranges_ w !! _); [reflexivity|].
  destruct (ParseRangeQueryOptions _ _) as [[r ro] s0]. reflexivity.
Qed.

(** When the scan comes to an end the handler answers, and more fuel does
    not change the answer. *)
Lemma Server_RangeQuery_total msg (w : Server.KVWorker) :
  Server.scan_of_ends msg w ->
  exists n w1, forall fuel, (n <= fuel)%nat -> Server.RangeQuery fuel msg w = Some w1.
Proof.
  unfold Server.scan_of_ends. intros H.
  destruct (Server.RangeQuery_entry msg w) as [entry w0] eqn:He.
  cbn [fst snd] in H.
  assert (Hconn : Server.conn_ w0 = Server.conn_ w).
  { pose proof (Server_RangeQuery_entry_conn msg w) as Hq. rewrite He in Hq. exact Hq. }
  destruct (Server_read_chunks_total (Server.conn_ w) entry _ H w0 eq_refl Hconn)
    as (n & [[st result] w2] & Hn).
  exists n.
  assert (Hsame : forall fuel, (n <= fuel)%nat ->
            Server.RangeQuery fuel msg w = Server.RangeQuery n msg w).
  { intros fuel Hf. unfold Server.RangeQuery. rewrite He. cbv zeta.
    rewrite (Hn fuel Hf), (Hn n (le_n n)). reflexivity. }
  destruct (Server.RangeQuery n msg w) as [w1|] eqn:Hq.
  - exists w1. exact Hsame.
  - exfalso. unfold Server.RangeQuery in Hq. rewrite He in Hq. cbv zeta in Hq.
    rewrite (Hn n (le_n n)) in Hq.
    destruct (ParseRangeQueryResult _ _) in Hq. discriminate Hq.
Qed.

Lemma Worker_read_chunks_total entry s :
  Worker.scan_ends entry s ->
  forall w : Worker.KVWorker,
    Worker.db_store w = s ->
    exists n r, forall fuel, (n <= fuel)%nat -> Worker.read_chunks fuel entry w = Some r.
Proof.
  induction 1 as [s nx sz result s' Hread Hexit
                 |s nx sz result s' Hread Hgo _ IH]; intros w Hs.
  - exists 1%nat. eexists. intros [|fuel] Hf; [lia|].
    cbn [Worker.read_chunks]. rewrite Hs, Hread, Hexit. reflexivity.
  - destruct (IH (Worker.called (CallRangeQueryRead (range entry) (readOpts entry)) s' w)
                eq_refl) as (n & r & Hn).
    exists (S n), r. intros [|fuel] Hf; [lia|].
    cbn [Worker.read_chunks]. rewrite Hs, Hread, Hgo. apply Hn. lia.
Qed.

Lemma Worker_RangeQuery_entry_conn msg (w : Worker.KVWorker) :
  Worker.conn (snd (Worker.RangeQuery_entry uninitialised msg w)) = Worker.conn w.
Proof.
  unfold Worker.RangeQuery_entry. destruct (Worker.ranges w !! _); [reflexivity|].
  destruct (Worker.ParseRangeQueryOptions _ _) as [[r ro] s0]. reflexivity.
Qed.

(** When the scan comes to an end the handler answers, and more fuel does
    not change the answer. *)
Lemma Worker_RangeQuery_total msg (w : Worker.KVWorker) :
  Worker.scan_of_ends uninitialised msg w ->
  exists n w1, forall fuel, (n <= fuel)%nat -> Worker.RangeQuery uninitialised fuel msg w = Some w1.
Proof.
  unfold Worker.scan_of_ends. intros H.
  destruct (Worker.RangeQuery_entry uninitialised msg w) as [entry w0] eqn:He.
  cbn [fst snd] in H.
  destruct (Worker_read_chunks_total entry _ H w0 eq_refl)
    as (n & [[st result] w2] & Hn).
  exists n.
  assert (Hsame : forall fuel, (n <= fuel)%nat ->
            Worker.RangeQuery uninitialised fuel msg w = Worker.RangeQuery uninitialised n msg w).
  { intros fuel Hf. unfold Worker.RangeQuery. rewrite He. cbv zeta.
    rewrite (Hn fuel Hf), (Hn n (le_n n)). reflexivity. }
  destruct (Worker.RangeQuery uninitialised n msg w) as [w1|] eqn:Hq.
  - exists w1. exact Hsame.
  - exfalso. unfold Worker.RangeQuery in Hq. rewrite He in Hq. cbv zeta in Hq.
    rewrite (Hn n (le_n n)) in Hq.
    destruct (Worker.ParseRangeQueryResult _ _) in Hq. discriminate Hq.
Qed.

Lemma Server_read_chunks_ends c fuel entry : forall (w : Server.KVWorker) r,
  Server.conn_ w = c ->
  Server.read_chunks fuel entry w = Some r ->
  Server.scan_ends c entry (Server.db_store w).
Proof.
  induction fuel as [|fuel IH]; intros w r Hc; cbn [Server.read_chunks]; [discriminate|].
  rewrite Hc. destruct (RangeQueryRead _ _ _ _) as [[[nx sz] res] s] eqn:Hread.
  destruct (nx && (wrap64 sz =? 0)) eqn:Hgo.
  - intros H. eapply Server.scan_ends_later; [exact Hread|exact Hgo|].
    exact (IH (Server.called (CallRangeQueryRead (range entry) (readOpts entry)) s w)
              r Hc H).
  - intros _. eapply Server.scan_ends_now; [exact Hread|exact Hgo].
Qed.

(** The handler returns only when the scan has come to an end. *)
Lemma Server_RangeQuery_ends fuel msg (w w1 : Server.KVWorker) :
  Server.RangeQuery fuel msg w = Some w1 -> Server.scan_of_ends msg w.
Proof.
  unfold Server.RangeQuery, Server.scan_of_ends.
  pose proof (Server_RangeQuery_entry_conn msg w) as Hconn.
  destruct (Server.RangeQuery_entry msg w) as [entry w0]. cbn [fst snd].
  cbn [snd] in Hconn.
  destruct (Server.read_chunks fuel entry w0) as [r|] eqn:Hr; [|discriminate].
  intros _. eapply Server_read_chunks_ends; [exact Hconn|]; exact Hr.
Qed.

Lemma Worker_read_chunks_ends fuel entry : forall (w : Worker.KVWorker) r,
  Worker.read_chunks fuel entry w = Some r ->
  Worker.scan_ends entry (Worker.db_store w).
Proof.
  induction fuel as [|fuel IH]; intros w r; cbn [Worker.read_chunks]; [discriminate|].
   destruct (Worker.RangeQueryRead _ _ _) as [[[nx sz] res] s] eqn:Hread.
  destruct (nx && (wrap64 sz =? 0)) eqn:Hgo.
  - intros H. eapply Worker.scan_ends_later; [exact Hread|exact Hgo|].
    exact (IH _ _ H).
  - intros _. eapply Worker.scan_ends_now; [exact Hread|exact Hgo].
Qed.

(** The handler returns only when the scan has come to an end. *)
Lemma Worker_RangeQuery_ends fuel msg (w w1 : Worker.KVWorker) :
  Worker.RangeQuery uninitialised fuel msg w = Some w1 -> Worker.scan_of_ends uninitialised msg w.
Proof.
  unfold Worker.RangeQuery, Worker.scan_of_ends.
  destruct (Worker.RangeQuery_entry uninitialised msg w) as [entry w0]. cbn [fst snd].
  destruct (Worker.read_chunks fuel entry w0) as [r|] eqn:Hr; [|discriminate].
  intros _. eapply Worker_read_chunks_ends; exact Hr.
Qed.

End RangeFacts.

Section ScriptedFacts.
Import Posix Msg Synthetic.

Variable k : Z.

(** Against a scripted scan the loop is left after at most one read per
    chunk of the script, plus the read that finds the script exhausted. *)
Lemma scripted_read_chunks_total entry (sc : list (list Z * bool)) :
  forall (w : Server.KVWorker (engine := scripted k)) fuel,
    pending (Server.db_store w) = sc ->
    (length sc < fuel)%nat ->
    exists r, Server.read_chunks fuel entry w = Some r.
Proof.
  induction sc as [|[data more] sc IH]; intros w fuel Hp Hf;
    (destruct fuel as [|fuel]; [simpl in Hf; lia|]); simpl.
  - unfold script_read. rewrite Hp. simpl. eexists. reflexivity.
  - unfold script_read. rewrite Hp.
    destruct (more && (wrap64 (Z.of_nat (length data)) =? 0)).
    + apply IH; [reflexivity | simpl in Hf; lia].
    + eexists. reflexivity.
Qed.

Lemma scripted_RangeQuery_total msg (w : Server.KVWorker (engine := scripted k)) fuel :
  (length (pending (Server.db_store w)) < fuel)%nat ->
  exists w1, Server.RangeQuery fuel msg w = Some w1.
Proof.
  intros Hf. unfold Server.RangeQuery, Server.RangeQuery_entry.
  destruct (Server.ranges_ w !! _) as [entry|].
  - destruct (scripted_read_chunks_total entry _ w fuel eq_refl Hf)
      as [[[st result] w2] ->].
    eexists. reflexivity.
  - simpl.
    match goal with
    | |- context [Server.read_chunks fuel ?e ?w0] =>
        destruct (scripted_read_chunks_total e _ w0 fuel eq_refl Hf)
          as [[[st result] w2] ->]
    end.
    eexists. reflexivity.
Qed.

Lemma scripted_worker_read_chunks_total entry (sc : list (list Z * bool)) :
  forall (w : Worker.KVWorker (engine := scripted' k)) fuel,
    pending (Worker.db_store w) = sc ->
    (length sc < fuel)%nat ->
    exists r, Worker.read_chunks fuel entry w = Some r.
Proof.
  induction sc as [|[data more] sc IH]; intros w fuel Hp Hf;
    (destruct fuel as [|fuel]; [simpl in Hf; lia|]); simpl.
  - unfold script_read. rewrite Hp. simpl. eexists. reflexivity.
  - unfold script_read. rewrite Hp.
    destruct (more && (wrap64 (Z.of_nat (length data)) =? 0)).
    + apply IH; [reflexivity | simpl in Hf; lia].
    + eexists. reflexivity.
Qed.

Lemma scripted_worker_RangeQuery_total uninitialised msg (w : Worker.KVWorker (engine := scripted' k)) fuel :
  (length (pending (Worker.db_store w)) < fuel)%nat ->
  exists w1, Worker.RangeQuery uninitialised fuel msg w = Some w1.
Proof.
  intros Hf. unfold Worker.RangeQuery, Worker.RangeQuery_entry.
  destruct (Worker.ranges w !! _) as [entry|].
  - destruct (scripted_worker_read_chunks_total entry _ w fuel eq_refl Hf)
      as [[[st result] w2] ->].
    eexists. reflexivity.
  - simpl.
    match goal with
    | |- context [Worker.read_chunks fuel ?e ?w0] =>
        destruct (scripted_worker_read_chunks_total e _ w0 fuel eq_refl Hf)
          as [[[st result] w2] ->]
    end.
    eexists. reflexivity.
Qed.

(** The scripted engine makes the same entry of whatever options it is
    given. *)
Lemma scripted_worker_entry uninitialised msg
    (w : Worker.KVWorker (engine := scripted' k)) :
  Worker.RangeQuery_entry uninitialised msg w
  = match Worker.ranges w !! key_of msg with
    | None =>
        let entry := {| range := 1; readOpts := 2 |} in
        (entry, Worker.set_ranges (<[key_of msg := entry]> (Worker.ranges w))
                  (Worker.called CallParseRangeQueryOptions (Worker.db_store w) w))
    | Some entry => (entry, w)
    end.
Proof.
  unfold Worker.RangeQuery_entry. fold (key_of msg).
  destruct (Worker.ranges w !! key_of msg); reflexivity.
Qed.

(** A scripted scan always comes to an end. *)
Lemma scripted_scan_ends c entry :
  forall s : script, Server.scan_ends (engine := scripted k) c entry s.
Proof.
  intros [sc lst]. revert lst.
  induction sc as [|[data more] sc IH]; intros lst.
  - eapply Server.scan_ends_now; reflexivity.
  - destruct (more && (wrap64 (Z.of_nat (length data)) =? 0)) eqn:Hc.
    + eapply Server.scan_ends_later; [reflexivity|exact Hc|apply IH].
    + eapply Server.scan_ends_now; [reflexivity|exact Hc].
Qed.

Lemma scripted_worker_scan_ends entry :
  forall s : script, Worker.scan_ends (engine := scripted' k) entry s.
Proof.
  intros [sc lst]. revert lst.
  induction sc as [|[data more] sc IH]; intros lst.
  - eapply Worker.scan_ends_now; reflexivity.
  - destruct (more && (wrap64 (Z.of_nat (length data)) =? 0)) eqn:Hc.
    + eapply Worker.scan_ends_later; [reflexivity|exact Hc|apply IH].
    + eapply Worker.scan_ends_now; [reflexivity|exact Hc].
Qed.

End ScriptedFacts.

(** C2: whenever [KVWorker::RangeQuery] answers (in [server/kv_worker.cc] and
    in [kv_worker.cc] alike), the answer is one message carrying a state whose
    size is positive or whose "more" flag is off. Whenever the reads of the
    storage engine come to a chunk that is not empty or to the last one, the
    handler does answer, and with the same answer however much further it
    would have been allowed to read. Against a scripted scan, whose reads
    always come to an end, it answers after at most one read per scripted
    chunk and one more; and for the script (empty, more), (empty, more),
    (three bytes, more), (empty, last) two successive requests are answered
    with exactly the three-byte chunk and then the end of the scan, by the
    worker of either file. *)
Theorem RangeQuery_skips_empty_chunks :
  (forall (E : Msg.Storage) fuel msg (w w1 : Server.KVWorker),
     Server.RangeQuery fuel msg w = Some w1 ->
     exists st,
       Server.sent w1
       = Server.sent w ++ [Server.state_message (Msg.rpsId (Msg.hdr msg)) st] /\
       (0 < Msg.size st \/ Msg.next st = false)) /\
  (forall (E' : Worker.Storage) uninitialised fuel msg
          (w w1 : Worker.KVWorker),
     Worker.RangeQuery uninitialised fuel msg w = Some w1 ->
     exists st,
       Worker.sent w1
       = Worker.sent w ++ [Worker.state_message (Msg.rpsId (Msg.hdr msg)) st] /\
       (0 < Msg.size st \/ Msg.next st = false)) /\
  (forall k fuel msg (w : Server.KVWorker (engine := Synthetic.scripted k)),
     (length (Synthetic.pending (Server.db_store w)) < fuel)%nat ->
     exists w1, Server.RangeQuery fuel msg w = Some w1) /\
  (exists w,
     Server.Run (engine := Synthetic.scripted 4096) 64 0 5
       [Synthetic.range_request; Synthetic.range_request]
       (Server.Start (Server.KVWorker_new (engine := Synthetic.scripted 4096)
                        Synthetic.four_chunks))
     = Server.Waiting w /\
     map Synthetic.visible (Server.sent w) = [(true, 3); (false, 0)] /\
     Synthetic.pending (Server.db_store w) = []) /\
  (forall k uninitialised fuel msg
          (w : Worker.KVWorker (engine := Synthetic.scripted' k)),
     (length (Synthetic.pending (Worker.db_store w)) < fuel)%nat ->
     exists w1, Worker.RangeQuery uninitialised fuel msg w = Some w1) /\
  (exists w,
     Worker.Run (engine := Synthetic.scripted' 4096) 64 0 64 Synthetic.stack 5
       [Synthetic.range_request; Synthetic.range_request]
       (Worker.Start (Worker.KVWorker_new (engine := Synthetic.scripted' 4096)
                        Synthetic.four_chunks))
     = Worker.Waiting w /\
     map Synthetic.visible (Worker.sent w) = [(true, 3); (false, 0)] /\
     Synthetic.pending (Worker.db_store w) = []) /\
  (forall (E : Msg.Storage) msg (w : Server.KVWorker),
     Server.scan_of_ends msg w ->
     exists n w1, forall fuel, (n <= fuel)%nat ->
       Server.RangeQuery fuel msg w = Some w1) /\
  (forall (E' : Worker.Storage) uninitialised msg (w : Worker.KVWorker),
     Worker.scan_of_ends uninitialised msg w ->
     exists n w1, forall fuel, (n <= fuel)%nat ->
       Worker.RangeQuery uninitialised fuel msg w = Some w1) /\
  (forall k c entry s,
     Server.scan_ends (engine := Synthetic.scripted k) c entry s) /\
  (forall k entry s,
     Worker.scan_ends (engine := Synthetic.scripted' k) entry s).
Proof.
  split; [intros E; apply Server_RangeQuery_reply|].
  split; [intros E'; apply Worker_RangeQuery_reply|].
  split; [intros k fuel msg w; apply scripted_RangeQuery_total|].
  split; [eexists; split; [vm_compute; reflexivity|]; split; reflexivity|].
  split; [intros k u fuel msg w; apply scripted_worker_RangeQuery_total|].
  split.
  { eexists. split.
    - cbn [Worker.Run Worker.running Worker.Start Worker.set_running].
      change (Worker.handle 64 0 64 Synthetic.stack 5 Synthetic.range_request)
        with (Worker.RangeQuery (engine := Synthetic.scripted' 4096) Synthetic.stack 5 Synthetic.range_request).
      unfold Worker.RangeQuery at 1. rewrite scripted_worker_entry.
      vm_compute. reflexivity.
    - split; reflexivity. }
  split; [intros E; apply Server_RangeQuery_total|].
  split; [intros E' u; apply Worker_RangeQuery_total|].
  split; [intros k; apply scripted_scan_ends|].
  intros k; apply scripted_worker_scan_ends.
Qed.

(** ** [PutRequest] and the size of the command area *)

Section MemcpyFacts.
Local Open Scope nat_scope.

Lemma memcpy_length src : forall mem off, length (memcpy mem off src) = length mem.
Proof.
  induction src as [|b src IH]; intros mem off; simpl; [reflexivity|].
  rewrite IH. apply length_insert.
Qed.

Lemma memcpy_lookup_before src : forall mem off i,
  i < off -> memcpy mem off src !! i = mem !! i.
Proof.
  induction src as [|b src IH]; intros mem off i Hi; simpl; [reflexivity|].
  rewrite IH by lia. apply list_lookup_insert_ne. lia.
Qed.

Lemma memcpy_lookup_inside src : forall mem off i,
  off <= i < off + length src -> i < length mem ->
  memcpy mem off src !! i = src !! (i - off).
Proof.
  induction src as [|b src IH]; intros mem off i Hi Hlen; simpl in *; [lia|].
  destruct (decide (i = off)) as [->|Hne].
  - rewrite memcpy_lookup_before by lia.
    rewrite list_lookup_insert_eq by lia.
    replace (off - off) with 0 by lia. reflexivity.
  - rewrite IH; [|lia|rewrite length_insert; lia].
    replace (i - off) with (S (i - S off)) by lia. reflexivity.
Qed.

Lemma memcpy_lookup_after src : forall mem off i,
  off + length src <= i -> memcpy mem off src !! i = mem !! i.
Proof.
  induction src as [|b src IH]; intros mem off i Hi; simpl in *; [reflexivity|].
  rewrite IH by lia. apply list_lookup_insert_ne. lia.
Qed.

End MemcpyFacts.

Section PutFacts.
Import Posix Shm.
Local Open Scope nat_scope.

Variables N BUFSIZE : nat.
Variable code : FuncName -> Z.

Lemma lease_first_slot fuel :
  0 < N -> 0 < fuel ->
  GetResponseQueueIndex N fuel (replicate N 1)
  = Some (Return (0, <[0:=0]> (replicate N 1)) []).
Proof.
  intros HN Hf. destruct fuel as [|fuel]; [lia|].
  destruct N as [|n]; [lia|]. reflexivity.
Qed.

(** C3 fails on [PutRequest], by the order of its statements: a put whose
    frame is one byte longer than the command area is refused with an ERROR,
    but only after every field has been copied; the last byte of the value
    has then been stored in the byte that follows the area, and the command
    slot ([full]) is never given back. *)
Theorem PutRequest_checks_after_writing
    (tail fuel : nat) (relationId : Z) (key val0 : list Z) (b : Z) :
  0 < N -> 0 < fuel -> 0 < tail ->
  put_frame_size key (val0 ++ [b]) = BUFSIZE + 1 ->
  exists m,
    PutRequest N BUFSIZE code fuel relationId (SharedMem_init N BUFSIZE tail)
               key (val0 ++ [b])
    = Raised m [Ereport ERROR
                  "PutRequest tuple is too long, increase BUFSIZE" None] /\
    area (SharedMem_init N BUFSIZE tail) !! BUFSIZE = Some 0%Z /\
    area m !! BUFSIZE = Some b /\
    full m = 0 /\ worker m = 0.
Proof.
  intros HN Hf Ht Hsz.
  unfold put_frame_size, sizeof_FuncName, sizeof_responseId, sizeof_Oid,
    sizeof_size_t in Hsz.
  rewrite length_app in Hsz. change (length [b]) with 1 in Hsz.
  unfold PutRequest. simpl mutex. simpl full. cbv iota beta.
  simpl responseMutex. rewrite lease_first_slot by assumption.
  cbv iota beta zeta.
  replace (BUFSIZE <? _) with true.
  2:{ symmetry. apply Nat.ltb_lt.
      unfold sizeof_FuncName, sizeof_responseId, sizeof_Oid, sizeof_size_t.
      rewrite length_app. change (length [b]) with 1. lia. }
  eexists. split; [reflexivity|].
  split.
  { cbn [area SharedMem_init]. apply lookup_replicate_2. lia. }
  split; [|split; reflexivity].
  cbn [area set_area set_mutex set_full set_worker set_responseMutex
       SharedMem_init].
  rewrite memcpy_lookup_inside.
  - apply list_lookup_middle.
    unfold sizeof_FuncName, sizeof_responseId, sizeof_Oid, sizeof_size_t. lia.
  - unfold sizeof_FuncName, sizeof_responseId, sizeof_Oid, sizeof_size_t.
    rewrite length_app. change (length [b]) with 1. lia.
  - rewrite !memcpy_length, length_replicate. lia.
Qed.

(** At exactly the size of the area the put goes through, and nothing
    outside the area is written. *)
Lemma PutRequest_at_capacity
    (tail fuel : nat) (relationId : Z) (key val : list Z) :
  0 < N -> 0 < fuel ->
  put_frame_size key val = BUFSIZE ->
  exists m,
    PutRequest N BUFSIZE code fuel relationId (SharedMem_init N BUFSIZE tail)
               key val
    = Sent m 0 /\
    worker m = 1 /\
    forall i, BUFSIZE <= i -> area m !! i = area (SharedMem_init N BUFSIZE tail) !! i.
Proof.
  intros HN Hf Hsz.
  unfold put_frame_size, sizeof_FuncName, sizeof_responseId, sizeof_Oid,
    sizeof_size_t in Hsz.
  unfold PutRequest. simpl mutex. simpl full. cbv iota beta.
  simpl responseMutex. rewrite lease_first_slot by assumption.
  cbv iota beta zeta.
  replace (BUFSIZE <? _) with false.
  2:{ symmetry. apply Nat.ltb_ge.
      unfold sizeof_FuncName, sizeof_responseId, sizeof_Oid, sizeof_size_t. lia. }
  eexists. split; [reflexivity|]. split; [reflexivity|].
  intros i Hi.
  cbn [area set_area set_mutex set_full set_worker set_responseMutex
       SharedMem_init].
  unfold sizeof_FuncName, sizeof_responseId, sizeof_Oid, sizeof_size_t.
  rewrite !memcpy_lookup_after; [reflexivity|cbn [length le_bytes]; lia..].
Qed.

End PutFacts.

(** A command area of 40 bytes followed by 8 more: a put of 41 bytes. *)
Lemma PutRequest_checks_after_writing_witness :
  exists m,
    Shm.PutRequest 2 40 Synthetic.code 1 7 (Shm.SharedMem_init 2 40 8)
      [1; 2; 3; 4] ([7; 7; 7; 7; 7; 7; 7; 7] ++ [9])
    = Shm.Raised m [Posix.Ereport Posix.ERROR
                      "PutRequest tuple is too long, increase BUFSIZE" None] /\
    Shm.area (Shm.SharedMem_init 2 40 8) !! 40%nat = Some 0 /\
    Shm.area m !! 40%nat = Some 9 /\
    Shm.full m = 0%nat /\ Shm.worker m = 0%nat.
Proof.
  apply (PutRequest_checks_after_writing 2 40 Synthetic.code 8 1 7
           [1; 2; 3; 4] [7; 7; 7; 7; 7; 7; 7; 7] 9);
    first [lia | reflexivity].
Defined.

(** ** The synchronous call of [kv_shm.c] *)

Section ProtocolFacts.
Import Posix Shm.
Local Open Scope nat_scope.

Context {Sh : Shm.Storage}.
Variables N BUFSIZE : nat.
Variable code : FuncName -> Z.

#[local] Abbreviation step := (sys_step N BUFSIZE code).
#[local] Abbreviation prun := (sys_run N BUFSIZE code).

Ltac positions :=
  unfold holds_mutex, producing, awaiting_worker, launching, asking, forking,
    announcing, between, just_past, behind, advance, running, returned, at_pc,
    with_scan, with_responseId, with_count, with_answer, with_raised;
  cbn [pc script calls_done raised scan responseId count answer].

(** What one statement does to the balances, function by function and
    statement by statement. *)
Lemma exec_stmt_effect c m queue started st c' m' :
  program BUFSIZE (running c) !! pc c = Some st ->
  exec_stmt N BUFSIZE code st c m queue started = (c', m') ->
  mutex m' + b2n (holds_mutex BUFSIZE c') = mutex m + b2n (holds_mutex BUFSIZE c) /\
  full m' + b2n (producing BUFSIZE c') + worker m' + raised c'
  = full m + b2n (producing BUFSIZE c) + worker m + raised c /\
  full m' <= full m /\
  (area m' = area m \/ producing BUFSIZE c = true) /\
  agent0 m' + agent1 m' + b2n (launching BUFSIZE c') + b2n (awaiting_worker BUFSIZE c)
  = agent0 m + agent1 m + b2n (launching BUFSIZE c) + b2n (awaiting_worker BUFSIZE c') /\
  (b2n (asking BUFSIZE c') + agent0 m' + b2n (forking BUFSIZE c')
   + b2n (announcing BUFSIZE c') + b2n (workerProcessCreated m')
   <= b2n (asking BUFSIZE c) + agent0 m + b2n (forking BUFSIZE c)
      + b2n (announcing BUFSIZE c) + b2n (workerProcessCreated m)
   \/ (st = If_not_created /\ workerProcessCreated m = false /\
       holds_mutex BUFSIZE c = true /\ asking BUFSIZE c = false /\
       awaiting_worker BUFSIZE c = false /\
       agent0 m' = agent0 m /\ workerProcessCreated m' = false /\
       asking BUFSIZE c' = true /\
       forking BUFSIZE c' = false /\ announcing BUFSIZE c' = false)) /\
  ((announcing BUFSIZE c = true -> workerProcessCreated m = false) ->
   b2n (forks st) + b2n (announcing BUFSIZE c) + b2n (workerProcessCreated m)
   = b2n (announcing BUFSIZE c') + b2n (workerProcessCreated m')).
Proof.
  unfold running. intros Hst He.
  remember (script c (calls_done c)) as r eqn:Hr.
  assert (HP : program BUFSIZE (script c (calls_done c)) = program BUFSIZE r)
    by (rewrite Hr; reflexivity).
  clear Hr.
  destruct r;
    cbn [program request_program key_args put_args range_args CountRequest app]
      in HP, Hst;
    try (destruct (BUFSIZE <? put_frame_size key val) eqn:Hfit;
         cbn [app] in HP, Hst; clear Hfit);
    remember (pc c) as i eqn:Hpc; symmetry in Hpc;
    do 21 (destruct i as [|i];
      [ cbn [lookup list_lookup] in Hst;
        first
          [ discriminate Hst
          | injection Hst as <-; cbn [exec_stmt] in He;
            repeat match type of He with
                   | context [match ?x with _ => _ end] => destruct x eqn:?
                   end;
            injection He as <- <-;
            positions;
            do 3 (repeat match goal with
                         | H : _ = _ |- _ => progress rewrite H
                         end;
                  rewrite ?take_0; cbn -[le_bytes memcpy]);
            unfold sem_post;
            solve [repeat split; try lia; auto;
                       try solve [left; lia];
                       try solve [right; repeat split; auto];
                       try solve [intros Hc; rewrite ?Hc by reflexivity;
                                  simpl; lia]] ]
      | ]);
    cbn in Hst; discriminate.
Qed.

(** Where a process is, function by function and position by position: who
    is about to ask for a worker, or waits for one, has the mutex; who is
    about to fork or to announce is the launcher in a turn. *)
Lemma positions_static c :
  (asking BUFSIZE c = true -> holds_mutex BUFSIZE c = true) /\
  (awaiting_worker BUFSIZE c = true -> holds_mutex BUFSIZE c = true) /\
  (forking BUFSIZE c = true -> launching BUFSIZE c = true) /\
  (announcing BUFSIZE c = true -> launching BUFSIZE c = true).
Proof.
  positions.
  remember (script c (calls_done c)) as r eqn:Hr. clear Hr.
  destruct r;
    cbn [program request_program key_args put_args range_args CountRequest app];
    try (destruct (BUFSIZE <? put_frame_size key val); cbn [app]);
    generalize (pc c); intros i;
    do 21 (destruct i as [|i];
           [cbn -[le_bytes]; repeat split; auto; discriminate|]);
    cbn -[le_bytes]; repeat split; auto; discriminate.
Qed.

Lemma count_if_insert {A} (P : A -> bool) (l : list A) p old new :
  l !! p = Some old ->
  count_if P (<[p:=new]> l) + b2n (P old) = count_if P l + b2n (P new).
Proof.
  revert p. induction l as [|x l IH]; intros [|p] H; simpl in *; try discriminate.
  - inversion H; subst. unfold b2n. lia.
  - specialize (IH p H). lia.
Qed.

Lemma total_insert {A} (f : A -> nat) (l : list A) p old new :
  l !! p = Some old ->
  total f (<[p:=new]> l) + f old = total f l + f new.
Proof.
  revert p. induction l as [|x l IH]; intros [|p] H; simpl in *; try discriminate.
  - inversion H; subst. lia.
  - specialize (IH p H). lia.
Qed.

Lemma count_if_ge {A} (P : A -> bool) (l : list A) p x :
  l !! p = Some x -> P x = true -> 1 <= count_if P l.
Proof.
  revert p. induction l as [|y l IH]; intros [|p] H HP; simpl in *;
    try discriminate.
  - inversion H; subst. rewrite HP. lia.
  - specialize (IH p H HP). lia.
Qed.

Lemma count_if_le {A} (P Q : A -> bool) (l : list A) :
  (forall x, Q x = true -> P x = true) -> count_if Q l <= count_if P l.
Proof.
  intros H. induction l as [|x l IH]; simpl; [lia|].
  specialize (H x). destruct (Q x); [rewrite H by reflexivity; lia|].
  destruct (P x); lia.
Qed.

(** When [P] holds of one element only, and not [Q] of that one, a [Q] that
    implies [P] holds of none. *)
Lemma count_if_none {A} (P Q : A -> bool) (l : list A) p x :
  l !! p = Some x -> P x = true -> count_if P l <= 1 ->
  (forall y, Q y = true -> P y = true) -> Q x = false ->
  count_if Q l = 0.
Proof.
  intros Hp HP H1 Himp HQ.
  revert p Hp H1. induction l as [|y l IH]; intros [|p] Hp H1; simpl in *;
    try discriminate.
  - inversion Hp; subst. rewrite HQ. rewrite HP in H1.
    pose proof (count_if_le P Q l Himp). lia.
  - destruct (Q y) eqn:HQy.
    + rewrite (Himp y HQy) in H1.
      pose proof (count_if_ge P l p x Hp HP). lia.
    + apply (IH p Hp). destruct (P y); lia.
Qed.

Lemma count_if_map_false {A B} (P : B -> bool) (f : A -> B) (l : list A) :
  (forall a, P (f a) = false) -> count_if P (map f l) = 0.
Proof.
  intros H. induction l as [|a l IH]; simpl; [reflexivity|].
  rewrite H, IH. reflexivity.
Qed.

Lemma total_map_zero {A B} (f : B -> nat) (g : A -> B) (l : list A) :
  (forall a, f (g a) = 0) -> total f (map g l) = 0.
Proof.
  intros H. induction l as [|a l IH]; simpl; [reflexivity|].
  rewrite H, IH. reflexivity.
Qed.

Lemma client_step_invariant p (s : system) :
  sys_inv BUFSIZE s -> sys_inv BUFSIZE (client_step N BUFSIZE code p s).
Proof.
  intros (Hm & Hf & Hc & Ha & Hl & Hk & Hb). unfold client_step.
  destruct (clients s !! p) as [c|] eqn:Hp; [|repeat split; tauto].
  destruct (program BUFSIZE (running c) !! pc c) as [st|] eqn:Hst;
    [|repeat split; tauto].
  destruct (exec_stmt N BUFSIZE code st c (shm s) _ _) as [c' m'] eqn:He.
  destruct (exec_stmt_effect _ _ _ _ _ _ _ Hst He)
    as (B1 & B2 & _ & B4 & B5 & B6 & B7).
  pose proof (count_if_insert (holds_mutex BUFSIZE) (clients s) p c c' Hp) as C1.
  pose proof (count_if_insert (producing BUFSIZE) (clients s) p c c' Hp) as C2.
  pose proof (total_insert raised (clients s) p c c' Hp) as C3.
  pose proof (count_if_insert (launching BUFSIZE) (clients s) p c c' Hp) as C4.
  pose proof (count_if_insert (awaiting_worker BUFSIZE) (clients s) p c c' Hp) as C5.
  pose proof (count_if_insert (asking BUFSIZE) (clients s) p c c' Hp) as C6.
  pose proof (count_if_insert (forking BUFSIZE) (clients s) p c c' Hp) as C7.
  pose proof (count_if_insert (announcing BUFSIZE) (clients s) p c c' Hp) as C8.
  assert (Hann : announcing BUFSIZE c = true -> workerProcessCreated (shm s) = false).
  { intros Hx. pose proof (count_if_ge _ _ _ _ Hp Hx).
    destruct (workerProcessCreated (shm s)); [simpl in Hl; lia|reflexivity]. }
  specialize (B7 Hann).
  unfold sys_inv; cbn [shm clients wpc forked].
  split; [lia|]. split.
  { assert (has_slot (if forks st then born (wpc s) else wpc s) = has_slot (wpc s))
      as -> by (destruct (forks st); [destruct (wpc s)|]; reflexivity).
    lia. }
  split.
  { destruct B4 as [Harea|Hprod].
    - unfold copy_progress, copied_out in *; cbn [shm wpc w_func w_responseId w_buf].
      rewrite Harea.
      destruct (forks st); [|exact Hc]. destruct (wpc s); try exact I; exact Hc.
    - pose proof (count_if_ge (producing BUFSIZE) (clients s) p c Hp Hprod) as Hge.
      assert (Hslot : has_slot (wpc s) = false).
      { destruct (has_slot (wpc s)); [unfold b2n in Hf; lia|reflexivity]. }
      unfold copy_progress; cbn [shm wpc w_func w_responseId w_buf].
      destruct (forks st); destruct (wpc s); try exact I; discriminate Hslot. }
  split; [lia|]. split.
  { destruct B6 as [Hle|(_ & Hcr & Hh & Hask & Haw & Ha0 & Hcr' & Hask' & Hfk' & Han')].
    - lia.
    - destruct (positions_static c) as (_ & _ & _ & _).
      assert (H1 : count_if (holds_mutex BUFSIZE) (clients s) <= 1) by lia.
      pose proof (count_if_none _ (asking BUFSIZE) _ _ _ Hp Hh H1
                    (fun y => proj1 (positions_static y)) Hask) as Z1.
      pose proof (count_if_none _ (awaiting_worker BUFSIZE) _ _ _ Hp Hh H1
                    (fun y => proj1 (proj2 (positions_static y))) Haw) as Z2.
      pose proof (count_if_le (launching BUFSIZE) (forking BUFSIZE) (clients s)
                    (fun y => proj1 (proj2 (proj2 (positions_static y))))) as Z3.
      pose proof (count_if_le (launching BUFSIZE) (announcing BUFSIZE) (clients s)
                    (fun y => proj2 (proj2 (proj2 (positions_static y))))) as Z4.
      rewrite Hcr', Hask', Hfk', Han' in *. rewrite Hcr in *.
      unfold b2n in *.
      destruct (forking BUFSIZE c), (announcing BUFSIZE c), (asking BUFSIZE c);
        lia. }
  split.
  { destruct (forks st); simpl in B7; lia. }
  destruct (forks st).
  - split; [discriminate|]. destruct (wpc s); discriminate.
  - exact Hb.
Qed.

Lemma worker_step_invariant (s : system) :
  sys_inv BUFSIZE s -> sys_inv BUFSIZE (worker_step BUFSIZE code s).
Proof.
  intros (Hm & Hf & Hc & Ha & Hl & Hk & Hb). unfold worker_step.
  unfold sys_inv, copy_progress, copied_out in *.
  assert (Hborn : forked s <> 0 -> forall q, q <> W_unborn ->
                  (forked s = 0 <-> q = W_unborn)).
  { intros H0 q Hq. split; [intros; contradiction|intros; contradiction]. }
  destruct (wpc s) eqn:Hpc; cbn [shm clients wpc forked w_func w_responseId w_buf
                                  with_wpc with_shm with_wstate] in *.
  - rewrite Hpc. repeat split; tauto.
  - assert (H0 : forked s <> 0) by (intros E; apply Hb in E; discriminate).
    destruct (worker (shm s)) eqn:Hw;
      cbn [shm clients wpc forked w_func w_responseId w_buf
           with_wpc with_shm with_wstate]; rewrite ?Hpc;
      repeat split; try assumption; try tauto; try discriminate;
      unfold b2n in *; simpl in *; lia.
  - assert (H0 : forked s <> 0) by (intros E; apply Hb in E; discriminate).
    repeat split; try assumption; try tauto; discriminate.
  - assert (H0 : forked s <> 0) by (intros E; apply Hb in E; discriminate).
    repeat split; try assumption; try tauto; discriminate.
  - assert (H0 : forked s <> 0) by (intros E; apply Hb in E; discriminate).
    destruct Hc. repeat split; try assumption; try tauto; discriminate.
  - assert (H0 : forked s <> 0) by (intros E; apply Hb in E; discriminate).
    repeat split; try assumption; try tauto; try discriminate;
      unfold b2n, sem_post in *; simpl in *; lia.
  - assert (H0 : forked s <> 0) by (intros E; apply Hb in E; discriminate).
    destruct (decide _); [|destruct (dispatch _ _ _ _)];
      cbn [shm clients wpc forked w_func w_responseId w_buf
           with_wpc with_shm with_wstate]; rewrite ?Hpc;
      repeat split; try assumption; try tauto; discriminate.
  - assert (H0 : forked s <> 0) by (intros E; apply Hb in E; discriminate).
    repeat split; try assumption; try tauto; discriminate.
  - assert (H0 : forked s <> 0) by (intros E; apply Hb in E; discriminate).
    repeat split; try assumption; try tauto; discriminate.
  - rewrite Hpc. repeat split; try assumption; tauto.
  - rewrite Hpc. repeat split; try assumption; tauto.
Qed.

Lemma sys_boot_invariant w0 created scripts :
  sys_inv BUFSIZE (sys_boot N BUFSIZE w0 created scripts).
Proof.
  unfold sys_inv, sys_boot; cbn [shm clients wpc forked].
  rewrite !count_if_map_false by reflexivity.
  rewrite total_map_zero by reflexivity.
  destruct created; simpl; repeat split; try lia; try discriminate.
Qed.

Lemma sys_run_invariant sched : forall s, sys_inv BUFSIZE s -> sys_inv BUFSIZE (prun sched s).
Proof.
  induction sched as [|who sched IH]; intros s H; simpl; [exact H|].
  apply IH. destruct who as [p|]; simpl.
  - apply client_step_invariant, H.
  - apply worker_step_invariant, H.
Qed.

(** Only the worker raises [full], and only when its copy is complete. *)
Lemma full_raised_after_copy who (s : system) :
  sys_inv BUFSIZE s ->
  full (shm s) < full (shm (step who s)) ->
  who = None /\ wpc s = W_SemPost_full /\ copied_out BUFSIZE s.
Proof.
  intros (_ & _ & Hc & _) Hlt. destruct who as [p|]; simpl in Hlt.
  - exfalso. unfold client_step in Hlt.
    destruct (clients s !! p) as [c|] eqn:Hp; [|lia].
    destruct (program BUFSIZE (running c) !! pc c) as [st|] eqn:Hst; [|lia].
    destruct (exec_stmt N BUFSIZE code st c (shm s) _ _) as [c' m'] eqn:He.
    destruct (exec_stmt_effect _ _ _ _ _ _ _ Hst He) as (_ & _ & B3 & _).
    simpl in Hlt. lia.
  - split; [reflexivity|]. unfold worker_step in Hlt.
    unfold copy_progress in Hc.
    destruct (wpc s) eqn:Hpc; simpl in Hlt; try lia.
    + destruct (worker (shm s)); simpl in Hlt; lia.
    + split; [reflexivity|exact Hc].
    + destruct (decide _); [|destruct (dispatch _ _ _ _)]; simpl in Hlt; lia.
Qed.

Lemma advance_moves c0 c :
  pc c0 = pc c -> script c0 = script c -> calls_done c0 = calls_done c ->
  script (advance BUFSIZE c0) = script c /\
  ((S (pc c) < length (program BUFSIZE (running c)) /\
    pc (advance BUFSIZE c0) = S (pc c) /\
    calls_done (advance BUFSIZE c0) = calls_done c) \/
   (length (program BUFSIZE (running c)) <= S (pc c) /\
    pc (advance BUFSIZE c0) = 0 /\
    calls_done (advance BUFSIZE c0) = S (calls_done c))).
Proof.
  intros H1 H2 H3. unfold advance, running. rewrite H1, H2, H3.
  destruct (S (pc c) <? _) eqn:Hlt; simpl.
  - apply Nat.ltb_lt in Hlt. split; [exact H2|]. left. auto.
  - apply Nat.ltb_ge in Hlt. split; [exact H2|]. right. auto.
Qed.

(** How a statement moves the process that runs it: not at all, on to the
    next statement, back to the top for the next call, or past the two
    statements that a worker already created makes unnecessary. *)
Lemma exec_stmt_moves st c m q started c' m' :
  exec_stmt N BUFSIZE code st c m q started = (c', m') ->
  script c' = script c /\
  ((pc c' = pc c /\ calls_done c' = calls_done c) \/
   (S (pc c) < length (program BUFSIZE (running c)) /\
    pc c' = S (pc c) /\ calls_done c' = calls_done c) \/
   (length (program BUFSIZE (running c)) <= S (pc c) /\
    pc c' = 0 /\ calls_done c' = S (calls_done c)) \/
   (st = If_not_created /\ pc c' = pc c + 3 /\ calls_done c' = calls_done c)).
Proof.
  intros He.
  assert (Hadv : forall c0, pc c0 = pc c -> script c0 = script c ->
                 calls_done c0 = calls_done c -> c' = advance BUFSIZE c0 ->
                 script c' = script c /\
                 ((pc c' = pc c /\ calls_done c' = calls_done c) \/
                  (S (pc c) < length (program BUFSIZE (running c)) /\
                   pc c' = S (pc c) /\ calls_done c' = calls_done c) \/
                  (length (program BUFSIZE (running c)) <= S (pc c) /\
                   pc c' = 0 /\ calls_done c' = S (calls_done c)) \/
                  (st = If_not_created /\ pc c' = pc c + 3 /\
                   calls_done c' = calls_done c))).
  { intros c0 H1 H2 H3 ->.
    destruct (advance_moves c0 c H1 H2 H3) as (Hs & [H|H]);
      (split; [exact Hs|]); [right; left|right; right; left]; exact H. }
  destruct st; cbn [exec_stmt] in He;
    repeat match type of He with
           | context [match ?x with _ => _ end] => destruct x eqn:?
           end;
    injection He as <- <-;
    first [ split; [reflexivity|left; split; reflexivity]
          | eapply Hadv; [| | |reflexivity]; reflexivity
          | split; [reflexivity|right; right; right; repeat split; reflexivity] ].
Qed.

Lemma client_step_cases q (s : system) :
  client_step N BUFSIZE code q s = s \/
  exists cq st c' m',
    clients s !! q = Some cq /\ program BUFSIZE (running cq) !! pc cq = Some st /\
    exec_stmt N BUFSIZE code st cq (shm s) (ResponseQueue (wstate s)) (forked s)
    = (c', m') /\
    clients (client_step N BUFSIZE code q s) = <[q:=c']> (clients s).
Proof.
  unfold client_step.
  destruct (clients s !! q) as [cq|] eqn:Hq; [|left; reflexivity].
  destruct (program BUFSIZE (running cq) !! pc cq) as [st|] eqn:Hst;
    [|left; reflexivity].
  destruct (exec_stmt N BUFSIZE code st cq (shm s) _ _) as [c' m'] eqn:He.
  right. exists cq, st, c', m'. repeat split; assumption.
Qed.

Lemma worker_step_clients (s : system) :
  clients (worker_step BUFSIZE code s) = clients s.
Proof.
  unfold worker_step. destruct (wpc s); try reflexivity.
  - destruct (worker (shm s)); reflexivity.
  - destruct (decide _); [reflexivity|].
    destruct (dispatch _ _ _ _); reflexivity.
Qed.

Lemma completed_same p (s s' : system) :
  clients s' = clients s -> completed BUFSIZE p s s' = [].
Proof.
  intros H. unfold completed. rewrite H.
  destruct (clients s !! p); [|reflexivity].
  rewrite decide_True by (split; reflexivity). reflexivity.
Qed.

(** In any run, what a process completes is its script, function after
    function, each in program order, from where it stood. *)
Lemma sys_trace_follows p sched : forall (s : system) c,
  clients s !! p = Some c ->
  follows BUFSIZE (script c) (calls_done c) (pc c)
    (sys_trace N BUFSIZE code p sched s).
Proof.
  induction sched as [|who sched IH]; intros s c Hp; simpl; [constructor|].
  destruct who as [q|]; simpl.
  - destruct (client_step_cases q s)
      as [Hs|(cq & st & c' & m' & Hq & Hst & He & Hcl)].
    { rewrite Hs. rewrite completed_same by reflexivity. simpl. apply IH, Hp. }
    destruct (decide (q = p)) as [->|Hne].
    + assert (cq = c) by congruence. subst cq.
      assert (Hp' : clients (client_step N BUFSIZE code p s) !! p = Some c').
      { rewrite Hcl. apply list_lookup_insert_eq. eapply lookup_lt_Some; eauto. }
      specialize (IH _ _ Hp').
      destruct (exec_stmt_moves _ _ _ _ _ _ _ He) as (Hsc & Hmove).
      rewrite Hsc in IH.
      unfold completed. rewrite Hp, Hp'.
      destruct Hmove as [[E1 E2]|[(Hlt & E1 & E2)|[(Hge & E1 & E2)|(-> & E1 & E2)]]];
        rewrite E1, E2 in IH.
      * rewrite decide_True by (split; congruence). exact IH.
      * rewrite decide_False by (intros [? _]; lia). rewrite Hst. simpl.
        unfold running in *. eapply follows_next; eassumption.
      * rewrite decide_False by (intros [_ ?]; lia). rewrite Hst. simpl.
        unfold running in *. eapply follows_return; eassumption.
      * rewrite decide_False by (intros [? _]; lia). rewrite Hst. simpl.
        unfold running in *. eapply follows_skip; eassumption.
    + assert (Hp' : clients (client_step N BUFSIZE code q s) !! p = Some c).
      { rewrite Hcl. rewrite list_lookup_insert_ne by exact Hne. exact Hp. }
      unfold completed. rewrite Hp, Hp'.
      rewrite decide_True by (split; reflexivity). simpl. apply IH. exact Hp'.
  - rewrite completed_same by apply worker_step_clients.
    simpl. apply IH. rewrite worker_step_clients. exact Hp.
Qed.

Lemma outstanding_bounds (s : system) :
  sys_inv BUFSIZE s ->
  count_if (holds_mutex BUFSIZE) (clients s) <= 1 /\
  outstanding s <= 1 /\
  outstanding s + count_if (producing BUFSIZE) (clients s) + full (shm s) <= 1 /\
  forked s <= 1.
Proof.
  intros (Hm & Hf & _ & _ & Hl & Hk & _). unfold outstanding.
  assert (b2n (copying (wpc s)) <= b2n (has_slot (wpc s)))
    by (destruct (wpc s); simpl; lia).
  unfold b2n in *. destruct (copying (wpc s)); lia.
Qed.

Lemma request_shape (r : routine) :
  is_request r = true ->
  (exists handshake f args reads,
     program BUFSIZE r = request_program handshake f args reads /\
     (handshake = [] \/
      handshake = [If_not_created; SemPost_agent0; SemWait_agent1]) /\
     forallb copies_in args = true /\ forallb copies_out reads = true) \/
  (exists relationId key val,
     r = PutRequest_of relationId key val /\
     BUFSIZE < put_frame_size key val /\
     program BUFSIZE r
     = [SemWait_mutex; SemWait_full; Write_func PUT; Lease; Write_responseId]
       ++ put_args key val
       ++ [SemPost_mutex; SemPost_responseMutex; Ereport_too_long] /\
     forallb copies_in (put_args key val) = true).
Proof.
  intros Hr. destruct r; try discriminate Hr; cbn [program].
  8: { destruct (BUFSIZE <? put_frame_size key val) eqn:Hfit.
       - right. exists relationId0, key, val. apply Nat.ltb_lt in Hfit.
         repeat split; auto.
       - left. exists [], PUT, (put_args key val), []. repeat split; auto. }
  3: { left. exists [], COUNT, [Write_relationId], [Read_count].
       repeat split; auto. }
  all: left; do 4 eexists;
    (split; [reflexivity|]); split; [auto|split; reflexivity].
Qed.

Lemma interrupted_mutex_wait w0 r1 r2 :
  let i0 := sys_boot N BUFSIZE w0 true
              [fun _ => CountRequest_of r1; fun _ => CountRequest_of r2] in
  count_if (holds_mutex BUFSIZE)
    (clients (sys_events N BUFSIZE code [Runs (Some 0); Signalled (Some 1)] i0))
  = 2.
Proof. reflexivity. Qed.

Lemma interrupted_full_wait w0 r1 r2 :
  2 <= N ->
  let i0 := sys_boot N BUFSIZE w0 true
              [fun _ => CountRequest_of r1; fun _ => CountRequest_of r2] in
  let a := Runs (Some 0) in
  let b := Runs (Some 1) in
  outstanding
    (sys_events N BUFSIZE code
       [a; a; a; a; a; a; a; a;
        Signalled (Some 1); Signalled (Some 1); b; b; b; b; b; b; b] i0)
  = 2.
Proof.
  intros HN. destruct N as [|[|n]]; try lia. lazy. reflexivity.
Qed.


End ProtocolFacts.


(** One client, one call, served: the client completes [CountRequest] from
    top to bottom, gets the engine's count, every semaphore is back where
    it started, and the worker is waiting for the next command. *)
Example CountRequest_served :
  let s0 := Shm.sys_init 2 16 Synthetic.worker_with_7 [7] in
  let c := Some 0%nat in
  let sched := [c; c; c; c; c; c; c; c; c;
                None; None; None; None; None; None; None;
                c; c; c] in
  let s := Shm.sys_run 2 16 Synthetic.code sched s0 in
  Shm.sys_trace 2 16 Synthetic.code 0 sched s0 = Shm.CountRequest /\
  map Shm.count (Shm.clients s) = [42] /\
  map Shm.pc (Shm.clients s) = [0%nat] /\
  Shm.calls (Shm.wstate s) = [Shm.CallCount 4096] /\
  Shm.set_area [] (Shm.shm s) = Shm.set_area [] (Shm.shm s0) /\
  Shm.wpc s = Shm.W_SemWait.
Proof. vm_compute. repeat split. Qed.

(** The first [OpenRequest] against a control block with no worker: the
    backend asks for one, the launcher thread forks it and announces it, the
    backend goes on and is served. Each of the two completes its function
    from top to bottom, one worker has been forked, and every semaphore is
    back where it started. *)
Example OpenRequest_forks_the_worker :
  let s0 := Shm.sys_boot 2 16 Synthetic.fresh_worker false
              [Synthetic.backend; Synthetic.launcher] in
  let s := Shm.sys_run 2 16 Synthetic.code Synthetic.open_served s0 in
  Shm.sys_trace 2 16 Synthetic.code 0 Synthetic.open_served s0
  = Shm.program 16 (Synthetic.backend 0) /\
  Shm.sys_trace 2 16 Synthetic.code 1 Synthetic.open_served s0
  = Shm.program 16 Shm.KVStorageThreadFun_of /\
  Shm.wpc s0 = Shm.W_unborn /\ Shm.wpc s = Shm.W_SemWait /\
  Shm.forked s = 1%nat /\
  Shm.calls (Shm.wstate s) = [Shm.CallOpen [47; 55]] /\
  Shm.set_area [] (Shm.shm s)
  = Shm.set_area [] (Shm.set_workerProcessCreated true (Shm.shm s0)).
Proof. vm_compute. repeat split. Qed.

(** A [PutRequest] whose frame of 37 bytes does not fit in 16: it leaves
    through [ereport(ERROR)] with the mutex and the response slot given
    back, but [full] is not posted again and the worker is not signalled.
    The [CountRequest] that follows takes the mutex and stays in front of
    [SemWait(&ptr->full)]. *)
Example PutRequest_too_long_keeps_the_slot :
  let s0 := Shm.sys_boot 2 16 Synthetic.fresh_worker false
              [Synthetic.backend; Synthetic.launcher] in
  let c := Some 0%nat in
  let put := Synthetic.open_served ++ replicate 14 c in
  let s := Shm.sys_run 2 16 Synthetic.code put s0 in
  let s' := Shm.sys_run 2 16 Synthetic.code (replicate 5 c) s in
  drop 15 (Shm.sys_trace 2 16 Synthetic.code 0 put s0)
  = Shm.program 16 (Synthetic.backend 1) /\
  last (Shm.program 16 (Synthetic.backend 1)) = Some Shm.Ereport_too_long /\
  map Shm.raised (Shm.clients s) = [1; 0]%nat /\
  Shm.mutex (Shm.shm s) = 1%nat /\ Shm.full (Shm.shm s) = 0%nat /\
  Shm.worker (Shm.shm s) = 0%nat /\
  Shm.responseMutex (Shm.shm s) = [1; 1]%nat /\
  Shm.calls (Shm.wstate s) = [Shm.CallOpen [47; 55]] /\
  map Shm.pc (Shm.clients s') = [1; 0]%nat /\
  Shm.mutex (Shm.shm s') = 0%nat.
Proof. vm_compute. repeat split. Qed.

(** The launcher thread cancelled after its turn: [cleanup_handler] sends
    TERMINATE, the worker leaves its loop, and the thread arrives at the
    teardown with the mutex and response slot 0 still taken; the backend's
    next call stays in front of [SemWait(&ptr->mutex)]. *)
Example cleanup_handler_keeps_the_mutex :
  let s0 := Shm.sys_boot 2 16 Synthetic.fresh_worker false
              [Synthetic.backend; Synthetic.launcher] in
  let c := Some 0%nat in
  let l := Some 1%nat in
  let sched := Synthetic.open_served
               ++ [l; l; l; l; l; l; l; l; None; None; None; None; None; None;
                   l; l; l; c; c] in
  let s := Shm.sys_run 2 16 Synthetic.code sched s0 in
  drop 4 (Shm.sys_trace 2 16 Synthetic.code 1 sched s0)
  = [Shm.If_worker_started; Shm.SemWait_mutex; Shm.SemWait_full;
     Shm.Write_func Shm.TERMINATE; Shm.Lease; Shm.Write_responseId;
     Shm.SemPost_worker; Shm.SemWait_responseSync] /\
  Shm.wpc s = Shm.W_shutdown /\
  map Shm.pc (Shm.clients s) = [0; 8]%nat /\
  map Shm.calls_done (Shm.clients s) = [1; 1]%nat /\
  Shm.mutex (Shm.shm s) = 0%nat /\ Shm.full (Shm.shm s) = 1%nat /\
  Shm.responseMutex (Shm.shm s) = [0; 1]%nat.
Proof. vm_compute. repeat split. Qed.

(** Two backends in [CountRequest], and a signal that interrupts the wait
    of the second on [mutex] and then on [full]: both have written their
    command into the one area, [worker] has been posted twice, and the
    worker will read the second command twice. A worker whose own wait is
    interrupted goes on to copy a command nobody has handed over. *)
Example interrupted_waits_overwrite_a_command :
  let s0 := Shm.sys_init 2 16 Synthetic.worker_with_7 [7; 8] in
  let a := Shm.Runs (Some 0%nat) in
  let b := Shm.Runs (Some 1%nat) in
  let sig := Shm.Signalled (Some 1%nat) in
  let s := Shm.sys_events 2 16 Synthetic.code
             [a; a; a; a; a; a; a; a; sig; sig; b; b; b; b; b; b; b] s0 in
  Shm.worker (Shm.shm s) = 2%nat /\
  Shm.outstanding s = 2%nat /\
  Shm.count_if (Shm.holds_mutex 16) (Shm.clients s) = 2%nat /\
  map Shm.responseId (Shm.clients s) = [0; 1]%nat /\
  take 12 (Shm.area (Shm.shm s)) = [2; 0; 0; 0; 1; 0; 0; 0; 8; 0; 0; 0] /\
  Shm.worker (Shm.shm s0) = 0%nat /\
  Shm.wpc (Shm.sys_events 2 16 Synthetic.code [Shm.Signalled None] s0)
  = Shm.W_copy_func.
Proof. vm_compute. repeat split. Qed.

(** * Further properties of the code *)

(** ** Scalars and strings in memory *)

Section ByteFacts.
Local Open Scope Z_scope.

Lemma length_le_bytes n : forall v, length (le_bytes n v) = n.
Proof. induction n as [|n IH]; intros v; simpl; [reflexivity|]. rewrite IH. reflexivity. Qed.

Lemma le_value_le_bytes n : forall v, le_value (le_bytes n v) = v mod 256 ^ Z.of_nat n.
Proof.
  induction n as [|n IH]; intros v.
  - simpl. rewrite Z.mod_1_r. reflexivity.
  - cbn [le_bytes le_value]. rewrite IH.
    rewrite Nat2Z.inj_succ, Z.pow_succ_r by lia.
    rewrite Z.rem_mul_r by lia. reflexivity.
Qed.

Lemma le_value_le_bytes_small n v :
  0 <= v < 256 ^ Z.of_nat n -> le_value (le_bytes n v) = v.
Proof. intros H. rewrite le_value_le_bytes. apply Z.mod_small, H. Qed.

Lemma le_value_app a : forall b,
  le_value (a ++ b) = le_value a + 256 ^ Z.of_nat (length a) * le_value b.
Proof.
  induction a as [|x a IH]; intros b.
  - simpl. lia.
  - cbn [app le_value length]. rewrite IH, Nat2Z.inj_succ, Z.pow_succ_r by lia. lia.
Qed.

Lemma le_bytes_app a : forall b v,
  le_bytes (a + b) v = le_bytes a v ++ le_bytes b (v / 256 ^ Z.of_nat a).
Proof.
  induction a as [|a IH]; intros b v.
  - cbn [Nat.add app le_bytes]. rewrite Z.div_1_r. reflexivity.
  - cbn [Nat.add app le_bytes]. rewrite IH. f_equal. f_equal. f_equal.
    rewrite Nat2Z.inj_succ, Z.pow_succ_r by lia.
    rewrite Z.div_div by lia. reflexivity.
Qed.

Lemma le_bytes_zero n : le_bytes n 0 = replicate n 0.
Proof.
  induction n as [|n IH]; [reflexivity|].
  cbn [le_bytes replicate]. change (0 / 256) with 0. rewrite IH. reflexivity.
Qed.

(** The upper half of an eight-byte scalar below [2 ^ 32] is zero. *)
Lemma le_bytes_8_small v :
  0 <= v < 2 ^ 32 -> le_bytes 8 v = le_bytes 4 v ++ replicate 4 0.
Proof.
  intros H. change 8%nat with (4 + 4)%nat. rewrite le_bytes_app.
  change (256 ^ Z.of_nat 4) with (2 ^ 32). rewrite Z.div_small by exact H.
  rewrite le_bytes_zero. reflexivity.
Qed.

Lemma le_value_zeros n : le_value (replicate n 0) = 0.
Proof. induction n as [|n IH]; simpl; [reflexivity|]. rewrite IH. reflexivity. Qed.

Lemma bytes_at_field pre x post :
  bytes_at (pre ++ x ++ post) (length pre) (length x) = x.
Proof. unfold bytes_at. rewrite drop_app_length, take_app_length. reflexivity. Qed.

Lemma bytes_at_field' pre x post off len :
  off = length pre -> len = length x ->
  bytes_at (pre ++ x ++ post) off len = x.
Proof. intros -> ->. apply bytes_at_field. Qed.

Lemma bytes_at_head x post len :
  len = length x -> bytes_at (x ++ post) 0 len = x.
Proof. intros ->. apply (bytes_at_field [] x post). Qed.

Lemma bytes_at_last pre x off len :
  off = length pre -> len = length x -> bytes_at (pre ++ x) off len = x.
Proof.
  intros -> ->. rewrite <- (app_nil_r x) at 1. apply bytes_at_field.
Qed.

Lemma strz_app_nul p rest :
  Forall (fun b => b <> 0) p -> strz (p ++ 0 :: rest) = p.
Proof.
  induction 1 as [|b p Hb _ IH]; simpl; [reflexivity|].
  destruct (b =? 0) eqn:E; [apply Z.eqb_eq in E; contradiction|].
  rewrite IH. reflexivity.
Qed.

Lemma strz_app p rest :
  Forall (fun b => b <> 0) p -> strz (p ++ rest) = p ++ strz rest.
Proof.
  induction 1 as [|b p Hb _ IH]; [reflexivity|].
  cbn [app strz]. destruct (Z.eqb_spec b 0); [contradiction|].
  rewrite IH. reflexivity.
Qed.

Lemma strz_end p : Forall (fun b => b <> 0) p -> strz p = p.
Proof.
  induction 1 as [|b p Hb _ IH]; simpl; [reflexivity|].
  destruct (b =? 0) eqn:E; [apply Z.eqb_eq in E; contradiction|].
  rewrite IH. reflexivity.
Qed.

Lemma entity_of_exact (m : Msg.KVMessage) :
  Msg.etySize (Msg.hdr m) = Z.of_nat (length (Msg.ety m)) ->
  Msg.entity_of m = Msg.ety m.
Proof.
  intros H. unfold Msg.entity_of. rewrite H, Nat2Z.id, firstn_all.
  rewrite Nat.sub_diag. apply app_nil_r.
Qed.

End ByteFacts.

(** ** Requests of the message-queue client, as the worker reads them *)

Section QueueRoundTrips.
Import Posix Msg.

Context {E : Msg.Storage} {E' : Worker.Storage}.
Variables READBATCHSIZE sizeof_opts : nat.
Variable MSGBUFSIZE : nat.
Variable uninitialised : Worker.KVWorker -> list Z.

#[local] Arguments le_bytes : simpl never.
#[local] Arguments wrap64 : simpl never.

(** The switch of [KVWorker::Run], case by case. *)

Lemma Server_handle_Open fuel msg (w : Server.KVWorker) :
  op (hdr msg) = KVOpOpen ->
  Server.handle READBATCHSIZE sizeof_opts fuel msg w = Some (Server.Open sizeof_opts msg w).
Proof. intros H. unfold Server.handle. rewrite H. reflexivity. Qed.

Lemma Server_handle_Close fuel msg (w : Server.KVWorker) :
  op (hdr msg) = KVOpClose ->
  Server.handle READBATCHSIZE sizeof_opts fuel msg w = Some (Server.Close msg w).
Proof. intros H. unfold Server.handle. rewrite H. reflexivity. Qed.

Lemma Server_handle_Count fuel msg (w : Server.KVWorker) :
  op (hdr msg) = KVOpCount ->
  Server.handle READBATCHSIZE sizeof_opts fuel msg w = Some (Server.Count msg w).
Proof. intros H. unfold Server.handle. rewrite H. reflexivity. Qed.

Lemma Server_handle_Put fuel msg (w : Server.KVWorker) :
  op (hdr msg) = KVOpPut ->
  Server.handle READBATCHSIZE sizeof_opts fuel msg w = Some (Server.Put msg w).
Proof. intros H. unfold Server.handle. rewrite H. reflexivity. Qed.

Lemma Server_handle_Get fuel msg (w : Server.KVWorker) :
  op (hdr msg) = KVOpGet ->
  Server.handle READBATCHSIZE sizeof_opts fuel msg w = Some (Server.Get msg w).
Proof. intros H. unfold Server.handle. rewrite H. reflexivity. Qed.

Lemma Server_handle_Delete fuel msg (w : Server.KVWorker) :
  op (hdr msg) = KVOpDel ->
  Server.handle READBATCHSIZE sizeof_opts fuel msg w = Some (Server.Delete msg w).
Proof. intros H. unfold Server.handle. rewrite H. reflexivity. Qed.

Lemma Server_handle_Load fuel msg (w : Server.KVWorker) :
  op (hdr msg) = KVOpLoad ->
  Server.handle READBATCHSIZE sizeof_opts fuel msg w = Some (Server.Load msg w).
Proof. intros H. unfold Server.handle. rewrite H. reflexivity. Qed.

Lemma Server_handle_ReadBatch fuel msg (w : Server.KVWorker) :
  op (hdr msg) = KVOpReadBatch ->
  Server.handle READBATCHSIZE sizeof_opts fuel msg w = Some (Server.ReadBatch READBATCHSIZE msg w).
Proof. intros H. unfold Server.handle. rewrite H. reflexivity. Qed.

Lemma Server_handle_CloseCursor fuel msg (w : Server.KVWorker) :
  op (hdr msg) = KVOpDelCursor ->
  Server.handle READBATCHSIZE sizeof_opts fuel msg w = Some (Server.CloseCursor msg w).
Proof. intros H. unfold Server.handle. rewrite H. reflexivity. Qed.

Lemma Server_handle_ClearRangeQuery fuel msg (w : Server.KVWorker) :
  op (hdr msg) = KVOpClearRangeQuery ->
  Server.handle READBATCHSIZE sizeof_opts fuel msg w = Some (Server.ClearRangeQuery msg w).
Proof. intros H. unfold Server.handle. rewrite H. reflexivity. Qed.

Lemma Server_handle_Terminate fuel msg (w : Server.KVWorker) :
  op (hdr msg) = KVOpTerminate ->
  Server.handle READBATCHSIZE sizeof_opts fuel msg w = Some (Server.Terminate msg w).
Proof. intros H. unfold Server.handle. rewrite H. reflexivity. Qed.

Lemma Server_handle_RangeQuery fuel msg (w : Server.KVWorker) :
  op (hdr msg) = KVOpRangeQuery ->
  Server.handle READBATCHSIZE sizeof_opts fuel msg w = Server.RangeQuery fuel msg w.
Proof. intros H. unfold Server.handle. rewrite H. reflexivity. Qed.

Lemma Worker_handle_Open fuel msg (w : Worker.KVWorker) :
  op (hdr msg) = KVOpOpen ->
  Worker.handle READBATCHSIZE sizeof_opts MSGBUFSIZE uninitialised fuel msg w = Some (Worker.Open sizeof_opts MSGBUFSIZE uninitialised msg w).
Proof. intros H. unfold Worker.handle. rewrite H. reflexivity. Qed.

Lemma Worker_handle_Close fuel msg (w : Worker.KVWorker) :
  op (hdr msg) = KVOpClose ->
  Worker.handle READBATCHSIZE sizeof_opts MSGBUFSIZE uninitialised fuel msg w = Some (Worker.Close msg w).
Proof. intros H. unfold Worker.handle. rewrite H. reflexivity. Qed.

Lemma Worker_handle_Count fuel msg (w : Worker.KVWorker) :
  op (hdr msg) = KVOpCount ->
  Worker.handle READBATCHSIZE sizeof_opts MSGBUFSIZE uninitialised fuel msg w = Some (Worker.Count msg w).
Proof. intros H. unfold Worker.handle. rewrite H. reflexivity. Qed.

Lemma Worker_handle_Put fuel msg (w : Worker.KVWorker) :
  op (hdr msg) = KVOpPut ->
  Worker.handle READBATCHSIZE sizeof_opts MSGBUFSIZE uninitialised fuel msg w = Some (Worker.Put MSGBUFSIZE uninitialised msg w).
Proof. intros H. unfold Worker.handle. rewrite H. reflexivity. Qed.

Lemma Worker_handle_Get fuel msg (w : Worker.KVWorker) :
  op (hdr msg) = KVOpGet ->
  Worker.handle READBATCHSIZE sizeof_opts MSGBUFSIZE uninitialised fuel msg w = Some (Worker.Get MSGBUFSIZE uninitialised msg w).
Proof. intros H. unfold Worker.handle. rewrite H. reflexivity. Qed.

Lemma Worker_handle_Delete fuel msg (w : Worker.KVWorker) :
  op (hdr msg) = KVOpDel ->
  Worker.handle READBATCHSIZE sizeof_opts MSGBUFSIZE uninitialised fuel msg w = Some (Worker.Delete MSGBUFSIZE uninitialised msg w).
Proof. intros H. unfold Worker.handle. rewrite H. reflexivity. Qed.

Lemma Worker_handle_Load fuel msg (w : Worker.KVWorker) :
  op (hdr msg) = KVOpLoad ->
  Worker.handle READBATCHSIZE sizeof_opts MSGBUFSIZE uninitialised fuel msg w = Some (Worker.Load MSGBUFSIZE uninitialised msg w).
Proof. intros H. unfold Worker.handle. rewrite H. reflexivity. Qed.

Lemma Worker_handle_ReadBatch fuel msg (w : Worker.KVWorker) :
  op (hdr msg) = KVOpReadBatch ->
  Worker.handle READBATCHSIZE sizeof_opts MSGBUFSIZE uninitialised fuel msg w = Some (Worker.ReadBatch READBATCHSIZE msg w).
Proof. intros H. unfold Worker.handle. rewrite H. reflexivity. Qed.

Lemma Worker_handle_CloseCursor fuel msg (w : Worker.KVWorker) :
  op (hdr msg) = KVOpDelCursor ->
  Worker.handle READBATCHSIZE sizeof_opts MSGBUFSIZE uninitialised fuel msg w = Some (Worker.CloseCursor msg w).
Proof. intros H. unfold Worker.handle. rewrite H. reflexivity. Qed.

Lemma Worker_handle_ClearRangeQuery fuel msg (w : Worker.KVWorker) :
  op (hdr msg) = KVOpClearRangeQuery ->
  Worker.handle READBATCHSIZE sizeof_opts MSGBUFSIZE uninitialised fuel msg w = Some (Worker.ClearRangeQuery msg w).
Proof. intros H. unfold Worker.handle. rewrite H. reflexivity. Qed.

Lemma Worker_handle_Terminate fuel msg (w : Worker.KVWorker) :
  op (hdr msg) = KVOpTerminate ->
  Worker.handle READBATCHSIZE sizeof_opts MSGBUFSIZE uninitialised fuel msg w = Some (Worker.Terminate msg w).
Proof. intros H. unfold Worker.handle. rewrite H. reflexivity. Qed.

Lemma Worker_handle_RangeQuery fuel msg (w : Worker.KVWorker) :
  op (hdr msg) = KVOpRangeQuery ->
  Worker.handle READBATCHSIZE sizeof_opts MSGBUFSIZE uninitialised fuel msg w = Worker.RangeQuery uninitialised fuel msg w.
Proof. intros H. unfold Worker.handle. rewrite H. reflexivity. Qed.

Lemma read_PutArgs_WritePutArgs base (args : PutArgs.t) :
  Z.of_nat (length (PutArgs.key args)) + Z.of_nat (length (PutArgs.val args)) + 8
  < 2 ^ 64 ->
  Server.read_PutArgs
    (with_body base
       (wrap64 (Z.of_nat (length (PutArgs.key args))
                + Z.of_nat (length (PutArgs.val args)) + 8))
       (ServerClient.WritePutArgs args))
  = (PutArgs.key args, PutArgs.val args).
Proof.
  intros Hsz. destruct args as [key val]; simpl in *.
  assert (Hw : wrap64 (Z.of_nat (length key) + Z.of_nat (length val) + 8)
               = Z.of_nat (length key) + Z.of_nat (length val) + 8).
  { apply Z.mod_small. lia. }
  unfold Server.read_PutArgs, ServerClient.WritePutArgs, Push.
  cbn [PutArgs.key PutArgs.val app].
  rewrite entity_of_exact.
  2:{ cbn [with_body hdr ety etySize].
      rewrite Hw, !length_app, length_le_bytes. lia. }
  cbn [with_body hdr ety etySize]. rewrite <- app_assoc.
  assert (Hk : u64_at (le_bytes 8 (Z.of_nat (length key)) ++ key ++ val) 0
               = Z.of_nat (length key)).
  { unfold u64_at. rewrite bytes_at_head by (rewrite length_le_bytes; reflexivity).
    apply le_value_le_bytes_small. change (256 ^ Z.of_nat 8) with (2 ^ 64). lia. }
  rewrite Hk, Hw, Nat2Z.id.
  replace (wrap64 (Z.of_nat (length key) + Z.of_nat (length val) + 8
                   - Z.of_nat (length key) - 8)) with (Z.of_nat (length val)).
  2:{ symmetry. unfold wrap64. rewrite Z.mod_small; lia. }
  rewrite Nat2Z.id. f_equal.
  - apply bytes_at_field'; [rewrite length_le_bytes|]; reflexivity.
  - rewrite app_assoc. apply bytes_at_last; [|reflexivity].
    rewrite length_app, length_le_bytes. reflexivity.
Qed.

Lemma Worker_read_PutArgs_WritePutArgs base (args : PutArgs.t) (w : Worker.KVWorker) :
  Z.of_nat (length (PutArgs.key args)) + Z.of_nat (length (PutArgs.val args)) + 8
  < 2 ^ 64 ->
  let msg :=
    with_body base
      (wrap64 (Z.of_nat (length (PutArgs.key args))
               + Z.of_nat (length (PutArgs.val args)) + 8))
      (WorkerClient.WritePutArgs args) in
  Worker.read_PutArgs msg
    (Worker.buf_after_Recv uninitialised (entity_of msg) w)
  = (PutArgs.key args, PutArgs.val args).
Proof.
  intros Hsz msg. subst msg. destruct args as [key val]; simpl in *.
  assert (Hw : wrap64 (Z.of_nat (length key) + Z.of_nat (length val) + 8)
               = Z.of_nat (length key) + Z.of_nat (length val) + 8).
  { apply Z.mod_small. lia. }
  unfold Worker.read_PutArgs, WorkerClient.WritePutArgs, Push.
  cbn [PutArgs.key PutArgs.val app].
  rewrite entity_of_exact.
  2:{ cbn [with_body hdr ety etySize].
      rewrite Hw, !length_app, length_le_bytes. lia. }
  cbn [with_body hdr ety etySize]. rewrite <- app_assoc.
  set (body := le_bytes 8 (Z.of_nat (length key)) ++ key ++ val).
  assert (Hlen : length body = (8 + length key + length val)%nat).
  { subst body. rewrite !length_app, length_le_bytes. lia. }
  assert (Hk : u64_at (Worker.buf_after_Recv uninitialised body w) 0
               = Z.of_nat (length key)).
  { unfold u64_at. rewrite buf_after_Recv_bytes_at by lia. subst body.
    rewrite bytes_at_head by (rewrite length_le_bytes; reflexivity).
    apply le_value_le_bytes_small. change (256 ^ Z.of_nat 8) with (2 ^ 64). lia. }
  rewrite Hk, Hw, Nat2Z.id.
  replace (wrap64 (Z.of_nat (length key) + Z.of_nat (length val) + 8
                   - Z.of_nat (length key) - 8)) with (Z.of_nat (length val)).
  2:{ symmetry. unfold wrap64. rewrite Z.mod_small; lia. }
  rewrite Nat2Z.id, !buf_after_Recv_bytes_at by lia. subst body. f_equal.
  - apply bytes_at_field'; [rewrite length_le_bytes|]; reflexivity.
  - rewrite app_assoc. apply bytes_at_last; [|reflexivity].
    rewrite length_app, length_le_bytes. reflexivity.
Qed.

Lemma on_channel_with_body c base sz body :
  on_channel c (with_body base sz body) = with_body (on_channel c base) sz body.
Proof. reflexivity. Qed.

Lemma replies_since_one (before : list KVMessage) m :
  replies_since before (before ++ [m]) = [m].
Proof. unfold replies_since. apply drop_app_length. Qed.

Lemma replies_since_none (before : list KVMessage) :
  replies_since before before = [].
Proof. unfold replies_since. apply drop_all. Qed.


Lemma entity_of_key base (key : list Z) :
  entity_of (with_body base (Z.of_nat (length key)) (CommonWriteEntity key)) = key.
Proof. apply entity_of_exact. reflexivity. Qed.

Lemma entity_of_with_entity base (body : list Z) :
  entity_of (with_entity base body) = body.
Proof. apply entity_of_exact. reflexivity. Qed.

Lemma Count_result_le_bytes h count :
  le_value (take 8 (ety {| hdr := h; ety := le_bytes 8 count |})) = wrap64 count.
Proof.
  cbn [ety]. rewrite <- (length_le_bytes 8 count) at 1.
  rewrite firstn_all. apply le_value_le_bytes.
Qed.


Lemma Open_entity_fields base (args : OpenArgs.t) :
  length (OpenArgs.opts args) = sizeof_opts ->
  Forall (fun b => b <> 0) (OpenArgs.path args) ->
  0 <= OpenArgs.attrCount args < 2 ^ 32 ->
  Z.of_nat sizeof_opts + Z.of_nat (length (OpenArgs.path args)) + (1 + 4) < 2 ^ 64 ->
  let body :=
    entity_of
      (with_body base
         (wrap64 (Z.of_nat sizeof_opts + Z.of_nat (length (OpenArgs.path args))
                  + (1 + 4)))
         (ServerClient.WriteOpenArgs args)) in
  take sizeof_opts body = OpenArgs.opts args /\
  negb (le_value (bytes_at body sizeof_opts 1) =? 0) = OpenArgs.useColumn args /\
  u32_at body (sizeof_opts + 1) = OpenArgs.attrCount args /\
  strz (drop (sizeof_opts + 1 + 4) body) = OpenArgs.path args /\
  drop (sizeof_opts + 1 + 4) body = OpenArgs.path args.
Proof.
  destruct args as [opts uc ac path]. cbn [OpenArgs.opts OpenArgs.path
    OpenArgs.attrCount OpenArgs.useColumn].
  intros Hopts Hpath Hac Hsz. cbv zeta.
  rewrite entity_of_exact.
  2:{ cbn [with_body hdr ety etySize]. unfold ServerClient.WriteOpenArgs, Push.
      cbn [OpenArgs.opts OpenArgs.path OpenArgs.attrCount OpenArgs.useColumn app].
      rewrite !length_app, length_le_bytes, Hopts. cbn [length].
      unfold wrap64. rewrite Z.mod_small; lia. }
  cbn [with_body ety]. unfold ServerClient.WriteOpenArgs, Push.
  cbn [OpenArgs.opts OpenArgs.path OpenArgs.attrCount OpenArgs.useColumn app].
  rewrite <- !app_assoc. rewrite <- Hopts.
  split; [apply take_app_length|].
  split.
  { rewrite (bytes_at_field' opts [if uc then 1 else 0]) by reflexivity.
    destruct uc; reflexivity. }
  split.
  { unfold u32_at. rewrite (app_assoc opts).
    rewrite bytes_at_field'.
    - apply le_value_le_bytes_small. exact Hac.
    - rewrite length_app. reflexivity.
    - rewrite length_le_bytes. reflexivity. }
  rewrite (app_assoc opts), (app_assoc (opts ++ _)).
  replace (length opts + 1 + 4)%nat
    with (length ((opts ++ [if uc then 1 else 0]) ++ le_bytes 4 ac)).
  2:{ rewrite !length_app, length_le_bytes. reflexivity. }
  rewrite drop_app_length. split; [apply strz_end, Hpath|reflexivity].
Qed.


Lemma key_pid_le_bytes pid tl :
  - 2 ^ 31 <= pid < 2 ^ 31 -> key_pid (le_bytes 4 pid ++ tl) = pid.
Proof.
  intros H. unfold key_pid.
  assert (Ht : take 4 (le_bytes 4 pid ++ tl) = le_bytes 4 pid).
  { rewrite <- (length_le_bytes 4 pid) at 1. apply take_app_length. }
  rewrite Ht. cbv zeta.
  rewrite le_value_le_bytes. change (256 ^ Z.of_nat 4) with (2 ^ 32).
  destruct (Z.lt_ge_cases pid 0) as [Hneg|Hpos].
  - replace (pid mod 2 ^ 32) with (pid + 2 ^ 32).
    2:{ apply Z.mod_unique with (-1); lia. }
    destruct (Z.ltb_spec (pid + 2 ^ 32) (2 ^ 31)); lia.
  - rewrite Z.mod_small by lia.
    destruct (Z.ltb_spec pid (2 ^ 31)); lia.
Qed.

Lemma key_opid_le_bytes pid opid tl :
  0 <= opid < 2 ^ 64 -> key_opid (le_bytes 4 pid ++ le_bytes 8 opid ++ tl) = opid.
Proof.
  intros H. unfold key_opid.
  assert (Hd : drop 4 (le_bytes 4 pid ++ le_bytes 8 opid ++ tl)
               = le_bytes 8 opid ++ tl).
  { rewrite <- (length_le_bytes 4 pid) at 1. apply drop_app_length. }
  assert (Ht : take 8 (le_bytes 8 opid ++ tl) = le_bytes 8 opid).
  { rewrite <- (length_le_bytes 8 opid) at 1. apply take_app_length. }
  rewrite Hd, Ht.
  apply le_value_le_bytes_small. exact H.
Qed.

Lemma cursor_entity base pid opid :
  entity_of (with_body base (4 + 8) (ServerClient.WriteReadBatchArgs pid opid))
  = le_bytes 4 pid ++ le_bytes 8 opid ++ [].
Proof.
  rewrite entity_of_exact.
  - unfold ServerClient.WriteReadBatchArgs, Push. cbn [with_body ety app].
    rewrite app_nil_r. reflexivity.
  - unfold ServerClient.WriteReadBatchArgs, Push. cbn [with_body hdr ety etySize app].
    rewrite length_app, !length_le_bytes. reflexivity.
Qed.

Lemma state_reply_decodes channel (st : ReadBatchState) :
  let reply := Server.state_message channel st in
  ServerClient.succeeded reply = true /\
  negb (le_value (take 1 (ety reply)) =? 0) = next st /\
  le_value (take 8 (drop 1 (ety reply))) = wrap64 (size st).
Proof.
  intros reply. subst reply. split; [reflexivity|].
  unfold Server.state_message, WriteReadBatchState. cbn [ety].
  split.
  - destruct (next st); reflexivity.
  - change (drop 1 ((if next st then 1 else 0) :: le_bytes 8 (size st)))
      with (le_bytes 8 (size st)).
    assert (Ht : take 8 (le_bytes 8 (size st)) = le_bytes 8 (size st)).
    { rewrite <- (length_le_bytes 8 (size st)) at 1. apply firstn_all. }
    rewrite Ht. apply le_value_le_bytes.
Qed.

Lemma Server_ReadBatch_result_state workerId pid opid prev channel (st : ReadBatchState) :
  ServerClient.ReadBatch_result workerId pid opid prev (Server.state_message channel st)
  = {| Batch.next := next st; Batch.bufLen := wrap64 (size st);
       Batch.buf := if wrap64 (size st) =? 0 then None
                    else Some (segment_name READBATCHPATH pid workerId opid) |}.
Proof.
  destruct (state_reply_decodes channel st) as (H1 & H2 & H3).
  unfold ServerClient.ReadBatch_result.
  change (ServerClient.succeeded (Server.state_message channel st))
    with (ServerClient.succeeded (Server.state_message channel st)).
  change (ety (Server.state_message channel st))
    with (ety (Server.state_message channel st)).
  rewrite H1. cbn [negb]. cbv zeta. rewrite H2, H3. reflexivity.
Qed.

Lemma Server_RangeQuery_result_state workerId pid opid prev channel (st : ReadBatchState) :
  ServerClient.RangeQuery_result workerId pid opid prev (Server.state_message channel st)
  = {| Batch.next := next st; Batch.bufLen := wrap64 (size st);
       Batch.buf := if wrap64 (size st) =? 0 then None
                    else Some (segment_name RANGEQUERYPATH pid workerId opid) |}.
Proof.
  destruct (state_reply_decodes channel st) as (H1 & H2 & H3).
  unfold ServerClient.RangeQuery_result.
  change (ServerClient.succeeded (Server.state_message channel st))
    with (ServerClient.succeeded (Server.state_message channel st)).
  change (ety (Server.state_message channel st))
    with (ety (Server.state_message channel st)).
  rewrite H1. cbn [negb]. cbv zeta. rewrite H2, H3. reflexivity.
Qed.

Lemma Worker_ReadBatch_result_state workerId pid opid prev channel (st : ReadBatchState) :
  WorkerClient.ReadBatch_result workerId pid opid prev (Worker.state_message channel st)
  = {| Batch.next := next st; Batch.bufLen := wrap64 (size st);
       Batch.buf := if wrap64 (size st) =? 0 then None
                    else Some (segment_name READBATCHPATH pid workerId opid) |}.
Proof.
  destruct (state_reply_decodes channel st) as (H1 & H2 & H3).
  unfold WorkerClient.ReadBatch_result.
  change (WorkerClient.succeeded (Worker.state_message channel st))
    with (ServerClient.succeeded (Server.state_message channel st)).
  change (ety (Worker.state_message channel st))
    with (ety (Server.state_message channel st)).
  rewrite H1. cbn [negb]. cbv zeta. rewrite H2, H3. reflexivity.
Qed.

Lemma Worker_RangeQuery_result_state workerId pid opid prev channel (st : ReadBatchState) :
  WorkerClient.RangeQuery_result workerId pid opid prev (Worker.state_message channel st)
  = {| Batch.next := next st; Batch.bufLen := wrap64 (size st);
       Batch.buf := if wrap64 (size st) =? 0 then None
                    else Some (segment_name RANGEQUERYPATH pid workerId opid) |}.
Proof.
  destruct (state_reply_decodes channel st) as (H1 & H2 & H3).
  unfold WorkerClient.RangeQuery_result.
  change (WorkerClient.succeeded (Worker.state_message channel st))
    with (ServerClient.succeeded (Server.state_message channel st)).
  change (ety (Worker.state_message channel st))
    with (ety (Server.state_message channel st)).
  rewrite H1. cbn [negb]. cbv zeta. rewrite H2, H3. reflexivity.
Qed.

Lemma Server_ReadBatch_serves workerId db channel pid opid prev (w : Server.KVWorker) :
  - 2 ^ 31 <= pid < 2 ^ 31 -> 0 <= opid < 2 ^ 64 ->
  let msg := request (ServerClient.ReadBatch workerId db channel pid opid) in
  let name := segment_name READBATCHPATH pid workerId opid in
  key_of msg = (pid, opid) /\
  exists cursor nx sz data s,
    let w1 := Server.ReadBatch READBATCHSIZE msg w in
    Server.cursors_ w1 !! (pid, opid) = Some cursor /\
    BatchRead (Server.conn_ w) cursor s = (nx, sz, data, Server.db_store w1) /\
    match Server.cursors_ w !! (pid, opid) with
    | Some c =>
        cursor = c /\ s = Server.db_store w /\
        Server.calls w1 = Server.calls w ++ [CallBatchRead (Server.conn_ w) c]
    | None =>
        (cursor, s) = GetIter (Server.conn_ w) (Server.db_store w) /\
        Server.calls w1
        = Server.calls w ++ [CallGetIter (Server.conn_ w);
                          CallBatchRead (Server.conn_ w) cursor]
    end /\
    Server.segments w1 !! name = Some (memcpy (replicate READBATCHSIZE 0) 0 data) /\
    replies_since (Server.sent w) (Server.sent w1)
    = [Server.state_message channel {| next := nx; size := sz |}] /\
    ServerClient.ReadBatch_result workerId pid opid prev
      (Server.state_message channel {| next := nx; size := sz |})
    = {| Batch.next := nx; Batch.bufLen := wrap64 sz;
         Batch.buf := if wrap64 sz =? 0 then None else Some name |}.
Proof.
  intros Hpid Hopid msg name. subst msg name.
  unfold ServerClient.ReadBatch, SendWithResponse. cbn [request].
  rewrite on_channel_with_body.
  assert (Hk : key_of (with_body (on_channel channel (SimpleMessage KVOpReadBatch workerId db))
                         (4 + 8) (ServerClient.WriteReadBatchArgs pid opid))
               = (pid, opid)).
  { unfold key_of.
    change (ServerClient.WriteReadBatchArgs pid opid)
      with (ServerClient.WriteReadBatchArgs pid opid).
    rewrite cursor_entity.
    rewrite key_pid_le_bytes, key_opid_le_bytes by assumption. reflexivity. }
  split; [exact Hk|].
  unfold Server.ReadBatch. unfold key_of in Hk. injection Hk as Hp Ho.
  rewrite Hp, Ho. cbn [fst snd with_body on_channel SimpleMessage hdr relId rpsId].
  destruct (Server.cursors_ w !! (pid, opid)) as [c|] eqn:Hc.
  - destruct (BatchRead (Server.conn_ w) c (Server.db_store w)) as [[[nx sz] data] s1] eqn:Hb.
    exists c, nx, sz, data, (Server.db_store w). cbv zeta.
    unfold Server.do_ShmUnlink.
    cbn [Server.Send Server.called Server.set_segments Server.logged Server.conn_ Server.db_store
         Server.cursors_ Server.calls Server.sent Server.segments].
    rewrite Hb.
    cbn [Server.Send Server.called Server.set_segments Server.logged Server.conn_ Server.db_store
         Server.cursors_ Server.calls Server.sent Server.segments].
    split; [exact Hc|]. split; [reflexivity|]. split; [repeat split|].
    split; [apply lookup_insert_eq|]. split; [apply replies_since_one|].
    apply Server_ReadBatch_result_state.
  - destruct (GetIter (Server.conn_ w) (Server.db_store w)) as [c s0] eqn:Hg.
    destruct (BatchRead (Server.conn_ w) c s0) as [[[nx sz] data] s1] eqn:Hb.
    exists c, nx, sz, data, s0. cbv zeta.
    unfold Server.do_ShmUnlink.
    cbn [Server.Send Server.called Server.set_segments Server.set_cursors Server.logged
         Server.conn_ Server.db_store Server.cursors_ Server.calls Server.sent Server.segments].
    rewrite Hb.
    cbn [Server.Send Server.called Server.set_segments Server.set_cursors Server.logged
         Server.conn_ Server.db_store Server.cursors_ Server.calls Server.sent Server.segments].
    split; [apply lookup_insert_eq|]. split; [reflexivity|].
    split; [split; [reflexivity|rewrite <- app_assoc; reflexivity]|].
    split; [apply lookup_insert_eq|]. split; [apply replies_since_one|].
    apply Server_ReadBatch_result_state.
Qed.

Lemma Worker_ReadBatch_serves workerId db channel pid opid prev (w : Worker.KVWorker) :
  - 2 ^ 31 <= pid < 2 ^ 31 -> 0 <= opid < 2 ^ 64 ->
  let msg := request (WorkerClient.ReadBatch workerId db channel pid opid) in
  let name := segment_name READBATCHPATH pid workerId opid in
  key_of msg = (pid, opid) /\
  exists cursor nx sz data s,
    let w1 := Worker.ReadBatch READBATCHSIZE msg w in
    Worker.cursors w1 !! (pid, opid) = Some cursor /\
    Worker.BatchRead (Worker.conn w) cursor s = (nx, sz, data, Worker.db_store w1) /\
    match Worker.cursors w !! (pid, opid) with
    | Some c =>
        cursor = c /\ s = Worker.db_store w /\
        Worker.calls w1 = Worker.calls w ++ [CallBatchRead (Worker.conn w) c]
    | None =>
        (cursor, s) = Worker.GetIter (Worker.conn w) (Worker.db_store w) /\
        Worker.calls w1
        = Worker.calls w ++ [CallGetIter (Worker.conn w);
                          CallBatchRead (Worker.conn w) cursor]
    end /\
    Worker.segments w1 !! name = Some (memcpy (replicate READBATCHSIZE 0) 0 data) /\
    replies_since (Worker.sent w) (Worker.sent w1)
    = [Worker.state_message channel {| next := nx; size := sz |}] /\
    WorkerClient.ReadBatch_result workerId pid opid prev
      (Worker.state_message channel {| next := nx; size := sz |})
    = {| Batch.next := nx; Batch.bufLen := wrap64 sz;
         Batch.buf := if wrap64 sz =? 0 then None else Some name |}.
Proof.
  intros Hpid Hopid msg name. subst msg name.
  unfold WorkerClient.ReadBatch, SendWithResponse. cbn [request].
  rewrite on_channel_with_body.
  assert (Hk : key_of (with_body (on_channel channel (SimpleMessage KVOpReadBatch workerId db))
                         (4 + 8) (WorkerClient.WriteReadBatchArgs pid opid))
               = (pid, opid)).
  { unfold key_of.
    change (WorkerClient.WriteReadBatchArgs pid opid)
      with (ServerClient.WriteReadBatchArgs pid opid).
    rewrite cursor_entity.
    rewrite key_pid_le_bytes, key_opid_le_bytes by assumption. reflexivity. }
  split; [exact Hk|].
  unfold Worker.ReadBatch. unfold key_of in Hk. injection Hk as Hp Ho.
  rewrite Hp, Ho. cbn [fst snd with_body on_channel SimpleMessage hdr relId rpsId].
  destruct (Worker.cursors w !! (pid, opid)) as [c|] eqn:Hc.
  - destruct (Worker.BatchRead (Worker.conn w) c (Worker.db_store w)) as [[[nx sz] data] s1] eqn:Hb.
    exists c, nx, sz, data, (Worker.db_store w). cbv zeta.
    unfold Worker.do_ShmUnlink.
    cbn [Worker.Send Worker.called Worker.set_segments Worker.logged Worker.conn Worker.db_store
         Worker.cursors Worker.calls Worker.sent Worker.segments].
    rewrite Hb.
    cbn [Worker.Send Worker.called Worker.set_segments Worker.logged Worker.conn Worker.db_store
         Worker.cursors Worker.calls Worker.sent Worker.segments].
    split; [exact Hc|]. split; [reflexivity|]. split; [repeat split|].
    split; [apply lookup_insert_eq|]. split; [apply replies_since_one|].
    apply Worker_ReadBatch_result_state.
  - destruct (Worker.GetIter (Worker.conn w) (Worker.db_store w)) as [c s0] eqn:Hg.
    destruct (Worker.BatchRead (Worker.conn w) c s0) as [[[nx sz] data] s1] eqn:Hb.
    exists c, nx, sz, data, s0. cbv zeta.
    unfold Worker.do_ShmUnlink.
    cbn [Worker.Send Worker.called Worker.set_segments Worker.set_cursors Worker.logged
         Worker.conn Worker.db_store Worker.cursors Worker.calls Worker.sent Worker.segments].
    rewrite Hb.
    cbn [Worker.Send Worker.called Worker.set_segments Worker.set_cursors Worker.logged
         Worker.conn Worker.db_store Worker.cursors Worker.calls Worker.sent Worker.segments].
    split; [apply lookup_insert_eq|]. split; [reflexivity|].
    split; [split; [reflexivity|rewrite <- app_assoc; reflexivity]|].
    split; [apply lookup_insert_eq|]. split; [apply replies_since_one|].
    apply Worker_ReadBatch_result_state.
Qed.

(** X4: a ReadBatch travels with the key the client meant and comes back
    with the segment the client maps. The worker reads from the entity
    exactly the client's process id and operation id; it uses the cursor
    registered under that key, creating one with [GetIter] only when there is
    none; it calls [BatchRead] once on that cursor; the segment it leaves
    under the name built from process id, worker id and operation id holds
    what [BatchRead] wrote, in [READBATCHSIZE] bytes; and from the one answer
    it sends, the client reads the engine's "more" flag and size, and maps a
    segment, under that same name, exactly when the size is not zero. *)
Theorem readbatch_fills_the_segment_the_client_maps
    (workerId db channel pid opid : Z) (prev : Batch.t) (fuel : nat)
    (w : Server.KVWorker) (w' : Worker.KVWorker) :
  - 2 ^ 31 <= pid < 2 ^ 31 -> 0 <= opid < 2 ^ 64 ->
  let name := segment_name READBATCHPATH pid workerId opid in
  (let msg := request (ServerClient.ReadBatch workerId db channel pid opid) in
   key_of msg = (pid, opid) /\
   exists w1 cursor nx sz data s,
     Server.handle READBATCHSIZE sizeof_opts fuel msg w = Some w1 /\
     Server.cursors_ w1 !! (pid, opid) = Some cursor /\
     BatchRead (Server.conn_ w) cursor s = (nx, sz, data, Server.db_store w1) /\
     match Server.cursors_ w !! (pid, opid) with
     | Some c =>
         cursor = c /\ s = Server.db_store w /\
         Server.calls w1 = Server.calls w ++ [CallBatchRead (Server.conn_ w) c]
     | None =>
         (cursor, s) = GetIter (Server.conn_ w) (Server.db_store w) /\
         Server.calls w1
         = Server.calls w ++ [CallGetIter (Server.conn_ w);
                              CallBatchRead (Server.conn_ w) cursor]
     end /\
     Server.segments w1 !! name = Some (memcpy (replicate READBATCHSIZE 0) 0 data) /\
     replies_since (Server.sent w) (Server.sent w1)
     = [Server.state_message channel {| next := nx; size := sz |}] /\
     ServerClient.ReadBatch_result workerId pid opid prev
       (Server.state_message channel {| next := nx; size := sz |})
     = {| Batch.next := nx; Batch.bufLen := wrap64 sz;
          Batch.buf := if wrap64 sz =? 0 then None else Some name |}) /\
  (let msg := request (WorkerClient.ReadBatch workerId db channel pid opid) in
   key_of msg = (pid, opid) /\
   exists w1 cursor nx sz data s,
     Worker.handle READBATCHSIZE sizeof_opts MSGBUFSIZE uninitialised fuel msg w' = Some w1 /\
     Worker.cursors w1 !! (pid, opid) = Some cursor /\
     Worker.BatchRead (Worker.conn w') cursor s = (nx, sz, data, Worker.db_store w1) /\
     match Worker.cursors w' !! (pid, opid) with
     | Some c =>
         cursor = c /\ s = Worker.db_store w' /\
         Worker.calls w1 = Worker.calls w' ++ [CallBatchRead (Worker.conn w') c]
     | None =>
         (cursor, s) = Worker.GetIter (Worker.conn w') (Worker.db_store w') /\
         Worker.calls w1
         = Worker.calls w' ++ [CallGetIter (Worker.conn w');
                               CallBatchRead (Worker.conn w') cursor]
     end /\
     Worker.segments w1 !! name = Some (memcpy (replicate READBATCHSIZE 0) 0 data) /\
     replies_since (Worker.sent w') (Worker.sent w1)
     = [Worker.state_message channel {| next := nx; size := sz |}] /\
     WorkerClient.ReadBatch_result workerId pid opid prev
       (Worker.state_message channel {| next := nx; size := sz |})
     = {| Batch.next := nx; Batch.bufLen := wrap64 sz;
          Batch.buf := if wrap64 sz =? 0 then None else Some name |}).
Proof.
  intros Hpid Hopid name. subst name. split.
  - destruct (Server_ReadBatch_serves workerId db channel pid opid prev w Hpid Hopid)
      as (Hk & cursor & nx & sz & data & s & H).
    cbv zeta. split; [exact Hk|].
    exists (Server.ReadBatch READBATCHSIZE
              (request (ServerClient.ReadBatch workerId db channel pid opid)) w),
      cursor, nx, sz, data, s.
    split; [apply Server_handle_ReadBatch; reflexivity|exact H].
  - destruct (Worker_ReadBatch_serves workerId db channel pid opid prev w' Hpid Hopid)
      as (Hk & cursor & nx & sz & data & s & H).
    cbv zeta. split; [exact Hk|].
    exists (Worker.ReadBatch READBATCHSIZE
              (request (WorkerClient.ReadBatch workerId db channel pid opid)) w'),
      cursor, nx, sz, data, s.
    split; [apply Worker_handle_ReadBatch; reflexivity|exact H].
Qed.

Lemma opt_push (pushed l : list Z) :
  (if 0 <? Z.of_nat (length l)
   then Push pushed (take (Z.to_nat (Z.of_nat (length l))) l) else pushed)
  = pushed ++ l.
Proof.
  destruct l as [|b l]; [symmetry; apply app_nil_r|].
  change (0 <? Z.of_nat (length (b :: l))) with true.
  rewrite Nat2Z.id, firstn_all. reflexivity.
Qed.

Lemma opt_take (n : Z) (l r : list Z) :
  n = Z.of_nat (length l) ->
  (if 0 <? n then take (Z.to_nat n) (l ++ r) else []) = l.
Proof.
  intros ->. destruct l as [|b l]; [reflexivity|].
  change (0 <? Z.of_nat (length (b :: l))) with true.
  rewrite Nat2Z.id. apply take_app_length.
Qed.

Lemma opt_drop (n : Z) (l r : list Z) :
  n = Z.of_nat (length l) ->
  (if 0 <? n then drop (Z.to_nat n) (l ++ r) else l ++ r) = r.
Proof.
  intros ->. destruct l as [|b l]; [reflexivity|].
  change (0 <? Z.of_nat (length (b :: l))) with true.
  rewrite Nat2Z.id. apply drop_app_length.
Qed.

Lemma opt_push_attrs (pushed : list Z) (ac : Z) (l : list Z) :
  length l = (Z.to_nat ac * 2)%nat -> 0 <= ac ->
  (if 0 <? ac then Push pushed (take (Z.to_nat ac * 2) l) else pushed)
  = pushed ++ l.
Proof.
  intros Hl Hac. destruct (Z.ltb_spec 0 ac) as [Hpos|Hz].
  - rewrite <- Hl, firstn_all. reflexivity.
  - assert (ac = 0) by lia. subst ac.
    destruct l; [symmetry; apply app_nil_r|discriminate Hl].
Qed.

Lemma opt_take_attrs (ac : Z) (l : list Z) :
  length l = (Z.to_nat ac * 2)%nat -> 0 <= ac ->
  (if 0 <? ac then take (Z.to_nat ac * 2) l else []) = l.
Proof.
  intros Hl Hac. destruct (Z.ltb_spec 0 ac) as [Hpos|Hz].
  - rewrite <- Hl. apply firstn_all.
  - assert (ac = 0) by lia. subst ac.
    destruct l; [reflexivity|discriminate Hl].
Qed.

Lemma take_le_bytes n v tl : take n (le_bytes n v ++ tl) = le_bytes n v.
Proof. rewrite <- (length_le_bytes n v) at 1. apply take_app_length. Qed.

Lemma drop_le_bytes n v tl : drop n (le_bytes n v ++ tl) = tl.
Proof. rewrite <- (length_le_bytes n v) at 1. apply drop_app_length. Qed.

(** The entity of a range query for options that are filled in. *)
Lemma WriteRangeQueryArgs_filled pid opid (o : RangeQueryOpts) :
  RangeQueryOpts_filled o ->
  ServerClient.WriteRangeQueryArgs pid opid (Some o)
  = le_bytes 4 pid ++ le_bytes 8 opid ++
    (le_bytes 8 (startLen o) ++ start o ++ le_bytes 8 (limitLen o) ++ limit o
     ++ le_bytes 8 (batchCapacity o) ++ le_bytes 4 (attrCount o) ++ attrs o).
Proof.
  intros (Hs & _ & Hl & _ & _ & Ha & Hal).
  unfold ServerClient.WriteRangeQueryArgs.
  rewrite Hs, Hl, !opt_push, (opt_push_attrs _ _ _ Hal) by lia.
  unfold Push. cbn [app]. rewrite <- !app_assoc. reflexivity.
Qed.

Lemma read_RangeQueryOpts_filled (o : RangeQueryOpts) :
  RangeQueryOpts_filled o ->
  read_RangeQueryOpts
    (le_bytes 8 (startLen o) ++ start o ++ le_bytes 8 (limitLen o) ++ limit o
     ++ le_bytes 8 (batchCapacity o) ++ le_bytes 4 (attrCount o) ++ attrs o)
  = o.
Proof.
  intros (Hs & Hs' & Hl & Hl' & Hb & Ha & Hal).
  unfold read_RangeQueryOpts.
  rewrite take_le_bytes, drop_le_bytes.
  rewrite (le_value_le_bytes_small 8 (startLen o))
    by (change (256 ^ Z.of_nat 8) with (2 ^ 64); lia).
  cbv zeta.
  rewrite !(opt_drop (startLen o) (start o) _ Hs).
  rewrite !(opt_take (startLen o) (start o) _ Hs).
  repeat first [rewrite take_le_bytes | rewrite drop_le_bytes].
  rewrite !(le_value_le_bytes_small 8 (limitLen o))
    by (change (256 ^ Z.of_nat 8) with (2 ^ 64); lia).
  rewrite !(opt_drop (limitLen o) (limit o) _ Hl).
  rewrite !(opt_take (limitLen o) (limit o) _ Hl).
  repeat first [rewrite take_le_bytes | rewrite drop_le_bytes].
  rewrite !(le_value_le_bytes_small 8 (batchCapacity o))
    by (change (256 ^ Z.of_nat 8) with (2 ^ 64); lia).
  rewrite !(le_value_le_bytes_small 4 (attrCount o))
    by (change (256 ^ Z.of_nat 4) with (2 ^ 32); lia).
  replace (attrCount o <? 2 ^ 31) with true by (symmetry; apply Z.ltb_lt; lia).
  rewrite (opt_take_attrs _ _ Hal) by lia.
  destruct o; reflexivity.
Qed.

Lemma Server_read_chunks_frame fuel entry : forall (w w1 : Server.KVWorker) st result,
  Server.read_chunks fuel entry w = Some (st, result, w1) ->
  0 <= size st < 2 ^ 64 /\
  Server.running_ w1 = Server.running_ w /\ Server.conn_ w1 = Server.conn_ w /\
  Server.ref_ w1 = Server.ref_ w /\ Server.cursors_ w1 = Server.cursors_ w /\
  Server.ranges_ w1 = Server.ranges_ w /\ Server.sent w1 = Server.sent w /\
  Server.segments w1 = Server.segments w /\ Server.log w1 = Server.log w /\
  exists new, Server.calls w1 = Server.calls w ++ new /\
              Forall (fun c => c = CallRangeQueryRead (range entry) (readOpts entry)) new.
Proof.
  induction fuel as [|fuel IH]; intros w w1 st result; cbn [Server.read_chunks];
    [discriminate|].
  destruct (RangeQueryRead _ _ _ _) as [[[nx sz] res] s].
  destruct (nx && (wrap64 sz =? 0)).
  - intros H. apply IH in H as (H0 & H1 & H2 & H3 & H4 & H5 & H6 & H7 & H8 & new & Hn & Hf).
    cbn [Server.called Server.running_ Server.conn_ Server.ref_ Server.cursors_ Server.ranges_
         Server.sent Server.segments Server.log Server.calls] in *.
    repeat (split; [assumption|]).
    exists (CallRangeQueryRead (range entry) (readOpts entry) :: new).
    split; [rewrite Hn, <- app_assoc; reflexivity|].
    constructor; [reflexivity|exact Hf].
  - intros [= <- <- <-]. cbn [size].
    split; [apply Z.mod_pos_bound; lia|].
    cbn [Server.called Server.running_ Server.conn_ Server.ref_ Server.cursors_ Server.ranges_
         Server.sent Server.segments Server.log Server.calls].
    repeat (split; [reflexivity|]).
    exists [CallRangeQueryRead (range entry) (readOpts entry)].
    split; [reflexivity|]. repeat constructor.
Qed.

Lemma Worker_read_chunks_frame fuel entry : forall (w w1 : Worker.KVWorker) st result,
  Worker.read_chunks fuel entry w = Some (st, result, w1) ->
  0 <= size st < 2 ^ 64 /\
  Worker.running w1 = Worker.running w /\ Worker.conn w1 = Worker.conn w /\
  Worker.ref w1 = Worker.ref w /\ Worker.cursors w1 = Worker.cursors w /\
  Worker.ranges w1 = Worker.ranges w /\ Worker.sent w1 = Worker.sent w /\
  Worker.segments w1 = Worker.segments w /\ Worker.log w1 = Worker.log w /\
  exists new, Worker.calls w1 = Worker.calls w ++ new /\
              Forall (fun c => c = CallRangeQueryRead (range entry) (readOpts entry)) new.
Proof.
  induction fuel as [|fuel IH]; intros w w1 st result; cbn [Worker.read_chunks];
    [discriminate|].
  destruct (Worker.RangeQueryRead _ _ _) as [[[nx sz] res] s].
  destruct (nx && (wrap64 sz =? 0)).
  - intros H. apply IH in H as (H0 & H1 & H2 & H3 & H4 & H5 & H6 & H7 & H8 & new & Hn & Hf).
    cbn [Worker.called Worker.running Worker.conn Worker.ref Worker.cursors Worker.ranges
         Worker.sent Worker.segments Worker.log Worker.calls] in *.
    repeat (split; [assumption|]).
    exists (CallRangeQueryRead (range entry) (readOpts entry) :: new).
    split; [rewrite Hn, <- app_assoc; reflexivity|].
    constructor; [reflexivity|exact Hf].
  - intros [= <- <- <-]. cbn [size].
    split; [apply Z.mod_pos_bound; lia|].
    cbn [Worker.called Worker.running Worker.conn Worker.ref Worker.cursors Worker.ranges
         Worker.sent Worker.segments Worker.log Worker.calls].
    repeat (split; [reflexivity|]).
    exists [CallRangeQueryRead (range entry) (readOpts entry)].
    split; [reflexivity|]. repeat constructor.
Qed.

Lemma RangeQuery_entity base pid opid (o : RangeQueryOpts) :
  RangeQueryOpts_filled o ->
  4 + 8 + 8 + startLen o + 8 + limitLen o + 4 + attrCount o * 2 + 8 < 2 ^ 64 ->
  entity_of (with_body base (ServerClient.RangeQuery_size (Some o))
               (ServerClient.WriteRangeQueryArgs pid opid (Some o)))
  = le_bytes 4 pid ++ le_bytes 8 opid ++
    (le_bytes 8 (startLen o) ++ start o ++ le_bytes 8 (limitLen o) ++ limit o
     ++ le_bytes 8 (batchCapacity o) ++ le_bytes 4 (attrCount o) ++ attrs o).
Proof.
  intros Hf Hsz. rewrite entity_of_exact.
  - cbn [with_body ety]. apply WriteRangeQueryArgs_filled, Hf.
  - cbn [with_body hdr ety etySize].
    rewrite (WriteRangeQueryArgs_filled _ _ _ Hf).
    destruct Hf as (Hs & Hs' & Hl & Hl' & Hb & Ha & Hal).
    rewrite !length_app, !length_le_bytes, Hal.
    unfold ServerClient.RangeQuery_size, wrap64.
    rewrite Z.mod_small by lia. lia.
Qed.

Lemma drop_key pid opid tl :
  drop 12 (le_bytes 4 pid ++ le_bytes 8 opid ++ tl) = tl.
Proof.
  rewrite app_assoc.
  replace 12%nat with (length (le_bytes 4 pid ++ le_bytes 8 opid))
    by (rewrite length_app, !length_le_bytes; reflexivity).
  apply drop_app_length.
Qed.


Lemma Server_RangeQuery_serves fuel msg pid opid (w w1 : Server.KVWorker) :
  key_of msg = (pid, opid) ->
  Server.RangeQuery fuel msg w = Some w1 ->
  let name := segment_name RANGEQUERYPATH pid (relId (hdr msg)) opid in
  let p := ParseRangeQueryOptions (read_RangeQueryOpts (drop 12 (entity_of msg))) (Server.db_store w) in
  exists st entry new result,
    Server.ranges_ w1 !! (pid, opid) = Some entry /\
    match Server.ranges_ w !! (pid, opid) with
    | Some e =>
        entry = e /\ Server.ranges_ w1 = Server.ranges_ w /\
        Server.calls w1 = Server.calls w ++ new ++ [CallParseRangeQueryResult result]
    | None =>
        entry = {| range := fst (fst p); readOpts := snd (fst p) |} /\
        Server.ranges_ w1 = <[(pid, opid) := entry]> (Server.ranges_ w) /\
        Server.calls w1
        = Server.calls w ++ CallParseRangeQueryOptions :: new
          ++ [CallParseRangeQueryResult result]
    end /\
    Forall (fun c => c = CallRangeQueryRead (range entry) (readOpts entry)) new /\
    0 <= size st < 2 ^ 64 /\
    (0 < size st \/ next st = false) /\
    Server.sent w1 = Server.sent w ++ [Server.state_message (rpsId (hdr msg)) st] /\
    (if size st =? 0 then Server.segments w1 !! name = None
     else exists data,
         Server.segments w1 !! name
         = Some (memcpy (replicate (Z.to_nat (size st)) 0) 0 data)).
Proof.
  intros Hk. unfold key_of in Hk. injection Hk as Hp Ho.
  unfold Server.RangeQuery, Server.RangeQuery_entry. rewrite Hp, Ho. cbn [fst snd].
  intros H. cbv zeta.
  destruct (Server.ranges_ w !! (pid, opid)) as [entry|] eqn:Hr.
  - destruct (Server.read_chunks fuel entry w) as [[[st result] w2]|] eqn:Hc;
      [|discriminate].
    pose proof (Server_read_chunks_exit _ _ _ _ _ _ Hc) as [Hst _].
    apply Server_read_chunks_frame in Hc
      as (H0 & H1 & H2 & H3 & H4 & H5 & H6 & H7 & H8 & new & Hn & Hf).
    destruct (ParseRangeQueryResult result (Server.db_store (Server.do_ShmUnlink
                (segment_name RANGEQUERYPATH pid (relId (hdr msg)) opid)
                "RangeQuery" w2))) as [data s] eqn:Hd.
    injection H as <-. exists st, entry, new, result.
    split.
    { destruct (0 <? size st); cbn [Server.Send Server.ranges_ Server.set_segments Server.called
        Server.do_ShmUnlink Server.logged]; rewrite H5; exact Hr. }
    split.
    { split; [reflexivity|]. split.
      - destruct (0 <? size st); cbn [Server.Send Server.ranges_ Server.set_segments
          Server.called Server.do_ShmUnlink Server.logged]; exact H5.
      - destruct (0 <? size st); cbn [Server.Send Server.calls Server.set_segments
          Server.called Server.do_ShmUnlink Server.logged]; rewrite Hn, <- app_assoc;
          reflexivity. }
    split; [exact Hf|]. split; [exact H0|]. split; [exact Hst|].
    split.
    { destruct (0 <? size st); cbn [Server.Send Server.sent Server.set_segments Server.called
        Server.do_ShmUnlink Server.logged]; rewrite H6; reflexivity. }
    destruct (Z.eqb_spec (size st) 0) as [Hz|Hnz].
    + rewrite Hz. cbn [Z.ltb Z.compare].
      cbn [Server.Send Server.segments Server.set_segments Server.called Server.do_ShmUnlink
           Server.logged]. apply lookup_delete_eq.
    + replace (0 <? size st) with true by (symmetry; apply Z.ltb_lt; lia).
      exists data.
      cbn [Server.Send Server.segments Server.set_segments Server.called Server.do_ShmUnlink
           Server.logged]. apply lookup_insert_eq.
  - destruct (ParseRangeQueryOptions _ _) as [[r ro] s0] eqn:Hparse.
    cbn [fst snd].
    destruct (Server.read_chunks fuel _ _) as [[[st result] w2]|] eqn:Hc;
      [|discriminate].
    pose proof (Server_read_chunks_exit _ _ _ _ _ _ Hc) as [Hst _].
    apply Server_read_chunks_frame in Hc
      as (H0 & H1 & H2 & H3 & H4 & H5 & H6 & H7 & H8 & new & Hn & Hf).
    cbn [Server.set_ranges Server.called Server.running_ Server.conn_ Server.ref_ Server.cursors_
         Server.ranges_ Server.sent Server.segments Server.log Server.calls] in *.
    destruct (ParseRangeQueryResult result (Server.db_store (Server.do_ShmUnlink
                (segment_name RANGEQUERYPATH pid (relId (hdr msg)) opid)
                "RangeQuery" w2))) as [data s] eqn:Hd.
    injection H as <-.
    exists st, {| range := r; readOpts := ro |}, new, result.
    split.
    { destruct (0 <? size st); cbn [Server.Send Server.ranges_ Server.set_segments Server.called
        Server.do_ShmUnlink Server.logged]; rewrite H5; apply lookup_insert_eq. }
    split.
    { split; [reflexivity|]. split.
      - destruct (0 <? size st); cbn [Server.Send Server.ranges_ Server.set_segments
          Server.called Server.do_ShmUnlink Server.logged]; exact H5.
      - destruct (0 <? size st); cbn [Server.Send Server.calls Server.set_segments
          Server.called Server.do_ShmUnlink Server.logged]; rewrite Hn, <- !app_assoc;
          reflexivity. }
    split; [exact Hf|]. split; [exact H0|]. split; [exact Hst|].
    split.
    { destruct (0 <? size st); cbn [Server.Send Server.sent Server.set_segments Server.called
        Server.do_ShmUnlink Server.logged]; rewrite H6; reflexivity. }
    destruct (Z.eqb_spec (size st) 0) as [Hz|Hnz].
    + rewrite Hz. cbn [Z.ltb Z.compare].
      cbn [Server.Send Server.segments Server.set_segments Server.called Server.do_ShmUnlink
           Server.logged]. rewrite H7. apply lookup_delete_eq.
    + replace (0 <? size st) with true by (symmetry; apply Z.ltb_lt; lia).
      exists data.
      cbn [Server.Send Server.segments Server.set_segments Server.called Server.do_ShmUnlink
           Server.logged]. apply lookup_insert_eq.
Qed.

Lemma Worker_RangeQuery_serves fuel msg pid opid (w w1 : Worker.KVWorker) :
  key_of msg = (pid, opid) ->
  Worker.RangeQuery uninitialised fuel msg w = Some w1 ->
  let name := segment_name RANGEQUERYPATH pid (relId (hdr msg)) opid in
  let p := Worker.ParseRangeQueryOptions
             (read_RangeQueryOpts
                (drop Worker.sizeof_KVCursorKey
                   (Worker.buf_after_Recv uninitialised (entity_of msg) w)))
             (Worker.db_store w) in
  exists st entry new result,
    Worker.ranges w1 !! (pid, opid) = Some entry /\
    match Worker.ranges w !! (pid, opid) with
    | Some e =>
        entry = e /\ Worker.ranges w1 = Worker.ranges w /\
        Worker.calls w1 = Worker.calls w ++ new ++ [CallParseRangeQueryResult result]
    | None =>
        entry = {| range := fst (fst p); readOpts := snd (fst p) |} /\
        Worker.ranges w1 = <[(pid, opid) := entry]> (Worker.ranges w) /\
        Worker.calls w1
        = Worker.calls w ++ CallParseRangeQueryOptions :: new
          ++ [CallParseRangeQueryResult result]
    end /\
    Forall (fun c => c = CallRangeQueryRead (range entry) (readOpts entry)) new /\
    0 <= size st < 2 ^ 64 /\
    (0 < size st \/ next st = false) /\
    Worker.sent w1 = Worker.sent w ++ [Worker.state_message (rpsId (hdr msg)) st] /\
    (if size st =? 0 then Worker.segments w1 !! name = None
     else exists data,
         Worker.segments w1 !! name
         = Some (memcpy (replicate (Z.to_nat (size st)) 0) 0 data)).
Proof.
  intros Hk. unfold key_of in Hk. injection Hk as Hp Ho.
  unfold Worker.RangeQuery, Worker.RangeQuery_entry. rewrite Hp, Ho. cbn [fst snd].
  intros H. cbv zeta.
  destruct (Worker.ranges w !! (pid, opid)) as [entry|] eqn:Hr.
  - destruct (Worker.read_chunks fuel entry w) as [[[st result] w2]|] eqn:Hc;
      [|discriminate].
    pose proof (Worker_read_chunks_exit _ _ _ _ _ _ Hc) as [Hst _].
    apply Worker_read_chunks_frame in Hc
      as (H0 & H1 & H2 & H3 & H4 & H5 & H6 & H7 & H8 & new & Hn & Hf).
    destruct (Worker.ParseRangeQueryResult result (Worker.db_store (Worker.do_ShmUnlink
                (segment_name RANGEQUERYPATH pid (relId (hdr msg)) opid)
                "RangeQuery" w2))) as [data s] eqn:Hd.
    injection H as <-. exists st, entry, new, result.
    split.
    { destruct (0 <? size st); cbn [Worker.Send Worker.ranges Worker.set_segments Worker.called
        Worker.do_ShmUnlink Worker.logged]; rewrite H5; exact Hr. }
    split.
    { split; [reflexivity|]. split.
      - destruct (0 <? size st); cbn [Worker.Send Worker.ranges Worker.set_segments
          Worker.called Worker.do_ShmUnlink Worker.logged]; exact H5.
      - destruct (0 <? size st); cbn [Worker.Send Worker.calls Worker.set_segments
          Worker.called Worker.do_ShmUnlink Worker.logged]; rewrite Hn, <- app_assoc;
          reflexivity. }
    split; [exact Hf|]. split; [exact H0|]. split; [exact Hst|].
    split.
    { destruct (0 <? size st); cbn [Worker.Send Worker.sent Worker.set_segments Worker.called
        Worker.do_ShmUnlink Worker.logged]; rewrite H6; reflexivity. }
    destruct (Z.eqb_spec (size st) 0) as [Hz|Hnz].
    + rewrite Hz. cbn [Z.ltb Z.compare].
      cbn [Worker.Send Worker.segments Worker.set_segments Worker.called Worker.do_ShmUnlink
           Worker.logged]. apply lookup_delete_eq.
    + replace (0 <? size st) with true by (symmetry; apply Z.ltb_lt; lia).
      exists data.
      cbn [Worker.Send Worker.segments Worker.set_segments Worker.called Worker.do_ShmUnlink
           Worker.logged]. apply lookup_insert_eq.
  - destruct (Worker.ParseRangeQueryOptions _ _) as [[r ro] s0] eqn:Hparse.
    cbn [fst snd].
    destruct (Worker.read_chunks fuel _ _) as [[[st result] w2]|] eqn:Hc;
      [|discriminate].
    pose proof (Worker_read_chunks_exit _ _ _ _ _ _ Hc) as [Hst _].
    apply Worker_read_chunks_frame in Hc
      as (H0 & H1 & H2 & H3 & H4 & H5 & H6 & H7 & H8 & new & Hn & Hf).
    cbn [Worker.set_ranges Worker.called Worker.running Worker.conn Worker.ref Worker.cursors
         Worker.ranges Worker.sent Worker.segments Worker.log Worker.calls] in *.
    destruct (Worker.ParseRangeQueryResult result (Worker.db_store (Worker.do_ShmUnlink
                (segment_name RANGEQUERYPATH pid (relId (hdr msg)) opid)
                "RangeQuery" w2))) as [data s] eqn:Hd.
    injection H as <-.
    exists st, {| range := r; readOpts := ro |}, new, result.
    split.
    { destruct (0 <? size st); cbn [Worker.Send Worker.ranges Worker.set_segments Worker.called
        Worker.do_ShmUnlink Worker.logged]; rewrite H5; apply lookup_insert_eq. }
    split.
    { split; [reflexivity|]. split.
      - destruct (0 <? size st); cbn [Worker.Send Worker.ranges Worker.set_segments
          Worker.called Worker.do_ShmUnlink Worker.logged]; exact H5.
      - destruct (0 <? size st); cbn [Worker.Send Worker.calls Worker.set_segments
          Worker.called Worker.do_ShmUnlink Worker.logged]; rewrite Hn, <- !app_assoc;
          reflexivity. }
    split; [exact Hf|]. split; [exact H0|]. split; [exact Hst|].
    split.
    { destruct (0 <? size st); cbn [Worker.Send Worker.sent Worker.set_segments Worker.called
        Worker.do_ShmUnlink Worker.logged]; rewrite H6; reflexivity. }
    destruct (Z.eqb_spec (size st) 0) as [Hz|Hnz].
    + rewrite Hz. cbn [Z.ltb Z.compare].
      cbn [Worker.Send Worker.segments Worker.set_segments Worker.called Worker.do_ShmUnlink
           Worker.logged]. rewrite H7. apply lookup_delete_eq.
    + replace (0 <? size st) with true by (symmetry; apply Z.ltb_lt; lia).
      exists data.
      cbn [Worker.Send Worker.segments Worker.set_segments Worker.called Worker.do_ShmUnlink
           Worker.logged]. apply lookup_insert_eq.
Qed.

Lemma RangeQuery_request_key workerId db channel pid opid
    (opts : option RangeQueryOpts) :
  (forall o, opts = Some o ->
     RangeQueryOpts_filled o /\
     4 + 8 + 8 + startLen o + 8 + limitLen o + 4 + attrCount o * 2 + 8 < 2 ^ 64) ->
  - 2 ^ 31 <= pid < 2 ^ 31 -> 0 <= opid < 2 ^ 64 ->
  let msg := request (ServerClient.RangeQuery workerId db channel pid opid opts) in
  key_of msg = (pid, opid) /\ relId (hdr msg) = workerId /\
  rpsId (hdr msg) = channel /\ op (hdr msg) = KVOpRangeQuery /\
  forall o, opts = Some o -> read_RangeQueryOpts (drop 12 (entity_of msg)) = o.
Proof.
  intros Hopts Hpid Hopid msg. subst msg.
  unfold ServerClient.RangeQuery, SendWithResponse. cbn [request].
  rewrite on_channel_with_body.
  split; [|split; [reflexivity|split; [reflexivity|split; [reflexivity|]]]].
  - unfold key_of. destruct opts as [o|].
    + destruct (Hopts o eq_refl) as [Hf Hsz].
      rewrite RangeQuery_entity by assumption.
      rewrite key_pid_le_bytes, key_opid_le_bytes by assumption. reflexivity.
    + change (ServerClient.WriteRangeQueryArgs pid opid None)
        with (ServerClient.WriteReadBatchArgs pid opid).
      change (ServerClient.RangeQuery_size None) with (4 + 8).
      rewrite cursor_entity.
      rewrite key_pid_le_bytes, key_opid_le_bytes by assumption. reflexivity.
  - intros o ->. destruct (Hopts o eq_refl) as [Hf Hsz].
    rewrite RangeQuery_entity by assumption.
    rewrite drop_key. apply read_RangeQueryOpts_filled, Hf.
Qed.

Lemma Server_RangeQuery_entry_new msg (w : Server.KVWorker) :
  Server.ranges_ w !! key_of msg = None ->
  let p := ParseRangeQueryOptions (read_RangeQueryOpts (drop 12 (entity_of msg)))
             (Server.db_store w) in
  let entry := {| range := fst (fst p); readOpts := snd (fst p) |} in
  let w0 := snd (Server.RangeQuery_entry msg w) in
  fst (Server.RangeQuery_entry msg w) = entry /\
  Server.calls w0 = Server.calls w ++ [CallParseRangeQueryOptions] /\
  Server.db_store w0 = snd p /\
  Server.ranges_ w0 = <[key_of msg := entry]> (Server.ranges_ w).
Proof.
  intros Hnone. unfold Server.RangeQuery_entry. fold (key_of msg).
  rewrite Hnone. cbv zeta.
  destruct (ParseRangeQueryOptions _ _) as [[r ro] s0]. repeat split.
Qed.

Lemma Worker_RangeQuery_entry_new msg (w : Worker.KVWorker) :
  Worker.ranges w !! key_of msg = None ->
  let p := Worker.ParseRangeQueryOptions
             (read_RangeQueryOpts
                (drop Worker.sizeof_KVCursorKey
                   (Worker.buf_after_Recv uninitialised (entity_of msg) w)))
             (Worker.db_store w) in
  let entry := {| range := fst (fst p); readOpts := snd (fst p) |} in
  let w0 := snd (Worker.RangeQuery_entry uninitialised msg w) in
  fst (Worker.RangeQuery_entry uninitialised msg w) = entry /\
  Worker.calls w0 = Worker.calls w ++ [CallParseRangeQueryOptions] /\
  Worker.db_store w0 = snd p /\
  Worker.ranges w0 = <[key_of msg := entry]> (Worker.ranges w).
Proof.
  intros Hnone. unfold Worker.RangeQuery_entry. fold (key_of msg).
  rewrite Hnone. cbv zeta.
  destruct (Worker.ParseRangeQueryOptions _ _) as [[r ro] s0]. repeat split.
Qed.

(** What [kv_worker.cc] takes for the length of the start key when the
    client wrote a length below [2 ^ 32]: the four zero bytes that end the
    client's length, and the four bytes behind them. *)
Lemma startLen_read_late pid opid (sl : Z) (rest : list Z) :
  0 <= sl < 2 ^ 32 ->
  startLen (read_RangeQueryOpts
              (drop Worker.sizeof_KVCursorKey
                 (le_bytes 4 pid ++ le_bytes 8 opid ++ le_bytes 8 sl ++ rest)))
  = 2 ^ 32 * le_value (take 4 rest).
Proof.
  intros H. unfold read_RangeQueryOpts. cbn [startLen].
  change Worker.sizeof_KVCursorKey with (12 + 4)%nat.
  rewrite <- drop_drop, drop_key, le_bytes_8_small by exact H.
  rewrite <- app_assoc.
  rewrite drop_app_length' by (rewrite length_le_bytes; reflexivity).
  change (take 8 (replicate 4 0 ++ rest)) with (replicate 4 0 ++ take 4 rest).
  rewrite le_value_app, le_value_zeros, length_replicate. reflexivity.
Qed.


(** X6: what a range query is answered with, and the segment. Whenever the
    worker answers a client's range query, it sends one message on the
    leased channel; the client reads from it a "more" flag and a size such
    that the size is positive or the flag is off; when the size is positive
    the worker has left a segment of exactly that many bytes under the name
    the client maps, and when it is zero the worker has left no segment under
    that name and the client maps none. *)
Theorem rangequery_maps_a_segment_iff_nonempty
    (workerId db channel pid opid : Z) (opts : option RangeQueryOpts)
    (prev : Batch.t) (fuel : nat)
    (w w1 : Server.KVWorker) (w' w1' : Worker.KVWorker) :
  (forall o, opts = Some o ->
     RangeQueryOpts_filled o /\
     4 + 8 + 8 + startLen o + 8 + limitLen o + 4 + attrCount o * 2 + 8 < 2 ^ 64) ->
  - 2 ^ 31 <= pid < 2 ^ 31 -> 0 <= opid < 2 ^ 64 ->
  let name := segment_name RANGEQUERYPATH pid workerId opid in
  (Server.handle READBATCHSIZE sizeof_opts fuel
     (request (ServerClient.RangeQuery workerId db channel pid opid opts)) w
   = Some w1 ->
   exists reply b,
     replies_since (Server.sent w) (Server.sent w1) = [reply] /\
     rpsId (hdr reply) = channel /\
     ServerClient.RangeQuery_result workerId pid opid prev reply = b /\
     0 <= Batch.bufLen b < 2 ^ 64 /\
     (0 < Batch.bufLen b \/ Batch.next b = false) /\
     if Batch.bufLen b =? 0
     then Batch.buf b = None /\ Server.segments w1 !! name = None
     else Batch.buf b = Some name /\
          exists seg, Server.segments w1 !! name = Some seg /\
                      length seg = Z.to_nat (Batch.bufLen b)) /\
  (Worker.handle READBATCHSIZE sizeof_opts MSGBUFSIZE uninitialised fuel
     (request (WorkerClient.RangeQuery workerId db channel pid opid opts)) w'
   = Some w1' ->
   exists reply b,
     replies_since (Worker.sent w') (Worker.sent w1') = [reply] /\
     rpsId (hdr reply) = channel /\
     WorkerClient.RangeQuery_result workerId pid opid prev reply = b /\
     0 <= Batch.bufLen b < 2 ^ 64 /\
     (0 < Batch.bufLen b \/ Batch.next b = false) /\
     if Batch.bufLen b =? 0
     then Batch.buf b = None /\ Worker.segments w1' !! name = None
     else Batch.buf b = Some name /\
          exists seg, Worker.segments w1' !! name = Some seg /\
                      length seg = Z.to_nat (Batch.bufLen b)).
Proof.
  intros Hopts Hpid Hopid name.
  destruct (RangeQuery_request_key workerId db channel pid opid opts Hopts Hpid Hopid)
    as (Hk & Hrel & Hch & Hop & _).
  split.
  - intros H. rewrite Server_handle_RangeQuery in H by exact Hop.
    destruct (Server_RangeQuery_serves fuel _ pid opid w w1 Hk H)
      as (st & entry & new & result & _ & _ & _ & Hb & Hst & Hsent & Hseg).
    rewrite Hrel in Hseg. rewrite Hch in Hsent.
    assert (Hw : wrap64 (size st) = size st) by (apply Z.mod_small; exact Hb).
    exists (Server.state_message channel st). eexists.
    split; [rewrite Hsent; apply replies_since_one|].
    split; [reflexivity|]. split; [apply Server_RangeQuery_result_state|].
    cbn [Batch.bufLen Batch.next Batch.buf]. rewrite Hw.
    split; [exact Hb|]. split; [exact Hst|].
    destruct (size st =? 0).
    + split; [reflexivity|exact Hseg].
    + split; [reflexivity|]. destruct Hseg as [data Hd].
      eexists. split; [exact Hd|].
      rewrite memcpy_length, length_replicate. reflexivity.
  - intros H.
    change (request (WorkerClient.RangeQuery workerId db channel pid opid opts))
      with (request (ServerClient.RangeQuery workerId db channel pid opid opts)) in H.
    rewrite Worker_handle_RangeQuery in H by exact Hop.
    destruct (Worker_RangeQuery_serves fuel _ pid opid w' w1' Hk H)
      as (st & entry & new & result & _ & _ & _ & Hb & Hst & Hsent & Hseg).
    rewrite Hrel in Hseg. rewrite Hch in Hsent.
    assert (Hw : wrap64 (size st) = size st) by (apply Z.mod_small; exact Hb).
    exists (Worker.state_message channel st). eexists.
    split; [rewrite Hsent; apply replies_since_one|].
    split; [reflexivity|]. split; [apply Worker_RangeQuery_result_state|].
    cbn [Batch.bufLen Batch.next Batch.buf]. rewrite Hw.
    split; [exact Hb|]. split; [exact Hst|].
    destruct (size st =? 0).
    + split; [reflexivity|exact Hseg].
    + split; [reflexivity|]. destruct Hseg as [data Hd].
      eexists. split; [exact Hd|].
      rewrite memcpy_length, length_replicate. reflexivity.
Qed.

(** X7: once a range query is registered for a cursor, the options of later
    requests are not looked at. Two range-query messages that name the same
    cursor, relation and response channel are served identically by a worker
    that has an entry for the cursor, whatever their option bytes say; the
    bounds, capacity and projection stay those of the first request until a
    ClearRangeQuery removes the entry. *)
Theorem rangequery_later_options_are_ignored
    (msg1 msg2 : KVMessage) (fuel : nat)
    (w : Server.KVWorker) (w' : Worker.KVWorker) :
  key_of msg1 = key_of msg2 ->
  relId (hdr msg1) = relId (hdr msg2) ->
  rpsId (hdr msg1) = rpsId (hdr msg2) ->
  (is_Some (Server.ranges_ w !! key_of msg1) ->
   Server.RangeQuery fuel msg1 w = Server.RangeQuery fuel msg2 w) /\
  (is_Some (Worker.ranges w' !! key_of msg1) ->
   Worker.RangeQuery uninitialised fuel msg1 w' = Worker.RangeQuery uninitialised fuel msg2 w').
Proof.
  intros Hk Hrel Hch. split.
  - intros [entry He]. unfold Server.RangeQuery, Server.RangeQuery_entry.
    fold (key_of msg1). fold (key_of msg2). rewrite <- Hk, He, Hrel, Hch.
    reflexivity.
  - intros [entry He]. unfold Worker.RangeQuery, Worker.RangeQuery_entry.
    fold (key_of msg1). fold (key_of msg2). rewrite <- Hk, He, Hrel, Hch.
    reflexivity.
Qed.

End QueueRoundTrips.



(** A ReadBatch of process 1234 for operation 1 on a fresh worker 7: the
    worker reads this key, registers the cursor the engine hands out, and
    leaves a segment under the name the client maps. *)
Lemma readbatch_fills_the_segment_the_client_maps_witness :
  let msg := Msg.request (ServerClient.ReadBatch 7 1 5 1234 1) in
  Msg.key_of msg = (1234, 1) /\
  exists w1,
    Server.handle 64 0 1 msg (Synthetic.server_worker 4096) = Some w1 /\
    Server.cursors_ w1 !! (1234, 1) = Some 4096 /\
    Server.calls w1 = [Msg.CallGetIter 0; Msg.CallBatchRead 0 4096] /\
    Server.segments w1 !! Msg.segment_name Msg.READBATCHPATH 1234 7 1
    = Some (replicate 64 0).
Proof.
  intros msg.
  destruct (readbatch_fills_the_segment_the_client_maps
              (E := Synthetic.scripted 4096) (E' := Synthetic.scripted' 4096)
              64 0 64 Synthetic.stack 7 1 5 1234 1
              {| Msg.Batch.next := false; Msg.Batch.bufLen := 0;
                 Msg.Batch.buf := None |} 1
              (Synthetic.server_worker 4096) (Synthetic.queue_worker 4096))
    as ((Hk & w1 & cursor & nx & sz & data & s & H & C & B & M & S & _) & _);
    [lia | lia |].
  split; [exact Hk|].
  exists w1. split; [exact H|].
  vm_compute in H. injection H as <-. repeat split.
Defined.


(** The scripted scan of two empty chunks, a chunk of three bytes and an
    empty last chunk: the first range query is answered once, the client
    reads a size of three and maps the segment of that name. *)
Lemma rangequery_maps_a_segment_iff_nonempty_witness :
  let w := Server.Start (Server.KVWorker_new (engine := Synthetic.scripted 4096)
                           Synthetic.four_chunks) in
  let prev := {| Msg.Batch.next := false; Msg.Batch.bufLen := 0;
                 Msg.Batch.buf := None |} in
  let o := {| Msg.startLen := 0; Msg.start := [];
              Msg.limitLen := 0; Msg.limit := [];
              Msg.batchCapacity := 64;
              Msg.attrCount := 0; Msg.attrs := [] |} in
  exists w1 reply,
    Server.handle 64 0 8
      (Msg.request (ServerClient.RangeQuery 7 1 5 1234 1 (Some o))) w = Some w1 /\
    Server.sent w1 = [reply] /\
    Msg.Batch.bufLen (ServerClient.RangeQuery_result 7 1234 1 prev reply) = 3 /\
    Msg.Batch.buf (ServerClient.RangeQuery_result 7 1234 1 prev reply)
    = Some (Msg.segment_name Msg.RANGEQUERYPATH 1234 7 1) /\
    Server.segments w1 !! Msg.segment_name Msg.RANGEQUERYPATH 1234 7 1
    = Some [10; 20; 30].
Proof.
  intros w prev o.
  assert (exists w1,
            Server.handle 64 0 8
              (Msg.request (ServerClient.RangeQuery 7 1 5 1234 1 (Some o))) w
            = Some w1) as [w1 H] by (eexists; vm_compute; reflexivity).
  destruct (rangequery_maps_a_segment_iff_nonempty
              (E := Synthetic.scripted 4096) (E' := Synthetic.scripted' 4096)
              64 0 64 Synthetic.stack 7 1 5 1234 1 (Some o) prev 8 w w1
              (Synthetic.queue_worker 4096) (Synthetic.queue_worker 4096))
    as (Hs & _); [|lia|lia|].
  { intros o' [= <-]. unfold Msg.RangeQueryOpts_filled. cbn.
    repeat split; lia. }
  destruct (Hs H) as (reply & b & R & _).
  exists w1, reply. split; [exact H|].
  vm_compute in H. injection H as <-. vm_compute in R. injection R as <-.
  repeat split.
Defined.

(** A worker that has a range query registered for cursor (1234, 1) serves
    a request for 64 bytes at a time and a request for one byte at a time in
    the same way. *)
Lemma rangequery_later_options_are_ignored_witness :
  let w := Server.set_ranges
             {[ (1234, 1) := {| Msg.range := 1; Msg.readOpts := 2 |} ]}
             (Synthetic.server_worker 4096) in
  let other := Synthetic.request Msg.KVOpRangeQuery 5
                 (Synthetic.cursor_key 1234 1 ++ le_bytes 8 0 ++ le_bytes 8 0
                  ++ le_bytes 8 1 ++ le_bytes 4 0) in
  Server.RangeQuery 8 Synthetic.range_request w = Server.RangeQuery 8 other w.
Proof.
  intros w other.
  destruct (rangequery_later_options_are_ignored
              (E := Synthetic.scripted 4096) (E' := Synthetic.scripted' 4096)
              Synthetic.stack
              Synthetic.range_request other 8 w (Synthetic.queue_worker 4096))
    as (Hs & _); [reflexivity | reflexivity | reflexivity |].
  apply Hs. exists {| Msg.range := 1; Msg.readOpts := 2 |}. reflexivity.
Defined.


(** ** Which requests are answered *)

Section QueueProtocol.
Import Posix Msg.

Context {E : Msg.Storage} {E' : Worker.Storage}.
Variables READBATCHSIZE sizeof_opts : nat.
Variable MSGBUFSIZE : nat.
Variable uninitialised : Worker.KVWorker -> list Z.

#[local] Arguments le_bytes : simpl never.
#[local] Arguments wrap64 : simpl never.

Lemma Server_Open_sent msg (w : Server.KVWorker) :
  Server.sent (Server.Open sizeof_opts msg w) = Server.sent w ++ [].
Proof.
  unfold Server.Open. destruct (Server.conn_ w =? 0);
    [destruct (OpenConn _ _ _ _ _) as [c s]|]; cbn [Server.sent Server.Send Server.set_ref Server.set_conn Server.called];
    rewrite ?app_nil_r; reflexivity.
Qed.

Lemma Server_Close_sent msg (w : Server.KVWorker) :
  Server.sent (Server.Close msg w) = Server.sent w ++ [].
Proof.
  unfold Server.Close. destruct (Server.conn_ w =? 0);
    cbn [Server.sent Server.Send Server.set_ref]; rewrite ?app_nil_r; reflexivity.
Qed.

Lemma Server_Count_sent msg (w : Server.KVWorker) :
  exists reply, Server.sent (Server.Count msg w) = Server.sent w ++ [reply] /\
                rpsId (hdr reply) = rpsId (hdr msg).
Proof.
  unfold Server.Count. destruct (GetCount _ _) as [c s].
  eexists. split; reflexivity.
Qed.

Lemma Server_Put_sent msg (w : Server.KVWorker) :
  exists reply, Server.sent (Server.Put msg w) = Server.sent w ++ [reply] /\
                rpsId (hdr reply) = rpsId (hdr msg).
Proof.
  unfold Server.Put. destruct (Server.read_PutArgs msg) as [k v].
  destruct (PutRecord _ _ _ _) as [ok s].
  destruct ok; eexists; split; reflexivity.
Qed.

Lemma Server_Get_sent msg (w : Server.KVWorker) :
  exists reply, Server.sent (Server.Get msg w) = Server.sent w ++ [reply] /\
                rpsId (hdr reply) = rpsId (hdr msg).
Proof.
  unfold Server.Get. destruct (GetRecord _ _ _) as [[ok v] s].
  destruct ok; eexists; split; reflexivity.
Qed.

Lemma Server_Delete_sent msg (w : Server.KVWorker) :
  exists reply, Server.sent (Server.Delete msg w) = Server.sent w ++ [reply] /\
                rpsId (hdr reply) = rpsId (hdr msg).
Proof.
  unfold Server.Delete. destruct (DelRecord _ _ _) as [ok s].
  destruct ok; eexists; split; reflexivity.
Qed.

Lemma Server_Load_sent msg (w : Server.KVWorker) :
  Server.sent (Server.Load msg w) = Server.sent w.
Proof.
  unfold Server.Load. destruct (Server.read_PutArgs msg) as [k v].
  destruct (PutRecord _ _ _ _) as [ok s]. reflexivity.
Qed.

Lemma Server_ReadBatch_sent msg (w : Server.KVWorker) :
  exists reply, Server.sent (Server.ReadBatch READBATCHSIZE msg w) = Server.sent w ++ [reply] /\
                rpsId (hdr reply) = rpsId (hdr msg).
Proof.
  unfold Server.ReadBatch.
  destruct (Server.cursors_ w !! _) as [c|].
  - cbn [Server.do_ShmUnlink Server.logged Server.set_segments Server.conn_ Server.db_store].
    destruct (BatchRead _ _ _) as [[[nx sz] data] s].
    eexists. split; reflexivity.
  - destruct (GetIter _ _) as [c s0].
    cbn [Server.do_ShmUnlink Server.logged Server.set_segments Server.set_cursors Server.called
         Server.conn_ Server.db_store].
    destruct (BatchRead _ _ _) as [[[nx sz] data] s].
    eexists. split; reflexivity.
Qed.

Lemma Server_CloseCursor_sent msg (w : Server.KVWorker) :
  Server.sent (Server.CloseCursor msg w) = Server.sent w ++ [].
Proof.
  unfold Server.CloseCursor. destruct (Server.cursors_ w !! _) as [c|];
    cbn [Server.sent Server.Send Server.set_cursors Server.called]; rewrite ?app_nil_r;
    reflexivity.
Qed.

Lemma Server_ClearRangeQuery_sent msg (w : Server.KVWorker) :
  Server.sent (Server.ClearRangeQuery msg w) = Server.sent w.
Proof.
  unfold Server.ClearRangeQuery. destruct (Server.ranges_ w !! _) as [e|]; reflexivity.
Qed.

Lemma Worker_Open_sent msg (w : Worker.KVWorker) :
  Worker.sent (Worker.Open sizeof_opts MSGBUFSIZE uninitialised msg w) = Worker.sent w ++ [SuccessMessage (rpsId (hdr msg))].
Proof.
  unfold Worker.Open. cbv zeta. autorewrite with recv.
  destruct (Worker.conn w =? 0);
    [destruct (Worker.OpenConn _ _ _ _ _) as [c s]|];
    cbn [Worker.sent Worker.Send Worker.set_ref Worker.set_conn Worker.called];
    autorewrite with recv; reflexivity.
Qed.

Lemma Worker_Close_sent msg (w : Worker.KVWorker) :
  Worker.sent (Worker.Close msg w) = Worker.sent w ++ [SuccessMessage (rpsId (hdr msg))].
Proof.
  unfold Worker.Close. destruct (Worker.conn w =? 0);
    cbn [Worker.sent Worker.Send Worker.set_ref]; rewrite ?app_nil_r; reflexivity.
Qed.

Lemma Worker_Count_sent msg (w : Worker.KVWorker) :
  exists reply, Worker.sent (Worker.Count msg w) = Worker.sent w ++ [reply] /\
                rpsId (hdr reply) = rpsId (hdr msg).
Proof.
  unfold Worker.Count. destruct (Worker.GetCount _ _) as [c s].
  eexists. split; reflexivity.
Qed.

Lemma Worker_Put_sent msg (w : Worker.KVWorker) :
  exists reply, Worker.sent (Worker.Put MSGBUFSIZE uninitialised msg w) = Worker.sent w ++ [reply] /\
                rpsId (hdr reply) = rpsId (hdr msg).
Proof.
  unfold Worker.Put. cbv zeta. destruct (Worker.read_PutArgs _ _) as [k v].
  destruct (Worker.PutRecord _ _ _ _) as [ok s].
  destruct ok; eexists; cbn [Worker.sent Worker.Send Worker.called];
    autorewrite with recv; split; reflexivity.
Qed.

Lemma Worker_Get_sent msg (w : Worker.KVWorker) :
  exists reply, Worker.sent (Worker.Get MSGBUFSIZE uninitialised msg w) = Worker.sent w ++ [reply] /\
                rpsId (hdr reply) = rpsId (hdr msg).
Proof.
  unfold Worker.Get. cbv zeta. destruct (Worker.GetRecord _ _ _) as [[ok v] s].
  destruct ok; eexists; cbn [Worker.sent Worker.Send Worker.called];
    autorewrite with recv; split; reflexivity.
Qed.

Lemma Worker_Delete_sent msg (w : Worker.KVWorker) :
  exists reply, Worker.sent (Worker.Delete MSGBUFSIZE uninitialised msg w) = Worker.sent w ++ [reply] /\
                rpsId (hdr reply) = rpsId (hdr msg).
Proof.
  unfold Worker.Delete. cbv zeta. destruct (Worker.DelRecord _ _ _) as [ok s].
  destruct ok; eexists; cbn [Worker.sent Worker.Send Worker.called];
    autorewrite with recv; split; reflexivity.
Qed.

Lemma Worker_Load_sent msg (w : Worker.KVWorker) :
  Worker.sent (Worker.Load MSGBUFSIZE uninitialised msg w) = Worker.sent w.
Proof.
  unfold Worker.Load. cbv zeta. destruct (Worker.read_PutArgs _ _) as [k v].
  destruct (Worker.PutRecord _ _ _ _) as [ok s].
  cbn [Worker.sent Worker.called]. autorewrite with recv. reflexivity.
Qed.

Lemma Worker_ReadBatch_sent msg (w : Worker.KVWorker) :
  exists reply, Worker.sent (Worker.ReadBatch READBATCHSIZE msg w) = Worker.sent w ++ [reply] /\
                rpsId (hdr reply) = rpsId (hdr msg).
Proof.
  unfold Worker.ReadBatch.
  destruct (Worker.cursors w !! _) as [c|].
  - cbn [Worker.do_ShmUnlink Worker.logged Worker.set_segments Worker.conn Worker.db_store].
    destruct (Worker.BatchRead _ _ _) as [[[nx sz] data] s].
    eexists. split; reflexivity.
  - destruct (Worker.GetIter _ _) as [c s0].
    cbn [Worker.do_ShmUnlink Worker.logged Worker.set_segments Worker.set_cursors Worker.called
         Worker.conn Worker.db_store].
    destruct (Worker.BatchRead _ _ _) as [[[nx sz] data] s].
    eexists. split; reflexivity.
Qed.

Lemma Worker_CloseCursor_sent msg (w : Worker.KVWorker) :
  Worker.sent (Worker.CloseCursor msg w) = Worker.sent w ++ [SuccessMessage (rpsId (hdr msg))].
Proof.
  unfold Worker.CloseCursor. destruct (Worker.cursors w !! _) as [c|];
    cbn [Worker.sent Worker.Send Worker.set_cursors Worker.called]; rewrite ?app_nil_r;
    reflexivity.
Qed.

Lemma Worker_ClearRangeQuery_sent msg (w : Worker.KVWorker) :
  Worker.sent (Worker.ClearRangeQuery msg w) = Worker.sent w.
Proof.
  unfold Worker.ClearRangeQuery. destruct (Worker.ranges w !! _) as [e|]; reflexivity.
Qed.

Lemma one_reply (before after : list KVMessage) channel :
  (exists reply, after = before ++ [reply] /\ rpsId (hdr reply) = channel) ->
  exists reply, replies_since before after = [reply] /\ rpsId (hdr reply) = channel.
Proof.
  intros (reply & -> & H). exists reply. split; [|exact H].
  unfold replies_since. apply drop_app_length.
Qed.

(** X8: the client stubs wait for an answer exactly where the worker sends
    one. In [server/kv_worker.cc] the stubs for Count, Put, Get, Delete,
    ReadBatch and RangeQuery wait on a leased channel, and the worker's
    handler for each of these requests returns, having sent exactly one
    message, on that channel; the stubs for Open, Close, Load, CloseCursor,
    ClearRangeQuery and Terminate do not wait, and the handlers return
    having sent nothing. In [kv_worker.cc] Open, Close and CloseCursor are
    waited for as well, and answered. Every handler but the one for
    RangeQuery returns whatever the worker's state; the handler for
    RangeQuery returns when the reads of the storage engine come to a chunk
    that is not empty or to the last one, and only then. So, as long as the
    scans of the engine come to an end, no stub waits for an answer that
    never comes, and no answer is sent to a channel nobody leased. *)
Theorem awaited_requests_are_the_answered_ones
    (workerId db channel pid opid : Z) (oargs : OpenArgs.t) (pargs : PutArgs.t)
    (key : list Z) (opts : option RangeQueryOpts) :
  let served_by_server (e : exchange) :=
    forall (w : Server.KVWorker),
      (op (hdr (request e)) = KVOpRangeQuery ->
       Server.scan_of_ends (request e) w) ->
      exists n w1,
        (forall fuel, (n <= fuel)%nat ->
           Server.handle READBATCHSIZE sizeof_opts fuel (request e) w = Some w1) /\
        if awaits e
        then exists reply,
            replies_since (Server.sent w) (Server.sent w1) = [reply] /\
            rpsId (hdr reply) = channel
        else Server.sent w1 = Server.sent w in
  let served_by_worker (e : exchange) :=
    forall (w : Worker.KVWorker),
      (op (hdr (request e)) = KVOpRangeQuery ->
       Worker.scan_of_ends uninitialised (request e) w) ->
      exists n w1,
        (forall fuel, (n <= fuel)%nat ->
           Worker.handle READBATCHSIZE sizeof_opts MSGBUFSIZE uninitialised fuel
             (request e) w = Some w1) /\
        if awaits e
        then exists reply,
            replies_since (Worker.sent w) (Worker.sent w1) = [reply] /\
            rpsId (hdr reply) = channel
        else Worker.sent w1 = Worker.sent w in
  let server_stubs :=
    [ ServerClient.Open sizeof_opts workerId db oargs;
      ServerClient.Close workerId db;
      ServerClient.Count workerId db channel;
      ServerClient.Put workerId db channel pargs;
      ServerClient.Get workerId db channel key;
      ServerClient.Delete workerId db channel key;
      ServerClient.Load workerId db pargs;
      ServerClient.ReadBatch workerId db channel pid opid;
      snd (ServerClient.CloseCursor workerId db pid opid);
      ServerClient.RangeQuery workerId db channel pid opid opts;
      ServerClient.ClearRangeQuery workerId db pid opid;
      ServerClient.Terminate workerId db ] in
  let worker_stubs :=
    [ WorkerClient.Open sizeof_opts workerId db channel oargs;
      WorkerClient.Close workerId db channel;
      WorkerClient.Count workerId db channel;
      WorkerClient.Put workerId db channel pargs;
      WorkerClient.Get workerId db channel key;
      WorkerClient.Delete workerId db channel key;
      WorkerClient.Load workerId db pargs;
      WorkerClient.ReadBatch workerId db channel pid opid;
      snd (WorkerClient.CloseCursor workerId db channel pid opid);
      WorkerClient.RangeQuery workerId db channel pid opid opts;
      WorkerClient.ClearRangeQuery workerId db pid opid;
      WorkerClient.Terminate workerId db ] in
  Forall served_by_server server_stubs /\
  map awaits server_stubs
  = [false; false; true; true; true; true; false; true; false; true; false; false] /\
  Forall served_by_worker worker_stubs /\
  map awaits worker_stubs
  = [true; true; true; true; true; true; false; true; true; true; false; false] /\
  (forall fuel (w w1 : Server.KVWorker),
     Server.handle READBATCHSIZE sizeof_opts fuel
       (request (ServerClient.RangeQuery workerId db channel pid opid opts)) w
     = Some w1 ->
     Server.scan_of_ends
       (request (ServerClient.RangeQuery workerId db channel pid opid opts)) w) /\
  (forall fuel (w w1 : Worker.KVWorker),
     Worker.handle READBATCHSIZE sizeof_opts MSGBUFSIZE uninitialised fuel
       (request (WorkerClient.RangeQuery workerId db channel pid opid opts)) w
     = Some w1 ->
     Worker.scan_of_ends uninitialised
       (request (WorkerClient.RangeQuery workerId db channel pid opid opts)) w).
Proof.
  intros served_by_server served_by_worker server_stubs worker_stubs.
  subst served_by_server served_by_worker server_stubs worker_stubs.
  split; [|split; [reflexivity|split; [|split; [reflexivity|split]]]].
  - repeat apply List.Forall_cons; try apply List.Forall_nil; intros w Hs.
    + exists 0%nat. eexists.
      split; [intros fuel _; apply Server_handle_Open; reflexivity|].
      cbn [awaits ServerClient.Open Send_only].
      rewrite Server_Open_sent. apply app_nil_r.
    + exists 0%nat. eexists.
      split; [intros fuel _; apply Server_handle_Close; reflexivity|].
      cbn [awaits ServerClient.Close Send_only].
      rewrite Server_Close_sent. apply app_nil_r.
    + exists 0%nat. eexists.
      split; [intros fuel _; apply Server_handle_Count; reflexivity|].
      cbn [awaits ServerClient.Count SendWithResponse].
      apply one_reply, Server_Count_sent.
    + exists 0%nat. eexists.
      split; [intros fuel _; apply Server_handle_Put; reflexivity|].
      cbn [awaits ServerClient.Put SendWithResponse].
      apply one_reply, Server_Put_sent.
    + exists 0%nat. eexists.
      split; [intros fuel _; apply Server_handle_Get; reflexivity|].
      cbn [awaits ServerClient.Get].
      apply one_reply, Server_Get_sent.
    + exists 0%nat. eexists.
      split; [intros fuel _; apply Server_handle_Delete; reflexivity|].
      cbn [awaits ServerClient.Delete SendWithResponse].
      apply one_reply, Server_Delete_sent.
    + exists 0%nat. eexists.
      split; [intros fuel _; apply Server_handle_Load; reflexivity|].
      cbn [awaits ServerClient.Load Send_only].
      apply Server_Load_sent.
    + exists 0%nat. eexists.
      split; [intros fuel _; apply Server_handle_ReadBatch; reflexivity|].
      cbn [awaits ServerClient.ReadBatch SendWithResponse].
      apply one_reply, Server_ReadBatch_sent.
    + exists 0%nat. eexists.
      split; [intros fuel _; apply Server_handle_CloseCursor; reflexivity|].
      cbn [awaits ServerClient.CloseCursor Send_only snd].
      rewrite Server_CloseCursor_sent. apply app_nil_r.
    + destruct (Server_RangeQuery_total _ w (Hs eq_refl)) as (n & w1 & Hn).
      exists n, w1.
      split; [intros fuel Hf; rewrite Server_handle_RangeQuery by reflexivity;
              apply Hn, Hf|].
      cbn [awaits ServerClient.RangeQuery SendWithResponse].
      apply one_reply. pose proof (Hn n (le_n n)) as H.
      apply Server_RangeQuery_reply in H as (st & Hst & _).
      eexists. split; [exact Hst|reflexivity].
    + exists 0%nat. eexists.
      split; [intros fuel _; apply Server_handle_ClearRangeQuery; reflexivity|].
      cbn [awaits ServerClient.ClearRangeQuery Send_only].
      apply Server_ClearRangeQuery_sent.
    + exists 0%nat. eexists.
      split; [intros fuel _; apply Server_handle_Terminate; reflexivity|].
      reflexivity.
  - repeat apply List.Forall_cons; try apply List.Forall_nil; intros w Hs.
    + exists 0%nat. eexists.
      split; [intros fuel _; apply Worker_handle_Open; reflexivity|].
      cbn [awaits WorkerClient.Open SendWithResponse].
      apply one_reply. rewrite Worker_Open_sent. eexists. split; reflexivity.
    + exists 0%nat. eexists.
      split; [intros fuel _; apply Worker_handle_Close; reflexivity|].
      cbn [awaits WorkerClient.Close SendWithResponse].
      apply one_reply. rewrite Worker_Close_sent. eexists. split; reflexivity.
    + exists 0%nat. eexists.
      split; [intros fuel _; apply Worker_handle_Count; reflexivity|].
      cbn [awaits WorkerClient.Count SendWithResponse].
      apply one_reply, Worker_Count_sent.
    + exists 0%nat. eexists.
      split; [intros fuel _; apply Worker_handle_Put; reflexivity|].
      cbn [awaits WorkerClient.Put SendWithResponse].
      apply one_reply, Worker_Put_sent.
    + exists 0%nat. eexists.
      split; [intros fuel _; apply Worker_handle_Get; reflexivity|].
      cbn [awaits WorkerClient.Get].
      apply one_reply, Worker_Get_sent.
    + exists 0%nat. eexists.
      split; [intros fuel _; apply Worker_handle_Delete; reflexivity|].
      cbn [awaits WorkerClient.Delete SendWithResponse].
      apply one_reply, Worker_Delete_sent.
    + exists 0%nat. eexists.
      split; [intros fuel _; apply Worker_handle_Load; reflexivity|].
      cbn [awaits WorkerClient.Load Send_only].
      apply Worker_Load_sent.
    + exists 0%nat. eexists.
      split; [intros fuel _; apply Worker_handle_ReadBatch; reflexivity|].
      cbn [awaits WorkerClient.ReadBatch SendWithResponse].
      apply one_reply, Worker_ReadBatch_sent.
    + exists 0%nat. eexists.
      split; [intros fuel _; apply Worker_handle_CloseCursor; reflexivity|].
      cbn [awaits WorkerClient.CloseCursor SendWithResponse snd].
      apply one_reply. rewrite Worker_CloseCursor_sent. eexists. split; reflexivity.
    + destruct (Worker_RangeQuery_total uninitialised _ w (Hs eq_refl))
        as (n & w1 & Hn).
      exists n, w1.
      split; [intros fuel Hf; rewrite Worker_handle_RangeQuery by reflexivity;
              apply Hn, Hf|].
      cbn [awaits WorkerClient.RangeQuery SendWithResponse].
      apply one_reply. pose proof (Hn n (le_n n)) as H.
      apply Worker_RangeQuery_reply in H as (st & Hst & _).
      eexists. split; [exact Hst|reflexivity].
    + exists 0%nat. eexists.
      split; [intros fuel _; apply Worker_handle_ClearRangeQuery; reflexivity|].
      cbn [awaits WorkerClient.ClearRangeQuery Send_only].
      apply Worker_ClearRangeQuery_sent.
    + exists 0%nat. eexists.
      split; [intros fuel _; apply Worker_handle_Terminate; reflexivity|].
      reflexivity.
  - intros fuel w w1 H. rewrite Server_handle_RangeQuery in H by reflexivity.
    eapply Server_RangeQuery_ends, H.
  - intros fuel w w1 H. rewrite Worker_handle_RangeQuery in H by reflexivity.
    eapply Worker_RangeQuery_ends, H.
Qed.

(** X9: every request leaves the client with the entity size its header
    declares. For each stub of [server/kv_worker.cc] and of [kv_worker.cc]
    the size the stub computes for [hdr.etySize] is the number of bytes its
    write function pushes (for Open with options of [sizeof(args->opts)]
    bytes, for RangeQuery with options that are filled in, and as long as
    the sum fits in 64 bits), so the worker, which reads [etySize] bytes,
    reads the whole entity and nothing else. The answer to a ReadBatch or a
    RangeQuery is the exception: its header declares [sizeof(ReadBatchState)],
    16 bytes, while [WriteReadBatchState] pushes 9. *)
Theorem declared_entity_size_is_what_is_written
    (workerId db channel pid opid : Z) (oargs : OpenArgs.t) (pargs : PutArgs.t)
    (key : list Z) (opts : option RangeQueryOpts) :
  length (OpenArgs.opts oargs) = sizeof_opts ->
  Z.of_nat sizeof_opts + Z.of_nat (length (OpenArgs.path oargs)) + (1 + 4) < 2 ^ 64 ->
  Z.of_nat (length (PutArgs.key pargs)) + Z.of_nat (length (PutArgs.val pargs)) + 8
  < 2 ^ 64 ->
  (forall o, opts = Some o ->
     RangeQueryOpts_filled o /\
     4 + 8 + 8 + startLen o + 8 + limitLen o + 4 + attrCount o * 2 + 8 < 2 ^ 64) ->
  let exact (e : exchange) :=
    etySize (hdr (request e)) = Z.of_nat (length (ety (request e))) /\
    entity_of (request e) = ety (request e) in
  Forall exact
    [ ServerClient.Open sizeof_opts workerId db oargs;
      ServerClient.Close workerId db;
      ServerClient.Count workerId db channel;
      ServerClient.Put workerId db channel pargs;
      ServerClient.Get workerId db channel key;
      ServerClient.Delete workerId db channel key;
      ServerClient.Load workerId db pargs;
      ServerClient.ReadBatch workerId db channel pid opid;
      snd (ServerClient.CloseCursor workerId db pid opid);
      ServerClient.RangeQuery workerId db channel pid opid opts;
      ServerClient.ClearRangeQuery workerId db pid opid;
      ServerClient.Terminate workerId db ] /\
  Forall exact
    [ WorkerClient.Open sizeof_opts workerId db channel oargs;
      WorkerClient.Close workerId db channel;
      WorkerClient.Count workerId db channel;
      WorkerClient.Put workerId db channel pargs;
      WorkerClient.Get workerId db channel key;
      WorkerClient.Delete workerId db channel key;
      WorkerClient.Load workerId db pargs;
      WorkerClient.ReadBatch workerId db channel pid opid;
      snd (WorkerClient.CloseCursor workerId db channel pid opid);
      WorkerClient.RangeQuery workerId db channel pid opid opts;
      WorkerClient.ClearRangeQuery workerId db pid opid;
      WorkerClient.Terminate workerId db ] /\
  (forall ch st,
     etySize (hdr (Server.state_message ch st)) = 16 /\
     length (ety (Server.state_message ch st)) = 9%nat /\
     etySize (hdr (Worker.state_message ch st)) = 16 /\
     length (ety (Worker.state_message ch st)) = 9%nat).
Proof.
  intros Hopts Hosz Hpsz Hrq exact.
  assert (Hex : forall e, etySize (hdr (request e)) = Z.of_nat (length (ety (request e)))
                          -> exact e).
  { intros e H. split; [exact H|apply entity_of_exact, H]. }
  assert (HO : Z.of_nat (length (ServerClient.WriteOpenArgs oargs))
               = wrap64 (Z.of_nat sizeof_opts
                         + Z.of_nat (length (OpenArgs.path oargs)) + (1 + 4))).
  { unfold ServerClient.WriteOpenArgs, Push. cbn [app].
    rewrite !length_app, length_le_bytes, Hopts. cbn [length].
    unfold wrap64. rewrite Z.mod_small; lia. }
  assert (HP : Z.of_nat (length (ServerClient.WritePutArgs pargs))
               = wrap64 (Z.of_nat (length (PutArgs.key pargs))
                         + Z.of_nat (length (PutArgs.val pargs)) + 8)).
  { unfold ServerClient.WritePutArgs, Push. cbn [app].
    rewrite !length_app, length_le_bytes.
    unfold wrap64. rewrite Z.mod_small; lia. }
  assert (HK : Z.of_nat (length (ServerClient.WriteReadBatchArgs pid opid)) = 4 + 8).
  { unfold ServerClient.WriteReadBatchArgs, Push. cbn [app].
    rewrite !length_app, !length_le_bytes. reflexivity. }
  assert (HR : Z.of_nat (length (ServerClient.WriteRangeQueryArgs pid opid opts))
               = ServerClient.RangeQuery_size opts).
  { destruct opts as [o|]; [|exact HK].
    destruct (Hrq o eq_refl) as [Hf Hsz].
    rewrite (WriteRangeQueryArgs_filled _ _ _ Hf).
    destruct Hf as (Hs & Hs' & Hl & Hl' & Hb & Ha & Hal).
    rewrite !length_app, !length_le_bytes, Hal.
    unfold ServerClient.RangeQuery_size, wrap64.
    rewrite Z.mod_small by lia. lia. }
  split; [|split].
  - repeat apply List.Forall_cons; try apply List.Forall_nil; apply Hex;
      cbn [request ServerClient.Open ServerClient.Close ServerClient.Count
           ServerClient.Put ServerClient.Get ServerClient.Delete ServerClient.Load
           ServerClient.ReadBatch ServerClient.CloseCursor ServerClient.RangeQuery
           ServerClient.ClearRangeQuery ServerClient.Terminate
           Send_only SendWithResponse snd on_channel with_body SimpleMessage
           hdr ety etySize];
      first [ reflexivity | symmetry; assumption ].
  - repeat apply List.Forall_cons; try apply List.Forall_nil; apply Hex;
      cbn [request WorkerClient.Open WorkerClient.Close WorkerClient.Count
           WorkerClient.Put WorkerClient.Get WorkerClient.Delete WorkerClient.Load
           WorkerClient.ReadBatch WorkerClient.CloseCursor WorkerClient.RangeQuery
           WorkerClient.ClearRangeQuery WorkerClient.Terminate
           Send_only SendWithResponse snd on_channel with_body SimpleMessage
           hdr ety etySize];
      first [ reflexivity | symmetry; assumption ].
  - intros ch st.
    unfold Server.state_message, Worker.state_message, WriteReadBatchState.
    cbn [hdr ety etySize length]. rewrite length_le_bytes. repeat split.
Qed.

End QueueProtocol.

(** The entity of an Open of ["/7"] with no comparator options. *)
Lemma declared_entity_size_is_what_is_written_witness :
  let oargs := {| Msg.OpenArgs.opts := []; Msg.OpenArgs.useColumn := false;
                  Msg.OpenArgs.attrCount := 0; Msg.OpenArgs.path := [47; 55] |} in
  let sent := Msg.request (ServerClient.Open 0 7 1 oargs) in
  Msg.etySize (Msg.hdr sent) = Z.of_nat (length (Msg.ety sent)) /\
  Msg.entity_of sent = Msg.ety sent.
Proof.
  cbv zeta.
  destruct (declared_entity_size_is_what_is_written 0 7 1 5 1234 1
              {| Msg.OpenArgs.opts := []; Msg.OpenArgs.useColumn := false;
                 Msg.OpenArgs.attrCount := 0; Msg.OpenArgs.path := [47; 55] |}
              {| Msg.PutArgs.key := [1]; Msg.PutArgs.val := [2; 3] |}
              [1] None)
    as (Hs & _); [reflexivity | reflexivity | reflexivity | discriminate |].
  exact (Forall_inv Hs).
Defined.


(** A range query on fresh workers of both generations whose engine plays
    the script of two empty chunks, three bytes and an empty last chunk: the
    handler returns, with the same worker for every bound on the number of
    reads from some bound on, and has sent one message, on channel 5. *)
Lemma awaited_requests_are_the_answered_ones_witness :
  (exists n w1,
     (forall fuel, (n <= fuel)%nat ->
        Server.handle 64 0 fuel
          (Msg.request (ServerClient.RangeQuery 7 1 5 1234 1 None))
          (Server.Start (Server.KVWorker_new (engine := Synthetic.scripted 4096)
                           Synthetic.four_chunks)) = Some w1) /\
     exists reply, Server.sent w1 = [reply] /\ Msg.rpsId (Msg.hdr reply) = 5) /\
  (exists n w1,
     (forall fuel, (n <= fuel)%nat ->
        Worker.handle 64 0 64 Synthetic.stack fuel
          (Msg.request (WorkerClient.RangeQuery 7 1 5 1234 1 None))
          (Worker.Start (Worker.KVWorker_new (engine := Synthetic.scripted' 4096)
                           Synthetic.four_chunks)) = Some w1) /\
     exists reply, Worker.sent w1 = [reply] /\ Msg.rpsId (Msg.hdr reply) = 5).
Proof.
  destruct (awaited_requests_are_the_answered_ones
              (E := Synthetic.scripted 4096) (E' := Synthetic.scripted' 4096)
              64 0 64 Synthetic.stack 7 1 5 1234 1
              {| Msg.OpenArgs.opts := []; Msg.OpenArgs.useColumn := false;
                 Msg.OpenArgs.attrCount := 0; Msg.OpenArgs.path := [47; 55] |}
              {| Msg.PutArgs.key := [1]; Msg.PutArgs.val := [2; 3] |}
              [1] None)
    as (Hs & _ & Hw & _).
  split.
  - destruct (Forall_lookup_1 _ _ 9%nat _ Hs eq_refl
                (Server.Start (Server.KVWorker_new (engine := Synthetic.scripted 4096)
                                 Synthetic.four_chunks)))
      as (n & w1 & Hn & reply & Hr & Hc).
    { intros _. apply scripted_scan_ends. }
    exists n, w1. split; [exact Hn|]. exists reply. split; [exact Hr|exact Hc].
  - destruct (Forall_lookup_1 _ _ 9%nat _ Hw eq_refl
                (Worker.Start (Worker.KVWorker_new (engine := Synthetic.scripted' 4096)
                                 Synthetic.four_chunks)))
      as (n & w1 & Hn & reply & Hr & Hc).
    { intros _. apply scripted_worker_scan_ends. }
    exists n, w1. split; [exact Hn|]. exists reply. split; [exact Hr|exact Hc].
Defined.

(** ** The names of the batch segments *)

Section SegmentNames.
Import Posix Msg.

Lemma digits_app fuel : forall n acc l,
  digits fuel n (acc ++ l) = digits fuel n acc ++ l.
Proof.
  induction fuel as [|fuel IH]; intros n acc l; cbn [digits]; [reflexivity|].
  destruct (n <? 10); [reflexivity|].
  apply (IH (n / 10) ((48 + n mod 10) :: acc) l).
Qed.

Lemma digits_more_fuel fuel : forall n acc,
  (1 <= fuel)%nat -> 0 <= n < 10 ^ Z.of_nat fuel ->
  digits (S fuel) n acc = digits fuel n acc.
Proof.
  induction fuel as [|fuel IH]; intros n acc Hf Hn; [lia|].
  cbn [digits]. destruct (Z.ltb_spec n 10) as [Hlt|Hge]; [reflexivity|].
  destruct fuel as [|fuel]; [cbn in Hn; lia|].
  apply (IH (n / 10) ((48 + n mod 10) :: acc)); [lia|].
  split; [apply Z.div_pos; lia|].
  apply Z.div_lt_upper_bound; [lia|].
  rewrite Nat2Z.inj_succ, Z.pow_succ_r in Hn by lia. lia.
Qed.

Lemma decimal_digit d : 0 <= d <= 9 -> decimal d = [48 + d].
Proof.
  intros H. unfold decimal.
  replace (d <? 0) with false by (symmetry; apply Z.ltb_ge; lia).
  cbn [digits].
  replace (d <? 10) with true by (symmetry; apply Z.ltb_lt; lia).
  reflexivity.
Qed.

(** One more digit at the end of a number is one more character at the end
    of what ["%d"] prints. *)
Lemma decimal_snoc p d :
  1 <= p -> 0 <= d <= 9 -> 10 * p + d < 10 ^ 19 ->
  decimal (10 * p + d) = decimal p ++ [48 + d].
Proof.
  intros Hp Hd Hlt. unfold decimal.
  replace (10 * p + d <? 0) with false by (symmetry; apply Z.ltb_ge; lia).
  replace (p <? 0) with false by (symmetry; apply Z.ltb_ge; lia).
  change (digits 20 (10 * p + d) []) with
    (if 10 * p + d <? 10 then [48 + (10 * p + d)]
     else digits 19 ((10 * p + d) / 10) [48 + (10 * p + d) mod 10]).
  replace (10 * p + d <? 10) with false by (symmetry; apply Z.ltb_ge; lia).
  replace ((10 * p + d) / 10) with p
    by (apply Z.div_unique with d; lia).
  replace ((10 * p + d) mod 10) with d
    by (apply Z.mod_unique with p; lia).
  change [48 + d] with ([] ++ [48 + d]) at 1.
  rewrite (digits_app 19 p [] [48 + d]).
  rewrite (digits_more_fuel 19 p []); [reflexivity|lia|].
  change (10 ^ Z.of_nat 19) with (10 ^ 19). lia.
Qed.

Lemma segment_name_runs_together prefix p d e :
  1 <= p -> 10 * p + d < 2 ^ 31 -> 1 <= d <= 9 -> 0 <= e <= 9 ->
  segment_name prefix p d (10 * d + e) = segment_name prefix (10 * p + d) d e.
Proof.
  intros Hp Hpid Hd He. unfold segment_name.
  rewrite (decimal_snoc p d) by lia.
  rewrite (decimal_snoc d e) by lia.
  rewrite (decimal_digit d) by lia. rewrite (decimal_digit e) by lia.
  rewrite <- !app_assoc. reflexivity.
Qed.

End SegmentNames.

(** ** The cursor and range-query registries *)

Section Registries.
Import Posix Msg.

Context {E : Msg.Storage} {E' : Worker.Storage}.
Variables READBATCHSIZE sizeof_opts : nat.
Variable MSGBUFSIZE : nat.
Variable uninitialised : Worker.KVWorker -> list Z.

#[local] Arguments le_bytes : simpl never.
#[local] Arguments wrap64 : simpl never.

Lemma Server_ReadBatch_frame msg (w : Server.KVWorker) :
  let w1 := Server.ReadBatch READBATCHSIZE msg w in
  (forall k, k <> key_of msg -> Server.cursors_ w1 !! k = Server.cursors_ w !! k) /\
  is_Some (Server.cursors_ w1 !! key_of msg) /\
  Server.ranges_ w1 = Server.ranges_ w /\ Server.conn_ w1 = Server.conn_ w /\
  Server.ref_ w1 = Server.ref_ w /\ Server.running_ w1 = Server.running_ w /\
  (forall n, n <> segment_name READBATCHPATH (fst (key_of msg)) (relId (hdr msg))
                    (snd (key_of msg)) ->
             Server.segments w1 !! n = Server.segments w !! n).
Proof.
  unfold Server.ReadBatch. fold (key_of msg).
  destruct (Server.cursors_ w !! key_of msg) as [c|] eqn:Hc.
  - cbn [Server.do_ShmUnlink Server.logged Server.set_segments Server.conn_ Server.db_store].
    destruct (BatchRead _ _ _) as [[[nx sz] data] s]. cbv zeta.
    cbn [Server.Send Server.called Server.set_segments Server.set_cursors
         Server.do_ShmUnlink Server.logged Server.cursors_ Server.ranges_
         Server.conn_ Server.ref_ Server.running_ Server.segments].
    split; [reflexivity|]. split; [eauto|].
    repeat (split; [reflexivity|]).
    intros n Hn. rewrite lookup_insert_ne by congruence.
    apply lookup_delete_ne. congruence.
  - destruct (GetIter _ _) as [c s0].
    cbn [Server.do_ShmUnlink Server.logged Server.set_segments Server.set_cursors Server.called
         Server.conn_ Server.db_store].
    destruct (BatchRead _ _ _) as [[[nx sz] data] s]. cbv zeta.
    cbn [Server.Send Server.called Server.set_segments Server.set_cursors
         Server.do_ShmUnlink Server.logged Server.cursors_ Server.ranges_
         Server.conn_ Server.ref_ Server.running_ Server.segments].
    split; [intros k Hk; apply lookup_insert_ne; congruence|].
    split; [rewrite lookup_insert_eq; eauto|].
    repeat (split; [reflexivity|]).
    intros n Hn. rewrite lookup_insert_ne by congruence.
    apply lookup_delete_ne. congruence.
Qed.

Lemma Server_CloseCursor_frame msg (w : Server.KVWorker) :
  let w1 := Server.CloseCursor msg w in
  (forall k, k <> key_of msg -> Server.cursors_ w1 !! k = Server.cursors_ w !! k) /\
  Server.cursors_ w1 !! key_of msg = None /\
  Server.calls w1
  = Server.calls w ++ match Server.cursors_ w !! key_of msg with
                  | Some c => [CallDelIter c]
                  | None => []
                  end /\
  Server.ranges_ w1 = Server.ranges_ w /\ Server.conn_ w1 = Server.conn_ w /\
  Server.ref_ w1 = Server.ref_ w /\ Server.running_ w1 = Server.running_ w /\
  Server.segments w1 = Server.segments w.
Proof.
  unfold Server.CloseCursor. fold (key_of msg).
  destruct (Server.cursors_ w !! key_of msg) as [c|] eqn:Hc; cbv zeta;
    cbn [Server.Send Server.called Server.set_cursors Server.cursors_ Server.ranges_ Server.conn_
         Server.ref_ Server.running_ Server.segments Server.calls].
  - split; [intros k Hk; apply lookup_delete_ne; congruence|].
    split; [apply lookup_delete_eq|]. repeat split.
  - split; [reflexivity|]. split; [exact Hc|].
    split; [symmetry; apply app_nil_r|]. repeat split.
Qed.

Lemma Server_ClearRangeQuery_frame msg (w : Server.KVWorker) :
  let w1 := Server.ClearRangeQuery msg w in
  (forall k, k <> key_of msg -> Server.ranges_ w1 !! k = Server.ranges_ w !! k) /\
  Server.ranges_ w1 !! key_of msg = None /\
  Server.calls w1
  = Server.calls w ++ match Server.ranges_ w !! key_of msg with
                  | Some e => [CallClearRangeQueryMeta (range e) (readOpts e)]
                  | None => []
                  end /\
  Server.cursors_ w1 = Server.cursors_ w /\ Server.conn_ w1 = Server.conn_ w /\
  Server.ref_ w1 = Server.ref_ w /\ Server.running_ w1 = Server.running_ w /\
  Server.sent w1 = Server.sent w /\
  (is_Some (Server.ranges_ w !! key_of msg) ->
   Server.segments w1 !! segment_name RANGEQUERYPATH (fst (key_of msg))
                        (relId (hdr msg)) (snd (key_of msg)) = None).
Proof.
  unfold Server.ClearRangeQuery. fold (key_of msg).
  destruct (Server.ranges_ w !! key_of msg) as [e|] eqn:He; cbv zeta;
    cbn [Server.do_ShmUnlink Server.logged Server.set_segments Server.called Server.set_ranges
         Server.cursors_ Server.ranges_ Server.conn_ Server.ref_ Server.running_ Server.segments
         Server.calls Server.sent].
  - split; [intros k Hk; apply lookup_delete_ne; congruence|].
    split; [apply lookup_delete_eq|]. repeat (split; [reflexivity|]).
    intros _. apply lookup_delete_eq.
  - split; [reflexivity|]. split; [exact He|].
    split; [symmetry; apply app_nil_r|]. repeat (split; [reflexivity|]).
    intros [? H]. discriminate H.
Qed.

Lemma Worker_ReadBatch_frame msg (w : Worker.KVWorker) :
  let w1 := Worker.ReadBatch READBATCHSIZE msg w in
  (forall k, k <> key_of msg -> Worker.cursors w1 !! k = Worker.cursors w !! k) /\
  is_Some (Worker.cursors w1 !! key_of msg) /\
  Worker.ranges w1 = Worker.ranges w /\ Worker.conn w1 = Worker.conn w /\
  Worker.ref w1 = Worker.ref w /\ Worker.running w1 = Worker.running w /\
  (forall n, n <> segment_name READBATCHPATH (fst (key_of msg)) (relId (hdr msg))
                    (snd (key_of msg)) ->
             Worker.segments w1 !! n = Worker.segments w !! n).
Proof.
  unfold Worker.ReadBatch. fold (key_of msg).
  destruct (Worker.cursors w !! key_of msg) as [c|] eqn:Hc.
  - cbn [Worker.do_ShmUnlink Worker.logged Worker.set_segments Worker.conn Worker.db_store].
    destruct (Worker.BatchRead _ _ _) as [[[nx sz] data] s]. cbv zeta.
    cbn [Worker.Send Worker.called Worker.set_segments Worker.set_cursors
         Worker.do_ShmUnlink Worker.logged Worker.cursors Worker.ranges
         Worker.conn Worker.ref Worker.running Worker.segments].
    split; [reflexivity|]. split; [eauto|].
    repeat (split; [reflexivity|]).
    intros n Hn. rewrite lookup_insert_ne by congruence.
    apply lookup_delete_ne. congruence.
  - destruct (Worker.GetIter _ _) as [c s0].
    cbn [Worker.do_ShmUnlink Worker.logged Worker.set_segments Worker.set_cursors Worker.called
         Worker.conn Worker.db_store].
    destruct (Worker.BatchRead _ _ _) as [[[nx sz] data] s]. cbv zeta.
    cbn [Worker.Send Worker.called Worker.set_segments Worker.set_cursors
         Worker.do_ShmUnlink Worker.logged Worker.cursors Worker.ranges
         Worker.conn Worker.ref Worker.running Worker.segments].
    split; [intros k Hk; apply lookup_insert_ne; congruence|].
    split; [rewrite lookup_insert_eq; eauto|].
    repeat (split; [reflexivity|]).
    intros n Hn. rewrite lookup_insert_ne by congruence.
    apply lookup_delete_ne. congruence.
Qed.

Lemma Worker_CloseCursor_frame msg (w : Worker.KVWorker) :
  let w1 := Worker.CloseCursor msg w in
  (forall k, k <> key_of msg -> Worker.cursors w1 !! k = Worker.cursors w !! k) /\
  Worker.cursors w1 !! key_of msg = None /\
  Worker.calls w1
  = Worker.calls w ++ match Worker.cursors w !! key_of msg with
                  | Some c => [CallDelIter c]
                  | None => []
                  end /\
  Worker.ranges w1 = Worker.ranges w /\ Worker.conn w1 = Worker.conn w /\
  Worker.ref w1 = Worker.ref w /\ Worker.running w1 = Worker.running w /\
  Worker.segments w1 = Worker.segments w.
Proof.
  unfold Worker.CloseCursor. fold (key_of msg).
  destruct (Worker.cursors w !! key_of msg) as [c|] eqn:Hc; cbv zeta;
    cbn [Worker.Send Worker.called Worker.set_cursors Worker.cursors Worker.ranges Worker.conn
         Worker.ref Worker.running Worker.segments Worker.calls].
  - split; [intros k Hk; apply lookup_delete_ne; congruence|].
    split; [apply lookup_delete_eq|]. repeat split.
  - split; [reflexivity|]. split; [exact Hc|].
    split; [symmetry; apply app_nil_r|]. repeat split.
Qed.

Lemma Worker_ClearRangeQuery_frame msg (w : Worker.KVWorker) :
  let w1 := Worker.ClearRangeQuery msg w in
  (forall k, k <> key_of msg -> Worker.ranges w1 !! k = Worker.ranges w !! k) /\
  Worker.ranges w1 !! key_of msg = None /\
  Worker.calls w1
  = Worker.calls w ++ match Worker.ranges w !! key_of msg with
                  | Some e => [CallClearRangeQueryMeta (range e) (readOpts e)]
                  | None => []
                  end /\
  Worker.cursors w1 = Worker.cursors w /\ Worker.conn w1 = Worker.conn w /\
  Worker.ref w1 = Worker.ref w /\ Worker.running w1 = Worker.running w /\
  Worker.sent w1 = Worker.sent w /\
  (is_Some (Worker.ranges w !! key_of msg) ->
   Worker.segments w1 !! segment_name RANGEQUERYPATH (fst (key_of msg))
                        (relId (hdr msg)) (snd (key_of msg)) = None).
Proof.
  unfold Worker.ClearRangeQuery. fold (key_of msg).
  destruct (Worker.ranges w !! key_of msg) as [e|] eqn:He; cbv zeta;
    cbn [Worker.do_ShmUnlink Worker.logged Worker.set_segments Worker.called Worker.set_ranges
         Worker.cursors Worker.ranges Worker.conn Worker.ref Worker.running Worker.segments
         Worker.calls Worker.sent].
  - split; [intros k Hk; apply lookup_delete_ne; congruence|].
    split; [apply lookup_delete_eq|]. repeat (split; [reflexivity|]).
    intros _. apply lookup_delete_eq.
  - split; [reflexivity|]. split; [exact He|].
    split; [symmetry; apply app_nil_r|]. repeat (split; [reflexivity|]).
    intros [? H]. discriminate H.
Qed.

Lemma Server_ClearRangeQuery_segments msg (w : Server.KVWorker) :
  let w1 := Server.ClearRangeQuery msg w in
  (forall n, n <> segment_name RANGEQUERYPATH (fst (key_of msg)) (relId (hdr msg))
                    (snd (key_of msg)) ->
             Server.segments w1 !! n = Server.segments w !! n) /\
  (Server.ranges_ w !! key_of msg = None -> w1 = w).
Proof.
  unfold Server.ClearRangeQuery. fold (key_of msg).
  destruct (Server.ranges_ w !! key_of msg) as [e|] eqn:He; cbv zeta.
  - split; [|discriminate]. intros n Hn.
    cbn [Server.do_ShmUnlink Server.logged Server.set_segments Server.called Server.set_ranges
         Server.segments].
    apply lookup_delete_ne. congruence.
  - split; reflexivity.
Qed.

Lemma Worker_ClearRangeQuery_segments msg (w : Worker.KVWorker) :
  let w1 := Worker.ClearRangeQuery msg w in
  (forall n, n <> segment_name RANGEQUERYPATH (fst (key_of msg)) (relId (hdr msg))
                    (snd (key_of msg)) ->
             Worker.segments w1 !! n = Worker.segments w !! n) /\
  (Worker.ranges w !! key_of msg = None -> w1 = w).
Proof.
  unfold Worker.ClearRangeQuery. fold (key_of msg).
  destruct (Worker.ranges w !! key_of msg) as [e|] eqn:He; cbv zeta.
  - split; [|discriminate]. intros n Hn.
    cbn [Worker.do_ShmUnlink Worker.logged Worker.set_segments Worker.called Worker.set_ranges
         Worker.segments].
    apply lookup_delete_ne. congruence.
  - split; reflexivity.
Qed.

(** X10: the registries change only at the key a request names. A ReadBatch
    leaves every other cursor, every range query, the connection and every
    segment but its own as they were, and has a cursor registered under its
    key afterwards. A CloseCursor removes the entry of its key and nothing
    else; it calls [DelIter] once, on the cursor that was registered, and not
    at all when there was none; it leaves the batch segment alone (the client
    unlinks it). A ClearRangeQuery removes the entry of its key and nothing
    else, calls [ClearRangeQueryMeta] on what was registered, sends nothing,
    leaves no segment under the name of the range query and every other
    segment as it was; when nothing is registered under its key it changes
    nothing at all. This holds in [server/kv_worker.cc] and in
    [kv_worker.cc]. *)
Theorem registries_change_only_at_the_named_key
    (msg : KVMessage) (w : Server.KVWorker) (w' : Worker.KVWorker) :
  (let w1 := Server.ReadBatch READBATCHSIZE msg w in
   (forall k, k <> key_of msg -> Server.cursors_ w1 !! k = Server.cursors_ w !! k) /\
   is_Some (Server.cursors_ w1 !! key_of msg) /\
   Server.ranges_ w1 = Server.ranges_ w /\ Server.conn_ w1 = Server.conn_ w /\
   (forall n, n <> segment_name READBATCHPATH (fst (key_of msg)) (relId (hdr msg))
                     (snd (key_of msg)) ->
              Server.segments w1 !! n = Server.segments w !! n)) /\
  (let w1 := Server.CloseCursor msg w in
   (forall k, k <> key_of msg -> Server.cursors_ w1 !! k = Server.cursors_ w !! k) /\
   Server.cursors_ w1 !! key_of msg = None /\
   Server.calls w1
   = Server.calls w ++ match Server.cursors_ w !! key_of msg with
                       | Some c => [CallDelIter c]
                       | None => []
                       end /\
   Server.ranges_ w1 = Server.ranges_ w /\ Server.segments w1 = Server.segments w) /\
  (let w1 := Server.ClearRangeQuery msg w in
   (forall k, k <> key_of msg -> Server.ranges_ w1 !! k = Server.ranges_ w !! k) /\
   Server.ranges_ w1 !! key_of msg = None /\
   Server.calls w1
   = Server.calls w ++ match Server.ranges_ w !! key_of msg with
                       | Some e => [CallClearRangeQueryMeta (range e) (readOpts e)]
                       | None => []
                       end /\
   Server.cursors_ w1 = Server.cursors_ w /\ Server.conn_ w1 = Server.conn_ w /\
   Server.sent w1 = Server.sent w /\
   (is_Some (Server.ranges_ w !! key_of msg) ->
    Server.segments w1 !! segment_name RANGEQUERYPATH (fst (key_of msg))
                            (relId (hdr msg)) (snd (key_of msg)) = None) /\
   (forall n, n <> segment_name RANGEQUERYPATH (fst (key_of msg)) (relId (hdr msg))
                     (snd (key_of msg)) ->
              Server.segments w1 !! n = Server.segments w !! n) /\
   (Server.ranges_ w !! key_of msg = None -> w1 = w)) /\
  (let w1 := Worker.ReadBatch READBATCHSIZE msg w' in
   (forall k, k <> key_of msg -> Worker.cursors w1 !! k = Worker.cursors w' !! k) /\
   is_Some (Worker.cursors w1 !! key_of msg) /\
   Worker.ranges w1 = Worker.ranges w' /\ Worker.conn w1 = Worker.conn w' /\
   (forall n, n <> segment_name READBATCHPATH (fst (key_of msg)) (relId (hdr msg))
                     (snd (key_of msg)) ->
              Worker.segments w1 !! n = Worker.segments w' !! n)) /\
  (let w1 := Worker.CloseCursor msg w' in
   (forall k, k <> key_of msg -> Worker.cursors w1 !! k = Worker.cursors w' !! k) /\
   Worker.cursors w1 !! key_of msg = None /\
   Worker.calls w1
   = Worker.calls w' ++ match Worker.cursors w' !! key_of msg with
                        | Some c => [CallDelIter c]
                        | None => []
                        end /\
   Worker.ranges w1 = Worker.ranges w' /\ Worker.segments w1 = Worker.segments w') /\
  (let w1 := Worker.ClearRangeQuery msg w' in
   (forall k, k <> key_of msg -> Worker.ranges w1 !! k = Worker.ranges w' !! k) /\
   Worker.ranges w1 !! key_of msg = None /\
   Worker.calls w1
   = Worker.calls w' ++ match Worker.ranges w' !! key_of msg with
                        | Some e => [CallClearRangeQueryMeta (range e) (readOpts e)]
                        | None => []
                        end /\
   Worker.cursors w1 = Worker.cursors w' /\ Worker.conn w1 = Worker.conn w' /\
   Worker.sent w1 = Worker.sent w' /\
   (is_Some (Worker.ranges w' !! key_of msg) ->
    Worker.segments w1 !! segment_name RANGEQUERYPATH (fst (key_of msg))
                            (relId (hdr msg)) (snd (key_of msg)) = None) /\
   (forall n, n <> segment_name RANGEQUERYPATH (fst (key_of msg)) (relId (hdr msg))
                     (snd (key_of msg)) ->
              Worker.segments w1 !! n = Worker.segments w' !! n) /\
   (Worker.ranges w' !! key_of msg = None -> w1 = w')).
Proof.
  destruct (Server_ClearRangeQuery_segments msg w) as (D1 & D2).
  destruct (Worker_ClearRangeQuery_segments msg w') as (D1' & D2').
  destruct (Server_ReadBatch_frame msg w) as (A1 & A2 & A3 & A4 & _ & _ & A7).
  destruct (Server_CloseCursor_frame msg w) as (B1 & B2 & B3 & B4 & _ & _ & _ & B8).
  destruct (Server_ClearRangeQuery_frame msg w)
    as (C1 & C2 & C3 & C4 & C5 & _ & _ & C8 & C9).
  destruct (Worker_ReadBatch_frame msg w') as (A1' & A2' & A3' & A4' & _ & _ & A7').
  destruct (Worker_CloseCursor_frame msg w')
    as (B1' & B2' & B3' & B4' & _ & _ & _ & B8').
  destruct (Worker_ClearRangeQuery_frame msg w')
    as (C1' & C2' & C3' & C4' & C5' & _ & _ & C8' & C9').
  cbv zeta. repeat split; assumption.
Qed.

(** X11: the name of a batch segment does not tell cursors apart. The name
    is the process id, the worker id and the operation id printed one after
    the other with nothing in between, so for any process id [p], digit [d]
    (not zero) and digit [e], cursor ([p], [10 d + e]) and cursor
    ([10 p + d], [e]) of worker [d] are different keys with the same segment
    name, for ReadBatch and for RangeQuery alike. When the worker serves a
    ReadBatch for the first and then for the second, both cursors are
    registered, and the segment under the first client's name holds the
    batch read for the second cursor. *)
Theorem distinct_cursors_can_share_a_segment_name
    (db chA chB p d e : Z) (prev : Batch.t) (w : Server.KVWorker) :
  1 <= p -> 10 * p + d < 2 ^ 31 -> 1 <= d <= 9 -> 0 <= e <= 9 ->
  let keyA := (p, 10 * d + e) in
  let keyB := (10 * p + d, e) in
  let nameA := segment_name READBATCHPATH p d (10 * d + e) in
  keyA <> keyB /\
  segment_name READBATCHPATH (10 * p + d) d e = nameA /\
  segment_name RANGEQUERYPATH (10 * p + d) d e
  = segment_name RANGEQUERYPATH p d (10 * d + e) /\
  let wA := Server.ReadBatch READBATCHSIZE
              (request (ServerClient.ReadBatch d db chA p (10 * d + e))) w in
  let wB := Server.ReadBatch READBATCHSIZE
              (request (ServerClient.ReadBatch d db chB (10 * p + d) e)) wA in
  exists cB nx sz data s,
    is_Some (Server.cursors_ wB !! keyA) /\
    Server.cursors_ wB !! keyB = Some cB /\
    BatchRead (Server.conn_ wA) cB s = (nx, sz, data, Server.db_store wB) /\
    Server.segments wB !! nameA = Some (memcpy (replicate READBATCHSIZE 0) 0 data) /\
    Batch.buf (ServerClient.ReadBatch_result d (10 * p + d) e prev
                 (Server.state_message chB {| next := nx; size := sz |}))
    = (if wrap64 sz =? 0 then None else Some nameA).
Proof.
  intros Hp Hpid Hd He keyA keyB nameA.
  assert (Hne : keyA <> keyB) by (subst keyA keyB; intros [= H1 H2]; lia).
  assert (Hname : segment_name READBATCHPATH (10 * p + d) d e = nameA)
    by (symmetry; apply segment_name_runs_together; assumption).
  split; [exact Hne|]. split; [exact Hname|].
  split; [symmetry; apply segment_name_runs_together; assumption|].
  intros wA wB.
  destruct (Server_ReadBatch_serves READBATCHSIZE d db chA p (10 * d + e) prev w)
    as (HkA & _); [lia|lia|].
  destruct (Server_ReadBatch_serves READBATCHSIZE d db chB (10 * p + d) e prev wA)
    as (HkB & cB & nx & sz & data & s & Hcur & Hread & _ & Hseg & _ & Hres);
    [lia|lia|].
  fold wB in Hcur, Hread, Hseg.
  exists cB, nx, sz, data, s.
  split.
  { destruct (Server_ReadBatch_frame
                (request (ServerClient.ReadBatch d db chB (10 * p + d) e)) wA)
      as (Hother & _).
    fold wB in Hother. rewrite Hother by (rewrite HkB; exact Hne).
    destruct (Server_ReadBatch_frame
                (request (ServerClient.ReadBatch d db chA p (10 * d + e))) w)
      as (_ & Hsome & _).
    rewrite HkA in Hsome. exact Hsome. }
  split; [exact Hcur|]. split; [exact Hread|].
  split; [rewrite <- Hname; exact Hseg|].
  rewrite Hres. cbn [Batch.buf]. rewrite Hname. reflexivity.
Qed.

End Registries.

(** Cursor (1, 23) and cursor (12, 3) of worker 2. *)
Lemma distinct_cursors_can_share_a_segment_name_witness :
  ((1, 23) : Z * Z) <> (12, 3) /\
  Msg.segment_name Msg.READBATCHPATH 12 2 3
  = Msg.segment_name Msg.READBATCHPATH 1 2 23.
Proof.
  destruct (distinct_cursors_can_share_a_segment_name
              (E := Synthetic.scripted 4096) 64 1 5 6 1 2 3
              {| Msg.Batch.next := false; Msg.Batch.bufLen := 0;
                 Msg.Batch.buf := None |}
              (Synthetic.server_worker 4096))
    as (Hk & Hn & _); [lia | lia | lia | lia |].
  split; [exact Hk | exact Hn].
Defined.


(** ** The connection over the life of a worker *)

Section Lifecycle.
Import Posix Msg.

Context {E : Msg.Storage} {E' : Worker.Storage}.
Variables READBATCHSIZE sizeof_opts : nat.
Variable MSGBUFSIZE : nat.
Variable uninitialised : Worker.KVWorker -> list Z.

#[local] Arguments le_bytes : simpl never.
#[local] Arguments wrap64 : simpl never.

Lemma op_cases (o : Z) :
  o = KVOpDummy \/ o = KVOpOpen \/ o = KVOpClose \/ o = KVOpCount \/
  o = KVOpPut \/ o = KVOpGet \/ o = KVOpDel \/ o = KVOpLoad \/
  o = KVOpReadBatch \/ o = KVOpDelCursor \/ o = KVOpRangeQuery \/
  o = KVOpClearRangeQuery \/ o = KVOpTerminate \/ worker_handles o = false.
Proof.
  unfold worker_handles. cbn [existsb].
  repeat match goal with
         | |- context [?a =? ?b] =>
             destruct (Z.eqb_spec a b); [tauto|]
         end.
  repeat right. reflexivity.
Qed.

Lemma Server_handle_Dummy fuel msg (w : Server.KVWorker) :
  op (hdr msg) = KVOpDummy ->
  Server.handle READBATCHSIZE sizeof_opts fuel msg w = Some w.
Proof. intros H. unfold Server.handle. rewrite H. reflexivity. Qed.

Lemma Server_keeps_refl (w : Server.KVWorker) : Server.kept w w.
Proof.
  split; [reflexivity|]. split; [auto|].
  exists []. rewrite app_nil_r. split; [reflexivity|constructor].
Qed.

Ltac Server_keeps_now :=
  split; [reflexivity|]; split; [try reflexivity; auto|];
  first [ exists []; rewrite app_nil_r; split; [reflexivity|constructor]
        | eexists; split; [reflexivity|]; repeat constructor
        | eexists; split; [rewrite <- ?app_assoc; reflexivity|]; repeat constructor ].

Lemma Server_Open_keeps msg (w : Server.KVWorker) : Server.kept w (Server.Open sizeof_opts msg w).
Proof.
  unfold Server.Open. destruct (Server.conn_ w =? 0) eqn:Hc.
  - destruct (OpenConn _ _ _ _ _) as [c s]. apply Z.eqb_eq in Hc.
    split; [reflexivity|]. split; [intros H; contradiction|].
    eexists. split; [reflexivity|]. repeat constructor.
  - Server_keeps_now.
Qed.

Lemma Server_Close_keeps msg (w : Server.KVWorker) : Server.kept w (Server.Close msg w).
Proof. unfold Server.Close. destruct (Server.conn_ w =? 0); Server_keeps_now. Qed.

Lemma Server_Count_keeps msg (w : Server.KVWorker) : Server.kept w (Server.Count msg w).
Proof. unfold Server.Count. destruct (GetCount _ _) as [c s]. Server_keeps_now. Qed.

Lemma Server_Put_keeps msg (w : Server.KVWorker) : Server.kept w (Server.Put msg w).
Proof.
  unfold Server.Put. destruct (Server.read_PutArgs msg) as [k v].
  destruct (PutRecord _ _ _ _) as [ok s]. destruct ok; Server_keeps_now.
Qed.

Lemma Server_Get_keeps msg (w : Server.KVWorker) : Server.kept w (Server.Get msg w).
Proof.
  unfold Server.Get. destruct (GetRecord _ _ _) as [[ok v] s].
  destruct ok; Server_keeps_now.
Qed.

Lemma Server_Delete_keeps msg (w : Server.KVWorker) : Server.kept w (Server.Delete msg w).
Proof.
  unfold Server.Delete. destruct (DelRecord _ _ _) as [ok s].
  destruct ok; Server_keeps_now.
Qed.

Lemma Server_Load_keeps msg (w : Server.KVWorker) : Server.kept w (Server.Load msg w).
Proof.
  unfold Server.Load. destruct (Server.read_PutArgs msg) as [k v].
  destruct (PutRecord _ _ _ _) as [ok s]. Server_keeps_now.
Qed.

Lemma Server_ReadBatch_keeps msg (w : Server.KVWorker) :
  Server.kept w (Server.ReadBatch READBATCHSIZE msg w).
Proof.
  unfold Server.ReadBatch.
  destruct (Server.cursors_ w !! _) as [c|].
  - cbn [Server.do_ShmUnlink Server.logged Server.set_segments Server.conn_ Server.db_store].
    destruct (BatchRead _ _ _) as [[[nx sz] data] s]. Server_keeps_now.
  - destruct (GetIter _ _) as [c s0].
    cbn [Server.do_ShmUnlink Server.logged Server.set_segments Server.set_cursors Server.called
         Server.conn_ Server.db_store].
    destruct (BatchRead _ _ _) as [[[nx sz] data] s].
    split; [reflexivity|]. split; [reflexivity|].
    eexists. split; [cbn [Server.Send Server.set_segments Server.set_cursors Server.do_ShmUnlink
                          Server.logged Server.called Server.calls];
                     rewrite <- app_assoc; reflexivity|].
    repeat constructor.
Qed.

Lemma Server_CloseCursor_keeps msg (w : Server.KVWorker) : Server.kept w (Server.CloseCursor msg w).
Proof.
  unfold Server.CloseCursor. destruct (Server.cursors_ w !! _) as [c|]; Server_keeps_now.
Qed.

Lemma Server_ClearRangeQuery_keeps msg (w : Server.KVWorker) :
  Server.kept w (Server.ClearRangeQuery msg w).
Proof.
  unfold Server.ClearRangeQuery. destruct (Server.ranges_ w !! _) as [e|]; Server_keeps_now.
Qed.

Lemma Server_RangeQuery_keeps fuel msg (w w1 : Server.KVWorker) :
  Server.RangeQuery fuel msg w = Some w1 -> Server.kept w w1.
Proof.
  unfold Server.RangeQuery, Server.RangeQuery_entry.
  destruct (Server.ranges_ w !! _) as [entry|].
  - destruct (Server.read_chunks fuel entry w) as [[[st result] w2]|] eqn:Hc;
      [|discriminate].
    apply Server_read_chunks_frame in Hc
      as (H0 & H1 & H2 & H3 & H4 & H5 & H6 & H7 & H8 & new & Hn & Hf).
    destruct (ParseRangeQueryResult _ _) as [data s]. intros [= <-].
    split; [destruct (0 <? size st); exact H1|].
    split; [intros _; destruct (0 <? size st); exact H2|].
    exists (new ++ [CallParseRangeQueryResult result]).
    split.
    + destruct (0 <? size st); cbn [Server.Send Server.set_segments Server.called
        Server.do_ShmUnlink Server.logged Server.calls]; rewrite Hn, app_assoc; reflexivity.
    + apply Forall_app. split; [|repeat constructor].
      eapply Forall_impl; [exact Hf|]. intros c ->. reflexivity.
  - destruct (ParseRangeQueryOptions _ _) as [[r ro] s0].
    destruct (Server.read_chunks fuel _ _) as [[[st result] w2]|] eqn:Hc;
      [|discriminate].
    apply Server_read_chunks_frame in Hc
      as (H0 & H1 & H2 & H3 & H4 & H5 & H6 & H7 & H8 & new & Hn & Hf).
    cbn [Server.set_ranges Server.called Server.running_ Server.conn_ Server.calls] in *.
    destruct (ParseRangeQueryResult _ _) as [data s]. intros [= <-].
    split; [destruct (0 <? size st); exact H1|].
    split; [intros _; destruct (0 <? size st); exact H2|].
    exists (CallParseRangeQueryOptions :: new ++ [CallParseRangeQueryResult result]).
    split.
    + destruct (0 <? size st); cbn [Server.Send Server.set_segments Server.called
        Server.do_ShmUnlink Server.logged Server.calls]; rewrite Hn, <- !app_assoc;
        reflexivity.
    + constructor; [reflexivity|]. apply Forall_app. split; [|repeat constructor].
      eapply Forall_impl; [exact Hf|]. intros c ->. reflexivity.
Qed.

Lemma Server_handle_keeps fuel msg (w w1 : Server.KVWorker) :
  op (hdr msg) <> KVOpTerminate ->
  Server.handle READBATCHSIZE sizeof_opts fuel msg w = Some w1 ->
  Server.kept w w1.
Proof.
  intros Hterm H.
  destruct (op_cases (op (hdr msg)))
    as [Ho|[Ho|[Ho|[Ho|[Ho|[Ho|[Ho|[Ho|[Ho|[Ho|[Ho|[Ho|[Ho|Ho]]]]]]]]]]]]].
  - rewrite Server_handle_Dummy in H by exact Ho. injection H as <-. apply Server_keeps_refl.
  - rewrite (Server_handle_Open READBATCHSIZE sizeof_opts) in H by exact Ho.
    injection H as <-. apply Server_Open_keeps.
  - rewrite (Server_handle_Close READBATCHSIZE sizeof_opts) in H by exact Ho.
    injection H as <-. apply Server_Close_keeps.
  - rewrite (Server_handle_Count READBATCHSIZE sizeof_opts) in H by exact Ho.
    injection H as <-. apply Server_Count_keeps.
  - rewrite (Server_handle_Put READBATCHSIZE sizeof_opts) in H by exact Ho.
    injection H as <-. apply Server_Put_keeps.
  - rewrite (Server_handle_Get READBATCHSIZE sizeof_opts) in H by exact Ho.
    injection H as <-. apply Server_Get_keeps.
  - rewrite (Server_handle_Delete READBATCHSIZE sizeof_opts) in H by exact Ho.
    injection H as <-. apply Server_Delete_keeps.
  - rewrite (Server_handle_Load READBATCHSIZE sizeof_opts) in H by exact Ho.
    injection H as <-. apply Server_Load_keeps.
  - rewrite (Server_handle_ReadBatch READBATCHSIZE sizeof_opts) in H by exact Ho.
    injection H as <-. apply Server_ReadBatch_keeps.
  - rewrite (Server_handle_CloseCursor READBATCHSIZE sizeof_opts) in H by exact Ho.
    injection H as <-. apply Server_CloseCursor_keeps.
  - rewrite (Server_handle_RangeQuery READBATCHSIZE sizeof_opts) in H by exact Ho.
    eapply Server_RangeQuery_keeps, H.
  - rewrite (Server_handle_ClearRangeQuery READBATCHSIZE sizeof_opts) in H by exact Ho.
    injection H as <-. apply Server_ClearRangeQuery_keeps.
  - contradiction.
  - rewrite (Server_handle_unknown _ _ _ _ _ Ho) in H.
    injection H as <-. split; [reflexivity|]. split; [auto|].
    exists []. rewrite app_nil_r. split; [reflexivity|constructor].
Qed.

Lemma Server_Terminate_keeps_calls msg (w : Server.KVWorker) :
  Server.calls (Server.Terminate msg w) = Server.calls w /\
  Server.conn_ (Server.Terminate msg w) = Server.conn_ w /\
  Server.running_ (Server.Terminate msg w) = false.
Proof. repeat split. Qed.

(** However [Run] ends, the connection was not closed on the way. *)
Lemma Server_Run_keeps fuel inbox : forall (w : Server.KVWorker),
  match Server.Run READBATCHSIZE sizeof_opts fuel inbox w with
  | Server.Exited w1 _ | Server.Waiting w1 | Server.Looping w1 =>
      (Server.conn_ w <> 0 -> Server.conn_ w1 = Server.conn_ w) /\
      exists new, Server.calls w1 = Server.calls w ++ new /\
                  Forall (fun c => is_CloseConn c = false) new
  end.
Proof.
  assert (Hrefl : forall w : Server.KVWorker,
            (Server.conn_ w <> 0 -> Server.conn_ w = Server.conn_ w) /\
            exists new, Server.calls w = Server.calls w ++ new /\
                        Forall (fun c => is_CloseConn c = false) new).
  { intros w. split; [auto|]. exists []. rewrite app_nil_r.
    split; [reflexivity|constructor]. }
  induction inbox as [|msg rest IH]; intros w; cbn [Server.Run].
  - destruct (Server.running_ w); apply Hrefl.
  - destruct (Server.running_ w) eqn:Hrun; [|apply Hrefl].
    destruct (Server.handle READBATCHSIZE sizeof_opts fuel msg w) as [w1|] eqn:Hh;
      [|apply Hrefl].
    assert (Hstep : (Server.conn_ w <> 0 -> Server.conn_ w1 = Server.conn_ w) /\
                    exists new, Server.calls w1 = Server.calls w ++ new /\
                                Forall (fun c => is_CloseConn c = false) new).
    { destruct (Z.eq_dec (op (hdr msg)) KVOpTerminate) as [Ht|Ht].
      - rewrite (Server_handle_Terminate READBATCHSIZE sizeof_opts) in Hh by exact Ht.
        injection Hh as <-. split; [auto|]. exists []. rewrite app_nil_r.
        split; [reflexivity|constructor].
      - destruct (Server_handle_keeps fuel msg w w1 Ht Hh) as (_ & Hc & Hn).
        split; assumption. }
    destruct Hstep as (Hc1 & n1 & E1 & F1).
    specialize (IH w1).
    destruct (Server.Run READBATCHSIZE sizeof_opts fuel rest w1) as [w2 u|w2|w2];
      destruct IH as (Hc2 & n2 & E2 & F2);
      (split; [intros H; rewrite Hc2; [auto|]; rewrite Hc1; auto|]);
      exists (n1 ++ n2); rewrite E2, E1, app_assoc;
      (split; [reflexivity|apply Forall_app; auto]).
Qed.

Lemma Worker_handle_Dummy fuel msg (w : Worker.KVWorker) :
  op (hdr msg) = KVOpDummy ->
  Worker.handle READBATCHSIZE sizeof_opts MSGBUFSIZE uninitialised fuel msg w = Some w.
Proof. intros H. unfold Worker.handle. rewrite H. reflexivity. Qed.

Lemma Worker_keeps_refl (w : Worker.KVWorker) : Worker.kept w w.
Proof.
  split; [reflexivity|]. split; [auto|].
  exists []. rewrite app_nil_r. split; [reflexivity|constructor].
Qed.

Ltac Worker_keeps_now :=
  split; [reflexivity|]; split; [try reflexivity; auto|];
  first [ exists []; rewrite app_nil_r; split; [reflexivity|constructor]
        | eexists; split; [reflexivity|]; repeat constructor
        | eexists; split; [rewrite <- ?app_assoc; reflexivity|]; repeat constructor ].

(** The same for a handler that has received into its buffer and made one
    engine call. *)
Ltac Worker_keeps_recv :=
  split; [cbn [Worker.Send Worker.called Worker.running]; apply Recv_size_running|];
  split; [intros _; cbn [Worker.Send Worker.called Worker.conn];
          apply Recv_size_conn|];
  cbn [Worker.Send Worker.called Worker.calls]; rewrite Recv_size_calls;
  eexists; split; [reflexivity|]; repeat constructor.

Lemma Worker_Open_keeps msg (w : Worker.KVWorker) : Worker.kept w (Worker.Open sizeof_opts MSGBUFSIZE uninitialised msg w).
Proof.
  unfold Worker.Open. cbv zeta. rewrite Recv_size_conn.
  destruct (Worker.conn w =? 0) eqn:Hc.
  - destruct (Worker.OpenConn _ _ _ _ _) as [c s]. apply Z.eqb_eq in Hc.
    split; [cbn [Worker.Send Worker.set_conn Worker.called Worker.running];
            apply Recv_size_running|].
    split; [intros H; contradiction|].
    cbn [Worker.Send Worker.set_conn Worker.called Worker.calls].
    rewrite Recv_size_calls.
    eexists. split; [reflexivity|]. repeat constructor.
  - split; [cbn [Worker.Send Worker.set_ref Worker.running]; apply Recv_size_running|].
    split; [intros _; cbn [Worker.Send Worker.set_ref Worker.conn]; apply Recv_size_conn|].
    exists []. cbn [Worker.Send Worker.set_ref Worker.calls].
    rewrite Recv_size_calls, app_nil_r. split; [reflexivity|constructor].
Qed.

Lemma Worker_Close_keeps msg (w : Worker.KVWorker) : Worker.kept w (Worker.Close msg w).
Proof. unfold Worker.Close. destruct (Worker.conn w =? 0); Worker_keeps_now. Qed.

Lemma Worker_Count_keeps msg (w : Worker.KVWorker) : Worker.kept w (Worker.Count msg w).
Proof. unfold Worker.Count. destruct (Worker.GetCount _ _) as [c s]. Worker_keeps_now. Qed.

Lemma Worker_Put_keeps msg (w : Worker.KVWorker) : Worker.kept w (Worker.Put MSGBUFSIZE uninitialised msg w).
Proof.
  unfold Worker.Put. cbv zeta. destruct (Worker.read_PutArgs _ _) as [k v].
  destruct (Worker.PutRecord _ _ _ _) as [ok s].
  destruct ok; Worker_keeps_recv.
Qed.

Lemma Worker_Get_keeps msg (w : Worker.KVWorker) : Worker.kept w (Worker.Get MSGBUFSIZE uninitialised msg w).
Proof.
  unfold Worker.Get. cbv zeta. destruct (Worker.GetRecord _ _ _) as [[ok v] s].
  destruct ok; Worker_keeps_recv.
Qed.

Lemma Worker_Delete_keeps msg (w : Worker.KVWorker) : Worker.kept w (Worker.Delete MSGBUFSIZE uninitialised msg w).
Proof.
  unfold Worker.Delete. cbv zeta. destruct (Worker.DelRecord _ _ _) as [ok s].
  destruct ok; Worker_keeps_recv.
Qed.

Lemma Worker_Load_keeps msg (w : Worker.KVWorker) : Worker.kept w (Worker.Load MSGBUFSIZE uninitialised msg w).
Proof.
  unfold Worker.Load. cbv zeta. destruct (Worker.read_PutArgs _ _) as [k v].
  destruct (Worker.PutRecord _ _ _ _) as [ok s]. Worker_keeps_recv.
Qed.

Lemma Worker_ReadBatch_keeps msg (w : Worker.KVWorker) :
  Worker.kept w (Worker.ReadBatch READBATCHSIZE msg w).
Proof.
  unfold Worker.ReadBatch.
  destruct (Worker.cursors w !! _) as [c|].
  - cbn [Worker.do_ShmUnlink Worker.logged Worker.set_segments Worker.conn Worker.db_store].
    destruct (Worker.BatchRead _ _ _) as [[[nx sz] data] s]. Worker_keeps_now.
  - destruct (Worker.GetIter _ _) as [c s0].
    cbn [Worker.do_ShmUnlink Worker.logged Worker.set_segments Worker.set_cursors Worker.called
         Worker.conn Worker.db_store].
    destruct (Worker.BatchRead _ _ _) as [[[nx sz] data] s].
    split; [reflexivity|]. split; [reflexivity|].
    eexists. split; [cbn [Worker.Send Worker.set_segments Worker.set_cursors Worker.do_ShmUnlink
                          Worker.logged Worker.called Worker.calls];
                     rewrite <- app_assoc; reflexivity|].
    repeat constructor.
Qed.

Lemma Worker_CloseCursor_keeps msg (w : Worker.KVWorker) : Worker.kept w (Worker.CloseCursor msg w).
Proof.
  unfold Worker.CloseCursor. destruct (Worker.cursors w !! _) as [c|]; Worker_keeps_now.
Qed.

Lemma Worker_ClearRangeQuery_keeps msg (w : Worker.KVWorker) :
  Worker.kept w (Worker.ClearRangeQuery msg w).
Proof.
  unfold Worker.ClearRangeQuery. destruct (Worker.ranges w !! _) as [e|]; Worker_keeps_now.
Qed.

Lemma Worker_RangeQuery_keeps fuel msg (w w1 : Worker.KVWorker) :
  Worker.RangeQuery uninitialised fuel msg w = Some w1 -> Worker.kept w w1.
Proof.
  unfold Worker.RangeQuery, Worker.RangeQuery_entry.
  destruct (Worker.ranges w !! _) as [entry|].
  - destruct (Worker.read_chunks fuel entry w) as [[[st result] w2]|] eqn:Hc;
      [|discriminate].
    apply Worker_read_chunks_frame in Hc
      as (H0 & H1 & H2 & H3 & H4 & H5 & H6 & H7 & H8 & new & Hn & Hf).
    destruct (Worker.ParseRangeQueryResult _ _) as [data s]. intros [= <-].
    split; [destruct (0 <? size st); exact H1|].
    split; [intros _; destruct (0 <? size st); exact H2|].
    exists (new ++ [CallParseRangeQueryResult result]).
    split.
    + destruct (0 <? size st); cbn [Worker.Send Worker.set_segments Worker.called
        Worker.do_ShmUnlink Worker.logged Worker.calls]; rewrite Hn, app_assoc; reflexivity.
    + apply Forall_app. split; [|repeat constructor].
      eapply Forall_impl; [exact Hf|]. intros c ->. reflexivity.
  - destruct (Worker.ParseRangeQueryOptions _ _) as [[r ro] s0].
    destruct (Worker.read_chunks fuel _ _) as [[[st result] w2]|] eqn:Hc;
      [|discriminate].
    apply Worker_read_chunks_frame in Hc
      as (H0 & H1 & H2 & H3 & H4 & H5 & H6 & H7 & H8 & new & Hn & Hf).
    cbn [Worker.set_ranges Worker.called Worker.running Worker.conn Worker.calls] in *.
    destruct (Worker.ParseRangeQueryResult _ _) as [data s]. intros [= <-].
    split; [destruct (0 <? size st); exact H1|].
    split; [intros _; destruct (0 <? size st); exact H2|].
    exists (CallParseRangeQueryOptions :: new ++ [CallParseRangeQueryResult result]).
    split.
    + destruct (0 <? size st); cbn [Worker.Send Worker.set_segments Worker.called
        Worker.do_ShmUnlink Worker.logged Worker.calls]; rewrite Hn, <- !app_assoc;
        reflexivity.
    + constructor; [reflexivity|]. apply Forall_app. split; [|repeat constructor].
      eapply Forall_impl; [exact Hf|]. intros c ->. reflexivity.
Qed.

Lemma Worker_handle_keeps fuel msg (w w1 : Worker.KVWorker) :
  op (hdr msg) <> KVOpTerminate ->
  Worker.handle READBATCHSIZE sizeof_opts MSGBUFSIZE uninitialised fuel msg w = Some w1 ->
  Worker.kept w w1.
Proof.
  intros Hterm H.
  destruct (op_cases (op (hdr msg)))
    as [Ho|[Ho|[Ho|[Ho|[Ho|[Ho|[Ho|[Ho|[Ho|[Ho|[Ho|[Ho|[Ho|Ho]]]]]]]]]]]]].
  - rewrite Worker_handle_Dummy in H by exact Ho. injection H as <-. apply Worker_keeps_refl.
  - rewrite (Worker_handle_Open READBATCHSIZE sizeof_opts MSGBUFSIZE uninitialised) in H by exact Ho.
    injection H as <-. apply Worker_Open_keeps.
  - rewrite (Worker_handle_Close READBATCHSIZE sizeof_opts MSGBUFSIZE uninitialised) in H by exact Ho.
    injection H as <-. apply Worker_Close_keeps.
  - rewrite (Worker_handle_Count READBATCHSIZE sizeof_opts MSGBUFSIZE uninitialised) in H by exact Ho.
    injection H as <-. apply Worker_Count_keeps.
  - rewrite (Worker_handle_Put READBATCHSIZE sizeof_opts MSGBUFSIZE uninitialised) in H by exact Ho.
    injection H as <-. apply Worker_Put_keeps.
  - rewrite (Worker_handle_Get READBATCHSIZE sizeof_opts MSGBUFSIZE uninitialised) in H by exact Ho.
    injection H as <-. apply Worker_Get_keeps.
  - rewrite (Worker_handle_Delete READBATCHSIZE sizeof_opts MSGBUFSIZE uninitialised) in H by exact Ho.
    injection H as <-. apply Worker_Delete_keeps.
  - rewrite (Worker_handle_Load READBATCHSIZE sizeof_opts MSGBUFSIZE uninitialised) in H by exact Ho.
    injection H as <-. apply Worker_Load_keeps.
  - rewrite (Worker_handle_ReadBatch READBATCHSIZE sizeof_opts MSGBUFSIZE uninitialised) in H by exact Ho.
    injection H as <-. apply Worker_ReadBatch_keeps.
  - rewrite (Worker_handle_CloseCursor READBATCHSIZE sizeof_opts MSGBUFSIZE uninitialised) in H by exact Ho.
    injection H as <-. apply Worker_CloseCursor_keeps.
  - rewrite (Worker_handle_RangeQuery READBATCHSIZE sizeof_opts MSGBUFSIZE uninitialised) in H by exact Ho.
    eapply Worker_RangeQuery_keeps, H.
  - rewrite (Worker_handle_ClearRangeQuery READBATCHSIZE sizeof_opts MSGBUFSIZE uninitialised) in H by exact Ho.
    injection H as <-. apply Worker_ClearRangeQuery_keeps.
  - contradiction.
  - rewrite (Worker_handle_unknown _ _ _ _ _ _ _ Ho) in H.
    injection H as <-. split; [reflexivity|]. split; [auto|].
    exists []. rewrite app_nil_r. split; [reflexivity|constructor].
Qed.

Lemma Worker_Terminate_keeps_calls msg (w : Worker.KVWorker) :
  Worker.calls (Worker.Terminate msg w) = Worker.calls w /\
  Worker.conn (Worker.Terminate msg w) = Worker.conn w /\
  Worker.running (Worker.Terminate msg w) = false.
Proof. repeat split. Qed.

(** However [Run] ends, the connection was not closed on the way. *)
Lemma Worker_Run_keeps fuel inbox : forall (w : Worker.KVWorker),
  match Worker.Run READBATCHSIZE sizeof_opts MSGBUFSIZE uninitialised fuel inbox w with
  | Worker.Exited w1 _ | Worker.Waiting w1 | Worker.Looping w1 =>
      (Worker.conn w <> 0 -> Worker.conn w1 = Worker.conn w) /\
      exists new, Worker.calls w1 = Worker.calls w ++ new /\
                  Forall (fun c => is_CloseConn c = false) new
  end.
Proof.
  assert (Hrefl : forall w : Worker.KVWorker,
            (Worker.conn w <> 0 -> Worker.conn w = Worker.conn w) /\
            exists new, Worker.calls w = Worker.calls w ++ new /\
                        Forall (fun c => is_CloseConn c = false) new).
  { intros w. split; [auto|]. exists []. rewrite app_nil_r.
    split; [reflexivity|constructor]. }
  induction inbox as [|msg rest IH]; intros w; cbn [Worker.Run].
  - destruct (Worker.running w); apply Hrefl.
  - destruct (Worker.running w) eqn:Hrun; [|apply Hrefl].
    destruct (Worker.handle READBATCHSIZE sizeof_opts MSGBUFSIZE uninitialised fuel msg w) as [w1|] eqn:Hh;
      [|apply Hrefl].
    assert (Hstep : (Worker.conn w <> 0 -> Worker.conn w1 = Worker.conn w) /\
                    exists new, Worker.calls w1 = Worker.calls w ++ new /\
                                Forall (fun c => is_CloseConn c = false) new).
    { destruct (Z.eq_dec (op (hdr msg)) KVOpTerminate) as [Ht|Ht].
      - rewrite (Worker_handle_Terminate READBATCHSIZE sizeof_opts MSGBUFSIZE uninitialised) in Hh by exact Ht.
        injection Hh as <-. split; [auto|]. exists []. rewrite app_nil_r.
        split; [reflexivity|constructor].
      - destruct (Worker_handle_keeps fuel msg w w1 Ht Hh) as (_ & Hc & Hn).
        split; assumption. }
    destruct Hstep as (Hc1 & n1 & E1 & F1).
    specialize (IH w1).
    destruct (Worker.Run READBATCHSIZE sizeof_opts MSGBUFSIZE uninitialised fuel rest w1) as [w2 u|w2|w2];
      destruct IH as (Hc2 & n2 & E2 & F2);
      (split; [intros H; rewrite Hc2; [auto|]; rewrite Hc1; auto|]);
      exists (n1 ++ n2); rewrite E2, E1, app_assoc;
      (split; [reflexivity|apply Forall_app; auto]).
Qed.


(** X12: a worker closes its connection when it is destroyed, and at no
    other time. Whatever messages arrive, in whatever order, none of the
    handlers calls [CloseConn]: if the worker is still in its loop (waiting
    for a message, or inside a handler that has not returned), [CloseConn]
    has not been called at all and the worker is not destroyed; when [Run]
    returns with the worker [w], no [CloseConn] has been called so far, and
    destroying [w] adds to the engine calls exactly one [CloseConn], on the
    connection [w] holds at that moment, or nothing if [w] holds none. This
    holds for [KVWorkerDo] of [server/kv_worker.cc] and for [StartKVWorker]
    of [kv_worker.cc], whose destructor also resets the connection. *)
Theorem connection_is_closed_only_on_exit
    (fuel : nat) (inbox : list KVMessage) (s0 : Msg.store) (s0' : Worker.store) :
  match Server.Run READBATCHSIZE sizeof_opts fuel inbox
          (Server.Start (Server.KVWorker_new s0)) with
  | Server.Exited w unread =>
      Forall (fun c => is_CloseConn c = false) (Server.calls w) /\
      exists w1,
        Server.KVWorkerDo READBATCHSIZE sizeof_opts fuel inbox s0
        = Server.Exited w1 unread /\
        Server.calls w1
        = Server.calls w ++ (if Server.conn_ w =? 0 then []
                             else [CallCloseConn (Server.conn_ w)]) /\
        Server.conn_ w1 = Server.conn_ w
  | Server.Waiting w =>
      Server.KVWorkerDo READBATCHSIZE sizeof_opts fuel inbox s0 = Server.Waiting w /\
      Forall (fun c => is_CloseConn c = false) (Server.calls w)
  | Server.Looping w =>
      Server.KVWorkerDo READBATCHSIZE sizeof_opts fuel inbox s0 = Server.Looping w /\
      Forall (fun c => is_CloseConn c = false) (Server.calls w)
  end /\
  match Worker.Run READBATCHSIZE sizeof_opts MSGBUFSIZE uninitialised fuel inbox
          (Worker.Start (Worker.KVWorker_new s0')) with
  | Worker.Exited w unread =>
      Forall (fun c => is_CloseConn c = false) (Worker.calls w) /\
      exists w1,
        Worker.StartKVWorker READBATCHSIZE sizeof_opts MSGBUFSIZE uninitialised fuel inbox s0'
        = Worker.Exited w1 unread /\
        Worker.calls w1
        = Worker.calls w ++ (if Worker.conn w =? 0 then []
                             else [CallCloseConn (Worker.conn w)]) /\
        Worker.conn w1 = 0
  | Worker.Waiting w =>
      Worker.StartKVWorker READBATCHSIZE sizeof_opts MSGBUFSIZE uninitialised fuel inbox s0' = Worker.Waiting w /\
      Forall (fun c => is_CloseConn c = false) (Worker.calls w)
  | Worker.Looping w =>
      Worker.StartKVWorker READBATCHSIZE sizeof_opts MSGBUFSIZE uninitialised fuel inbox s0' = Worker.Looping w /\
      Forall (fun c => is_CloseConn c = false) (Worker.calls w)
  end.
Proof.
  split.
  - unfold Server.KVWorkerDo.
    pose proof (Server_Run_keeps fuel inbox (Server.Start (Server.KVWorker_new s0))) as H.
    destruct (Server.Run READBATCHSIZE sizeof_opts fuel inbox _) as [w u|w|w];
      destruct H as (_ & new & Hn & Hf); cbn [Server.calls Server.Start
        Server.set_running Server.KVWorker_new app] in Hn.
    + split; [rewrite Hn; exact Hf|]. eexists. split; [reflexivity|].
      unfold Server.KVWorker_delete.
      destruct (Server.conn_ w =? 0) eqn:Hc.
      * rewrite app_nil_r. split; reflexivity.
      * split; reflexivity.
    + split; [reflexivity|]. rewrite Hn. exact Hf.
    + split; [reflexivity|]. rewrite Hn. exact Hf.
  - unfold Worker.StartKVWorker.
    pose proof (Worker_Run_keeps fuel inbox (Worker.Start (Worker.KVWorker_new s0'))) as H.
    destruct (Worker.Run READBATCHSIZE sizeof_opts MSGBUFSIZE uninitialised fuel inbox _) as [w u|w|w];
      destruct H as (_ & new & Hn & Hf); cbn [Worker.calls Worker.Start
        Worker.set_running Worker.KVWorker_new app] in Hn.
    + split; [rewrite Hn; exact Hf|]. eexists. split; [reflexivity|].
      unfold Worker.KVWorker_delete.
      destruct (Worker.conn w =? 0) eqn:Hc.
      * rewrite app_nil_r. split; [reflexivity|]. apply Z.eqb_eq, Hc.
      * split; reflexivity.
    + split; [reflexivity|]. rewrite Hn. exact Hf.
    + split; [reflexivity|]. rewrite Hn. exact Hf.
Qed.


Lemma wrap32_plus_l a b : wrap32 (wrap32 a + b) = wrap32 (a + b).
Proof. unfold wrap32. apply Zplus_mod_idemp_l. Qed.


Lemma Server_Run_refcount fuel inbox : forall (w : Server.KVWorker),
  forallb is_open_close inbox = true ->
  Server.running_ w = true -> Server.conn_ w <> 0 ->
  0 <= Server.ref_ w < 2 ^ 32 ->
  exists w1,
    Server.Run READBATCHSIZE sizeof_opts fuel inbox w = Server.Waiting w1 /\
    Server.ref_ w1
    = wrap32 (Server.ref_ w
              + Z.of_nat (length (List.filter (fun m => op (hdr m) =? KVOpOpen) inbox))
              - Z.of_nat (length (List.filter (fun m => op (hdr m) =? KVOpClose) inbox))) /\
    Server.conn_ w1 = Server.conn_ w /\ Server.calls w1 = Server.calls w /\
    Server.sent w1 = Server.sent w.
Proof.
  induction inbox as [|msg rest IH]; intros w Hall Hrun Hconn Href.
  - cbn [Server.Run]. rewrite Hrun. exists w.
    split; [reflexivity|]. cbn [List.filter length Z.of_nat map].
    rewrite Z.add_0_r, Z.sub_0_r, ?app_nil_r.
    split; [|auto]. unfold wrap32. symmetry. apply Z.mod_small. exact Href.
  - cbn [forallb] in Hall. apply andb_true_iff in Hall as [Hm Hrest].
    cbn [Server.Run]. rewrite Hrun.
    assert (Hc : (Server.conn_ w =? 0) = false) by (apply Z.eqb_neq; exact Hconn).
    assert (Hw : 0 <= wrap32 (Server.ref_ w + 1) < 2 ^ 32 /\
                 0 <= wrap32 (Server.ref_ w - 1) < 2 ^ 32)
      by (unfold wrap32; split; apply Z.mod_pos_bound; lia).
    unfold is_open_close in Hm. apply orb_true_iff in Hm as [Hm|Hm];
      apply Z.eqb_eq in Hm; unfold Server.handle; rewrite Hm;
      cbn [List.filter map]; rewrite Hm.
    + change (KVOpOpen =? KVOpDummy) with false.
      change (KVOpOpen =? KVOpOpen) with true.
      change (KVOpOpen =? KVOpClose) with false. cbv iota.
      unfold Server.Open. cbv zeta. rewrite Hc.
      match goal with
      | |- exists w1, Server.Run _ _ _ _ ?w' = _ /\ _ =>
          destruct (IH w' Hrest Hrun Hconn (proj1 Hw)) as (w1 & HR & R & C & K & S)
      end.
      exists w1. split; [exact HR|]. split.
      { rewrite R. cbn [Server.ref_ Server.set_ref Server.Send]. rewrite <- Z.add_sub_assoc, wrap32_plus_l.
        f_equal. cbn [length]. lia. }
      split; [exact C|]. split; [exact K|].
      rewrite S. cbn [Server.sent Server.set_ref Server.Send]. reflexivity.
    + change (KVOpClose =? KVOpDummy) with false.
      change (KVOpClose =? KVOpOpen) with false.
      change (KVOpClose =? KVOpClose) with true. cbv iota.
      unfold Server.Close. cbv zeta. rewrite Hc.
      match goal with
      | |- exists w1, Server.Run _ _ _ _ ?w' = _ /\ _ =>
          destruct (IH w' Hrest Hrun Hconn (proj2 Hw)) as (w1 & HR & R & C & K & S)
      end.
      exists w1. split; [exact HR|]. split.
      { rewrite R. cbn [Server.ref_ Server.set_ref Server.Send]. rewrite <- Z.add_sub_assoc, wrap32_plus_l.
        f_equal. cbn [length]. lia. }
      split; [exact C|]. split; [exact K|].
      rewrite S. cbn [Server.sent Server.set_ref Server.Send]. reflexivity.
Qed.

Lemma Worker_Run_refcount fuel inbox : forall (w : Worker.KVWorker),
  forallb is_open_close inbox = true ->
  Worker.running w = true -> Worker.conn w <> 0 ->
  0 <= Worker.ref w < 2 ^ 32 ->
  exists w1,
    Worker.Run READBATCHSIZE sizeof_opts MSGBUFSIZE uninitialised fuel inbox w = Worker.Waiting w1 /\
    Worker.ref w1
    = wrap32 (Worker.ref w
              + Z.of_nat (length (List.filter (fun m => op (hdr m) =? KVOpOpen) inbox))
              - Z.of_nat (length (List.filter (fun m => op (hdr m) =? KVOpClose) inbox))) /\
    Worker.conn w1 = Worker.conn w /\ Worker.calls w1 = Worker.calls w /\
    Worker.sent w1 = Worker.sent w ++ map (fun m => SuccessMessage (rpsId (hdr m))) inbox.
Proof.
  induction inbox as [|msg rest IH]; intros w Hall Hrun Hconn Href.
  - cbn [Worker.Run]. rewrite Hrun. exists w.
    split; [reflexivity|]. cbn [List.filter length Z.of_nat map].
    rewrite Z.add_0_r, Z.sub_0_r, ?app_nil_r.
    split; [|auto]. unfold wrap32. symmetry. apply Z.mod_small. exact Href.
  - cbn [forallb] in Hall. apply andb_true_iff in Hall as [Hm Hrest].
    cbn [Worker.Run]. rewrite Hrun.
    assert (Hc : (Worker.conn w =? 0) = false) by (apply Z.eqb_neq; exact Hconn).
    assert (Hw : 0 <= wrap32 (Worker.ref w + 1) < 2 ^ 32 /\
                 0 <= wrap32 (Worker.ref w - 1) < 2 ^ 32)
      by (unfold wrap32; split; apply Z.mod_pos_bound; lia).
    unfold is_open_close in Hm. apply orb_true_iff in Hm as [Hm|Hm];
      apply Z.eqb_eq in Hm; unfold Worker.handle; rewrite Hm;
      cbn [List.filter map]; rewrite Hm.
    + change (KVOpOpen =? KVOpDummy) with false.
      change (KVOpOpen =? KVOpOpen) with true.
      change (KVOpOpen =? KVOpClose) with false. cbv iota.
      unfold Worker.Open. cbv zeta.
      set (w0 := Worker.Recv_size MSGBUFSIZE _ w).
      assert (Hr0 : Worker.running w0 = true)
        by (subst w0; rewrite Recv_size_running; exact Hrun).
      assert (Hc0 : Worker.conn w0 = Worker.conn w) by apply Recv_size_conn.
      assert (Href0 : Worker.ref w0 = Worker.ref w) by apply Recv_size_ref.
      assert (Hcalls0 : Worker.calls w0 = Worker.calls w) by apply Recv_size_calls.
      assert (Hsent0 : Worker.sent w0 = Worker.sent w) by apply Recv_size_sent.
      rewrite Hc0, Hc.
      match goal with
      | |- exists w1, Worker.Run _ _ _ _ _ _ ?w' = _ /\ _ =>
          destruct (IH w') as (w1 & HR & R & C & K & S);
            [ exact Hrest | exact Hr0
            | cbn [Worker.Send Worker.set_ref Worker.conn]; rewrite Hc0; exact Hconn
            | cbn [Worker.Send Worker.set_ref Worker.ref]; rewrite Href0;
              exact (proj1 Hw) | ]
      end.
      exists w1. split; [exact HR|]. split.
      { rewrite R. cbn [Worker.ref Worker.set_ref Worker.Send].
        rewrite Href0, <- Z.add_sub_assoc, wrap32_plus_l.
        f_equal. cbn [length]. lia. }
      split; [rewrite C; cbn [Worker.Send Worker.set_ref Worker.conn]; exact Hc0|].
      split; [rewrite K; cbn [Worker.Send Worker.set_ref Worker.calls]; exact Hcalls0|].
      rewrite S. cbn [Worker.sent Worker.set_ref Worker.Send].
      rewrite Hsent0, <- app_assoc. reflexivity.
    + change (KVOpClose =? KVOpDummy) with false.
      change (KVOpClose =? KVOpOpen) with false.
      change (KVOpClose =? KVOpClose) with true. cbv iota.
      unfold Worker.Close. cbv zeta. rewrite Hc.
      match goal with
      | |- exists w1, Worker.Run _ _ _ _ _ _ ?w' = _ /\ _ =>
          destruct (IH w' Hrest Hrun Hconn (proj2 Hw)) as (w1 & HR & R & C & K & S)
      end.
      exists w1. split; [exact HR|]. split.
      { rewrite R. cbn [Worker.ref Worker.set_ref Worker.Send]. rewrite <- Z.add_sub_assoc, wrap32_plus_l.
        f_equal. cbn [length]. lia. }
      split; [exact C|]. split; [exact K|].
      rewrite S. cbn [Worker.sent Worker.set_ref Worker.Send]. rewrite <- app_assoc. reflexivity.
Qed.


(** X13: the reference count of a connected worker is a plain tally. A
    running worker that has a connection and is fed any sequence of Open and
    Close requests goes through all of them and waits for the next; its
    count is then the count it had, plus the number of Opens, minus the
    number of Closes, in 32-bit arithmetic; the connection is the same and
    the engine was not called. The worker of [server/kv_worker.cc] answers
    none of these requests, the worker of [kv_worker.cc] answers each one
    with a success message on the channel the request names. The two differ
    on the Open that makes the connection: [server/kv_worker.cc] counts it,
    [kv_worker.cc] does not. *)
Theorem reference_count_is_opens_minus_closes
    (fuel : nat) (inbox : list KVMessage)
    (w : Server.KVWorker) (w' : Worker.KVWorker) :
  let opens :=
    Z.of_nat (length (List.filter (fun m => op (hdr m) =? KVOpOpen) inbox)) in
  let closes :=
    Z.of_nat (length (List.filter (fun m => op (hdr m) =? KVOpClose) inbox)) in
  forallb is_open_close inbox = true ->
  Server.running_ w = true -> Server.conn_ w <> 0 ->
  0 <= Server.ref_ w < 2 ^ 32 ->
  Worker.running w' = true -> Worker.conn w' <> 0 ->
  0 <= Worker.ref w' < 2 ^ 32 ->
  (exists w1,
     Server.Run READBATCHSIZE sizeof_opts fuel inbox w = Server.Waiting w1 /\
     Server.ref_ w1 = wrap32 (Server.ref_ w + opens - closes) /\
     Server.conn_ w1 = Server.conn_ w /\
     Server.calls w1 = Server.calls w /\
     Server.sent w1 = Server.sent w) /\
  (exists w1,
     Worker.Run READBATCHSIZE sizeof_opts MSGBUFSIZE uninitialised fuel inbox w' = Worker.Waiting w1 /\
     Worker.ref w1 = wrap32 (Worker.ref w' + opens - closes) /\
     Worker.conn w1 = Worker.conn w' /\
     Worker.calls w1 = Worker.calls w' /\
     Worker.sent w1
     = Worker.sent w' ++ map (fun m => SuccessMessage (rpsId (hdr m))) inbox) /\
  (forall msg s0 s0',
     Server.ref_ (Server.Open sizeof_opts msg (Server.KVWorker_new s0)) = 1 /\
     Worker.ref (Worker.Open sizeof_opts MSGBUFSIZE uninitialised msg (Worker.KVWorker_new s0')) = 0).
Proof.
  intros opens closes Hall Hr Hc Hb Hr' Hc' Hb'.
  split; [|split].
  - apply Server_Run_refcount; assumption.
  - apply Worker_Run_refcount; assumption.
  - intros msg s0 s0'. split.
    + unfold Server.Open. cbv zeta.
      cbn [Server.conn_ Server.KVWorker_new Z.eqb].
      destruct (OpenConn _ _ _ _ _) as [c s]. reflexivity.
    + unfold Worker.Open. cbv zeta. rewrite Recv_size_conn.
      cbn [Worker.conn Worker.KVWorker_new Z.eqb].
      destruct (Worker.OpenConn _ _ _ _ _) as [c s].
      cbn [Worker.Send Worker.set_conn Worker.called Worker.ref].
      apply Recv_size_ref.
Qed.

End Lifecycle.

(** An Open, a Close and an Open on a worker of each generation that a
    first Open has connected: the server's worker, which counted the first
    Open, ends at two; the worker of [kv_worker.cc], which did not, at one. *)
Lemma reference_count_is_opens_minus_closes_witness :
  let opn := Synthetic.open_request in
  let cls := Synthetic.request Msg.KVOpClose 3 [] in
  let w := Server.Open 0 opn (Synthetic.server_worker 4096) in
  let w' := Worker.Open 0 64 Synthetic.stack opn (Synthetic.queue_worker 4096) in
  (exists w1,
     Server.Run 64 0 1 [opn; cls; opn] w = Server.Waiting w1 /\
     Server.ref_ w1 = 2 /\ Server.conn_ w1 = 4096) /\
  (exists w1,
     Worker.Run 64 0 64 Synthetic.stack 1 [opn; cls; opn] w' = Worker.Waiting w1 /\
     Worker.ref w1 = 1 /\ Worker.conn w1 = 4096).
Proof.
  intros opn cls w w'.
  destruct (reference_count_is_opens_minus_closes
              (E := Synthetic.scripted 4096) (E' := Synthetic.scripted' 4096)
              64 0 64 Synthetic.stack 1 [opn; cls; opn] w w')
    as ((w1 & HR & R & C & _) & (w1' & HR' & R' & C' & _) & _);
    try reflexivity; try (vm_compute; intuition congruence).
  split.
  - exists w1. split; [exact HR|]. split; [rewrite R|rewrite C]; reflexivity.
  - exists w1'. split; [exact HR'|]. split; [rewrite R'|rewrite C']; reflexivity.
Defined.

(** An Open, a Count and a Terminate on fresh workers of both generations:
    [Run] returns with the connection the Open made, and destroying the
    worker closes that connection, as the last engine call. *)
Lemma connection_is_closed_only_on_exit_witness :
  let inbox := [Synthetic.open_request; Synthetic.request Msg.KVOpCount 1 [];
                Synthetic.request Msg.KVOpTerminate 0 []] in
  let s0 := {| Synthetic.pending := []; Synthetic.last := [] |} in
  (exists w1,
     Server.KVWorkerDo (engine := Synthetic.scripted 4096) 64 0 1 inbox s0
     = Server.Exited w1 [] /\
     Server.calls w1
     = [Msg.CallOpenConn [47; 55]; Msg.CallGetCount 4096; Msg.CallCloseConn 4096]) /\
  (exists w1,
     Worker.StartKVWorker (engine := Synthetic.scripted' 4096) 64 0 64
       Synthetic.stack 1 inbox s0
     = Worker.Exited w1 [] /\
     Worker.calls w1
     = [Msg.CallOpenConn ([47; 55] ++ replicate 62 120); Msg.CallGetCount 4096;
        Msg.CallCloseConn 4096] /\
     Worker.conn w1 = 0).
Proof.
  intros inbox s0.
  pose proof (connection_is_closed_only_on_exit
                (E := Synthetic.scripted 4096) (E' := Synthetic.scripted' 4096)
                64 0 64 Synthetic.stack 1 inbox s0 s0) as [Hs Hw].
  match type of Hs with
  | match ?r with _ => _ end => destruct r as [w u|w|w] eqn:HR
  end; vm_compute in HR; try discriminate HR. injection HR as <- <-.
  match type of Hw with
  | match ?r with _ => _ end => destruct r as [w' u'|w'|w'] eqn:HR'
  end; vm_compute in HR'; try discriminate HR'. injection HR' as <- <-.
  destruct Hs as (_ & w1 & H & C & _). destruct Hw as (_ & w1' & H' & C' & K').
  split.
  - exists w1. split; [exact H|]. rewrite C. reflexivity.
  - exists w1'. split; [exact H'|]. split; [rewrite C'; reflexivity|exact K'].
Defined.
